(** * TrendRadar notification: batch splitter and content renderers

    A shallow embedding of [trendradar/notification/splitter.py] and
    [trendradar/notification/renderer.py].

    Data representation.
    - A Python [str] is modelled by the Rocq [string] holding its UTF-8
      encoding, one byte per character; [len(s.encode("utf-8"))] is then
      [String.length s] and [+] is [+:+].
    - Python [int]s are [Z]; list lengths and loop indices are [nat].
    - [now.strftime('%Y-%m-%d %H:%M:%S')] is the parameter [now] (the already
      formatted time stamp).
    - [format_title_for_platform] lives in [trendradar.report.formatter],
      outside these two files: it is a section variable. *)

From Stdlib Require Import String ZArith List Lia Bool Decimal DecimalString.
From stdpp Require Import gmap strings list fin_maps.

Local Open Scope string_scope.
Local Open Scope Z_scope.

(** ** Strings *)

Definition nl : string := String (Ascii.ascii_of_nat 10) EmptyString.

(** [len(s.encode("utf-8"))] *)
Definition py_len (s : string) : Z := Z.of_nat (String.length s).

(** [f"{n}"] for a non-negative machine-independent integer and for an [int] *)
Definition string_of_nat (n : nat) : string := NilZero.string_of_uint (Nat.to_uint n).
Definition string_of_Z (z : Z) : string := NilZero.string_of_int (Z.to_int z).

(** [x in (a, b, ...)] on strings *)
Definition str_in (x : string) (l : list string) : bool := existsb (String.eqb x) l.

(** truth value of a list: [if l:] *)
Definition nonempty {A : Type} (l : list A) : bool :=
  match l with [] => false | _ :: _ => true end.

(** [l[:r]] for a Python list and an [int] bound: a negative bound counts
    from the end. *)
Definition py_slice_to {A : Type} (r : Z) (l : list A) : list A :=
  if r <? 0 then firstn (Z.to_nat (Z.of_nat (length l) + r)) l
  else firstn (Z.to_nat r) l.

(** ** Data model *)

(** A title item is a [dict]; this module reads its ["title"] and writes
    ["is_new"] (on copies); every other entry is only passed on to the
    formatter. *)
Record TitleItem : Type := mkTitleItem {
  title : string;
  is_new : bool;
  fields : list (string * string)
}.

(** [d = t.copy(); d["is_new"] = b] seen as a value *)
Definition set_is_new (t : TitleItem) (b : bool) : TitleItem :=
  {| title := title t; is_new := b; fields := fields t |}.

(** Groups are polymorphic in what stands for a title item: the item itself
    in the value-level model, a reference into the store further below. *)
Record StatGroup (T : Type) : Type := mkStat {
  word : string;
  count : Z;
  titles : list T
}.
Arguments mkStat {T} _ _ _.
Arguments word {T} _.
Arguments count {T} _.
Arguments titles {T} _.

Record SourceGroup (T : Type) : Type := mkSource {
  source_name : string;
  s_titles : list T
}.
Arguments mkSource {T} _ _.
Arguments source_name {T} _.
Arguments s_titles {T} _.

Record ReportData (T : Type) : Type := mkReport {
  stats : list (StatGroup T);
  new_titles : list (SourceGroup T);
  failed_ids : list string;
  total_new_count : Z
}.
Arguments mkReport {T} _ _ _ _.
Arguments stats {T} _.
Arguments new_titles {T} _.
Arguments failed_ids {T} _.
Arguments total_new_count {T} _.

Record UpdateInfo : Type := mkUpdateInfo {
  remote_version : string;
  current_version : string
}.

(** ** Default budgets ([DEFAULT_BATCH_SIZES], splitter.py:15-20) *)

Definition DEFAULT_BATCH_SIZES : gmap string Z :=
  <["dingtalk" := 20000]> (<["feishu" := 29000]> (<["ntfy" := 3800]> (<["default" := 4000]> ∅))).

(** [d.get(k, dflt)] *)
Definition dict_get (d : gmap string Z) (k : string) (dflt : Z) : Z :=
  match d !! k with Some v => v | None => dflt end.

(** splitter.py:54-65.  [{**a, **b}] keeps [b]'s entry where both have one;
    stdpp's union is left-biased. *)
Definition resolve_max_bytes (format_type : string) (max_bytes : option Z)
    (batch_sizes : option (gmap string Z)) : Z :=
  let sizes : gmap string Z :=
    (match batch_sizes with Some b => b | None => ∅ end) ∪ DEFAULT_BATCH_SIZES in
  match max_bytes with
  | Some m => m
  | None =>
      if String.eqb format_type "dingtalk" then dict_get sizes "dingtalk" 20000
      else if String.eqb format_type "feishu" then dict_get sizes "feishu" 29000
      else if String.eqb format_type "ntfy" then dict_get sizes "ntfy" 3800
      else dict_get sizes "default" 4000
  end.

(** The key of [sizes] that splitter.py:57-65 reads for a platform. *)
Definition size_key (format_type : string) : string :=
  if str_in format_type ["dingtalk"; "feishu"; "ntfy"] then format_type else "default".

(** ** Truncation (splitter.py:69-104, renderer.py:70-98 and 268-296)

    The four loops have the same body; each walks its groups with the running
    [total_news_count], stops at the first group reached with the budget
    spent ([break]) and appends the non-empty truncated groups. *)

Fixpoint truncate_stats {T} (max_total_news_in_push : Z) (l : list (StatGroup T))
    (total_news_count : Z) (truncated_stats : list (StatGroup T))
    : list (StatGroup T) * Z :=
  match l with
  | [] => (truncated_stats, total_news_count)
  | stat :: rest =>
      if max_total_news_in_push <=? total_news_count
      then (truncated_stats, total_news_count)
      else
        let remaining := max_total_news_in_push - total_news_count in
        let truncated_titles := py_slice_to remaining (titles stat) in
        match truncated_titles with
        | [] => truncate_stats max_total_news_in_push rest total_news_count truncated_stats
        | _ :: _ =>
            truncate_stats max_total_news_in_push rest
              (total_news_count + Z.of_nat (length truncated_titles))
              (truncated_stats ++
                 [mkStat (word stat) (Z.of_nat (length truncated_titles)) truncated_titles])
        end
  end.

Fixpoint truncate_new_titles {T} (max_total_news_in_push : Z) (l : list (SourceGroup T))
    (total_news_count : Z) (truncated_new_titles : list (SourceGroup T))
    : list (SourceGroup T) * Z :=
  match l with
  | [] => (truncated_new_titles, total_news_count)
  | source_data :: rest =>
      if max_total_news_in_push <=? total_news_count
      then (truncated_new_titles, total_news_count)
      else
        let remaining := max_total_news_in_push - total_news_count in
        let truncated_titles := py_slice_to remaining (s_titles source_data) in
        match truncated_titles with
        | [] =>
            truncate_new_titles max_total_news_in_push rest total_news_count
              truncated_new_titles
        | _ :: _ =>
            truncate_new_titles max_total_news_in_push rest
              (total_news_count + Z.of_nat (length truncated_titles))
              (truncated_new_titles ++
                 [mkSource (source_name source_data) truncated_titles])
        end
  end.

(** splitter.py:67-108: the [stats] and [new_titles] of
    [truncated_report_data]; its other keys are those of [report_data]. *)
Definition split_preprocess {T} (report_data : ReportData T)
    (max_total_news_in_push : Z) (show_stats_in_push : bool) : ReportData T :=
  if 0 <? max_total_news_in_push then
    let '(truncated_stats, total_news_count) :=
      if show_stats_in_push && nonempty (stats report_data)
      then truncate_stats max_total_news_in_push (stats report_data) 0 []
      else ([], 0) in
    let '(truncated_new_titles, _) :=
      truncate_new_titles max_total_news_in_push (new_titles report_data)
        total_news_count [] in
    mkReport truncated_stats truncated_new_titles
      (failed_ids report_data) (total_new_count report_data)
  else if negb show_stats_in_push then
    mkReport [] (new_titles report_data)
      (failed_ids report_data) (total_new_count report_data)
  else report_data.

(** ** The splitter (splitter.py:23-631) *)

(** The accumulator the nested functions thread through:
    [current_batch], [current_batch_has_content], [batches]. *)
Record bstate : Type := mkState {
  current_batch : string;
  current_batch_has_content : bool;
  batches : list string
}.

(** The chunks a batch is made of.  Group headers and item lines carry the
    position of their group in its section ([i], [k]) and of the item in its
    group ([j]). *)
Inductive piece : Type :=
| PBaseHeader
| PStatsHeader
| PWordHeader (i : nat) (stat : StatGroup TitleItem)
| PStatsItem (i : nat) (stat : StatGroup TitleItem) (j : nat) (title_data : TitleItem)
| PSeparator
| PNewHeader
| PSourceHeader (k : nat) (source_data : SourceGroup TitleItem)
| PNewItem (k : nat) (source_data : SourceGroup TitleItem) (j : nat)
    (title_data : TitleItem)
| PLineFeed
| PFailedHeader
| PFailedLine (id_value : string)
| PNoMatch (mode : string).

(** A batch under construction: the chunks it was started with, placed
    without a size test, and the chunks committed by trial appends since. *)
Record tbatch : Type := mkTBatch {
  forced : list piece;
  appended : list piece
}.

Definition pieces (b : tbatch) : list piece := (forced b ++ appended b)%list.

Definition commit (chunk : list piece) (b : tbatch) : tbatch :=
  mkTBatch (forced b) (appended b ++ chunk)%list.

Record tstate : Type := mkTState {
  t_current : tbatch;
  t_has_content : bool;
  t_batches : list tbatch
}.

Section Splitter.

Variable format_title_for_platform : string -> TitleItem -> bool -> string.

(** What the nested functions capture from the enclosing call. *)
Variable format_type : string.
Variable feishu_separator : string.
Variable max_bytes : Z.

(** *** Fixed texts (splitter.py:117-173) *)

Definition make_base_header (total_titles : nat) (now : string) : string :=
  if str_in format_type ["wework"; "bark"] then
    "**总新闻数：** " +:+ string_of_nat total_titles +:+ nl +:+ nl +:+ nl +:+ nl
  else if String.eqb format_type "telegram" then
    "总新闻数： " +:+ string_of_nat total_titles +:+ nl +:+ nl
  else if String.eqb format_type "ntfy" then
    "**总新闻数：** " +:+ string_of_nat total_titles +:+ nl +:+ nl
  else if String.eqb format_type "feishu" then ""
  else if String.eqb format_type "dingtalk" then
    ("**总新闻数：** " +:+ string_of_nat total_titles +:+ nl +:+ nl)
    +:+ ("**时间：** " +:+ now +:+ nl +:+ nl)
    +:+ ("**类型：** 热点分析报告" +:+ nl +:+ nl)
    +:+ ("---" +:+ nl +:+ nl)
  else if String.eqb format_type "slack" then
    "*总新闻数：* " +:+ string_of_nat total_titles +:+ nl +:+ nl
  else "".

Definition make_base_footer (now : string) (update_info : option UpdateInfo) : string :=
  if str_in format_type ["wework"; "bark"] then
    (nl +:+ nl +:+ nl +:+ "> 更新时间：" +:+ now)
    +:+ match update_info with
        | Some u => nl +:+ "> TrendRadar 发现新版本 **" +:+ remote_version u
                      +:+ "**，当前 **" +:+ current_version u +:+ "**"
        | None => ""
        end
  else if String.eqb format_type "telegram" then
    (nl +:+ nl +:+ "更新时间：" +:+ now)
    +:+ match update_info with
        | Some u => nl +:+ "TrendRadar 发现新版本 " +:+ remote_version u
                      +:+ "，当前 " +:+ current_version u
        | None => ""
        end
  else if String.eqb format_type "ntfy" then
    (nl +:+ nl +:+ "> 更新时间：" +:+ now)
    +:+ match update_info with
        | Some u => nl +:+ "> TrendRadar 发现新版本 **" +:+ remote_version u
                      +:+ "**，当前 **" +:+ current_version u +:+ "**"
        | None => ""
        end
  else if String.eqb format_type "feishu" then
    (nl +:+ nl +:+ "<font color='grey'>更新时间：" +:+ now +:+ "</font>")
    +:+ match update_info with
        | Some u => nl +:+ "<font color='grey'>TrendRadar 发现新版本 " +:+ remote_version u
                      +:+ "，当前 " +:+ current_version u +:+ "</font>"
        | None => ""
        end
  else if String.eqb format_type "dingtalk" then
    (nl +:+ nl +:+ "> 更新时间：" +:+ now)
    +:+ match update_info with
        | Some u => nl +:+ "> TrendRadar 发现新版本 **" +:+ remote_version u
                      +:+ "**，当前 **" +:+ current_version u +:+ "**"
        | None => ""
        end
  else if String.eqb format_type "slack" then
    (nl +:+ nl +:+ "_更新时间：" +:+ now +:+ "_")
    +:+ match update_info with
        | Some u => nl +:+ "_TrendRadar 发现新版本 *" +:+ remote_version u
                      +:+ "*，当前 *" +:+ current_version u +:+ "_"
        | None => ""
        end
  else "".

Definition make_stats_header {T} (truncated_stats : list (StatGroup T)) : string :=
  if nonempty truncated_stats then
    if str_in format_type ["wework"; "bark"] then "📊 **热点词汇统计**" +:+ nl +:+ nl
    else if String.eqb format_type "telegram" then "📊 热点词汇统计" +:+ nl +:+ nl
    else if String.eqb format_type "ntfy" then "📊 **热点词汇统计**" +:+ nl +:+ nl
    else if String.eqb format_type "feishu" then "📊 **热点词汇统计**" +:+ nl +:+ nl
    else if String.eqb format_type "dingtalk" then "📊 **热点词汇统计**" +:+ nl +:+ nl
    else if String.eqb format_type "slack" then "📊 *热点词汇统计*" +:+ nl +:+ nl
    else ""
  else "".

(** splitter.py:183-189 *)
Definition simple_content (mode : string) : string :=
  let mode_text :=
    if String.eqb mode "incremental" then "增量模式下暂无新增匹配的热点词汇"
    else if String.eqb mode "current" then "当前榜单模式下暂无匹配的热点词汇"
    else "暂无匹配的热点词汇" in
  "📭 " +:+ mode_text +:+ nl +:+ nl.

(** *** Group headers, item lines and separators *)

(** splitter.py:220-281 *)
Definition make_word_header (i total_count : nat) (word : string) (count : Z) : string :=
  let sequence_display :=
    "[" +:+ string_of_nat (i + 1) +:+ "/" +:+ string_of_nat total_count +:+ "]" in
  let bold_header (mark : string) :=
    if 10 <=? count then
      "🔥 " +:+ sequence_display +:+ " " +:+ mark +:+ word +:+ mark +:+ " : "
        +:+ mark +:+ string_of_Z count +:+ mark +:+ " 条" +:+ nl +:+ nl
    else if 5 <=? count then
      "📈 " +:+ sequence_display +:+ " " +:+ mark +:+ word +:+ mark +:+ " : "
        +:+ mark +:+ string_of_Z count +:+ mark +:+ " 条" +:+ nl +:+ nl
    else
      "📌 " +:+ sequence_display +:+ " " +:+ mark +:+ word +:+ mark +:+ " : "
        +:+ string_of_Z count +:+ " 条" +:+ nl +:+ nl in
  if str_in format_type ["wework"; "bark"] then bold_header "**"
  else if String.eqb format_type "telegram" then
    if 10 <=? count then
      "🔥 " +:+ sequence_display +:+ " " +:+ word +:+ " : " +:+ string_of_Z count
        +:+ " 条" +:+ nl +:+ nl
    else if 5 <=? count then
      "📈 " +:+ sequence_display +:+ " " +:+ word +:+ " : " +:+ string_of_Z count
        +:+ " 条" +:+ nl +:+ nl
    else
      "📌 " +:+ sequence_display +:+ " " +:+ word +:+ " : " +:+ string_of_Z count
        +:+ " 条" +:+ nl +:+ nl
  else if String.eqb format_type "ntfy" then bold_header "**"
  else if String.eqb format_type "feishu" then
    if 10 <=? count then
      "🔥 <font color='grey'>" +:+ sequence_display +:+ "</font> **" +:+ word
        +:+ "** : <font color='red'>" +:+ string_of_Z count +:+ "</font> 条" +:+ nl +:+ nl
    else if 5 <=? count then
      "📈 <font color='grey'>" +:+ sequence_display +:+ "</font> **" +:+ word
        +:+ "** : <font color='orange'>" +:+ string_of_Z count +:+ "</font> 条" +:+ nl +:+ nl
    else
      "📌 <font color='grey'>" +:+ sequence_display +:+ "</font> **" +:+ word
        +:+ "** : " +:+ string_of_Z count +:+ " 条" +:+ nl +:+ nl
  else if String.eqb format_type "dingtalk" then bold_header "**"
  else if String.eqb format_type "slack" then bold_header "*"
  else "".

(** splitter.py:287-312 and 340-365: the title text of a statistics item *)
Definition stats_formatted_title (title_data : TitleItem) : string :=
  if str_in format_type ["wework"; "bark"] then
    format_title_for_platform "wework" title_data true
  else if String.eqb format_type "telegram" then
    format_title_for_platform "telegram" title_data true
  else if String.eqb format_type "ntfy" then
    format_title_for_platform "ntfy" title_data true
  else if String.eqb format_type "feishu" then
    format_title_for_platform "feishu" title_data true
  else if String.eqb format_type "dingtalk" then
    format_title_for_platform "dingtalk" title_data true
  else if String.eqb format_type "slack" then
    format_title_for_platform "slack" title_data true
  else title title_data.

(** splitter.py:286-316, for the first of [n] titles *)
Definition stats_first_line (n : nat) (first_title_data : TitleItem) : string :=
  let formatted_title := stats_formatted_title first_title_data in
  ("  1. " +:+ formatted_title +:+ nl) +:+ (if (1 <? n)%nat then nl else "").

(** splitter.py:284-316 *)
Definition stats_first_news_line (stat_titles : list TitleItem) : string :=
  match stat_titles with
  | [] => ""
  | first_title_data :: _ => stats_first_line (length stat_titles) first_title_data
  end.

(** splitter.py:339-369, for the item at index [j] of [n] titles *)
Definition stats_news_line (n j : nat) (title_data : TitleItem) : string :=
  let formatted_title := stats_formatted_title title_data in
  ("  " +:+ string_of_nat (j + 1) +:+ ". " +:+ formatted_title +:+ nl)
  +:+ (if Z.of_nat j <? Z.of_nat n - 1 then nl else "").

(** splitter.py:386-398 *)
Definition stats_separator : string :=
  if str_in format_type ["wework"; "bark"] then nl +:+ nl +:+ nl +:+ nl
  else if String.eqb format_type "telegram" then nl +:+ nl
  else if String.eqb format_type "ntfy" then nl +:+ nl
  else if String.eqb format_type "feishu" then nl +:+ feishu_separator +:+ nl +:+ nl
  else if String.eqb format_type "dingtalk" then nl +:+ "---" +:+ nl +:+ nl
  else if String.eqb format_type "slack" then nl +:+ nl
  else "".

(** splitter.py:416-433 *)
Definition make_new_header (max_total_news_in_push : Z) (actual_new_count : nat)
    (total_new_count : Z) : string :=
  let truncated_hint :=
    if (0 <? max_total_news_in_push) && (Z.of_nat actual_new_count <? total_new_count)
    then " (已截取前 " +:+ string_of_nat actual_new_count +:+ " 条)" else "" in
  let tail := " (共 " +:+ string_of_Z total_new_count +:+ " 条" +:+ truncated_hint
                +:+ ")" +:+ nl +:+ nl in
  if str_in format_type ["wework"; "bark"] then
    nl +:+ nl +:+ nl +:+ nl +:+ "🆕 **本次新增热点新闻**" +:+ tail
  else if String.eqb format_type "telegram" then
    nl +:+ nl +:+ "🆕 本次新增热点新闻" +:+ tail
  else if String.eqb format_type "ntfy" then
    nl +:+ nl +:+ "🆕 **本次新增热点新闻**" +:+ tail
  else if String.eqb format_type "feishu" then
    nl +:+ feishu_separator +:+ nl +:+ nl +:+ "🆕 **本次新增热点新闻**" +:+ tail
  else if String.eqb format_type "dingtalk" then
    nl +:+ "---" +:+ nl +:+ nl +:+ "🆕 **本次新增热点新闻**" +:+ tail
  else if String.eqb format_type "slack" then
    nl +:+ nl +:+ "🆕 *本次新增热点新闻*" +:+ tail
  else "".

(** splitter.py:450-462 *)
Definition make_source_header (source_name : string) (n : nat) : string :=
  let tail := " (" +:+ string_of_nat n +:+ " 条):" +:+ nl +:+ nl in
  if str_in format_type ["wework"; "bark"] then "**" +:+ source_name +:+ "**" +:+ tail
  else if String.eqb format_type "telegram" then source_name +:+ tail
  else if String.eqb format_type "ntfy" then "**" +:+ source_name +:+ "**" +:+ tail
  else if String.eqb format_type "feishu" then "**" +:+ source_name +:+ "**" +:+ tail
  else if String.eqb format_type "dingtalk" then "**" +:+ source_name +:+ "**" +:+ tail
  else if String.eqb format_type "slack" then "*" +:+ source_name +:+ "*" +:+ tail
  else "".

(** splitter.py:467-492: the first item of a source group, already copied
    with [is_new] cleared *)
Definition new_first_formatted_title (title_data_copy : TitleItem) : string :=
  if str_in format_type ["wework"; "bark"] then
    format_title_for_platform "wework" title_data_copy false
  else if String.eqb format_type "telegram" then
    format_title_for_platform "telegram" title_data_copy false
  else if String.eqb format_type "feishu" then
    format_title_for_platform "feishu" title_data_copy false
  else if String.eqb format_type "dingtalk" then
    format_title_for_platform "dingtalk" title_data_copy false
  else if String.eqb format_type "slack" then
    format_title_for_platform "slack" title_data_copy false
  else title title_data_copy.

(** splitter.py:516-541: the later items of a source group *)
Definition new_formatted_title (title_data_copy : TitleItem) : string :=
  if String.eqb format_type "wework" then
    format_title_for_platform "wework" title_data_copy false
  else if String.eqb format_type "telegram" then
    format_title_for_platform "telegram" title_data_copy false
  else if String.eqb format_type "feishu" then
    format_title_for_platform "feishu" title_data_copy false
  else if String.eqb format_type "dingtalk" then
    format_title_for_platform "dingtalk" title_data_copy false
  else if String.eqb format_type "slack" then
    format_title_for_platform "slack" title_data_copy false
  else title title_data_copy.

(** splitter.py:471-494, from the copy on *)
Definition new_first_line (title_data_copy : TitleItem) : string :=
  let formatted_title := new_first_formatted_title title_data_copy in
  "  1. " +:+ formatted_title +:+ nl.

(** splitter.py:465-494 *)
Definition new_first_news_line (source_titles : list TitleItem) : string :=
  match source_titles with
  | [] => ""
  | first_title_data :: _ =>
      let title_data_copy := set_is_new first_title_data false in
      new_first_line title_data_copy
  end.

(** splitter.py:520-543, from the copy on *)
Definition new_line (j : nat) (title_data_copy : TitleItem) : string :=
  let formatted_title := new_formatted_title title_data_copy in
  "  " +:+ string_of_nat (j + 1) +:+ ". " +:+ formatted_title +:+ nl.

(** splitter.py:516-543 *)
Definition new_news_line (j : nat) (title_data : TitleItem) : string :=
  let title_data_copy := set_is_new title_data false in
  new_line j title_data_copy.

(** splitter.py:581-591 *)
Definition make_failed_header : string :=
  if String.eqb format_type "wework" then
    nl +:+ nl +:+ nl +:+ nl +:+ "⚠️ **数据获取失败的平台：**" +:+ nl +:+ nl
  else if String.eqb format_type "telegram" then
    nl +:+ nl +:+ "⚠️ 数据获取失败的平台：" +:+ nl +:+ nl
  else if String.eqb format_type "ntfy" then
    nl +:+ nl +:+ "⚠️ **数据获取失败的平台：**" +:+ nl +:+ nl
  else if String.eqb format_type "feishu" then
    nl +:+ feishu_separator +:+ nl +:+ nl +:+ "⚠️ **数据获取失败的平台：**" +:+ nl +:+ nl
  else if String.eqb format_type "dingtalk" then
    nl +:+ "---" +:+ nl +:+ nl +:+ "⚠️ **数据获取失败的平台：**" +:+ nl +:+ nl
  else "".

(** splitter.py:607-612 *)
Definition make_failed_line (id_value : string) : string :=
  if String.eqb format_type "feishu" then
    "  • <font color='red'>" +:+ id_value +:+ "</font>" +:+ nl
  else if String.eqb format_type "dingtalk" then
    "  • **" +:+ id_value +:+ "**" +:+ nl
  else "  • " +:+ id_value +:+ nl.

(** *** Greedy accumulation (splitter.py:175-629) *)

Section Accumulate.

Variable base_header : string.
Variable base_footer : string.
Variable stats_header : string.

(** [if current_batch_has_content: batches.append(current_batch + base_footer)] *)
Definition flush (st : bstate) : list string :=
  if current_batch_has_content st
  then batches st ++ [current_batch st +:+ base_footer]
  else batches st.

(** The trial append every site but two spells out
    (splitter.py:320-335, 371-382, 435-446, 498-512, 545-556, 593-604,
    614-625): [chunk] is committed when it fits with the footer, else
    the batch is flushed and restarted as [reseed]. *)
Definition trial_append (chunk reseed : string) (st : bstate) : bstate :=
  let test_content := current_batch st +:+ chunk in
  if max_bytes <=? py_len test_content + py_len base_footer then
    mkState reseed true (flush st)
  else
    mkState test_content true (batches st).

(** splitter.py:203-214: the statistics header, tested with [<] and the
    branches the other way round *)
Definition append_stats_header (st : bstate) : bstate :=
  let test_content := current_batch st +:+ stats_header in
  if py_len test_content + py_len base_footer <? max_bytes then
    mkState test_content true (batches st)
  else
    mkState (base_header +:+ stats_header) true (flush st).

(** splitter.py:384-405: the separator is only tried, never forced *)
Definition append_separator (st : bstate) : bstate :=
  let test_content := current_batch st +:+ stats_separator in
  if py_len test_content + py_len base_footer <? max_bytes then
    mkState test_content (current_batch_has_content st) (batches st)
  else st.

(** splitter.py:338-382: [for j in range(start_index, len(stat["titles"]))];
    [rest] are the titles from index [j] on, [n] is [len(stat["titles"])]. *)
Fixpoint stats_rest_loop (word_header : string) (n j : nat)
    (rest : list TitleItem) (st : bstate) : bstate :=
  match rest with
  | [] => st
  | title_data :: rest' =>
      let news_line := stats_news_line n j title_data in
      stats_rest_loop word_header n (S j) rest'
        (trial_append news_line
           (base_header +:+ stats_header +:+ word_header +:+ news_line) st)
  end.

(** splitter.py:217-405: one round of [for i, stat in enumerate(...)];
    [n_stats] is [len(truncated_report_data["stats"])]. *)
Definition stats_group_step (total_count n_stats i : nat)
    (stat : StatGroup TitleItem) (st : bstate) : bstate :=
  let word_header := make_word_header i total_count (word stat) (count stat) in
  let first_news_line := stats_first_news_line (titles stat) in
  let word_with_first_news := word_header +:+ first_news_line in
  let st1 :=
    trial_append word_with_first_news
      (base_header +:+ stats_header +:+ word_with_first_news) st in
  let st2 :=
    stats_rest_loop word_header (length (titles stat)) 1 (skipn 1 (titles stat)) st1 in
  if Z.of_nat i <? Z.of_nat n_stats - 1 then append_separator st2 else st2.

Fixpoint stats_groups_loop (total_count n_stats i : nat)
    (l : list (StatGroup TitleItem)) (st : bstate) : bstate :=
  match l with
  | [] => st
  | stat :: l' =>
      stats_groups_loop total_count n_stats (S i) l'
        (stats_group_step total_count n_stats i stat st)
  end.

(** splitter.py:195-407 *)
Definition process_stats_section (truncated_stats : list (StatGroup TitleItem))
    (st : bstate) : bstate :=
  match truncated_stats with
  | [] => st
  | _ :: _ =>
      let total_count := length truncated_stats in
      stats_groups_loop total_count (length truncated_stats) 0 truncated_stats
        (append_stats_header st)
  end.

(** splitter.py:515-556 *)
Fixpoint new_rest_loop (new_header source_header : string) (j : nat)
    (rest : list TitleItem) (st : bstate) : bstate :=
  match rest with
  | [] => st
  | title_data :: rest' =>
      let news_line := new_news_line j title_data in
      new_rest_loop new_header source_header (S j) rest'
        (trial_append news_line
           (base_header +:+ new_header +:+ source_header +:+ news_line) st)
  end.

(** splitter.py:449-558: one round of [for source_data in ...]; the
    closing line feed is appended without a size test. *)
Definition new_group_step (new_header : string)
    (source_data : SourceGroup TitleItem) (st : bstate) : bstate :=
  let source_header :=
    make_source_header (source_name source_data) (length (s_titles source_data)) in
  let first_news_line := new_first_news_line (s_titles source_data) in
  let source_with_first_news := source_header +:+ first_news_line in
  let st1 :=
    trial_append source_with_first_news
      (base_header +:+ new_header +:+ source_with_first_news) st in
  let st2 :=
    new_rest_loop new_header source_header 1 (skipn 1 (s_titles source_data)) st1 in
  mkState (current_batch st2 +:+ nl) (current_batch_has_content st2) (batches st2).

Fixpoint new_groups_loop (new_header : string)
    (l : list (SourceGroup TitleItem)) (st : bstate) : bstate :=
  match l with
  | [] => st
  | source_data :: l' =>
      new_groups_loop new_header l' (new_group_step new_header source_data st)
  end.

(** [sum(len(s["titles"]) for s in truncated_report_data["new_titles"])] *)
Definition actual_new_count_of {T} (l : list (SourceGroup T)) : nat :=
  fold_right (fun s acc => (length (s_titles s) + acc)%nat) 0%nat l.

(** splitter.py:410-560 *)
Definition process_new_titles_section (max_total_news_in_push : Z)
    (total_new_count : Z) (truncated_new_titles : list (SourceGroup TitleItem))
    (st : bstate) : bstate :=
  match truncated_new_titles with
  | [] => st
  | _ :: _ =>
      let actual_new_count := actual_new_count_of truncated_new_titles in
      let new_header :=
        make_new_header max_total_news_in_push actual_new_count total_new_count in
      new_groups_loop new_header truncated_new_titles
        (trial_append new_header (base_header +:+ new_header) st)
  end.

(** splitter.py:606-625 *)
Fixpoint failed_loop (failed_header : string) (l : list string) (st : bstate)
    : bstate :=
  match l with
  | [] => st
  | id_value :: l' =>
      let failed_line := make_failed_line id_value in
      failed_loop failed_header l'
        (trial_append failed_line
           (base_header +:+ failed_header +:+ failed_line) st)
  end.

(** splitter.py:580-625 *)
Definition process_failed_section (failed : list string) (st : bstate) : bstate :=
  match failed with
  | [] => st
  | _ :: _ =>
      let failed_header := make_failed_header in
      failed_loop failed_header failed
        (trial_append failed_header (base_header +:+ failed_header) st)
  end.

(** *** The same run with the buffer kept as labelled chunks

    The text of a batch is the concatenation of the chunks appended to
    it.  Below, the accumulator keeps those chunks apart and labelled,
    and remembers which of them were placed without a size test (the
    seed a batch is restarted with) and which were committed by a trial
    append; [batch_text] gives back the string the code builds. *)

Section Trace.

(** [len(truncated_report_data["stats"])] and the header of the
    new-items section, both fixed during a run *)
Variable total_count : nat.
Variable new_header : string.

Definition piece_text (p : piece) : string :=
  match p with
  | PBaseHeader => base_header
  | PStatsHeader => stats_header
  | PWordHeader i stat => make_word_header i total_count (word stat) (count stat)
  | PStatsItem i stat j title_data =>
      match j with
      | O => stats_first_news_line (titles stat)
      | S _ => stats_news_line (length (titles stat)) j title_data
      end
  | PSeparator => stats_separator
  | PNewHeader => new_header
  | PSourceHeader k source_data =>
      make_source_header (source_name source_data) (length (s_titles source_data))
  | PNewItem k source_data j title_data =>
      match j with
      | O => new_first_news_line (s_titles source_data)
      | S _ => new_news_line j title_data
      end
  | PLineFeed => nl
  | PFailedHeader => make_failed_header
  | PFailedLine id_value => make_failed_line id_value
  | PNoMatch mode => simple_content mode
  end.

Definition pieces_text (l : list piece) : string :=
  fold_right (fun p s => piece_text p +:+ s) "" l.

(** the string of a finished batch *)
Definition batch_text (b : tbatch) : string :=
  pieces_text (pieces b) +:+ base_footer.

Definition t_flush (ts : tstate) : list tbatch :=
  if t_has_content ts then (t_batches ts ++ [t_current ts])%list else t_batches ts.

Definition t_trial_append (chunk reseed : list piece) (ts : tstate) : tstate :=
  let test_content := (pieces (t_current ts) ++ chunk)%list in
  if max_bytes <=? py_len (pieces_text test_content) + py_len base_footer then
    mkTState (mkTBatch reseed []) true (t_flush ts)
  else
    mkTState (commit chunk (t_current ts)) true (t_batches ts).

Definition t_append_stats_header (ts : tstate) : tstate :=
  let test_content := (pieces (t_current ts) ++ [PStatsHeader])%list in
  if py_len (pieces_text test_content) + py_len base_footer <? max_bytes then
    mkTState (commit [PStatsHeader] (t_current ts)) true (t_batches ts)
  else
    mkTState (mkTBatch [PBaseHeader; PStatsHeader] []) true (t_flush ts).

Definition t_append_separator (ts : tstate) : tstate :=
  let test_content := (pieces (t_current ts) ++ [PSeparator])%list in
  if py_len (pieces_text test_content) + py_len base_footer <? max_bytes then
    mkTState (commit [PSeparator] (t_current ts)) (t_has_content ts) (t_batches ts)
  else ts.

Fixpoint t_stats_rest_loop (i : nat) (stat : StatGroup TitleItem) (j : nat)
    (rest : list TitleItem) (ts : tstate) : tstate :=
  match rest with
  | [] => ts
  | title_data :: rest' =>
      let news_line := PStatsItem i stat j title_data in
      t_stats_rest_loop i stat (S j) rest'
        (t_trial_append [news_line]
           [PBaseHeader; PStatsHeader; PWordHeader i stat; news_line] ts)
  end.

(** the word header with the first item, when there is one *)
Definition word_with_first_news (i : nat) (stat : StatGroup TitleItem)
    : list piece :=
  PWordHeader i stat ::
  match titles stat with
  | [] => []
  | first_title_data :: _ => [PStatsItem i stat 0 first_title_data]
  end.

Definition t_stats_group_step (n_stats i : nat) (stat : StatGroup TitleItem)
    (ts : tstate) : tstate :=
  let ts1 :=
    t_trial_append (word_with_first_news i stat)
      (PBaseHeader :: PStatsHeader :: word_with_first_news i stat) ts in
  let ts2 := t_stats_rest_loop i stat 1 (skipn 1 (titles stat)) ts1 in
  if Z.of_nat i <? Z.of_nat n_stats - 1 then t_append_separator ts2 else ts2.

Fixpoint t_stats_groups_loop (n_stats i : nat)
    (l : list (StatGroup TitleItem)) (ts : tstate) : tstate :=
  match l with
  | [] => ts
  | stat :: l' =>
      t_stats_groups_loop n_stats (S i) l' (t_stats_group_step n_stats i stat ts)
  end.

Definition t_process_stats_section (truncated_stats : list (StatGroup TitleItem))
    (ts : tstate) : tstate :=
  match truncated_stats with
  | [] => ts
  | _ :: _ =>
      t_stats_groups_loop (length truncated_stats) 0 truncated_stats
        (t_append_stats_header ts)
  end.

Fixpoint t_new_rest_loop (k : nat) (source_data : SourceGroup TitleItem) (j : nat)
    (rest : list TitleItem) (ts : tstate) : tstate :=
  match rest with
  | [] => ts
  | title_data :: rest' =>
      let news_line := PNewItem k source_data j title_data in
      t_new_rest_loop k source_data (S j) rest'
        (t_trial_append [news_line]
           [PBaseHeader; PNewHeader; PSourceHeader k source_data; news_line] ts)
  end.

Definition source_with_first_news (k : nat) (source_data : SourceGroup TitleItem)
    : list piece :=
  PSourceHeader k source_data ::
  match s_titles source_data with
  | [] => []
  | first_title_data :: _ => [PNewItem k source_data 0 first_title_data]
  end.

Definition t_new_group_step (k : nat) (source_data : SourceGroup TitleItem)
    (ts : tstate) : tstate :=
  let ts1 :=
    t_trial_append (source_with_first_news k source_data)
      (PBaseHeader :: PNewHeader :: source_with_first_news k source_data) ts in
  let ts2 := t_new_rest_loop k source_data 1 (skipn 1 (s_titles source_data)) ts1 in
  mkTState (commit [PLineFeed] (t_current ts2)) (t_has_content ts2) (t_batches ts2).

Fixpoint t_new_groups_loop (k : nat) (l : list (SourceGroup TitleItem))
    (ts : tstate) : tstate :=
  match l with
  | [] => ts
  | source_data :: l' =>
      t_new_groups_loop (S k) l' (t_new_group_step k source_data ts)
  end.

Definition t_process_new_titles_section
    (truncated_new_titles : list (SourceGroup TitleItem)) (ts : tstate) : tstate :=
  match truncated_new_titles with
  | [] => ts
  | _ :: _ =>
      t_new_groups_loop 0 truncated_new_titles
        (t_trial_append [PNewHeader] [PBaseHeader; PNewHeader] ts)
  end.

Fixpoint t_failed_loop (l : list string) (ts : tstate) : tstate :=
  match l with
  | [] => ts
  | id_value :: l' =>
      t_failed_loop l'
        (t_trial_append [PFailedLine id_value]
           [PBaseHeader; PFailedHeader; PFailedLine id_value] ts)
  end.

Definition t_process_failed_section (failed : list string) (ts : tstate) : tstate :=
  match failed with
  | [] => ts
  | _ :: _ =>
      t_failed_loop failed
        (t_trial_append [PFailedHeader] [PBaseHeader; PFailedHeader] ts)
  end.

(** The size of a finished batch, footer included, is within the
    budget. *)
Definition within_budget (b : tbatch) : Prop :=
  py_len (batch_text b) <= max_bytes.

(** A batch that is nothing but the seed it was restarted with, or
    that seed and the one line feed appended without a size test, and
    whose seed fails the fit test of the trial append. *)
Definition unfit_seed_only (b : tbatch) : Prop :=
  max_bytes <= py_len (pieces_text (forced b)) + py_len base_footer
  /\ (appended b = [] \/ appended b = [PLineFeed]).

Definition budget_respected (b : tbatch) : Prop :=
  within_budget b \/ unfit_seed_only b.

(** Once a chunk was committed, the buffer fits strictly. *)
Definition strictly_inside (b : tbatch) : Prop :=
  appended b <> [] ->
  py_len (pieces_text (pieces b)) + py_len base_footer < max_bytes.

(** The two states the accumulator alternates between: right after a
    trial append, and after the line feed that closes a source group. *)
Definition budget_inv_strict (ts : tstate) : Prop :=
  Forall budget_respected (t_batches ts) /\ strictly_inside (t_current ts).
Definition budget_inv (ts : tstate) : Prop :=
  Forall budget_respected (t_batches ts) /\ budget_respected (t_current ts).

(** The chunk-level accumulator stands for the string-level one. *)
Definition refines (ts : tstate) (st : bstate) : Prop :=
  current_batch st = pieces_text (pieces (t_current ts))
  /\ current_batch_has_content st = t_has_content ts
  /\ batches st = map batch_text (t_batches ts).

End Trace.

End Accumulate.

(** [sum(len(stat["titles"]) for stat in ... if stat["count"] > 0)] *)
Definition total_titles_of {T} (l : list (StatGroup T)) : nat :=
  fold_right (fun stat acc =>
                if 0 <? count stat then (length (titles stat) + acc)%nat else acc)
    0%nat l.

(** splitter.py:23-631, after the budget is resolved *)
Definition split_with_budget (report_data : ReportData TitleItem)
    (update_info : option UpdateInfo) (mode : string)
    (reverse_content_order : bool) (max_total_news_in_push : Z)
    (show_stats_in_push : bool) (now : string) : list string :=
  let truncated_report_data :=
    split_preprocess report_data max_total_news_in_push show_stats_in_push in
  let total_titles := total_titles_of (stats truncated_report_data) in
  let base_header := make_base_header total_titles now in
  let base_footer := make_base_footer now update_info in
  let stats_header := make_stats_header (stats truncated_report_data) in
  let st0 := mkState base_header false [] in
  if negb (nonempty (stats truncated_report_data))
     && negb (nonempty (new_titles truncated_report_data))
     && negb (nonempty (failed_ids report_data))
  then [base_header +:+ simple_content mode +:+ base_footer]
  else
    let do_stats :=
      process_stats_section base_header base_footer stats_header
        (stats truncated_report_data) in
    let do_new :=
      process_new_titles_section base_header base_footer max_total_news_in_push
        (total_new_count report_data) (new_titles truncated_report_data) in
    let st1 :=
      if reverse_content_order then do_stats (do_new st0) else do_new (do_stats st0) in
    let st2 := process_failed_section base_header base_footer (failed_ids report_data) st1 in
    flush base_footer st2.

(** [split_with_budget] on labelled chunks *)
Definition split_trace (report_data : ReportData TitleItem)
    (update_info : option UpdateInfo) (mode : string)
    (reverse_content_order : bool) (max_total_news_in_push : Z)
    (show_stats_in_push : bool) (now : string) : list tbatch :=
  let truncated_report_data :=
    split_preprocess report_data max_total_news_in_push show_stats_in_push in
  let total_titles := total_titles_of (stats truncated_report_data) in
  let base_header := make_base_header total_titles now in
  let base_footer := make_base_footer now update_info in
  let stats_header := make_stats_header (stats truncated_report_data) in
  let total_count := length (stats truncated_report_data) in
  let new_header :=
    make_new_header max_total_news_in_push
      (actual_new_count_of (new_titles truncated_report_data))
      (total_new_count report_data) in
  let ts0 := mkTState (mkTBatch [PBaseHeader] []) false [] in
  if negb (nonempty (stats truncated_report_data))
     && negb (nonempty (new_titles truncated_report_data))
     && negb (nonempty (failed_ids report_data))
  then [mkTBatch [PBaseHeader; PNoMatch mode] []]
  else
    let do_stats :=
      t_process_stats_section base_header base_footer stats_header total_count
        new_header (stats truncated_report_data) in
    let do_new :=
      t_process_new_titles_section base_header base_footer stats_header total_count
        new_header (new_titles truncated_report_data) in
    let ts1 :=
      if reverse_content_order then do_stats (do_new ts0) else do_new (do_stats ts0) in
    let ts2 :=
      t_process_failed_section base_header base_footer stats_header total_count
        new_header (failed_ids report_data) ts1 in
    t_flush ts2.

End Splitter.

(** splitter.py:23-631 *)
Definition split_content_into_batches
    (format_title_for_platform : string -> TitleItem -> bool -> string)
    (report_data : ReportData TitleItem) (format_type : string)
    (update_info : option UpdateInfo) (max_bytes : option Z) (mode : string)
    (batch_sizes : option (gmap string Z)) (feishu_separator : string)
    (reverse_content_order : bool) (max_total_news_in_push : Z)
    (show_stats_in_push : bool) (now : string) : list string :=
  split_with_budget format_title_for_platform format_type feishu_separator
    (resolve_max_bytes format_type max_bytes batch_sizes)
    report_data update_info mode reverse_content_order max_total_news_in_push
    show_stats_in_push now.

(** ** The renderers (renderer.py) *)

(** The source name of the synthetic group that holds the flattened
    statistics items. *)
Definition FLAT_SOURCE_NAME : string := "匹配的新闻".

(** [needle in hay] *)
Definition str_contains (needle hay : string) : bool :=
  match String.index 0 needle hay with Some _ => true | None => false end.

(** The result of the pre-processing both renderers start with. *)
Record Prepared (T : Type) : Type := mkPrepared {
  truncated_stats : list (StatGroup T);
  truncated_new_titles : list (SourceGroup T);
  original_total_new_count : Z
}.
Arguments mkPrepared {T} _ _ _.
Arguments truncated_stats {T} _.
Arguments truncated_new_titles {T} _.
Arguments original_total_new_count {T} _.

(** renderer.py:45-68 and 243-266: [all_new_titles] and the adjusted total *)
Definition flatten_stats {T} (report_data : ReportData T) (show_stats_in_push : bool)
    : list (SourceGroup T) * Z :=
  if negb show_stats_in_push && nonempty (stats report_data) then
    let all_titles := flat_map titles (stats report_data) in
    let flattened_titles := [mkSource FLAT_SOURCE_NAME all_titles] in
    (if nonempty (new_titles report_data)
     then (flattened_titles ++ new_titles report_data)%list
     else flattened_titles,
     Z.of_nat (length all_titles) + total_new_count report_data)
  else (new_titles report_data, total_new_count report_data).

(** renderer.py:39-102 and 237-300 (the same text in both renderers) *)
Definition render_preprocess {T} (report_data : ReportData T)
    (max_total_news_in_push : Z) (show_stats_in_push : bool) : Prepared T :=
  let '(all_new_titles, original_total) := flatten_stats report_data show_stats_in_push in
  if 0 <? max_total_news_in_push then
    let '(truncated_stats, total_news_count) :=
      if show_stats_in_push && nonempty (stats report_data)
      then truncate_stats max_total_news_in_push (stats report_data) 0 []
      else ([], 0) in
    let '(truncated_new_titles, _) :=
      truncate_new_titles max_total_news_in_push all_new_titles total_news_count [] in
    mkPrepared truncated_stats truncated_new_titles original_total
  else
    mkPrepared (if show_stats_in_push then stats report_data else [])
      all_new_titles original_total.

Section Renderer.

Variable format_title_for_platform : string -> TitleItem -> bool -> string.

(** renderer.py:186-192 and 393-399 *)
Definition no_match_text (mode : string) : string :=
  let mode_text :=
    if String.eqb mode "incremental" then "增量模式下暂无新增匹配的热点词汇"
    else if String.eqb mode "current" then "当前榜单模式下暂无匹配的热点词汇"
    else "暂无匹配的热点词汇" in
  "📭 " +:+ mode_text +:+ nl +:+ nl.

(** renderer.py:125-131 and 334-340: what one statistics item adds *)
Definition render_stat_title (platform : string) (n j : nat) (title_data : TitleItem)
    (stats_content : string) : string :=
  let formatted_title := format_title_for_platform platform title_data true in
  let c1 := stats_content +:+ ("  " +:+ string_of_nat j +:+ ". "
                                 +:+ formatted_title +:+ nl) in
  if (j <? n)%nat then c1 +:+ nl else c1.

(** renderer.py:124-131 and 333-340: [for j, title_data in enumerate(..., 1)] *)
Fixpoint render_stat_titles (platform : string) (n j : nat) (l : list TitleItem)
    (stats_content : string) : string :=
  match l with
  | [] => stats_content
  | title_data :: l' =>
      render_stat_titles platform n (S j) l'
        (render_stat_title platform n j title_data stats_content)
  end.

(** renderer.py:154-160 and 361-367, from the copy on: what one new item
    adds to the content and to [total_index] *)
Definition render_new_item (platform indent : string) (title_data_copy : TitleItem)
    (acc : string * nat) : string * nat :=
  let total_index := S (snd acc) in
  let formatted_title := format_title_for_platform platform title_data_copy true in
  (fst acc +:+ (indent +:+ string_of_nat total_index +:+ ". "
                  +:+ formatted_title +:+ nl),
   total_index).

(** renderer.py:153-160 and 360-367; returns the content and [total_index] *)
Fixpoint render_new_items (platform indent : string) (l : list TitleItem)
    (acc : string * nat) : string * nat :=
  match l with
  | [] => acc
  | title_data :: l' =>
      let title_data_copy := set_is_new title_data false in
      render_new_items platform indent l'
        (render_new_item platform indent title_data_copy acc)
  end.

(** renderer.py:141-164 and 350-371; [header_end] is the line end after the
    source header, one line feed for feishu and two for dingtalk. *)
Definition new_group_open {T} (header_end : string) (source_data : SourceGroup T)
    (acc : string * nat) : string * nat :=
  let flat := String.eqb (source_name source_data) FLAT_SOURCE_NAME in
  (if negb flat then
     fst acc +:+ ("**" +:+ source_name source_data +:+ "** ("
                    +:+ string_of_nat (length (s_titles source_data))
                    +:+ " 条):" +:+ header_end)
   else fst acc,
   snd acc).

Definition new_group_indent {T} (source_data : SourceGroup T) : string :=
  if negb (String.eqb (source_name source_data) FLAT_SOURCE_NAME) then "  " else "".

Definition new_group_close {T} (source_data : SourceGroup T) (acc : string * nat)
    : string * nat :=
  (if negb (String.eqb (source_name source_data) FLAT_SOURCE_NAME)
   then fst acc +:+ nl else fst acc,
   snd acc).

Fixpoint render_new_groups (platform header_end : string)
    (l : list (SourceGroup TitleItem)) (acc : string * nat) : string * nat :=
  match l with
  | [] => acc
  | source_data :: l' =>
      let acc1 := new_group_open header_end source_data acc in
      let acc2 := render_new_items platform (new_group_indent source_data)
                    (s_titles source_data) acc1 in
      render_new_groups platform header_end l' (new_group_close source_data acc2)
  end.

(** renderer.py:112-122: the header line of a word group *)
Definition feishu_word_header {T} (total_count i : nat) (stat : StatGroup T)
    (stats_content : string) : string :=
  let word := word stat in
  let count := count stat in
  let sequence_display :=
    "<font color='grey'>[" +:+ string_of_nat (i + 1) +:+ "/"
      +:+ string_of_nat total_count +:+ "]</font>" in
  if 10 <=? count then
    stats_content +:+ ("🔥 " +:+ sequence_display +:+ " **" +:+ word
      +:+ "** : <font color='red'>" +:+ string_of_Z count +:+ "</font> 条"
      +:+ nl +:+ nl)
  else if 5 <=? count then
    stats_content +:+ ("📈 " +:+ sequence_display +:+ " **" +:+ word
      +:+ "** : <font color='orange'>" +:+ string_of_Z count +:+ "</font> 条"
      +:+ nl +:+ nl)
  else
    stats_content +:+ ("📌 " +:+ sequence_display +:+ " **" +:+ word
      +:+ "** : " +:+ string_of_Z count +:+ " 条" +:+ nl +:+ nl).

(** renderer.py:133-134 and 342-343: the separator after all but the last
    word group *)
Definition stat_group_close (separator_block : string) (total_count i : nat)
    (stats_content : string) : string :=
  if Z.of_nat i <? Z.of_nat total_count - 1
  then stats_content +:+ separator_block else stats_content.

(** renderer.py:111-134 *)
Fixpoint feishu_stat_groups (separator : string) (total_count i : nat)
    (l : list (StatGroup TitleItem)) (stats_content : string) : string :=
  match l with
  | [] => stats_content
  | stat :: l' =>
      let c1 := feishu_word_header total_count i stat stats_content in
      let c2 := render_stat_titles "feishu" (length (titles stat)) 1 (titles stat) c1 in
      feishu_stat_groups separator total_count (S i) l'
        (stat_group_close (nl +:+ separator +:+ nl +:+ nl) total_count i c2)
  end.

(** renderer.py:321-331: the header line of a word group *)
Definition dingtalk_word_header {T} (total_count i : nat) (stat : StatGroup T)
    (stats_content : string) : string :=
  let word := word stat in
  let count := count stat in
  let sequence_display :=
    "[" +:+ string_of_nat (i + 1) +:+ "/" +:+ string_of_nat total_count +:+ "]" in
  if 10 <=? count then
    stats_content +:+ ("🔥 " +:+ sequence_display +:+ " **" +:+ word
      +:+ "** : **" +:+ string_of_Z count +:+ "** 条" +:+ nl +:+ nl)
  else if 5 <=? count then
    stats_content +:+ ("📈 " +:+ sequence_display +:+ " **" +:+ word
      +:+ "** : **" +:+ string_of_Z count +:+ "** 条" +:+ nl +:+ nl)
  else
    stats_content +:+ ("📌 " +:+ sequence_display +:+ " **" +:+ word
      +:+ "** : " +:+ string_of_Z count +:+ " 条" +:+ nl +:+ nl).

(** renderer.py:320-343 *)
Fixpoint dingtalk_stat_groups (total_count i : nat)
    (l : list (StatGroup TitleItem)) (stats_content : string) : string :=
  match l with
  | [] => stats_content
  | stat :: l' =>
      let c1 := dingtalk_word_header total_count i stat stats_content in
      let c2 := render_stat_titles "dingtalk" (length (titles stat)) 1 (titles stat) c1 in
      dingtalk_stat_groups total_count (S i) l'
        (stat_group_close (nl +:+ "---" +:+ nl +:+ nl) total_count i c2)
  end.

(** truth value of a string: [if s:] *)
Definition str_nonempty (s : string) : bool :=
  match s with EmptyString => false | String _ _ => true end.

(** renderer.py:166-183 and 373-390: the two sections in the chosen order,
    appended to [text_content] *)
Definition join_sections (text_content separator_block : string)
    (reverse_content_order : bool) (stats_content new_titles_content : string)
    : string :=
  let first := if reverse_content_order then new_titles_content else stats_content in
  let second := if reverse_content_order then stats_content else new_titles_content in
  let t1 :=
    if str_nonempty first then
      let t := text_content +:+ first in
      if str_nonempty second then t +:+ separator_block else t
    else text_content in
  if str_nonempty second then t1 +:+ second else t1.

(** renderer.py:199-200 and 406-407 *)
Fixpoint render_failed_ids (open_mark close_mark : string) (l : list string)
    (text_content : string) : string :=
  match l with
  | [] => text_content
  | id_value :: l' =>
      render_failed_ids open_mark close_mark l'
        (text_content +:+ ("  • " +:+ open_mark +:+ id_value +:+ close_mark +:+ nl))
  end.

(** renderer.py:166-211: the message from the two sections *)
Definition feishu_assemble (stats_content new_titles_content : string)
    (failed : list string) (update_info : option UpdateInfo) (mode separator : string)
    (reverse_content_order : bool) (now : string) : string :=
  let t1 := join_sections "" (nl +:+ separator +:+ nl +:+ nl) reverse_content_order
              stats_content new_titles_content in
  let t2 := if negb (str_nonempty t1) then no_match_text mode else t1 in
  let t3 :=
    if nonempty failed then
      let t := if str_nonempty t2 && negb (str_contains "暂无匹配" t2)
               then t2 +:+ (nl +:+ separator +:+ nl +:+ nl) else t2 in
      render_failed_ids "<font color='red'>" "</font>" failed
        (t +:+ ("⚠️ **数据获取失败的平台：**" +:+ nl +:+ nl))
    else t2 in
  let t4 := t3 +:+ (nl +:+ nl +:+ "<font color='grey'>更新时间：" +:+ now +:+ "</font>") in
  match update_info with
  | Some u =>
      t4 +:+ (nl +:+ "<font color='grey'>TrendRadar 发现新版本 " +:+ remote_version u
                +:+ "，当前 " +:+ current_version u +:+ "</font>")
  | None => t4
  end.

(** renderer.py:104-211, from the pre-processed groups on *)
Definition render_feishu_body (p : Prepared TitleItem) (failed : list string)
    (update_info : option UpdateInfo) (mode separator : string)
    (reverse_content_order show_stats_in_push : bool) (now : string) : string :=
  let stats_content :=
    if show_stats_in_push && nonempty (truncated_stats p) then
      feishu_stat_groups separator (length (truncated_stats p)) 0 (truncated_stats p)
        ("" +:+ ("📊 **热点词汇统计**" +:+ nl +:+ nl))
    else "" in
  let new_titles_content :=
    if nonempty (truncated_new_titles p)
    then fst (render_new_groups "feishu" nl (truncated_new_titles p) ("", 0%nat))
    else "" in
  feishu_assemble stats_content new_titles_content failed update_info mode separator
    reverse_content_order now.

(** renderer.py:14-211 *)
Definition render_feishu_content (report_data : ReportData TitleItem)
    (update_info : option UpdateInfo) (mode separator : string)
    (reverse_content_order : bool) (max_total_news_in_push : Z)
    (show_stats_in_push : bool) (now : string) : string :=
  render_feishu_body
    (render_preprocess report_data max_total_news_in_push show_stats_in_push)
    (failed_ids report_data) update_info mode separator reverse_content_order
    show_stats_in_push now.

(** renderer.py:302-311 and 373-414: the message from the two sections *)
Definition dingtalk_assemble (total_titles : nat)
    (stats_content new_titles_content : string) (failed : list string)
    (update_info : option UpdateInfo) (mode : string) (reverse_content_order : bool)
    (now : string) : string :=
  let header_content :=
    ("**总新闻数：** " +:+ string_of_nat total_titles +:+ nl +:+ nl)
    +:+ ("**时间：** " +:+ now +:+ nl +:+ nl)
    +:+ ("**类型：** 热点分析报告" +:+ nl +:+ nl)
    +:+ ("---" +:+ nl +:+ nl) in
  let t1 := join_sections header_content (nl +:+ "---" +:+ nl +:+ nl)
              reverse_content_order stats_content new_titles_content in
  let t2 :=
    if negb (str_nonempty stats_content) && negb (str_nonempty new_titles_content)
    then t1 +:+ no_match_text mode else t1 in
  let t3 :=
    if nonempty failed then
      let t := if negb (str_contains "暂无匹配" t2)
               then t2 +:+ (nl +:+ "---" +:+ nl +:+ nl) else t2 in
      render_failed_ids "**" "**" failed
        (t +:+ ("⚠️ **数据获取失败的平台：**" +:+ nl +:+ nl))
    else t2 in
  let t4 := t3 +:+ (nl +:+ nl +:+ "> 更新时间：" +:+ now) in
  match update_info with
  | Some u =>
      t4 +:+ (nl +:+ "> TrendRadar 发现新版本 **" +:+ remote_version u
                +:+ "**，当前 **" +:+ current_version u +:+ "**")
  | None => t4
  end.

(** renderer.py:302-414, from the pre-processed groups on *)
Definition render_dingtalk_body (p : Prepared TitleItem) (failed : list string)
    (update_info : option UpdateInfo) (mode : string)
    (reverse_content_order show_stats_in_push : bool) (now : string) : string :=
  let total_titles := total_titles_of (truncated_stats p) in
  let stats_content :=
    if show_stats_in_push && nonempty (truncated_stats p) then
      dingtalk_stat_groups (length (truncated_stats p)) 0 (truncated_stats p)
        ("" +:+ ("📊 **热点词汇统计**" +:+ nl +:+ nl))
    else "" in
  let new_titles_content :=
    if nonempty (truncated_new_titles p)
    then fst (render_new_groups "dingtalk" (nl +:+ nl) (truncated_new_titles p)
                ("", 0%nat))
    else "" in
  dingtalk_assemble total_titles stats_content new_titles_content failed update_info
    mode reverse_content_order now.

(** renderer.py:214-414 *)
Definition render_dingtalk_content (report_data : ReportData TitleItem)
    (update_info : option UpdateInfo) (mode : string)
    (reverse_content_order : bool) (max_total_news_in_push : Z)
    (show_stats_in_push : bool) (now : string) : string :=
  render_dingtalk_body
    (render_preprocess report_data max_total_news_in_push show_stats_in_push)
    (failed_ids report_data) update_info mode reverse_content_order
    show_stats_in_push now.

End Renderer.

(** ** Reports and title items as objects in a store

    [report_data] and the title items are [dict]s: objects that [copy()]
    duplicates and that an assignment to a key changes in place.  Here they
    live in a store, the groups of a report hold references to title
    items, and the three functions are written again with every read, copy
    and assignment of the source as an operation on the store.  (The lists
    of groups and of titles are only read and sliced by the source; they
    are kept as values.) *)

Definition loc : Type := positive.

Record store : Type := mkStore {
  title_objs : gmap loc TitleItem;
  report_objs : gmap loc (ReportData loc)
}.

(** Computations on the store that may fail (on a dangling reference). *)
Definition M (A : Type) : Type := store -> option (A * store).

Definition ret {A : Type} (a : A) : M A := fun s => Some (a, s).

Definition bind {A B : Type} (m : M A) (f : A -> M B) : M B :=
  fun s => match m s with
           | Some (a, s') => f a s'
           | None => None
           end.

Notation "'let!' x ':=' m 'in' k" := (bind m (fun x => k))
  (at level 10, x name, m at level 200, k at level 200).
Notation "'do!' m 'in' k" := (bind m (fun _ => k))
  (at level 10, m at level 200, k at level 200).

(** [d[...]] read by the formatter or by this module *)
Definition read_title (l : loc) : M TitleItem :=
  fun s => match title_objs s !! l with
           | Some d => Some (d, s)
           | None => None
           end.

(** [d.copy()]: a new object with the entries of [d] *)
Definition copy_title (l : loc) : M loc :=
  fun s => match title_objs s !! l with
           | Some d =>
               let l' := fresh (dom (title_objs s)) in
               Some (l', mkStore (<[l' := d]> (title_objs s)) (report_objs s))
           | None => None
           end.

(** [d["is_new"] = b] *)
Definition store_is_new (l : loc) (b : bool) : M unit :=
  fun s => match title_objs s !! l with
           | Some d =>
               Some (tt, mkStore (<[l := set_is_new d b]> (title_objs s)) (report_objs s))
           | None => None
           end.

Definition read_report (r : loc) : M (ReportData loc) :=
  fun s => match report_objs s !! r with
           | Some rd => Some (rd, s)
           | None => None
           end.

(** [report_data.copy()] *)
Definition copy_report (r : loc) : M loc :=
  fun s => match report_objs s !! r with
           | Some rd =>
               let r' := fresh (dom (report_objs s)) in
               Some (r', mkStore (title_objs s) (<[r' := rd]> (report_objs s)))
           | None => None
           end.

(** [rd["stats"] = v] and [rd["new_titles"] = v] *)
Definition store_stats (r : loc) (v : list (StatGroup loc)) : M unit :=
  fun s => match report_objs s !! r with
           | Some rd =>
               Some (tt, mkStore (title_objs s)
                           (<[r := mkReport v (new_titles rd) (failed_ids rd)
                                     (total_new_count rd)]> (report_objs s)))
           | None => None
           end.

Definition store_new_titles (r : loc) (v : list (SourceGroup loc)) : M unit :=
  fun s => match report_objs s !! r with
           | Some rd =>
               Some (tt, mkStore (title_objs s)
                           (<[r := mkReport (stats rd) v (failed_ids rd)
                                     (total_new_count rd)]> (report_objs s)))
           | None => None
           end.

Section SplitterOnStore.

Variable format_title_for_platform : string -> TitleItem -> bool -> string.
Variable format_type : string.
Variable feishu_separator : string.
Variable max_bytes : Z.
Variable base_header : string.
Variable base_footer : string.
Variable stats_header : string.

Local Abbreviation trial := (trial_append max_bytes base_footer).

(** splitter.py:284-316 *)
Definition h_stats_first_news_line (stat_titles : list loc) : M string :=
  match stat_titles with
  | [] => ret ""
  | first_title_data :: _ =>
      let! d := read_title first_title_data in
      ret (stats_first_line format_title_for_platform format_type
             (length stat_titles) d)
  end.

(** splitter.py:338-382 *)
Fixpoint h_stats_rest_loop (word_header : string) (n j : nat) (rest : list loc)
    (st : bstate) : M bstate :=
  match rest with
  | [] => ret st
  | title_data :: rest' =>
      let! d := read_title title_data in
      let news_line := stats_news_line format_title_for_platform format_type n j d in
      h_stats_rest_loop word_header n (S j) rest'
        (trial news_line
           (base_header +:+ stats_header +:+ word_header +:+ news_line) st)
  end.

(** splitter.py:217-405 *)
Definition h_stats_group_step (total_count n_stats i : nat) (stat : StatGroup loc)
    (st : bstate) : M bstate :=
  let word_header := make_word_header format_type i total_count (word stat) (count stat) in
  let! first_news_line := h_stats_first_news_line (titles stat) in
  let word_with_first_news := word_header +:+ first_news_line in
  let st1 :=
    trial word_with_first_news
      (base_header +:+ stats_header +:+ word_with_first_news) st in
  let! st2 := h_stats_rest_loop word_header (length (titles stat)) 1
           (skipn 1 (titles stat)) st1 in
  ret (if Z.of_nat i <? Z.of_nat n_stats - 1
       then append_separator format_type feishu_separator max_bytes base_footer st2
       else st2).

Fixpoint h_stats_groups_loop (total_count n_stats i : nat)
    (l : list (StatGroup loc)) (st : bstate) : M bstate :=
  match l with
  | [] => ret st
  | stat :: l' =>
      let! st' := h_stats_group_step total_count n_stats i stat st in
      h_stats_groups_loop total_count n_stats (S i) l' st'
  end.

(** splitter.py:195-407 *)
Definition h_process_stats_section (truncated_stats : list (StatGroup loc))
    (st : bstate) : M bstate :=
  match truncated_stats with
  | [] => ret st
  | _ :: _ =>
      let total_count := length truncated_stats in
      h_stats_groups_loop total_count (length truncated_stats) 0 truncated_stats
        (append_stats_header max_bytes base_header base_footer stats_header st)
  end.

(** splitter.py:465-494 *)
Definition h_new_first_news_line (source_titles : list loc) : M string :=
  match source_titles with
  | [] => ret ""
  | first_title_data :: _ =>
      let! title_data_copy := copy_title first_title_data in
      do! store_is_new title_data_copy false in
      let! d := read_title title_data_copy in
      ret (new_first_line format_title_for_platform format_type d)
  end.

(** splitter.py:515-556 *)
Fixpoint h_new_rest_loop (new_header source_header : string) (j : nat)
    (rest : list loc) (st : bstate) : M bstate :=
  match rest with
  | [] => ret st
  | title_data :: rest' =>
      let! title_data_copy := copy_title title_data in
      do! store_is_new title_data_copy false in
      let! d := read_title title_data_copy in
      let news_line := new_line format_title_for_platform format_type j d in
      h_new_rest_loop new_header source_header (S j) rest'
        (trial news_line
           (base_header +:+ new_header +:+ source_header +:+ news_line) st)
  end.

(** splitter.py:449-558 *)
Definition h_new_group_step (new_header : string) (source_data : SourceGroup loc)
    (st : bstate) : M bstate :=
  let source_header :=
    make_source_header format_type (source_name source_data)
      (length (s_titles source_data)) in
  let! first_news_line := h_new_first_news_line (s_titles source_data) in
  let source_with_first_news := source_header +:+ first_news_line in
  let st1 :=
    trial source_with_first_news
      (base_header +:+ new_header +:+ source_with_first_news) st in
  let! st2 := h_new_rest_loop new_header source_header 1
           (skipn 1 (s_titles source_data)) st1 in
  ret (mkState (current_batch st2 +:+ nl) (current_batch_has_content st2)
         (batches st2)).

Fixpoint h_new_groups_loop (new_header : string) (l : list (SourceGroup loc))
    (st : bstate) : M bstate :=
  match l with
  | [] => ret st
  | source_data :: l' =>
      let! st' := h_new_group_step new_header source_data st in
      h_new_groups_loop new_header l' st'
  end.

(** splitter.py:410-560 *)
Definition h_process_new_titles_section (max_total_news_in_push : Z)
    (total_new_count : Z) (truncated_new_titles : list (SourceGroup loc))
    (st : bstate) : M bstate :=
  match truncated_new_titles with
  | [] => ret st
  | _ :: _ =>
      let actual_new_count := actual_new_count_of truncated_new_titles in
      let new_header :=
        make_new_header format_type feishu_separator max_total_news_in_push
          actual_new_count total_new_count in
      h_new_groups_loop new_header truncated_new_titles
        (trial new_header (base_header +:+ new_header) st)
  end.

End SplitterOnStore.

(** splitter.py:67-108 on the store: the copy of the report and the
    assignments to its keys *)
Definition h_split_preprocess (report_data : loc) (max_total_news_in_push : Z)
    (show_stats_in_push : bool) : M loc :=
  let! truncated_report_data := copy_report report_data in
  let! rd := read_report report_data in
  do! (if 0 <? max_total_news_in_push then
         let '(truncated_stats, total_news_count) :=
           if show_stats_in_push && nonempty (stats rd)
           then truncate_stats max_total_news_in_push (stats rd) 0 []
           else ([], 0) in
         let '(truncated_new_titles, _) :=
           truncate_new_titles max_total_news_in_push (new_titles rd)
             total_news_count [] in
         do! store_stats truncated_report_data truncated_stats in
         store_new_titles truncated_report_data truncated_new_titles
       else if negb show_stats_in_push then store_stats truncated_report_data []
       else ret tt) in
  ret truncated_report_data.

(** splitter.py:23-631 on the store *)
Definition h_split_content_into_batches
    (format_title_for_platform : string -> TitleItem -> bool -> string)
    (report_data : loc) (format_type : string)
    (update_info : option UpdateInfo) (max_bytes : option Z) (mode : string)
    (batch_sizes : option (gmap string Z)) (feishu_separator : string)
    (reverse_content_order : bool) (max_total_news_in_push : Z)
    (show_stats_in_push : bool) (now : string) : M (list string) :=
  let max_bytes := resolve_max_bytes format_type max_bytes batch_sizes in
  let! truncated_report_data :=
    h_split_preprocess report_data max_total_news_in_push show_stats_in_push in
  let! trd := read_report truncated_report_data in
  let! rd := read_report report_data in
  let total_titles := total_titles_of (stats trd) in
  let base_header := make_base_header format_type total_titles now in
  let base_footer := make_base_footer format_type now update_info in
  let stats_header := make_stats_header format_type (stats trd) in
  let st0 := mkState base_header false [] in
  if negb (nonempty (stats trd)) && negb (nonempty (new_titles trd))
     && negb (nonempty (failed_ids rd))
  then ret [base_header +:+ simple_content mode +:+ base_footer]
  else
    let do_stats :=
      h_process_stats_section format_title_for_platform format_type feishu_separator
        max_bytes base_header base_footer stats_header (stats trd) in
    let do_new :=
      h_process_new_titles_section format_title_for_platform format_type
        feishu_separator max_bytes base_header base_footer max_total_news_in_push
        (total_new_count rd) (new_titles trd) in
    let! st1 :=
      (if reverse_content_order
       then let! st := do_new st0 in do_stats st
       else let! st := do_stats st0 in do_new st) in
    let st2 :=
      process_failed_section format_type feishu_separator max_bytes base_header
        base_footer (failed_ids rd) st1 in
    ret (flush base_footer st2).

Section RendererOnStore.

Variable format_title_for_platform : string -> TitleItem -> bool -> string.

(** renderer.py:124-131 and 333-340 *)
Fixpoint h_render_stat_titles (platform : string) (n j : nat) (l : list loc)
    (stats_content : string) : M string :=
  match l with
  | [] => ret stats_content
  | title_data :: l' =>
      let! d := read_title title_data in
      h_render_stat_titles platform n (S j) l'
        (render_stat_title format_title_for_platform platform n j d stats_content)
  end.

(** renderer.py:153-160 and 360-367 *)
Fixpoint h_render_new_items (platform indent : string) (l : list loc)
    (acc : string * nat) : M (string * nat) :=
  match l with
  | [] => ret acc
  | title_data :: l' =>
      let! title_data_copy := copy_title title_data in
      do! store_is_new title_data_copy false in
      let! d := read_title title_data_copy in
      h_render_new_items platform indent l'
        (render_new_item format_title_for_platform platform indent d acc)
  end.

(** renderer.py:141-164 and 350-371 *)
Fixpoint h_render_new_groups (platform header_end : string)
    (l : list (SourceGroup loc)) (acc : string * nat) : M (string * nat) :=
  match l with
  | [] => ret acc
  | source_data :: l' =>
      let acc1 := new_group_open header_end source_data acc in
      let! acc2 := h_render_new_items platform (new_group_indent source_data)
                (s_titles source_data) acc1 in
      h_render_new_groups platform header_end l' (new_group_close source_data acc2)
  end.

(** renderer.py:111-134 *)
Fixpoint h_feishu_stat_groups (separator : string) (total_count i : nat)
    (l : list (StatGroup loc)) (stats_content : string) : M string :=
  match l with
  | [] => ret stats_content
  | stat :: l' =>
      let c1 := feishu_word_header total_count i stat stats_content in
      let! c2 :=
        h_render_stat_titles "feishu" (length (titles stat)) 1 (titles stat) c1 in
      h_feishu_stat_groups separator total_count (S i) l'
        (stat_group_close (nl +:+ separator +:+ nl +:+ nl) total_count i c2)
  end.

(** renderer.py:320-343 *)
Fixpoint h_dingtalk_stat_groups (total_count i : nat)
    (l : list (StatGroup loc)) (stats_content : string) : M string :=
  match l with
  | [] => ret stats_content
  | stat :: l' =>
      let c1 := dingtalk_word_header total_count i stat stats_content in
      let! c2 :=
        h_render_stat_titles "dingtalk" (length (titles stat)) 1 (titles stat) c1 in
      h_dingtalk_stat_groups total_count (S i) l'
        (stat_group_close (nl +:+ "---" +:+ nl +:+ nl) total_count i c2)
  end.

(** renderer.py:14-211 on the store *)
Definition h_render_feishu_content (report_data : loc)
    (update_info : option UpdateInfo) (mode separator : string)
    (reverse_content_order : bool) (max_total_news_in_push : Z)
    (show_stats_in_push : bool) (now : string) : M string :=
  let! rd := read_report report_data in
  let p := render_preprocess rd max_total_news_in_push show_stats_in_push in
  let! stats_content :=
    (if show_stats_in_push && nonempty (truncated_stats p) then
       h_feishu_stat_groups separator (length (truncated_stats p)) 0
         (truncated_stats p) ("" +:+ ("📊 **热点词汇统计**" +:+ nl +:+ nl))
     else ret "") in
  let! new_titles_content :=
    (if nonempty (truncated_new_titles p) then
       let! acc :=
         h_render_new_groups "feishu" nl (truncated_new_titles p) ("", 0%nat) in
       ret (fst acc)
     else ret "") in
  ret (feishu_assemble stats_content new_titles_content (failed_ids rd) update_info
         mode separator reverse_content_order now).

(** renderer.py:214-414 on the store *)
Definition h_render_dingtalk_content (report_data : loc)
    (update_info : option UpdateInfo) (mode : string)
    (reverse_content_order : bool) (max_total_news_in_push : Z)
    (show_stats_in_push : bool) (now : string) : M string :=
  let! rd := read_report report_data in
  let p := render_preprocess rd max_total_news_in_push show_stats_in_push in
  let total_titles := total_titles_of (truncated_stats p) in
  let! stats_content :=
    (if show_stats_in_push && nonempty (truncated_stats p) then
       h_dingtalk_stat_groups (length (truncated_stats p)) 0 (truncated_stats p)
         ("" +:+ ("📊 **热点词汇统计**" +:+ nl +:+ nl))
     else ret "") in
  let! new_titles_content :=
    (if nonempty (truncated_new_titles p) then
       let! acc :=
         h_render_new_groups "dingtalk" (nl +:+ nl) (truncated_new_titles p)
           ("", 0%nat) in
       ret (fst acc)
     else ret "") in
  ret (dingtalk_assemble total_titles stats_content new_titles_content (failed_ids rd)
         update_info mode reverse_content_order now).

End RendererOnStore.

(** *** What a store holds, seen as values *)

(** the title item a reference stands for *)
Definition deref (s : store) (l : loc) : TitleItem :=
  match title_objs s !! l with
  | Some d => d
  | None => mkTitleItem "" false []
  end.

Definition map_stat {A B} (f : A -> B) (g : StatGroup A) : StatGroup B :=
  mkStat (word g) (count g) (map f (titles g)).
Definition map_source {A B} (f : A -> B) (g : SourceGroup A) : SourceGroup B :=
  mkSource (source_name g) (map f (s_titles g)).
Definition map_report {A B} (f : A -> B) (r : ReportData A) : ReportData B :=
  mkReport (map (map_stat f) (stats r)) (map (map_source f) (new_titles r))
    (failed_ids r) (total_new_count r).
Definition map_prepared {A B} (f : A -> B) (p : Prepared A) : Prepared B :=
  mkPrepared (map (map_stat f) (truncated_stats p))
    (map (map_source f) (truncated_new_titles p)) (original_total_new_count p).

(** the references in [ls] refer to title items of the store *)
Definition allocated (s : store) (ls : list loc) : Prop :=
  Forall (fun l => is_Some (title_objs s !! l)) ls.

(** the title references of a report *)
Definition report_locs (rd : ReportData loc) : list loc :=
  (flat_map titles (stats rd) ++ flat_map s_titles (new_titles rd))%list.

(** [r] refers to a report, and the report to title items, of the store *)
Definition well_formed (s : store) (r : loc) : Prop :=
  exists rd, report_objs s !! r = Some rd
             /\ allocated s (report_locs rd).

(** the report behind [r], as a value *)
Definition report_value (s : store) (r : loc) : ReportData TitleItem :=
  match report_objs s !! r with
  | Some rd => map_report (deref s) rd
  | None => mkReport [] [] [] 0
  end.

(** every object of [s] is in [s'], with the same content *)
Definition unchanged_in (s s' : store) : Prop :=
  title_objs s ⊆ title_objs s' /\ report_objs s ⊆ report_objs s'.

(** A formatter to run the functions with: the title, marked when new. *)
Definition sample_formatter (platform : string) (d : TitleItem) (show_source : bool)
    : string :=
  if is_new d then "[new] " +:+ title d else title d.

(** A store with one report of a word group and a source group that share
    a title item. *)
Definition sample_store : store :=
  mkStore
    (<[1%positive := mkTitleItem "first" true []]>
       (<[2%positive := mkTitleItem "second" false []]> ∅))
    (<[1%positive := mkReport [mkStat "ai" 2 [1%positive; 2%positive]]
                       [mkSource "src" [1%positive]] ["f"] 1]> ∅).

(** ** Notions used in the statements *)

(** A group seen as its name and its titles. *)
Definition stat_view {T} (g : StatGroup T) : string * list T := (word g, titles g).
Definition source_view {T} (g : SourceGroup T) : string * list T :=
  (source_name g, s_titles g).

(** A word group read as a source group: the statistics loop of the
    truncation is the new-items loop on these. *)
Definition as_source {T} (g : StatGroup T) : SourceGroup T := mkSource (word g) (titles g).

(** [kept_prefixes kept orig]: [kept] lists, in the order of [orig], some of
    the groups of [orig], each under its name and cut to a non-empty prefix
    of its titles. *)
Inductive kept_prefixes {T} : list (string * list T) -> list (string * list T) -> Prop :=
| kept_none (orig : list (string * list T)) : kept_prefixes [] orig
| kept_drop kept g orig :
    kept_prefixes kept orig -> kept_prefixes kept (g :: orig)
| kept_keep name tl tl_orig kept orig :
    tl `prefix_of` tl_orig -> tl <> [] ->
    kept_prefixes kept orig ->
    kept_prefixes ((name, tl) :: kept) ((name, tl_orig) :: orig).

(** What truncation to [M] items promises about the groups it returns. *)
Definition truncated_to {T} (M : Z)
    (in_stats : list (StatGroup T)) (in_new : list (SourceGroup T))
    (out_stats : list (StatGroup T)) (out_new : list (SourceGroup T)) : Prop :=
  Z.of_nat (length (flat_map titles out_stats) + length (flat_map s_titles out_new)) <= M
  /\ kept_prefixes (map stat_view out_stats) (map stat_view in_stats)
  /\ kept_prefixes (map source_view out_new) (map source_view in_new)
  /\ Forall (fun g => count g = Z.of_nat (length (titles g))) out_stats
  /\ (flat_map titles out_stats ++ flat_map s_titles out_new)%list
     = firstn (Z.to_nat M) (flat_map titles in_stats ++ flat_map s_titles in_new)%list.

(** [enumerate(l, j)] mapped through [f] *)
Fixpoint enum_from {A B : Type} (f : nat -> A -> B) (j : nat) (l : list A) : list B :=
  match l with
  | [] => []
  | x :: l' => f j x :: enum_from f (S j) l'
  end.

(** The item lines a report asks for: one per title, group after group. *)
Definition stats_group_items (i : nat) (stat : StatGroup TitleItem) : list piece :=
  enum_from (PStatsItem i stat) 0 (titles stat).
Definition stats_items_from (i : nat) (l : list (StatGroup TitleItem)) : list piece :=
  concat (enum_from stats_group_items i l).
Definition new_group_items (k : nat) (source_data : SourceGroup TitleItem) : list piece :=
  enum_from (PNewItem k source_data) 0 (s_titles source_data).
Definition new_items_from (k : nat) (l : list (SourceGroup TitleItem)) : list piece :=
  concat (enum_from new_group_items k l).

Definition is_item (p : piece) : bool :=
  match p with
  | PStatsItem _ _ _ _ | PNewItem _ _ _ _ => true
  | _ => false
  end.

(** The item lines of a list of batches, in the order of the output, with
    everything else (headers, separators, line feeds) stripped. *)
Definition trace_items (tr : list tbatch) : list piece :=
  List.filter is_item (concat (map pieces tr)).

(** The item lines an accumulator holds so far. *)
Definition state_items (ts : tstate) : list piece :=
  (trace_items (t_batches ts) ++ List.filter is_item (pieces (t_current ts)))%list.

(** Before anything is committed the buffer holds no item line. *)
Definition no_items_yet (ts : tstate) : Prop :=
  t_has_content ts = false -> List.filter is_item (pieces (t_current ts)) = [].

Definition is_group_header (p : piece) : bool :=
  match p with
  | PWordHeader _ _ | PSourceHeader _ _ => true
  | _ => false
  end.

(** a group header whose group has a title *)
Definition header_of_titles (p : piece) : bool :=
  match p with
  | PWordHeader _ stat => nonempty (titles stat)
  | PSourceHeader _ source_data => nonempty (s_titles source_data)
  | _ => false
  end.

(** [rest] starts with an item line of the group that [p] is the header of *)
Definition followed_by_own_item (p : piece) (rest : list piece) : Prop :=
  match p, rest with
  | PWordHeader i stat, PStatsItem i' stat' _ _ :: _ => i' = i /\ stat' = stat
  | PSourceHeader k source_data, PNewItem k' source_data' _ _ :: _ =>
      k' = k /\ source_data' = source_data
  | _, _ => False
  end.

(** every chunk selected by [need] is directly followed by an item line of
    its group *)
Fixpoint headers_paired (need : piece -> bool) (l : list piece) : Prop :=
  match l with
  | [] => True
  | p :: rest => (need p = true -> followed_by_own_item p rest) /\ headers_paired need rest
  end.

(** Every batch of an accumulator, finished or current, has its group
    headers paired. *)
Definition all_paired (need : piece -> bool) (ts : tstate) : Prop :=
  Forall (fun b => headers_paired need (pieces b)) (t_batches ts)
  /\ headers_paired need (pieces (t_current ts)).

(** A chunk that opens a section, or the "no matches" text; the statistics
    header counts only when there are statistics ([has_stats]). *)
Definition section_start (has_stats : bool) (p : piece) : bool :=
  match p with
  | PStatsHeader => has_stats
  | PNewHeader | PFailedHeader | PNoMatch _ => true
  | _ => false
  end.

(** the base header, then a chunk that opens a section *)
Definition starts_with_section (has_stats : bool) (l : list piece) : Prop :=
  match l with
  | PBaseHeader :: p :: _ => section_start has_stats p = true
  | _ => False
  end.

(** Finished batches start with the base header and a section opener, and
    so does the buffer once it has content; before that it is the base
    header alone. *)
Definition content_inv (has_stats : bool) (ts : tstate) : Prop :=
  Forall (fun b => starts_with_section has_stats (pieces b)) (t_batches ts)
  /\ (if t_has_content ts
      then starts_with_section has_stats (pieces (t_current ts))
      else pieces (t_current ts) = [PBaseHeader]).

(** the buffer has content and the invariant holds *)
Definition open_inv (has_stats : bool) (ts : tstate) : Prop :=
  content_inv has_stats ts /\ t_has_content ts = true.

(** the platforms for which every section has a header text *)
Definition has_all_headers (format_type : string) : bool :=
  str_in format_type ["wework"; "telegram"; "ntfy"; "feishu"; "dingtalk"].

(** ** Sample reports *)

(** One word group with one title, nothing else. *)
Definition hidden_stats_report : ReportData TitleItem :=
  mkReport [mkStat "ai" 1 [mkTitleItem "headline" true []]] [] [] 0.

(** Nothing but one failed source id. *)
Definition failed_only_report : ReportData TitleItem := mkReport [] [] ["x"] 0.

(** Two word groups of three titles each (titles are numbers here). *)
Definition two_groups_report : ReportData nat :=
  mkReport [mkStat "a" 3 [1; 2; 3]%nat; mkStat "b" 3 [4; 5; 6]%nat]
    [mkSource "s" [7; 8]%nat] [] 2.

(** One word group without titles. *)
Definition empty_group_report : ReportData TitleItem :=
  mkReport [mkStat "ai" 0 []] [] [] 0.

(** One source group with one new title. *)
Definition one_source_report : ReportData TitleItem :=
  mkReport [] [mkSource "s" [mkTitleItem "t" true []]] [] 1.

(** One word group with three new titles. *)
Definition three_titles_report : ReportData TitleItem :=
  mkReport [mkStat "ai" 3 [mkTitleItem "a" true []; mkTitleItem "b" true [];
                           mkTitleItem "c" true []]] [] [] 0.

(** Two word groups, a source group and a failed source. *)
Definition two_sections_report : ReportData TitleItem :=
  mkReport
    [mkStat "ai" 2 [mkTitleItem "a" true []; mkTitleItem "b" false []];
     mkStat "chips" 1 [mkTitleItem "c" false []]]
    [mkSource "src" [mkTitleItem "a" true []; mkTitleItem "d" true []]]
    ["x"] 2.

(** Two word groups and a failed source, no new titles. *)
Definition statistics_report : ReportData TitleItem :=
  mkReport
    [mkStat "ai" 12 [mkTitleItem "a" true []; mkTitleItem "b" false []];
     mkStat "chips" 1 [mkTitleItem "c" false []]]
    [] ["x"] 0.

(** Failed sources and nothing else. *)
Definition failed_sources_report : ReportData TitleItem :=
  mkReport [] [] ["weibo"; "zhihu"] 0.

(** ** The run as a list of append steps

    Every step of the splitter adds a chunk to the buffer in one of three
    ways: by the trial append that restarts the batch when the chunk does
    not fit ([OTrial], with the text the batch is restarted with), by a
    trial that drops the chunk when it does not fit ([OTry], the separator
    between word groups), or without a size test ([OForce], the line feed
    after a source group).  The statistics header is a trial append too: its
    test [len < max_bytes] with the branches swapped is the test
    [len >= max_bytes] of the others. *)
Inductive op : Type :=
| OTrial (chunk reseed : list piece)
| OTry (chunk : list piece)
| OForce (chunk : list piece).

Definition op_chunk (o : op) : list piece :=
  match o with
  | OTrial chunk _ | OTry chunk | OForce chunk => chunk
  end.

Definition is_trial (o : op) : bool :=
  match o with OTrial _ _ => true | _ => false end.

Section Steps.

Variable format_title_for_platform : string -> TitleItem -> bool -> string.
Variables format_type feishu_separator : string.
Variable max_bytes : Z.
Variables base_header base_footer stats_header : string.
Variable total_count : nat.
Variable new_header : string.

Definition run_op (o : op) (ts : tstate) : tstate :=
  match o with
  | OTrial chunk reseed =>
      t_trial_append format_title_for_platform format_type feishu_separator max_bytes
        base_header base_footer stats_header total_count new_header chunk reseed ts
  | OTry chunk =>
      let test_content := (pieces (t_current ts) ++ chunk)%list in
      if py_len (pieces_text format_title_for_platform format_type feishu_separator
                   base_header stats_header total_count new_header test_content)
         + py_len base_footer <? max_bytes
      then mkTState (commit chunk (t_current ts)) (t_has_content ts) (t_batches ts)
      else ts
  | OForce chunk =>
      mkTState (commit chunk (t_current ts)) (t_has_content ts) (t_batches ts)
  end.

Definition run_ops (ops : list op) (ts : tstate) : tstate :=
  fold_left (fun ts o => run_op o ts) ops ts.

End Steps.

(** The steps of the statistics section (splitter.py:195-407) *)
Definition stats_rest_ops (i : nat) (stat : StatGroup TitleItem) (j : nat)
    (rest : list TitleItem) : list op :=
  enum_from (fun j title_data =>
               OTrial [PStatsItem i stat j title_data]
                 [PBaseHeader; PStatsHeader; PWordHeader i stat;
                  PStatsItem i stat j title_data])
    j rest.

Definition stats_group_ops (n_stats i : nat) (stat : StatGroup TitleItem) : list op :=
  (OTrial (word_with_first_news i stat)
     (PBaseHeader :: PStatsHeader :: word_with_first_news i stat)
   :: stats_rest_ops i stat 1 (skipn 1 (titles stat))
   ++ (if Z.of_nat i <? Z.of_nat n_stats - 1 then [OTry [PSeparator]] else []))%list.

Definition stats_ops (truncated_stats : list (StatGroup TitleItem)) : list op :=
  match truncated_stats with
  | [] => []
  | _ :: _ =>
      OTrial [PStatsHeader] [PBaseHeader; PStatsHeader]
      :: concat (enum_from (stats_group_ops (length truncated_stats)) 0 truncated_stats)
  end.

(** The steps of the new-items section (splitter.py:410-560) *)
Definition new_rest_ops (k : nat) (source_data : SourceGroup TitleItem) (j : nat)
    (rest : list TitleItem) : list op :=
  enum_from (fun j title_data =>
               OTrial [PNewItem k source_data j title_data]
                 [PBaseHeader; PNewHeader; PSourceHeader k source_data;
                  PNewItem k source_data j title_data])
    j rest.

Definition new_group_ops (k : nat) (source_data : SourceGroup TitleItem) : list op :=
  (OTrial (source_with_first_news k source_data)
     (PBaseHeader :: PNewHeader :: source_with_first_news k source_data)
   :: new_rest_ops k source_data 1 (skipn 1 (s_titles source_data))
   ++ [OForce [PLineFeed]])%list.

Definition new_ops (truncated_new_titles : list (SourceGroup TitleItem)) : list op :=
  match truncated_new_titles with
  | [] => []
  | _ :: _ =>
      OTrial [PNewHeader] [PBaseHeader; PNewHeader]
      :: concat (enum_from new_group_ops 0 truncated_new_titles)
  end.

(** The steps of the failed-sources section (splitter.py:580-625) *)
Definition failed_ops (failed : list string) : list op :=
  match failed with
  | [] => []
  | _ :: _ =>
      OTrial [PFailedHeader] [PBaseHeader; PFailedHeader]
      :: map (fun id_value =>
                OTrial [PFailedLine id_value]
                  [PBaseHeader; PFailedHeader; PFailedLine id_value])
           failed
  end.

(** The steps of a whole run, the sections in the chosen order
    (splitter.py:562-625) *)
Definition schedule (truncated_report_data : ReportData TitleItem)
    (failed : list string) (reverse_content_order : bool) : list op :=
  ((if reverse_content_order
    then new_ops (new_titles truncated_report_data)
           ++ stats_ops (stats truncated_report_data)
    else stats_ops (stats truncated_report_data)
           ++ new_ops (new_titles truncated_report_data))
   ++ failed_ops failed)%list.

(** The degenerate case of splitter.py:178-182 *)
Definition nothing_to_report (truncated_report_data : ReportData TitleItem)
    (failed : list string) : bool :=
  negb (nonempty (stats truncated_report_data))
  && negb (nonempty (new_titles truncated_report_data))
  && negb (nonempty failed).

(** ** The whole message

    The chunks of a report in the order the splitter walks them, as one
    list: what a batch holds when nothing had to be cut. *)

Definition stats_group_pieces (n_stats i : nat) (stat : StatGroup TitleItem)
    : list piece :=
  (PWordHeader i stat :: stats_group_items i stat
   ++ (if Z.of_nat i <? Z.of_nat n_stats - 1 then [PSeparator] else []))%list.

Definition stats_pieces (truncated_stats : list (StatGroup TitleItem)) : list piece :=
  match truncated_stats with
  | [] => []
  | _ :: _ =>
      PStatsHeader
      :: concat (enum_from (stats_group_pieces (length truncated_stats)) 0 truncated_stats)
  end.

Definition new_group_pieces (k : nat) (source_data : SourceGroup TitleItem)
    : list piece :=
  (PSourceHeader k source_data :: new_group_items k source_data ++ [PLineFeed])%list.

Definition new_pieces (truncated_new_titles : list (SourceGroup TitleItem))
    : list piece :=
  match truncated_new_titles with
  | [] => []
  | _ :: _ => PNewHeader :: concat (enum_from new_group_pieces 0 truncated_new_titles)
  end.

Definition failed_pieces (failed : list string) : list piece :=
  match failed with
  | [] => []
  | _ :: _ => PFailedHeader :: map PFailedLine failed
  end.

Definition whole_message (truncated_report_data : ReportData TitleItem)
    (failed : list string) (reverse_content_order : bool) (mode : string)
    : list piece :=
  if nothing_to_report truncated_report_data failed
  then [PBaseHeader; PNoMatch mode]
  else
    (PBaseHeader
     :: (if reverse_content_order
         then new_pieces (new_titles truncated_report_data)
                ++ stats_pieces (stats truncated_report_data)
         else stats_pieces (stats truncated_report_data)
                ++ new_pieces (new_titles truncated_report_data))
     ++ failed_pieces failed)%list.

(** The text of chunks in a call of [split_content_into_batches]: the
    headers are those the call computes (splitter.py:112-173, 416-433). *)
Definition text_in_run
    (format_title_for_platform : string -> TitleItem -> bool -> string)
    (format_type feishu_separator : string) (report_data : ReportData TitleItem)
    (max_total_news_in_push : Z) (show_stats_in_push : bool) (now : string)
    : list piece -> string :=
  let truncated_report_data :=
    split_preprocess report_data max_total_news_in_push show_stats_in_push in
  pieces_text format_title_for_platform format_type feishu_separator
    (make_base_header format_type (total_titles_of (stats truncated_report_data)) now)
    (make_stats_header format_type (stats truncated_report_data))
    (length (stats truncated_report_data))
    (make_new_header format_type feishu_separator max_total_news_in_push
       (actual_new_count_of (new_titles truncated_report_data))
       (total_new_count report_data)).

(** ** Lines, and what is repeated around them *)

Definition is_failed_line (p : piece) : bool :=
  match p with PFailedLine _ => true | _ => false end.

(** an item line or the line of a failed source *)
Definition is_line (p : piece) : bool := is_item p || is_failed_line p.

(** The lines of a list of batches in the order of the output, everything
    else stripped. *)
Definition trace_lines (tr : list tbatch) : list piece :=
  List.filter is_line (concat (map pieces tr)).

(** The chunks a batch is restarted with besides the chunk that did not
    fit, and the separator, which may be dropped. *)
Definition is_context (p : piece) : bool :=
  match p with
  | PBaseHeader | PStatsHeader | PWordHeader _ _ | PSeparator | PNewHeader
  | PSourceHeader _ _ | PFailedHeader => true
  | _ => false
  end.

(** The chunks selected by [f] that an accumulator holds so far. *)
Definition state_filter (f : piece -> bool) (ts : tstate) : list piece :=
  (List.filter f (concat (map pieces (t_batches ts)))
   ++ List.filter f (pieces (t_current ts)))%list.

(** A step neither repeats nor drops a chunk selected by [f]: the text a
    batch is restarted with selects what the chunk does, and a chunk
    appended in another way selects nothing. *)
Definition op_keeps (f : piece -> bool) (o : op) : Prop :=
  match o with
  | OTrial chunk reseed => List.filter f reseed = List.filter f chunk
  | OTry chunk | OForce chunk => List.filter f chunk = []
  end.

(** The strings of chunk-level batches in a call of
    [split_content_into_batches]: the text of the chunks, then the footer. *)
Definition batch_strings
    (format_title_for_platform : string -> TitleItem -> bool -> string)
    (format_type feishu_separator : string) (report_data : ReportData TitleItem)
    (update_info : option UpdateInfo) (max_total_news_in_push : Z)
    (show_stats_in_push : bool) (now : string) (tr : list tbatch) : list string :=
  map (fun b =>
         text_in_run format_title_for_platform format_type feishu_separator report_data
           max_total_news_in_push show_stats_in_push now (pieces b)
         +:+ make_base_footer format_type now update_info)
    tr.

(** every chunk a step can place satisfies [Q] *)
Definition op_all (Q : piece -> Prop) (o : op) : Prop :=
  Forall Q (op_chunk o)
  /\ match o with OTrial _ reseed => Forall Q reseed | _ => True end.

(** ** Where a chunk may stand in a batch

    Reading a batch from its start, the context is the section one is in
    and, inside a section, the group whose header came last with the
    position of the last item line under it. *)
Inductive ctx : Type :=
| CStart
| CBase
| CNotice
| CStats (g : option (nat * StatGroup TitleItem * option nat))
| CNew (g : option (nat * SourceGroup TitleItem * option nat))
| CFailed.

(** item [j] may come directly under the header, or after item [j - 1] *)
Definition follows (last : option nat) (j : nat) : Prop :=
  match last with
  | None => True
  | Some j0 => j = S j0
  end.

(** The base header opens the batch; a section header comes anywhere after
    it; a group header stands in its section; an item line stands under the
    header of its own group, the items under one header in consecutive
    positions; a separator and a line feed stand in a group of their
    section; the line of a failed source stands in the failed section; the
    "no matches" text follows the base header directly. *)
Definition placed (c : ctx) (p : piece) : Prop :=
  match p with
  | PBaseHeader => c = CStart
  | PNoMatch _ => c = CBase
  | PStatsHeader | PNewHeader | PFailedHeader => c <> CStart /\ c <> CNotice
  | PWordHeader _ _ => exists g, c = CStats g
  | PStatsItem i stat j _ => exists last, c = CStats (Some (i, stat, last)) /\ follows last j
  | PSeparator => exists g, c = CStats (Some g)
  | PSourceHeader _ _ => exists g, c = CNew g
  | PNewItem k source_data j _ =>
      exists last, c = CNew (Some (k, source_data, last)) /\ follows last j
  | PLineFeed => exists g, c = CNew (Some g)
  | PFailedLine _ => c = CFailed
  end.

Definition ctx_after (c : ctx) (p : piece) : ctx :=
  match p with
  | PBaseHeader => CBase
  | PNoMatch _ => CNotice
  | PStatsHeader => CStats None
  | PWordHeader i stat => CStats (Some (i, stat, None))
  | PStatsItem i stat j _ => CStats (Some (i, stat, Some j))
  | PNewHeader => CNew None
  | PSourceHeader k source_data => CNew (Some (k, source_data, None))
  | PNewItem k source_data j _ => CNew (Some (k, source_data, Some j))
  | PFailedHeader => CFailed
  | PSeparator | PLineFeed | PFailedLine _ => c
  end.

Fixpoint well_placed (c : ctx) (l : list piece) : Prop :=
  match l with
  | [] => True
  | p :: l' => placed c p /\ well_placed (ctx_after c p) l'
  end.

Definition ctx_end (c : ctx) (l : list piece) : ctx := fold_left ctx_after l c.

(** A step whose chunk may stand in context [c], and which leaves the same
    context whether the chunk is committed, dropped or starts the next
    batch. *)
Definition op_ok (c : ctx) (o : op) : Prop :=
  match o with
  | OTrial chunk reseed =>
      well_placed c chunk /\ well_placed CStart reseed
      /\ ctx_end CStart reseed = ctx_end c chunk
  | OTry chunk => well_placed c chunk /\ ctx_end c chunk = c
  | OForce chunk => well_placed c chunk
  end.

Fixpoint ops_ok (c : ctx) (ops : list op) : Prop :=
  match ops with
  | [] => True
  | o :: ops' => op_ok c o /\ ops_ok (ctx_end c (op_chunk o)) ops'
  end.

Definition ops_end (c : ctx) (ops : list op) : ctx :=
  ctx_end c (concat (map op_chunk ops)).

(** a context in which a section can start *)
Definition section_can_start (c : ctx) : Prop := c <> CStart /\ c <> CNotice.

(** ** Chunks and the report

    A chunk that is taken from the pre-processed report: a group header is
    the header of the group at its position, an item line the line of the
    title at its position in that group, the line of a failed source that
    of one of the failed ids; section headers, separators and line feeds
    belong to sections that are not empty; the "no matches" text is that
    of the mode, when there is nothing to report. *)
Definition from_report (truncated_report_data : ReportData TitleItem)
    (failed : list string) (mode : string) (p : piece) : Prop :=
  match p with
  | PBaseHeader => True
  | PNoMatch m => nothing_to_report truncated_report_data failed = true /\ m = mode
  | PStatsHeader | PSeparator => stats truncated_report_data <> []
  | PWordHeader i stat => nth_error (stats truncated_report_data) i = Some stat
  | PStatsItem i stat j title_data =>
      nth_error (stats truncated_report_data) i = Some stat
      /\ nth_error (titles stat) j = Some title_data
  | PNewHeader | PLineFeed => new_titles truncated_report_data <> []
  | PSourceHeader k source_data =>
      nth_error (new_titles truncated_report_data) k = Some source_data
  | PNewItem k source_data j title_data =>
      nth_error (new_titles truncated_report_data) k = Some source_data
      /\ nth_error (s_titles source_data) j = Some title_data
  | PFailedHeader => failed <> []
  | PFailedLine id_value => In id_value failed
  end.

(** the format types the splitter has texts for (splitter.py:40) *)
Definition known_platform (format_type : string) : bool :=
  str_in format_type ["wework"; "bark"; "telegram"; "ntfy"; "feishu"; "dingtalk"; "slack"].

(** A formatter that gives the bare title. *)
Definition plain_formatter (platform : string) (d : TitleItem) (show_source : bool)
    : string := title d.

(** [s.startswith(h)] as a proposition *)
Definition str_starts_with (h s : string) : Prop := exists rest, s = h +:+ rest.

(** A report that has failed sources and nothing else. *)
Definition only_failed_sources {T} (report_data : ReportData T) : Prop :=
  stats report_data = [] /\ new_titles report_data = [] /\ failed_ids report_data <> [].

(** the texts of a list, one after the other *)
Fixpoint concat_lines (l : list string) : string :=
  match l with
  | [] => ""
  | s :: l' => s +:+ concat_lines l'
  end.

(** A report of which at most one of the two sections is shown: the
    statistics are hidden, or there are none, or there are no new titles. *)
Definition one_section_at_most {T} (report_data : ReportData T)
    (show_stats_in_push : bool) : Prop :=
  show_stats_in_push = false \/ stats report_data = [] \/ new_titles report_data = [].

(** What the truncation leaves: a statistics group with titles, its count
    the number of them; a source group with titles. *)
Definition stat_as_truncated {T} (g : StatGroup T) : Prop :=
  titles g <> [] /\ count g = Z.of_nat (length (titles g)).

Definition source_as_truncated {T} (g : SourceGroup T) : Prop := s_titles g <> [].

(** ** The lines as a message shows them

    The texts of the lines as the f-strings of splitter.py:314-316, 367-369,
    494, 543 and 608-612 give them, written out in one piece, without the
    builders above, to compare the batches with. *)

(** the platform name the formatter is called with: "bark" goes with
    "wework" (splitter.py:288-291, 472-475) *)
Definition formatter_name (format_type : string) : string :=
  if String.eqb format_type "bark" then "wework" else format_type.

(** the title of a statistics item as the message shows it: the formatter's
    text, with the source shown, for the seven platforms the splitter knows,
    the bare title otherwise (splitter.py:287-312, 340-365) *)
Definition shown_stats_title (fmt : string -> TitleItem -> bool -> string)
    (format_type : string) (title_data : TitleItem) : string :=
  if known_platform format_type
  then fmt (formatter_name format_type) title_data true
  else title title_data.

(** the title of the new item at index [j] of its source group: the
    formatter's text, for the copy with [is_new] cleared and without the
    source, where the splitter calls the formatter, the bare title elsewhere
    ("ntfy", "bark" after the first item of a group, platforms it does not
    know; splitter.py:467-492, 517-541) *)
Definition shown_new_title (fmt : string -> TitleItem -> bool -> string)
    (format_type : string) (j : nat) (title_data : TitleItem) : string :=
  if str_in format_type ["wework"; "telegram"; "feishu"; "dingtalk"; "slack"]
     || (String.eqb format_type "bark" && Nat.eqb j 0)
  then fmt (formatter_name format_type) (set_is_new title_data false) false
  else title title_data.

(** a failed source id with the mark-up of the platform
    (splitter.py:607-612) *)
Definition shown_failed_id (format_type id_value : string) : string :=
  if String.eqb format_type "feishu" then "<font color='red'>" +:+ id_value +:+ "</font>"
  else if String.eqb format_type "dingtalk" then "**" +:+ id_value +:+ "**"
  else id_value.

(** the text of an item line and of the line of a failed source: two
    spaces, the number of the item in its group and the title shown, with a
    blank line after a statistics item that is not the last of its group;
    two spaces, a bullet and the id *)
Definition line_of (fmt : string -> TitleItem -> bool -> string) (format_type : string)
    (p : piece) : option string :=
  match p with
  | PStatsItem _ stat j title_data =>
      Some ("  " +:+ string_of_nat (j + 1) +:+ ". "
              +:+ shown_stats_title fmt format_type title_data +:+ nl
              +:+ (if (j + 1 <? length (titles stat))%nat then nl else ""))
  | PNewItem _ _ j title_data =>
      Some ("  " +:+ string_of_nat (j + 1) +:+ ". "
              +:+ shown_new_title fmt format_type j title_data +:+ nl)
  | PFailedLine id_value => Some ("  • " +:+ shown_failed_id format_type id_value +:+ nl)
  | _ => None
  end.

(** the text of a chunk in a run, the lines written out as above *)
Definition chunk_in_run (fmt : string -> TitleItem -> bool -> string)
    (format_type feishu_separator : string) (report_data : ReportData TitleItem)
    (max_total_news_in_push : Z) (show_stats_in_push : bool) (now : string)
    (p : piece) : string :=
  match line_of fmt format_type p with
  | Some line => line
  | None =>
      text_in_run fmt format_type feishu_separator report_data max_total_news_in_push
        show_stats_in_push now [p]
  end.

(** the strings of chunk-level batches, the lines written out as above *)
Definition batches_as_read (fmt : string -> TitleItem -> bool -> string)
    (format_type feishu_separator : string) (report_data : ReportData TitleItem)
    (update_info : option UpdateInfo) (max_total_news_in_push : Z)
    (show_stats_in_push : bool) (now : string) (tr : list tbatch) : list string :=
  map (fun b =>
         fold_right
           (fun p s =>
              chunk_in_run fmt format_type feishu_separator report_data
                max_total_news_in_push show_stats_in_push now p +:+ s)
           "" (pieces b)
         +:+ make_base_footer format_type now update_info)
    tr.

(** * Properties *)

(** ** Strings *)

Lemma str_app_nil_r (s : string) : s +:+ "" = s.
Proof.
  induction s as [|c s IH]; [reflexivity |].
  change (String c (s +:+ "") = String c s). now rewrite IH.
Qed.

Lemma str_app_assoc (a b c : string) : (a +:+ b) +:+ c = a +:+ (b +:+ c).
Proof.
  induction a as [|x a IH]; [reflexivity |].
  change (String x ((a +:+ b) +:+ c) = String x (a +:+ (b +:+ c))). now rewrite IH.
Qed.

Lemma str_length_app (a b : string) :
  String.length (a +:+ b) = (String.length a + String.length b)%nat.
Proof.
  induction a as [|x a IH]; [reflexivity |].
  change (S (String.length (a +:+ b)) = S (String.length a + String.length b)).
  now rewrite IH.
Qed.

Lemma py_len_app (a b : string) : py_len (a +:+ b) = py_len a + py_len b.
Proof. unfold py_len. rewrite str_length_app. lia. Qed.

(** ** Runs of the model *)

(** One word group with three titles and room for everything: one batch,
    with the header, the statistics section and the footer. *)
Example one_batch_when_everything_fits :
  split_content_into_batches sample_formatter three_titles_report "telegram" None None
    "daily" None "---" false 0 true "2026-01-01 00:00:00"
  = [("总新闻数： 3" +:+ nl +:+ nl)
       +:+ ("📊 热点词汇统计" +:+ nl +:+ nl)
       +:+ ("📌 [1/1] ai : 3 条" +:+ nl +:+ nl)
       +:+ ("  1. [new] a" +:+ nl +:+ nl)
       +:+ ("  2. [new] b" +:+ nl +:+ nl)
       +:+ ("  3. [new] c" +:+ nl)
       +:+ (nl +:+ nl +:+ "更新时间：2026-01-01 00:00:00")].
Proof. reflexivity. Qed.

(** The same report under a budget of 120 bytes: every batch starts again
    with the header, the statistics header and the group header. *)
Example headers_repeated_in_every_batch :
  split_content_into_batches sample_formatter three_titles_report "telegram" None
    (Some 120) "daily" None "---" false 0 true "2026-01-01 00:00:00"
  = map (fun line =>
           ("总新闻数： 3" +:+ nl +:+ nl)
             +:+ ("📊 热点词汇统计" +:+ nl +:+ nl)
             +:+ ("📌 [1/1] ai : 3 条" +:+ nl +:+ nl)
             +:+ line
             +:+ (nl +:+ nl +:+ "更新时间：2026-01-01 00:00:00"))
      ["  1. [new] a" +:+ nl +:+ nl; "  2. [new] b" +:+ nl +:+ nl; "  3. [new] c" +:+ nl].
Proof. reflexivity. Qed.

(** Failed sources alone count as content: no "no matches" text. *)
Example failed_ids_alone :
  split_content_into_batches sample_formatter failed_only_report "telegram" None None
    "daily" None "---" false 0 true "2026-01-01 00:00:00"
  = [("总新闻数： 0" +:+ nl +:+ nl)
       +:+ (nl +:+ nl +:+ "⚠️ 数据获取失败的平台：" +:+ nl +:+ nl)
       +:+ ("  • x" +:+ nl)
       +:+ (nl +:+ nl +:+ "更新时间：2026-01-01 00:00:00")].
Proof. reflexivity. Qed.

(** The renderer for "dingtalk" on the same three titles. *)
Example render_dingtalk_three_titles :
  render_dingtalk_content sample_formatter three_titles_report None "daily" false 0 true
    "2026-01-01 00:00:00"
  = ("**总新闻数：** 3" +:+ nl +:+ nl)
      +:+ ("**时间：** 2026-01-01 00:00:00" +:+ nl +:+ nl)
      +:+ ("**类型：** 热点分析报告" +:+ nl +:+ nl)
      +:+ ("---" +:+ nl +:+ nl)
      +:+ ("📊 **热点词汇统计**" +:+ nl +:+ nl)
      +:+ ("📌 [1/1] **ai** : 3 条" +:+ nl +:+ nl)
      +:+ ("  1. [new] a" +:+ nl +:+ nl)
      +:+ ("  2. [new] b" +:+ nl +:+ nl)
      +:+ ("  3. [new] c" +:+ nl)
      +:+ (nl +:+ nl +:+ "> 更新时间：2026-01-01 00:00:00").
Proof. reflexivity. Qed.

Ltac state_simpl :=
  cbn [current_batch current_batch_has_content batches
       t_current t_has_content t_batches forced appended].

Section TraceRefinement.

Variable fmt : string -> TitleItem -> bool -> string.
Variables format_type feishu_separator : string.
Variable max_bytes : Z.
Variables base_header base_footer stats_header : string.
Variable total_count : nat.
Variable new_header : string.

Local Abbreviation ptext :=
  (pieces_text fmt format_type feishu_separator base_header stats_header
     total_count new_header).
Local Abbreviation btext :=
  (batch_text fmt format_type feishu_separator base_header base_footer stats_header
     total_count new_header).
Local Abbreviation trial := (trial_append max_bytes base_footer).
Local Abbreviation t_trial :=
  (t_trial_append fmt format_type feishu_separator max_bytes base_header base_footer
     stats_header total_count new_header).

Lemma pieces_text_app (l1 l2 : list piece) :
  ptext (l1 ++ l2)%list = ptext l1 +:+ ptext l2.
Proof.
  induction l1 as [|p l1 IH]; simpl; [reflexivity |].
  now rewrite IH, str_app_assoc.
Qed.

Lemma pieces_commit (chunk : list piece) (b : tbatch) :
  pieces (commit chunk b) = (pieces b ++ chunk)%list.
Proof. unfold pieces, commit; simpl. now rewrite app_assoc. Qed.

Local Abbreviation refines :=
  (refines fmt format_type feishu_separator base_header base_footer stats_header
     total_count new_header).

Lemma flush_refines ts st :
  refines ts st -> flush base_footer st = map btext (t_flush ts).
Proof.
  intros (Hc & Hh & Hb). unfold flush, t_flush. rewrite Hh, Hb, Hc.
  destruct (t_has_content ts); [|reflexivity].
  now rewrite map_app.
Qed.

Lemma trial_refines ts st chunk reseed c r :
  refines ts st -> ptext chunk = c -> ptext reseed = r ->
  refines (t_trial chunk reseed ts) (trial c r st).
Proof.
  intros Href <- <-. pose proof (flush_refines _ _ Href) as Hf.
  destruct Href as (Hc & Hh & Hb).
  unfold t_trial_append, trial_append.
  rewrite pieces_text_app, Hc.
  destruct (max_bytes <=? _); (split; [| split]); state_simpl;
    try reflexivity; try assumption.
  - unfold pieces; state_simpl. now rewrite app_nil_r.
  - now rewrite pieces_commit, pieces_text_app.
Qed.

Local Abbreviation wheader i stat :=
  (make_word_header format_type i total_count (word stat) (count stat)).
Local Abbreviation sheader source_data :=
  (make_source_header format_type (source_name source_data)
     (length (s_titles source_data))).

Lemma text_stats_item i stat j title_data :
  (1 <= j)%nat ->
  ptext [PStatsItem i stat j title_data]
  = stats_news_line fmt format_type (length (titles stat)) j title_data.
Proof. intros Hj. destruct j; [lia |]. cbn. apply str_app_nil_r. Qed.

Lemma text_new_item k source_data j title_data :
  (1 <= j)%nat ->
  ptext [PNewItem k source_data j title_data]
  = new_news_line fmt format_type j title_data.
Proof. intros Hj. destruct j; [lia |]. cbn. apply str_app_nil_r. Qed.

Lemma text_word_with_first_news i stat :
  ptext (word_with_first_news i stat)
  = wheader i stat +:+ stats_first_news_line fmt format_type (titles stat).
Proof.
  unfold word_with_first_news. destruct (titles stat) as [|t l] eqn:E;
    cbn [pieces_text piece_text fold_right]; rewrite ?E, ?str_app_nil_r; reflexivity.
Qed.

Lemma text_source_with_first_news k source_data :
  ptext (source_with_first_news k source_data)
  = sheader source_data +:+ new_first_news_line fmt format_type (s_titles source_data).
Proof.
  unfold source_with_first_news. destruct (s_titles source_data) as [|t l] eqn:E;
    cbn [pieces_text piece_text fold_right]; rewrite ?E, ?str_app_nil_r; reflexivity.
Qed.

Lemma stats_rest_refines rest : forall i stat j ts st,
  refines ts st -> (1 <= j)%nat ->
  refines
    (t_stats_rest_loop fmt format_type feishu_separator max_bytes base_header
       base_footer stats_header total_count new_header i stat j rest ts)
    (stats_rest_loop fmt format_type max_bytes base_header base_footer stats_header
       (wheader i stat) (length (titles stat)) j rest st).
Proof.
  induction rest as [|t rest IH]; intros i stat j ts st Href Hj; [exact Href |].
  cbn [t_stats_rest_loop stats_rest_loop]. apply IH; [| lia].
  apply trial_refines; [exact Href | now apply text_stats_item |].
  change (ptext [PBaseHeader; PStatsHeader; PWordHeader i stat; PStatsItem i stat j t])
    with (base_header +:+ stats_header +:+ wheader i stat
            +:+ ptext [PStatsItem i stat j t]).
  now rewrite text_stats_item.
Qed.

Lemma append_separator_refines ts st :
  refines ts st ->
  refines
    (t_append_separator fmt format_type feishu_separator max_bytes base_header
       base_footer stats_header total_count new_header ts)
    (append_separator format_type feishu_separator max_bytes base_footer st).
Proof.
  intros Href. pose proof Href as (Hc & Hh & Hb).
  unfold t_append_separator, append_separator.
  rewrite pieces_text_app, Hc.
  change (ptext [PSeparator]) with (stats_separator format_type feishu_separator +:+ "").
  rewrite str_app_nil_r.
  destruct (_ <? max_bytes); [| exact Href].
  split; [| split]; state_simpl; [| exact Hh | exact Hb].
  rewrite pieces_commit, pieces_text_app.
  change (ptext [PSeparator]) with (stats_separator format_type feishu_separator +:+ "").
  now rewrite str_app_nil_r.
Qed.

Lemma append_stats_header_refines ts st :
  refines ts st ->
  refines
    (t_append_stats_header fmt format_type feishu_separator max_bytes base_header
       base_footer stats_header total_count new_header ts)
    (append_stats_header max_bytes base_header base_footer stats_header st).
Proof.
  intros Href. pose proof (flush_refines _ _ Href) as Hf.
  destruct Href as (Hc & Hh & Hb).
  unfold t_append_stats_header, append_stats_header.
  rewrite pieces_text_app, Hc.
  change (ptext [PStatsHeader]) with (stats_header +:+ "").
  rewrite str_app_nil_r.
  destruct (_ <? max_bytes); (split; [| split]); state_simpl;
    try reflexivity; try assumption.
  - rewrite pieces_commit, pieces_text_app.
    change (ptext [PStatsHeader]) with (stats_header +:+ "").
    now rewrite str_app_nil_r.
  - change (ptext (pieces (mkTBatch [PBaseHeader; PStatsHeader] [])))
      with (base_header +:+ stats_header +:+ "").
    now rewrite str_app_nil_r.
Qed.

Lemma stats_group_step_refines n_stats i stat ts st :
  refines ts st ->
  refines
    (t_stats_group_step fmt format_type feishu_separator max_bytes base_header
       base_footer stats_header total_count new_header n_stats i stat ts)
    (stats_group_step fmt format_type feishu_separator max_bytes base_header
       base_footer stats_header total_count n_stats i stat st).
Proof.
  intros Href. unfold t_stats_group_step, stats_group_step.
  cbv zeta.
  assert (Hstep : forall ts' st', refines ts' st' ->
            refines
              (if Z.of_nat i <? Z.of_nat n_stats - 1
               then t_append_separator fmt format_type feishu_separator max_bytes
                      base_header base_footer stats_header total_count new_header ts'
               else ts')
              (if Z.of_nat i <? Z.of_nat n_stats - 1
               then append_separator format_type feishu_separator max_bytes
                      base_footer st'
               else st')).
  { intros ts' st' H. destruct (_ <? _); [now apply append_separator_refines | exact H]. }
  apply Hstep. apply stats_rest_refines; [| lia].
  apply trial_refines; [exact Href | apply text_word_with_first_news |].
  change (ptext (PBaseHeader :: PStatsHeader :: word_with_first_news i stat))
    with (base_header +:+ stats_header +:+ ptext (word_with_first_news i stat)).
  now rewrite text_word_with_first_news.
Qed.

Lemma stats_groups_refines n_stats l : forall i ts st,
  refines ts st ->
  refines
    (t_stats_groups_loop fmt format_type feishu_separator max_bytes base_header
       base_footer stats_header total_count new_header n_stats i l ts)
    (stats_groups_loop fmt format_type feishu_separator max_bytes base_header
       base_footer stats_header total_count n_stats i l st).
Proof.
  induction l as [|stat l IH]; intros i ts st Href; [exact Href |].
  cbn [t_stats_groups_loop stats_groups_loop].
  apply IH. now apply stats_group_step_refines.
Qed.

Lemma new_rest_refines rest : forall k source_data j ts st,
  refines ts st -> (1 <= j)%nat ->
  refines
    (t_new_rest_loop fmt format_type feishu_separator max_bytes base_header
       base_footer stats_header total_count new_header k source_data j rest ts)
    (new_rest_loop fmt format_type max_bytes base_header base_footer new_header
       (sheader source_data) j rest st).
Proof.
  induction rest as [|t rest IH]; intros k source_data j ts st Href Hj; [exact Href |].
  cbn [t_new_rest_loop new_rest_loop]. apply IH; [| lia].
  apply trial_refines; [exact Href | now apply text_new_item |].
  change (ptext [PBaseHeader; PNewHeader; PSourceHeader k source_data;
                 PNewItem k source_data j t])
    with (base_header +:+ new_header +:+ sheader source_data
            +:+ ptext [PNewItem k source_data j t]).
  now rewrite text_new_item.
Qed.

Lemma new_group_step_refines k source_data ts st :
  refines ts st ->
  refines
    (t_new_group_step fmt format_type feishu_separator max_bytes base_header
       base_footer stats_header total_count new_header k source_data ts)
    (new_group_step fmt format_type max_bytes base_header base_footer new_header
       source_data st).
Proof.
  intros Href. unfold t_new_group_step, new_group_step. cbv zeta.
  match goal with
  | |- refines (mkTState (commit _ (t_current ?a)) _ _) (mkState (current_batch ?b +:+ _) _ _) =>
      assert (H : refines a b)
  end.
  { apply new_rest_refines; [| lia].
    apply trial_refines; [exact Href | apply text_source_with_first_news |].
    change (ptext (PBaseHeader :: PNewHeader :: source_with_first_news k source_data))
      with (base_header +:+ new_header +:+ ptext (source_with_first_news k source_data)).
    now rewrite text_source_with_first_news. }
  destruct H as (Hc & Hh & Hb).
  split; [| split]; state_simpl; [| exact Hh | exact Hb].
  rewrite pieces_commit, pieces_text_app, Hc.
  change (ptext [PLineFeed]) with (nl +:+ ""). now rewrite str_app_nil_r.
Qed.

Lemma new_groups_refines l : forall k ts st,
  refines ts st ->
  refines
    (t_new_groups_loop fmt format_type feishu_separator max_bytes base_header
       base_footer stats_header total_count new_header k l ts)
    (new_groups_loop fmt format_type max_bytes base_header base_footer new_header l st).
Proof.
  induction l as [|s l IH]; intros k ts st Href; [exact Href |].
  cbn [t_new_groups_loop new_groups_loop].
  apply IH. now apply new_group_step_refines.
Qed.

Lemma failed_loop_refines l : forall ts st,
  refines ts st ->
  refines
    (t_failed_loop fmt format_type feishu_separator max_bytes base_header
       base_footer stats_header total_count new_header l ts)
    (failed_loop format_type max_bytes base_header base_footer
       (make_failed_header format_type feishu_separator) l st).
Proof.
  induction l as [|id l IH]; intros ts st Href; [exact Href |].
  cbn [t_failed_loop failed_loop]. apply IH.
  apply trial_refines; [exact Href | |].
  - change (ptext [PFailedLine id]) with (make_failed_line format_type id +:+ "").
    apply str_app_nil_r.
  - change (ptext [PBaseHeader; PFailedHeader; PFailedLine id])
      with (base_header +:+ make_failed_header format_type feishu_separator
              +:+ make_failed_line format_type id +:+ "").
    now rewrite str_app_nil_r.
Qed.

Lemma process_stats_refines l ts st :
  total_count = length l ->
  refines ts st ->
  refines
    (t_process_stats_section fmt format_type feishu_separator max_bytes base_header
       base_footer stats_header total_count new_header l ts)
    (process_stats_section fmt format_type feishu_separator max_bytes base_header
       base_footer stats_header l st).
Proof.
  intros Hn Href. unfold t_process_stats_section, process_stats_section.
  destruct l as [|stat l]; [exact Href |]. cbv zeta. rewrite <- Hn.
  apply stats_groups_refines. now apply append_stats_header_refines.
Qed.

Lemma process_new_titles_refines max_total total_new l ts st :
  new_header = make_new_header format_type feishu_separator max_total
                 (actual_new_count_of l) total_new ->
  refines ts st ->
  refines
    (t_process_new_titles_section fmt format_type feishu_separator max_bytes
       base_header base_footer stats_header total_count new_header l ts)
    (process_new_titles_section fmt format_type feishu_separator max_bytes
       base_header base_footer max_total total_new l st).
Proof.
  intros Hn Href. unfold t_process_new_titles_section, process_new_titles_section.
  destruct l as [|s l]; [exact Href |]. cbv zeta. rewrite <- Hn.
  apply new_groups_refines. apply trial_refines; [exact Href | |].
  - change (ptext [PNewHeader]) with (new_header +:+ ""). apply str_app_nil_r.
  - change (ptext [PBaseHeader; PNewHeader]) with (base_header +:+ new_header +:+ "").
    now rewrite str_app_nil_r.
Qed.

Lemma process_failed_refines l ts st :
  refines ts st ->
  refines
    (t_process_failed_section fmt format_type feishu_separator max_bytes base_header
       base_footer stats_header total_count new_header l ts)
    (process_failed_section format_type feishu_separator max_bytes base_header
       base_footer l st).
Proof.
  intros Href. unfold t_process_failed_section, process_failed_section.
  destruct l as [|s l]; [exact Href |]. cbv zeta.
  apply failed_loop_refines. apply trial_refines; [exact Href | |].
  - change (ptext [PFailedHeader])
      with (make_failed_header format_type feishu_separator +:+ "").
    apply str_app_nil_r.
  - change (ptext [PBaseHeader; PFailedHeader])
      with (base_header +:+ make_failed_header format_type feishu_separator +:+ "").
    now rewrite str_app_nil_r.
Qed.

End TraceRefinement.

(** The chunk-level run yields the strings of [split_with_budget]. *)
Lemma split_trace_text fmt format_type feishu_separator max_bytes report_data
    update_info mode reverse_content_order max_total_news_in_push show_stats_in_push now :
  let truncated_report_data :=
    split_preprocess report_data max_total_news_in_push show_stats_in_push in
  map (batch_text fmt format_type feishu_separator
         (make_base_header format_type (total_titles_of (stats truncated_report_data)) now)
         (make_base_footer format_type now update_info)
         (make_stats_header format_type (stats truncated_report_data))
         (length (stats truncated_report_data))
         (make_new_header format_type feishu_separator max_total_news_in_push
            (actual_new_count_of (new_titles truncated_report_data))
            (total_new_count report_data)))
    (split_trace fmt format_type feishu_separator max_bytes report_data update_info mode
       reverse_content_order max_total_news_in_push show_stats_in_push now)
  = split_with_budget fmt format_type feishu_separator max_bytes report_data update_info
      mode reverse_content_order max_total_news_in_push show_stats_in_push now.
Proof.
  intros trd. unfold split_trace, split_with_budget. fold trd. cbv zeta.
  destruct (negb (nonempty (stats trd)) && negb (nonempty (new_titles trd))
            && negb (nonempty (failed_ids report_data))).
  - cbn [map]. unfold batch_text, pieces. state_simpl. rewrite app_nil_r.
    cbn [pieces_text piece_text fold_right]. now rewrite !str_app_nil_r, str_app_assoc.
  - symmetry. eapply flush_refines.
    apply process_failed_refines.
    assert (H0 : refines fmt format_type feishu_separator
                   (make_base_header format_type (total_titles_of (stats trd)) now)
                   (make_base_footer format_type now update_info)
                   (make_stats_header format_type (stats trd))
                   (length (stats trd))
                   (make_new_header format_type feishu_separator max_total_news_in_push
                      (actual_new_count_of (new_titles trd)) (total_new_count report_data))
                   (mkTState (mkTBatch [PBaseHeader] []) false [])
                   (mkState (make_base_header format_type
                               (total_titles_of (stats trd)) now) false [])).
    { split; [| split]; state_simpl; try reflexivity.
      unfold pieces; state_simpl. cbn [app pieces_text piece_text fold_right].
      now rewrite str_app_nil_r. }
    destruct reverse_content_order.
    + apply process_stats_refines; [reflexivity |].
      apply process_new_titles_refines; [reflexivity | exact H0].
    + apply process_new_titles_refines; [reflexivity |].
      apply process_stats_refines; [reflexivity | exact H0].
Qed.


(** ** Budget resolution *)

Lemma eqb_true_eq (a b : string) : String.eqb a b = true -> a = b.
Proof. apply String.eqb_eq. Qed.

Lemma sizes_lookup (b : gmap string Z) (k : string) (d : Z) :
  DEFAULT_BATCH_SIZES !! k = Some d ->
  dict_get (b ∪ DEFAULT_BATCH_SIZES) k d = match b !! k with Some v => v | None => d end.
Proof.
  intros Hk. unfold dict_get. rewrite lookup_union.
  destruct (b !! k) as [v|]; rewrite Hk; reflexivity.
Qed.

(** C8.  With [max_bytes = None] and no [batch_sizes] the budget is 20000
    for "dingtalk", 29000 for "feishu", 3800 for "ntfy" and 4000 for every
    other format type; a [batch_sizes] mapping replaces the budget of a
    platform by its entry under the key that platform reads ([size_key]:
    the platform's own name for these three, "default" for all others) and
    leaves it alone when it has no such entry; an explicit [max_bytes] is
    used as it is. *)
Theorem default_budget_resolution :
  (forall format_type,
     resolve_max_bytes format_type None None
     = if String.eqb format_type "dingtalk" then 20000
       else if String.eqb format_type "feishu" then 29000
       else if String.eqb format_type "ntfy" then 3800
       else 4000)
  /\ (forall format_type batch_sizes,
        resolve_max_bytes format_type None (Some batch_sizes)
        = match batch_sizes !! size_key format_type with
          | Some v => v
          | None => resolve_max_bytes format_type None None
          end)
  /\ (forall format_type m batch_sizes,
        resolve_max_bytes format_type (Some m) batch_sizes = m)
  /\ (forall fmt report_data format_type update_info mode batch_sizes feishu_separator
             reverse_content_order max_total_news_in_push show_stats_in_push now,
        split_content_into_batches fmt report_data format_type update_info None mode
          batch_sizes feishu_separator reverse_content_order max_total_news_in_push
          show_stats_in_push now
        = split_with_budget fmt format_type feishu_separator
            (resolve_max_bytes format_type None batch_sizes) report_data update_info
            mode reverse_content_order max_total_news_in_push show_stats_in_push now).
Proof.
  assert (Hdefault : forall format_type,
            resolve_max_bytes format_type None None
            = if String.eqb format_type "dingtalk" then 20000
              else if String.eqb format_type "feishu" then 29000
              else if String.eqb format_type "ntfy" then 3800
              else 4000).
  { intros format_type. unfold resolve_max_bytes.
    rewrite !(sizes_lookup ∅) by reflexivity. rewrite !lookup_empty.
    reflexivity. }
  split; [exact Hdefault |]. split; [| split; [reflexivity | reflexivity]].
  intros format_type batch_sizes. rewrite Hdefault.
  unfold resolve_max_bytes, size_key, str_in. cbn [existsb orb].
  destruct (String.eqb format_type "dingtalk") eqn:E1.
  { apply eqb_true_eq in E1 as ->. cbn [orb]. now rewrite sizes_lookup. }
  destruct (String.eqb format_type "feishu") eqn:E2.
  { apply eqb_true_eq in E2 as ->. cbn [orb]. now rewrite sizes_lookup. }
  destruct (String.eqb format_type "ntfy") eqn:E3.
  { apply eqb_true_eq in E3 as ->. cbn [orb]. now rewrite sizes_lookup. }
  cbn [orb]. now rewrite sizes_lookup.
Qed.

(** ** The separator between word groups *)

(** C7.  The separator between consecutive word groups is appended exactly
    when the batch with the separator and the footer stays strictly below
    the budget; otherwise the separator is dropped and the accumulator is
    returned unchanged.  In both cases no batch is finished or started:
    [batches] and the has-content flag stay as they are.  This step is what
    the round of every word group but the last ends with. *)
Theorem separator_trial_without_flush :
  forall fmt format_type feishu_separator max_bytes base_header base_footer stats_header
         total_count n_stats i stat st,
    let separator := stats_separator format_type feishu_separator in
    let fits :=
      py_len (current_batch st +:+ separator) + py_len base_footer <? max_bytes in
    let st' := append_separator format_type feishu_separator max_bytes base_footer st in
    st' = (if fits
           then mkState (current_batch st +:+ separator)
                  (current_batch_has_content st) (batches st)
           else st)
    /\ batches st' = batches st
    /\ current_batch_has_content st' = current_batch_has_content st
    /\ length (flush base_footer st') = length (flush base_footer st)
    /\ stats_group_step fmt format_type feishu_separator max_bytes base_header
         base_footer stats_header total_count n_stats i stat st
       = let word_header :=
           make_word_header format_type i total_count (word stat) (count stat) in
         let unit :=
           word_header +:+ stats_first_news_line fmt format_type (titles stat) in
         let after_items :=
           stats_rest_loop fmt format_type max_bytes base_header base_footer
             stats_header word_header (length (titles stat)) 1 (skipn 1 (titles stat))
             (trial_append max_bytes base_footer unit
                (base_header +:+ stats_header +:+ unit) st) in
         if Z.of_nat i <? Z.of_nat n_stats - 1
         then append_separator format_type feishu_separator max_bytes base_footer
                after_items
         else after_items.
Proof.
  intros fmt format_type feishu_separator max_bytes base_header base_footer stats_header
    total_count n_stats i stat st separator fits st'.
  subst st' fits separator. unfold append_separator, flush.
  destruct (_ <? max_bytes); repeat split; try reflexivity.
  cbn [current_batch_has_content batches current_batch].
  destruct (current_batch_has_content st); [| reflexivity].
  now rewrite !length_app.
Qed.

(** ** Item lines of the new-items section *)

Lemma new_groups_loop_ntfy f1 f2 max_bytes base_header base_footer new_header l :
  forall st,
  new_groups_loop f1 "ntfy" max_bytes base_header base_footer new_header l st
  = new_groups_loop f2 "ntfy" max_bytes base_header base_footer new_header l st.
Proof.
  induction l as [|s l IH]; intros st; [reflexivity |].
  cbn [new_groups_loop]. rewrite IH. f_equal.
Qed.

Lemma process_new_titles_section_ntfy f1 f2 feishu_separator max_bytes base_header
    base_footer max_total total_new l st :
  process_new_titles_section f1 "ntfy" feishu_separator max_bytes base_header
    base_footer max_total total_new l st
  = process_new_titles_section f2 "ntfy" feishu_separator max_bytes base_header
      base_footer max_total total_new l st.
Proof.
  unfold process_new_titles_section.
  destruct l; [reflexivity |]. cbv zeta. apply new_groups_loop_ntfy.
Qed.

(** C10.  For "ntfy" both kinds of item line of the new-items section are
    built from the raw title, whatever the formatter is, while the
    statistics lines of "ntfy" hold the formatter's text; for "bark" the
    first line of a source group holds the "wework" formatter's text (on the
    copy with [is_new] cleared) and the later lines the raw title.  As a
    consequence, an "ntfy" run without a statistics section yields the same
    batches for any two formatters. *)
Theorem new_items_formatter_bypass :
  forall (fmt fmt' : string -> TitleItem -> bool -> string)
         (first_title_data title_data : TitleItem) (rest : list TitleItem) (n j : nat),
    new_first_news_line fmt "ntfy" (first_title_data :: rest)
      = "  1. " +:+ title first_title_data +:+ nl
    /\ new_news_line fmt "ntfy" j title_data
        = "  " +:+ string_of_nat (j + 1) +:+ ". " +:+ title title_data +:+ nl
    /\ stats_first_news_line fmt "ntfy" (first_title_data :: rest)
        = ("  1. " +:+ fmt "ntfy" first_title_data true +:+ nl)
          +:+ (if (1 <? length (first_title_data :: rest))%nat then nl else "")
    /\ stats_news_line fmt "ntfy" n j title_data
        = ("  " +:+ string_of_nat (j + 1) +:+ ". " +:+ fmt "ntfy" title_data true +:+ nl)
          +:+ (if Z.of_nat j <? Z.of_nat n - 1 then nl else "")
    /\ new_first_news_line fmt "bark" (first_title_data :: rest)
        = "  1. " +:+ fmt "wework" (set_is_new first_title_data false) false +:+ nl
    /\ new_news_line fmt "bark" j title_data
        = "  " +:+ string_of_nat (j + 1) +:+ ". " +:+ title title_data +:+ nl
    /\ (forall report_data update_info max_bytes mode batch_sizes feishu_separator
                reverse_content_order max_total_news_in_push now,
           split_content_into_batches fmt report_data "ntfy" update_info max_bytes mode
             batch_sizes feishu_separator reverse_content_order max_total_news_in_push
             false now
           = split_content_into_batches fmt' report_data "ntfy" update_info max_bytes
               mode batch_sizes feishu_separator reverse_content_order
               max_total_news_in_push false now).
Proof.
  intros fmt fmt' first_title_data title_data rest n j.
  repeat (split; [reflexivity |]).
  intros report_data update_info max_bytes mode batch_sizes feishu_separator
    reverse_content_order max_total_news_in_push now.
  unfold split_content_into_batches, split_with_budget. cbv zeta.
  set (trd := split_preprocess report_data max_total_news_in_push false).
  assert (Hs : stats trd = []).
  { subst trd. unfold split_preprocess. cbn [andb negb].
    destruct (0 <? max_total_news_in_push); [| reflexivity].
    destruct (truncate_new_titles _ _ _ _). reflexivity. }
  rewrite Hs. cbn [process_stats_section].
  destruct (negb (nonempty []) && _ && _); [reflexivity |].
  rewrite !(process_new_titles_section_ntfy fmt fmt'). reflexivity.
Qed.

(** ** Suppressed statistics *)

(** With [show_stats_in_push] false the splitter's pre-processing leaves no
    statistics group and touches [new_titles] by truncation only. *)
Lemma split_preprocess_hidden_stats {T} (report_data : ReportData T) (max_total : Z) :
  stats (split_preprocess report_data max_total false) = []
  /\ new_titles (split_preprocess report_data max_total false)
     = if 0 <? max_total
       then fst (truncate_new_titles max_total (new_titles report_data) 0 [])
       else new_titles report_data.
Proof.
  unfold split_preprocess. cbn [andb negb].
  destruct (0 <? max_total); [| split; reflexivity].
  destruct (truncate_new_titles _ _ _ _). split; reflexivity.
Qed.

Lemma render_preprocess_hidden_stats {T} (stat : StatGroup T) (more : list (StatGroup T))
    (news : list (SourceGroup T)) (failed : list string) (total_new max_total : Z) :
  let report_data := mkReport (stat :: more) news failed total_new in
  let flattened := mkSource FLAT_SOURCE_NAME (flat_map titles (stat :: more)) in
  truncated_stats (render_preprocess report_data max_total false) = []
  /\ truncated_new_titles (render_preprocess report_data max_total false)
     = if 0 <? max_total
       then fst (truncate_new_titles max_total (flattened :: news) 0 [])
       else flattened :: news.
Proof.
  intros report_data flattened. unfold render_preprocess, flatten_stats.
  cbn [andb negb stats new_titles report_data nonempty].
  assert (Hall : (if nonempty news then ([flattened] ++ news)%list else [flattened])
                 = flattened :: news).
  { destruct news; reflexivity. }
  fold flattened. rewrite Hall.
  destruct (0 <? max_total); [| split; reflexivity].
  destruct (truncate_new_titles _ _ _ _). split; reflexivity.
Qed.

(** C4, as stated, fails for the splitter: on [hidden_stats_report] with
    statistics suppressed its pre-processed new-items groups are empty, not
    the synthetic group with the statistic's title, and the single batch it
    returns is the "no matches" message, in which the title does not
    appear. *)
Lemma splitter_does_not_flatten :
  new_titles (split_preprocess hidden_stats_report 0 false)
    <> mkSource FLAT_SOURCE_NAME (flat_map titles (stats hidden_stats_report))
         :: new_titles hidden_stats_report
  /\ new_titles (split_preprocess hidden_stats_report 5 false)
    <> mkSource FLAT_SOURCE_NAME (flat_map titles (stats hidden_stats_report))
         :: new_titles hidden_stats_report
  /\ split_content_into_batches sample_formatter hidden_stats_report "feishu" None None
       "daily" None "---" false 5 false "2026-01-01 00:00:00"
     = [make_base_header "feishu" 0 "2026-01-01 00:00:00"
          +:+ simple_content "daily"
          +:+ make_base_footer "feishu" "2026-01-01 00:00:00" None].
Proof.
  split; [| split].
  - cbn. discriminate.
  - cbn. discriminate.
  - reflexivity.
Qed.

(** C4, amended.  With [show_stats_in_push] false and a non-empty [stats]
    the two renderers flatten: their statistics groups are empty and their
    new-items groups are the synthetic group named [FLAT_SOURCE_NAME] holding
    all statistics titles in order, followed by the report's [new_titles]
    (truncated when a maximum is set).  The splitter does not flatten: its
    statistics groups are empty and its new-items groups are the report's
    [new_titles] (truncated when a maximum is set), so the statistics titles
    are not part of what it splits. *)
Theorem flattening_in_renderers_only :
  forall (T : Type) (stat : StatGroup T) (more : list (StatGroup T))
         (news : list (SourceGroup T)) (failed : list string) (total_new max_total : Z),
    let report_data := mkReport (stat :: more) news failed total_new in
    let flattened := mkSource FLAT_SOURCE_NAME (flat_map titles (stat :: more)) in
    (truncated_stats (render_preprocess report_data max_total false) = []
     /\ truncated_new_titles (render_preprocess report_data max_total false)
        = if 0 <? max_total
          then fst (truncate_new_titles max_total (flattened :: news) 0 [])
          else flattened :: news)
    /\ (stats (split_preprocess report_data max_total false) = []
        /\ new_titles (split_preprocess report_data max_total false)
           = if 0 <? max_total
             then fst (truncate_new_titles max_total news 0 [])
             else news).
Proof.
  intros T stat more news failed total_new max_total report_data flattened. split.
  - apply render_preprocess_hidden_stats.
  - apply (split_preprocess_hidden_stats report_data max_total).
Qed.

(** ** A batch without content *)

(** C6 fails on "slack" (and on "bark"), whose failed-sources header is the
    empty string: appending it leaves the buffer at the base header but
    sets the has-content flag, and when the first failed line does not fit,
    that buffer is finished as a batch.  The first batch of this run is the
    base header followed by the base footer. *)
Lemma empty_batch_on_slack :
  split_content_into_batches sample_formatter failed_only_report "slack" None (Some 66)
    "daily" None "---" false 0 true "2026-01-01 00:00:00"
  = [make_base_header "slack" 0 "2026-01-01 00:00:00"
       +:+ make_base_footer "slack" "2026-01-01 00:00:00" None;
     make_base_header "slack" 0 "2026-01-01 00:00:00" +:+ make_failed_line "slack" "x"
       +:+ make_base_footer "slack" "2026-01-01 00:00:00" None]
  /\ split_content_into_batches sample_formatter failed_only_report "bark" None (Some 66)
       "daily" None "---" false 0 true "2026-01-01 00:00:00"
     = [make_base_header "bark" 0 "2026-01-01 00:00:00"
          +:+ make_base_footer "bark" "2026-01-01 00:00:00" None;
        make_base_header "bark" 0 "2026-01-01 00:00:00" +:+ make_failed_line "bark" "x"
          +:+ make_base_footer "bark" "2026-01-01 00:00:00" None].
Proof. split; reflexivity. Qed.

(** ** Truncation *)

Lemma py_slice_to_pos {A} (r : Z) (l : list A) :
  0 < r -> py_slice_to r l = firstn (Z.to_nat r) l.
Proof.
  intros Hr. unfold py_slice_to.
  destruct (Z.ltb_spec r 0); [lia | reflexivity].
Qed.

Section TruncateNew.

Context {T : Type}.
Implicit Types (l acc : list (SourceGroup T)) (M total : Z).

Lemma truncate_new_titles_acc l : forall M total acc,
  truncate_new_titles M l total acc
  = ((acc ++ fst (truncate_new_titles M l total []))%list,
     snd (truncate_new_titles M l total [])).
Proof.
  induction l as [|g l IH]; intros M total acc; cbn [truncate_new_titles].
  - cbn. now rewrite app_nil_r.
  - destruct (M <=? total); [cbn; now rewrite app_nil_r |].
    cbv zeta. destruct (py_slice_to (M - total) (s_titles g)) as [|t tl].
    + apply IH.
    + rewrite IH. rewrite (IH _ _ ([] ++ _)%list). cbn [fst snd].
      now rewrite <- app_assoc.
Qed.

(** One round of the loop, with the budget not yet spent. *)
Lemma truncate_new_titles_step g l M total :
  total < M ->
  fst (truncate_new_titles M (g :: l) total [])
  = match firstn (Z.to_nat (M - total)) (s_titles g) with
    | [] => fst (truncate_new_titles M l total [])
    | tl =>
        mkSource (source_name g) tl
          :: fst (truncate_new_titles M l (total + Z.of_nat (length tl)) [])
    end
  /\ snd (truncate_new_titles M (g :: l) total [])
     = match firstn (Z.to_nat (M - total)) (s_titles g) with
       | [] => snd (truncate_new_titles M l total [])
       | tl => snd (truncate_new_titles M l (total + Z.of_nat (length tl)) [])
       end.
Proof.
  intros Hlt. cbn [truncate_new_titles].
  destruct (Z.leb_spec M total); [lia |]. cbv zeta.
  rewrite py_slice_to_pos by lia.
  destruct (firstn (Z.to_nat (M - total)) (s_titles g)) as [|t tl]; [split; reflexivity |].
  rewrite truncate_new_titles_acc. split; reflexivity.
Qed.

Lemma truncate_new_titles_spent l M total acc :
  M <= total -> truncate_new_titles M l total acc = (acc, total).
Proof.
  intros Hle. destruct l as [|g l]; [reflexivity |]. cbn [truncate_new_titles].
  destruct (Z.leb_spec M total); [reflexivity | lia].
Qed.

Lemma truncate_new_titles_flat l : forall M total,
  flat_map s_titles (fst (truncate_new_titles M l total []))
  = firstn (Z.to_nat (M - total)) (flat_map s_titles l).
Proof.
  induction l as [|g l IH]; intros M total.
  - cbn. now rewrite firstn_nil.
  - destruct (Z.le_gt_cases M total) as [Hle | Hlt].
    + rewrite truncate_new_titles_spent by lia.
      replace (Z.to_nat (M - total)) with 0%nat by lia. reflexivity.
    + destruct (truncate_new_titles_step g l M total ltac:(lia)) as [-> _].
      cbn [flat_map]. rewrite firstn_app.
      destruct (firstn (Z.to_nat (M - total)) (s_titles g)) as [|t tl] eqn:E.
      * assert (Hnil : s_titles g = []).
        { destruct (s_titles g); [reflexivity |].
          destruct (Z.to_nat (M - total)) eqn:En; [lia | discriminate]. }
        rewrite Hnil. cbn [length app]. rewrite Nat.sub_0_r. apply IH.
      * cbn [flat_map]. rewrite IH. f_equal. f_equal.
        assert (Hlen : length (t :: tl)
                       = Nat.min (Z.to_nat (M - total)) (length (s_titles g))).
        { rewrite <- E. apply length_firstn. }
        lia.
Qed.

Lemma truncate_new_titles_total l : forall M total,
  snd (truncate_new_titles M l total [])
  = total + Z.of_nat (length (flat_map s_titles (fst (truncate_new_titles M l total [])))).
Proof.
  induction l as [|g l IH]; intros M total.
  - cbn. lia.
  - destruct (Z.le_gt_cases M total) as [Hle | Hlt].
    + rewrite truncate_new_titles_spent by lia. cbn. lia.
    + destruct (truncate_new_titles_step g l M total ltac:(lia)) as [-> ->].
      destruct (firstn (Z.to_nat (M - total)) (s_titles g)) as [|t tl]; [apply IH |].
      rewrite IH. cbn [flat_map s_titles]. rewrite length_app. lia.
Qed.

Lemma truncate_new_titles_kept l : forall M total,
  kept_prefixes (map source_view (fst (truncate_new_titles M l total [])))
    (map source_view l).
Proof.
  induction l as [|g l IH]; intros M total.
  - cbn. constructor.
  - destruct (Z.le_gt_cases M total) as [Hle | Hlt].
    + rewrite truncate_new_titles_spent by lia. cbn. constructor.
    + destruct (truncate_new_titles_step g l M total ltac:(lia)) as [-> _].
      destruct (firstn (Z.to_nat (M - total)) (s_titles g)) as [|t tl] eqn:E.
      * cbn [map]. apply kept_drop, IH.
      * cbn [map]. unfold source_view at 1 3. cbn [source_name s_titles].
        apply kept_keep; [| discriminate | apply IH].
        rewrite <- E. exists (skipn (Z.to_nat (M - total)) (s_titles g)).
        symmetry. apply firstn_skipn.
Qed.

End TruncateNew.

Lemma truncate_stats_as_new {T} (l : list (StatGroup T)) : forall M total acc,
  map as_source (fst (truncate_stats M l total acc))
  = fst (truncate_new_titles M (map as_source l) total (map as_source acc))
  /\ snd (truncate_stats M l total acc)
     = snd (truncate_new_titles M (map as_source l) total (map as_source acc)).
Proof.
  induction l as [|g l IH]; intros M total acc; cbn [truncate_stats truncate_new_titles map].
  - split; reflexivity.
  - destruct (M <=? total); [split; reflexivity |]. cbv zeta.
    cbn [as_source s_titles source_name].
    destruct (py_slice_to (M - total) (titles g)) as [|t tl]; [apply IH |].
    specialize (IH M (total + Z.of_nat (length (t :: tl)))
                  (acc ++ [mkStat (word g) (Z.of_nat (length (t :: tl))) (t :: tl)])%list).
    rewrite map_app in IH. exact IH.
Qed.

Lemma truncate_stats_count {T} (l : list (StatGroup T)) : forall M total acc,
  Forall (fun g => count g = Z.of_nat (length (titles g))) acc ->
  Forall (fun g => count g = Z.of_nat (length (titles g)))
    (fst (truncate_stats M l total acc)).
Proof.
  induction l as [|g l IH]; intros M total acc Hacc; cbn [truncate_stats]; [exact Hacc |].
  destruct (M <=? total); [exact Hacc |]. cbv zeta.
  destruct (py_slice_to (M - total) (titles g)) as [|t tl]; [now apply IH |].
  apply IH. apply Forall_app. split; [exact Hacc |].
  constructor; [reflexivity | constructor].
Qed.

Lemma flat_map_as_source {T} (l : list (StatGroup T)) :
  flat_map s_titles (map as_source l) = flat_map titles l.
Proof. induction l as [|g l IH]; [reflexivity |]. cbn. now rewrite IH. Qed.

Lemma source_view_as_source {T} (l : list (StatGroup T)) :
  map source_view (map as_source l) = map stat_view l.
Proof. induction l as [|g l IH]; [reflexivity |]. cbn. now rewrite IH. Qed.

(** The two loops run one after the other keep the first [M] titles. *)
Lemma truncate_both {T} (M : Z) (in_stats : list (StatGroup T))
    (in_new : list (SourceGroup T)) :
  0 < M ->
  let r1 := truncate_stats M in_stats 0 [] in
  let r2 := truncate_new_titles M in_new (snd r1) [] in
  truncated_to M in_stats in_new (fst r1) (fst r2).
Proof.
  intros HM r1 r2.
  destruct (truncate_stats_as_new in_stats M 0 []) as [Hfst Hsnd]. cbn [map] in Hfst, Hsnd.
  fold r1 in Hfst, Hsnd.
  assert (Hflat1 : flat_map titles (fst r1) = firstn (Z.to_nat M) (flat_map titles in_stats)).
  { rewrite <- flat_map_as_source, Hfst, truncate_new_titles_flat, flat_map_as_source.
    now rewrite Z.sub_0_r. }
  assert (Hsnd1 : snd r1 = Z.of_nat (length (flat_map titles (fst r1)))).
  { rewrite Hsnd, truncate_new_titles_total, <- Hfst, flat_map_as_source. lia. }
  assert (Hflat2 : flat_map s_titles (fst r2)
                   = firstn (Z.to_nat (M - snd r1)) (flat_map s_titles in_new)).
  { apply truncate_new_titles_flat. }
  assert (Hlen1 : length (flat_map titles (fst r1))
                  = Nat.min (Z.to_nat M) (length (flat_map titles in_stats))).
  { rewrite Hflat1. apply length_firstn. }
  assert (Hlen2 : length (flat_map s_titles (fst r2))
                  = Nat.min (Z.to_nat (M - snd r1)) (length (flat_map s_titles in_new))).
  { rewrite Hflat2. apply length_firstn. }
  repeat split.
  - lia.
  - rewrite <- !source_view_as_source, Hfst. apply truncate_new_titles_kept.
  - apply truncate_new_titles_kept.
  - apply truncate_stats_count. constructor.
  - rewrite firstn_app, <- Hflat1, Hflat2. f_equal. f_equal. lia.
Qed.

(** The statistics loop as both pre-processings guard it, then the
    new-items loop. *)
Lemma truncate_guarded {T} (M : Z) (show : bool) (in_stats : list (StatGroup T))
    (in_new : list (SourceGroup T)) :
  0 < M ->
  let r1 := if show && nonempty in_stats
            then truncate_stats M in_stats 0 [] else ([], 0) in
  truncated_to M (if show then in_stats else []) in_new (fst r1)
    (fst (truncate_new_titles M in_new (snd r1) [])).
Proof.
  intros HM. destruct show; cbn [andb].
  - destruct in_stats as [|g l]; cbn [nonempty].
    + apply (truncate_both M [] in_new HM).
    + apply (truncate_both M (g :: l) in_new HM).
  - apply (truncate_both M [] in_new HM).
Qed.

(** C5.  For a maximum [M > 0], the groups kept by the pre-processing of
    the splitter and of the two renderers (which truncate the flattened
    new-items groups) hold at most [M] titles in all; they are, in input
    order, groups of the input cut to non-empty prefixes of their titles,
    statistics groups being walked only when statistics are shown, with
    [count] reset to the number of titles kept; and the titles kept are
    exactly the first [M] titles of the input, so that nothing is taken
    once the budget is spent. *)
Theorem truncation_cap_and_prefixes :
  forall (T : Type) (report_data : ReportData T) (M : Z) (show_stats_in_push : bool),
    0 < M ->
    let shown_stats := if show_stats_in_push then stats report_data else [] in
    let trd := split_preprocess report_data M show_stats_in_push in
    let p := render_preprocess report_data M show_stats_in_push in
    truncated_to M shown_stats (new_titles report_data) (stats trd) (new_titles trd)
    /\ truncated_to M shown_stats (fst (flatten_stats report_data show_stats_in_push))
         (truncated_stats p) (truncated_new_titles p).
Proof.
  intros T report_data M show HM shown_stats trd p.
  assert (HM' : (0 <? M) = true) by (apply Z.ltb_lt; exact HM).
  split.
  - pose proof (truncate_guarded M show (stats report_data) (new_titles report_data) HM)
      as Hloop. cbv zeta in Hloop.
    subst trd. unfold split_preprocess. rewrite HM'.
    destruct (if show && nonempty (stats report_data)
              then truncate_stats M (stats report_data) 0 [] else ([], 0))
      as [ts total]. cbn [fst snd] in Hloop.
    destruct (truncate_new_titles M (new_titles report_data) total []) as [tn x].
    exact Hloop.
  - pose proof (truncate_guarded M show (stats report_data)
                  (fst (flatten_stats report_data show)) HM) as Hloop.
    cbv zeta in Hloop.
    subst p. unfold render_preprocess.
    destruct (flatten_stats report_data show) as [all_new orig]. cbn [fst] in Hloop.
    rewrite HM'.
    destruct (if show && nonempty (stats report_data)
              then truncate_stats M (stats report_data) 0 [] else ([], 0))
      as [ts total]. cbn [fst snd] in Hloop.
    destruct (truncate_new_titles M all_new total []) as [tn x].
    exact Hloop.
Qed.

(** Two word groups of three titles and a maximum of two: the first group
    is kept with its first two titles, the second group and the new-items
    group are dropped. *)
Lemma truncation_cap_and_prefixes_witness :
  0 < 2
  /\ stats (split_preprocess two_groups_report 2 true) = [mkStat "a" 2 [1; 2]%nat]
  /\ new_titles (split_preprocess two_groups_report 2 true) = []
  /\ truncated_to 2 (stats two_groups_report) (new_titles two_groups_report)
       (stats (split_preprocess two_groups_report 2 true))
       (new_titles (split_preprocess two_groups_report 2 true)).
Proof.
  split; [lia |]. split; [reflexivity |]. split; [reflexivity |].
  exact (proj1 (truncation_cap_and_prefixes nat two_groups_report 2 true ltac:(lia))).
Defined.

(** ** Completeness and order of the item lines *)

Lemma filter_items_app (l1 l2 : list piece) :
  List.filter is_item (l1 ++ l2)%list
  = (List.filter is_item l1 ++ List.filter is_item l2)%list.
Proof. apply List.filter_app. Qed.

Lemma trace_items_snoc (tr : list tbatch) (b : tbatch) :
  trace_items (tr ++ [b])%list = (trace_items tr ++ List.filter is_item (pieces b))%list.
Proof.
  unfold trace_items. rewrite map_app, concat_app, filter_items_app.
  cbn [map concat]. now rewrite app_nil_r.
Qed.

Section TraceItems.

Variable fmt : string -> TitleItem -> bool -> string.
Variables format_type feishu_separator : string.
Variable max_bytes : Z.
Variables base_header base_footer stats_header : string.
Variable total_count : nat.
Variable new_header : string.

Local Abbreviation t_trial :=
  (t_trial_append fmt format_type feishu_separator max_bytes base_header base_footer
     stats_header total_count new_header).

Lemma trial_items chunk reseed ts :
  List.filter is_item reseed = List.filter is_item chunk ->
  no_items_yet ts ->
  state_items (t_trial chunk reseed ts)
  = (state_items ts ++ List.filter is_item chunk)%list
  /\ no_items_yet (t_trial chunk reseed ts).
Proof.
  intros Hseed Hinv. unfold t_trial_append, state_items, no_items_yet.
  destruct (max_bytes <=? _); state_simpl; (split; [| discriminate]).
  - unfold t_flush. destruct (t_has_content ts) eqn:Hhas.
    + rewrite trace_items_snoc. unfold pieces at 2. state_simpl.
      now rewrite app_nil_r, Hseed.
    + rewrite (Hinv Hhas), app_nil_r. unfold pieces. state_simpl.
      now rewrite app_nil_r, Hseed.
  - now rewrite pieces_commit, filter_items_app, app_assoc.
Qed.

Lemma stats_header_items ts :
  no_items_yet ts ->
  state_items (t_append_stats_header fmt format_type feishu_separator max_bytes
                 base_header base_footer stats_header total_count new_header ts)
  = state_items ts
  /\ no_items_yet (t_append_stats_header fmt format_type feishu_separator max_bytes
                     base_header base_footer stats_header total_count new_header ts).
Proof.
  intros Hinv. unfold t_append_stats_header, state_items, no_items_yet.
  destruct (_ <? max_bytes); state_simpl; (split; [| discriminate]).
  - rewrite pieces_commit, filter_items_app. cbn [List.filter is_item].
    now rewrite app_nil_r.
  - unfold t_flush. destruct (t_has_content ts) eqn:Hhas.
    + rewrite trace_items_snoc. unfold pieces at 2. state_simpl.
      cbn [app List.filter is_item]. now rewrite app_nil_r.
    + rewrite (Hinv Hhas), app_nil_r. unfold pieces. state_simpl.
      cbn [app List.filter is_item]. now rewrite app_nil_r.
Qed.

Lemma separator_items ts :
  no_items_yet ts ->
  state_items (t_append_separator fmt format_type feishu_separator max_bytes
                 base_header base_footer stats_header total_count new_header ts)
  = state_items ts
  /\ no_items_yet (t_append_separator fmt format_type feishu_separator max_bytes
                     base_header base_footer stats_header total_count new_header ts).
Proof.
  intros Hinv. unfold t_append_separator.
  destruct (_ <? max_bytes); [| split; [reflexivity | exact Hinv]].
  unfold state_items, no_items_yet. state_simpl.
  rewrite pieces_commit, filter_items_app. cbn [List.filter is_item].
  rewrite app_nil_r. split; [reflexivity | exact Hinv].
Qed.

Lemma stats_rest_items i stat rest : forall j ts,
  no_items_yet ts ->
  let ts' := t_stats_rest_loop fmt format_type feishu_separator max_bytes base_header
               base_footer stats_header total_count new_header i stat j rest ts in
  state_items ts' = (state_items ts ++ enum_from (PStatsItem i stat) j rest)%list
  /\ no_items_yet ts'.
Proof.
  induction rest as [|t rest IH]; intros j ts Hinv; cbn [t_stats_rest_loop enum_from].
  - rewrite app_nil_r. split; [reflexivity | exact Hinv].
  - destruct (trial_items [PStatsItem i stat j t]
                [PBaseHeader; PStatsHeader; PWordHeader i stat; PStatsItem i stat j t]
                ts eq_refl Hinv) as [Hitems Hinv'].
    destruct (IH (S j) _ Hinv') as [Hrest Hinv'']. cbv zeta.
    split; [| exact Hinv'']. rewrite Hrest, Hitems, <- app_assoc. reflexivity.
Qed.

Lemma word_with_first_news_items i stat :
  (List.filter is_item (word_with_first_news i stat)
     ++ enum_from (PStatsItem i stat) 1 (skipn 1 (titles stat)))%list
  = stats_group_items i stat.
Proof.
  unfold word_with_first_news, stats_group_items.
  destruct (titles stat) as [|t l]; reflexivity.
Qed.

Lemma stats_group_step_items n_stats i stat ts :
  no_items_yet ts ->
  let ts' := t_stats_group_step fmt format_type feishu_separator max_bytes base_header
               base_footer stats_header total_count new_header n_stats i stat ts in
  state_items ts' = (state_items ts ++ stats_group_items i stat)%list
  /\ no_items_yet ts'.
Proof.
  intros Hinv. unfold t_stats_group_step. cbv zeta.
  destruct (trial_items (word_with_first_news i stat)
              (PBaseHeader :: PStatsHeader :: word_with_first_news i stat)
              ts eq_refl Hinv) as [H1 Hinv1].
  destruct (stats_rest_items i stat (skipn 1 (titles stat)) 1 _ Hinv1) as [H2 Hinv2].
  cbv zeta in H2, Hinv2.
  assert (Hgoal : forall ts2,
            state_items ts2
            = (state_items ts ++ stats_group_items i stat)%list ->
            no_items_yet ts2 ->
            state_items
              (if Z.of_nat i <? Z.of_nat n_stats - 1
               then t_append_separator fmt format_type feishu_separator max_bytes
                      base_header base_footer stats_header total_count new_header ts2
               else ts2)
            = (state_items ts ++ stats_group_items i stat)%list
            /\ no_items_yet
                 (if Z.of_nat i <? Z.of_nat n_stats - 1
                  then t_append_separator fmt format_type feishu_separator max_bytes
                         base_header base_footer stats_header total_count new_header ts2
                  else ts2)).
  { intros ts2 Hts2 Hinv3. destruct (_ <? _); [| split; assumption].
    destruct (separator_items ts2 Hinv3) as [-> ?]. split; assumption. }
  apply Hgoal; [| exact Hinv2].
  rewrite H2, H1, <- app_assoc. now rewrite word_with_first_news_items.
Qed.

Lemma stats_groups_items n_stats l : forall i ts,
  no_items_yet ts ->
  let ts' := t_stats_groups_loop fmt format_type feishu_separator max_bytes base_header
               base_footer stats_header total_count new_header n_stats i l ts in
  state_items ts' = (state_items ts ++ stats_items_from i l)%list
  /\ no_items_yet ts'.
Proof.
  induction l as [|stat l IH]; intros i ts Hinv; cbn [t_stats_groups_loop].
  - cbn. rewrite app_nil_r. split; [reflexivity | exact Hinv].
  - destruct (stats_group_step_items n_stats i stat ts Hinv) as [H1 Hinv1].
    cbv zeta in H1, Hinv1.
    destruct (IH (S i) _ Hinv1) as [H2 Hinv2]. cbv zeta in H2 |- *.
    split; [| exact Hinv2]. rewrite H2, H1, <- app_assoc. reflexivity.
Qed.

Lemma process_stats_items l ts :
  no_items_yet ts ->
  let ts' := t_process_stats_section fmt format_type feishu_separator max_bytes
               base_header base_footer stats_header total_count new_header l ts in
  state_items ts' = (state_items ts ++ stats_items_from 0 l)%list
  /\ no_items_yet ts'.
Proof.
  intros Hinv. unfold t_process_stats_section.
  destruct l as [|stat l].
  - cbn. rewrite app_nil_r. split; [reflexivity | exact Hinv].
  - destruct (stats_header_items ts Hinv) as [H1 Hinv1].
    destruct (stats_groups_items (length (stat :: l)) (stat :: l) 0 _ Hinv1)
      as [H2 Hinv2].
    cbv zeta in H2 |- *. split; [| exact Hinv2]. now rewrite H2, H1.
Qed.

Lemma new_rest_items k source_data rest : forall j ts,
  no_items_yet ts ->
  let ts' := t_new_rest_loop fmt format_type feishu_separator max_bytes base_header
               base_footer stats_header total_count new_header k source_data j rest ts in
  state_items ts' = (state_items ts ++ enum_from (PNewItem k source_data) j rest)%list
  /\ no_items_yet ts'.
Proof.
  induction rest as [|t rest IH]; intros j ts Hinv; cbn [t_new_rest_loop enum_from].
  - rewrite app_nil_r. split; [reflexivity | exact Hinv].
  - destruct (trial_items [PNewItem k source_data j t]
                [PBaseHeader; PNewHeader; PSourceHeader k source_data;
                 PNewItem k source_data j t]
                ts eq_refl Hinv) as [Hitems Hinv'].
    destruct (IH (S j) _ Hinv') as [Hrest Hinv'']. cbv zeta.
    split; [| exact Hinv'']. rewrite Hrest, Hitems, <- app_assoc. reflexivity.
Qed.

Lemma source_with_first_news_items k source_data :
  (List.filter is_item (source_with_first_news k source_data)
     ++ enum_from (PNewItem k source_data) 1 (skipn 1 (s_titles source_data)))%list
  = new_group_items k source_data.
Proof.
  unfold source_with_first_news, new_group_items.
  destruct (s_titles source_data) as [|t l]; reflexivity.
Qed.

Lemma new_group_step_items k source_data ts :
  no_items_yet ts ->
  let ts' := t_new_group_step fmt format_type feishu_separator max_bytes base_header
               base_footer stats_header total_count new_header k source_data ts in
  state_items ts' = (state_items ts ++ new_group_items k source_data)%list
  /\ no_items_yet ts'.
Proof.
  intros Hinv. unfold t_new_group_step. cbv zeta.
  destruct (trial_items (source_with_first_news k source_data)
              (PBaseHeader :: PNewHeader :: source_with_first_news k source_data)
              ts eq_refl Hinv) as [H1 Hinv1].
  destruct (new_rest_items k source_data (skipn 1 (s_titles source_data)) 1 _ Hinv1)
    as [H2 Hinv2].
  cbv zeta in H2, Hinv2. unfold state_items, no_items_yet in *. state_simpl.
  rewrite pieces_commit, filter_items_app. cbn [List.filter is_item].
  rewrite app_nil_r. split; [| exact Hinv2].
  rewrite H2, H1, <- app_assoc. now rewrite source_with_first_news_items.
Qed.

Lemma new_groups_items l : forall k ts,
  no_items_yet ts ->
  let ts' := t_new_groups_loop fmt format_type feishu_separator max_bytes base_header
               base_footer stats_header total_count new_header k l ts in
  state_items ts' = (state_items ts ++ new_items_from k l)%list
  /\ no_items_yet ts'.
Proof.
  induction l as [|s l IH]; intros k ts Hinv; cbn [t_new_groups_loop].
  - cbn. rewrite app_nil_r. split; [reflexivity | exact Hinv].
  - destruct (new_group_step_items k s ts Hinv) as [H1 Hinv1].
    cbv zeta in H1, Hinv1.
    destruct (IH (S k) _ Hinv1) as [H2 Hinv2]. cbv zeta in H2 |- *.
    split; [| exact Hinv2]. rewrite H2, H1, <- app_assoc. reflexivity.
Qed.

Lemma process_new_titles_items l ts :
  no_items_yet ts ->
  let ts' := t_process_new_titles_section fmt format_type feishu_separator max_bytes
               base_header base_footer stats_header total_count new_header l ts in
  state_items ts' = (state_items ts ++ new_items_from 0 l)%list
  /\ no_items_yet ts'.
Proof.
  intros Hinv. unfold t_process_new_titles_section.
  destruct l as [|s l].
  - cbn. rewrite app_nil_r. split; [reflexivity | exact Hinv].
  - destruct (trial_items [PNewHeader] [PBaseHeader; PNewHeader] ts eq_refl Hinv)
      as [H1 Hinv1].
    destruct (new_groups_items (s :: l) 0 _ Hinv1) as [H2 Hinv2].
    cbv zeta in H2 |- *. split; [| exact Hinv2].
    rewrite H2, H1. cbn [List.filter is_item]. now rewrite app_nil_r.
Qed.

Lemma failed_loop_items l : forall ts,
  no_items_yet ts ->
  let ts' := t_failed_loop fmt format_type feishu_separator max_bytes base_header
               base_footer stats_header total_count new_header l ts in
  state_items ts' = state_items ts /\ no_items_yet ts'.
Proof.
  induction l as [|id l IH]; intros ts Hinv; cbn [t_failed_loop].
  - split; [reflexivity | exact Hinv].
  - destruct (trial_items [PFailedLine id] [PBaseHeader; PFailedHeader; PFailedLine id]
                ts eq_refl Hinv) as [H1 Hinv1].
    destruct (IH _ Hinv1) as [H2 Hinv2]. cbv zeta in H2 |- *.
    split; [| exact Hinv2]. rewrite H2, H1. cbn [List.filter is_item].
    now rewrite app_nil_r.
Qed.

Lemma process_failed_items l ts :
  no_items_yet ts ->
  let ts' := t_process_failed_section fmt format_type feishu_separator max_bytes
               base_header base_footer stats_header total_count new_header l ts in
  state_items ts' = state_items ts /\ no_items_yet ts'.
Proof.
  intros Hinv. unfold t_process_failed_section.
  destruct l as [|id l]; [split; [reflexivity | exact Hinv] |].
  destruct (trial_items [PFailedHeader] [PBaseHeader; PFailedHeader] ts eq_refl Hinv)
    as [H1 Hinv1].
  destruct (failed_loop_items (id :: l) _ Hinv1) as [H2 Hinv2].
  cbv zeta in H2 |- *. split; [| exact Hinv2]. rewrite H2, H1.
  cbn [List.filter is_item]. now rewrite app_nil_r.
Qed.

Lemma flush_items ts :
  no_items_yet ts -> trace_items (t_flush ts) = state_items ts.
Proof.
  intros Hinv. unfold t_flush, state_items.
  destruct (t_has_content ts) eqn:Hhas.
  - apply trace_items_snoc.
  - now rewrite (Hinv Hhas), app_nil_r.
Qed.

End TraceItems.

(** ** Group headers and their first item line *)

Lemma followed_by_own_item_app p rest more :
  followed_by_own_item p rest -> followed_by_own_item p (rest ++ more)%list.
Proof. destruct p, rest as [|q rest]; cbn; try tauto. Qed.

Lemma headers_paired_app need l1 l2 :
  headers_paired need l1 -> headers_paired need l2 ->
  headers_paired need (l1 ++ l2)%list.
Proof.
  induction l1 as [|p l1 IH]; intros H1 H2; [exact H2 |].
  destruct H1 as [Hp H1]. cbn [app headers_paired]. split.
  - intros Hneed. apply followed_by_own_item_app, Hp, Hneed.
  - now apply IH.
Qed.

Lemma word_with_first_news_paired i stat :
  headers_paired header_of_titles (word_with_first_news i stat).
Proof.
  unfold word_with_first_news. destruct (titles stat) as [|t l] eqn:E; cbn.
  - rewrite E. cbn. repeat split; discriminate.
  - repeat split; discriminate.
Qed.

Lemma source_with_first_news_paired k source_data :
  headers_paired header_of_titles (source_with_first_news k source_data).
Proof.
  unfold source_with_first_news. destruct (s_titles source_data) as [|t l] eqn:E; cbn.
  - rewrite E. cbn. repeat split; discriminate.
  - repeat split; discriminate.
Qed.

Section TracePairing.

Variable fmt : string -> TitleItem -> bool -> string.
Variables format_type feishu_separator : string.
Variable max_bytes : Z.
Variables base_header base_footer stats_header : string.
Variable total_count : nat.
Variable new_header : string.

Local Abbreviation paired := (headers_paired header_of_titles).
Local Abbreviation inv := (all_paired header_of_titles).
Local Abbreviation t_trial :=
  (t_trial_append fmt format_type feishu_separator max_bytes base_header base_footer
     stats_header total_count new_header).

Lemma flush_paired ts :
  inv ts -> Forall (fun b => paired (pieces b)) (t_flush ts).
Proof.
  intros [Hb Hc]. unfold t_flush. destruct (t_has_content ts); [| exact Hb].
  apply Forall_app. split; [exact Hb | now constructor].
Qed.

Lemma commit_paired chunk ts :
  inv ts -> paired chunk ->
  inv (mkTState (commit chunk (t_current ts)) (t_has_content ts) (t_batches ts)).
Proof.
  intros [Hb Hc] Hchunk. split; state_simpl; [exact Hb |].
  rewrite pieces_commit. now apply headers_paired_app.
Qed.

Lemma trial_paired chunk reseed ts :
  inv ts -> paired chunk -> paired reseed -> inv (t_trial chunk reseed ts).
Proof.
  intros Hinv Hchunk Hseed. unfold t_trial_append.
  destruct (max_bytes <=? _).
  - split; state_simpl; [now apply flush_paired |].
    unfold pieces; state_simpl. now rewrite app_nil_r.
  - destruct (commit_paired chunk ts Hinv Hchunk) as [Hb Hc]. split; assumption.
Qed.

Lemma stats_header_paired ts :
  inv ts ->
  inv (t_append_stats_header fmt format_type feishu_separator max_bytes base_header
         base_footer stats_header total_count new_header ts).
Proof.
  intros Hinv. unfold t_append_stats_header. destruct (_ <? max_bytes).
  - assert (Hc : paired [PStatsHeader]) by (cbn; repeat split; discriminate).
    destruct (commit_paired _ ts Hinv Hc) as [Hb Hc']. split; assumption.
  - split; state_simpl; [now apply flush_paired |].
    cbn; repeat split; discriminate.
Qed.

Lemma separator_paired ts :
  inv ts ->
  inv (t_append_separator fmt format_type feishu_separator max_bytes base_header
         base_footer stats_header total_count new_header ts).
Proof.
  intros Hinv. unfold t_append_separator. destruct (_ <? max_bytes); [| exact Hinv].
  apply commit_paired; [exact Hinv |]. cbn; repeat split; discriminate.
Qed.

Lemma stats_rest_paired i stat rest : forall j ts,
  inv ts ->
  inv (t_stats_rest_loop fmt format_type feishu_separator max_bytes base_header
         base_footer stats_header total_count new_header i stat j rest ts).
Proof.
  induction rest as [|t rest IH]; intros j ts Hinv; cbn [t_stats_rest_loop];
    [exact Hinv |].
  apply IH, trial_paired; [exact Hinv | |]; cbn; repeat split; discriminate.
Qed.

Lemma stats_groups_paired n_stats l : forall i ts,
  inv ts ->
  inv (t_stats_groups_loop fmt format_type feishu_separator max_bytes base_header
         base_footer stats_header total_count new_header n_stats i l ts).
Proof.
  induction l as [|stat l IH]; intros i ts Hinv; cbn [t_stats_groups_loop];
    [exact Hinv |].
  apply IH. unfold t_stats_group_step. cbv zeta.
  assert (H2 : inv
            (t_stats_rest_loop fmt format_type feishu_separator max_bytes base_header
               base_footer stats_header total_count new_header i stat 1
               (skipn 1 (titles stat))
               (t_trial (word_with_first_news i stat)
                  (PBaseHeader :: PStatsHeader :: word_with_first_news i stat) ts))).
  { apply stats_rest_paired, trial_paired;
      [exact Hinv | apply word_with_first_news_paired |].
    cbn [headers_paired]. split; [discriminate |]. split; [discriminate |].
    apply word_with_first_news_paired. }
  destruct (_ <? _); [now apply separator_paired | exact H2].
Qed.

Lemma process_stats_paired l ts :
  inv ts ->
  inv (t_process_stats_section fmt format_type feishu_separator max_bytes base_header
         base_footer stats_header total_count new_header l ts).
Proof.
  intros Hinv. unfold t_process_stats_section. destruct l; [exact Hinv |].
  now apply stats_groups_paired, stats_header_paired.
Qed.

Lemma new_rest_paired k source_data rest : forall j ts,
  inv ts ->
  inv (t_new_rest_loop fmt format_type feishu_separator max_bytes base_header
         base_footer stats_header total_count new_header k source_data j rest ts).
Proof.
  induction rest as [|t rest IH]; intros j ts Hinv; cbn [t_new_rest_loop];
    [exact Hinv |].
  apply IH, trial_paired; [exact Hinv | |]; cbn; repeat split; discriminate.
Qed.

Lemma new_groups_paired l : forall k ts,
  inv ts ->
  inv (t_new_groups_loop fmt format_type feishu_separator max_bytes base_header
         base_footer stats_header total_count new_header k l ts).
Proof.
  induction l as [|s l IH]; intros k ts Hinv; cbn [t_new_groups_loop]; [exact Hinv |].
  apply IH. unfold t_new_group_step. cbv zeta.
  apply commit_paired; [| cbn; repeat split; discriminate].
  apply new_rest_paired, trial_paired;
    [exact Hinv | apply source_with_first_news_paired |].
  cbn [headers_paired]. split; [discriminate |]. split; [discriminate |].
  apply source_with_first_news_paired.
Qed.

Lemma process_new_titles_paired l ts :
  inv ts ->
  inv (t_process_new_titles_section fmt format_type feishu_separator max_bytes
         base_header base_footer stats_header total_count new_header l ts).
Proof.
  intros Hinv. unfold t_process_new_titles_section. destruct l; [exact Hinv |].
  apply new_groups_paired, trial_paired; [exact Hinv | |];
    cbn; repeat split; discriminate.
Qed.

Lemma process_failed_paired l ts :
  inv ts ->
  inv (t_process_failed_section fmt format_type feishu_separator max_bytes base_header
         base_footer stats_header total_count new_header l ts).
Proof.
  intros Hinv. unfold t_process_failed_section. destruct l as [|id0 l]; [exact Hinv |].
  assert (H1 : inv (t_trial [PFailedHeader] [PBaseHeader; PFailedHeader] ts)).
  { apply trial_paired; [exact Hinv | |]; cbn; repeat split; discriminate. }
  revert H1. generalize (t_trial [PFailedHeader] [PBaseHeader; PFailedHeader] ts).
  induction (id0 :: l) as [|id l' IH]; intros ts' H1; cbn [t_failed_loop]; [exact H1 |].
  apply IH, trial_paired; [exact H1 | |]; cbn; repeat split; discriminate.
Qed.

End TracePairing.



(** ** The byte budget *)

Section TraceBudget.

Variable fmt : string -> TitleItem -> bool -> string.
Variables format_type feishu_separator : string.
Variable max_bytes : Z.
Variables base_header base_footer stats_header : string.
Variable total_count : nat.
Variable new_header : string.

Local Abbreviation ptext :=
  (pieces_text fmt format_type feishu_separator base_header stats_header
     total_count new_header).
Local Abbreviation btext :=
  (batch_text fmt format_type feishu_separator base_header base_footer stats_header
     total_count new_header).
Local Abbreviation respected :=
  (budget_respected fmt format_type feishu_separator max_bytes base_header base_footer
     stats_header total_count new_header).
Local Abbreviation strict :=
  (strictly_inside fmt format_type feishu_separator max_bytes base_header base_footer
     stats_header total_count new_header).
Local Abbreviation inv_strict :=
  (budget_inv_strict fmt format_type feishu_separator max_bytes base_header
     base_footer stats_header total_count new_header).
Local Abbreviation inv :=
  (budget_inv fmt format_type feishu_separator max_bytes base_header base_footer
     stats_header total_count new_header).
Local Abbreviation t_trial :=
  (t_trial_append fmt format_type feishu_separator max_bytes base_header base_footer
     stats_header total_count new_header).

Lemma batch_text_len b : py_len (btext b) = py_len (ptext (pieces b)) + py_len base_footer.
Proof. unfold batch_text. apply py_len_app. Qed.

Lemma strict_respected b : strict b -> respected b.
Proof.
  intros Hs. unfold budget_respected, within_budget, unfit_seed_only.
  rewrite batch_text_len.
  destruct (appended b) as [|p l] eqn:E.
  - unfold pieces. rewrite E, app_nil_r.
    destruct (Z.le_gt_cases max_bytes (py_len (ptext (forced b)) + py_len base_footer));
      [right; split; [assumption | now left] | left; lia].
  - left. unfold strictly_inside in Hs. rewrite E in Hs.
    specialize (Hs ltac:(discriminate)). lia.
Qed.

Lemma inv_strict_inv ts : inv_strict ts -> inv ts.
Proof. intros [Hb Hc]. split; [exact Hb | now apply strict_respected]. Qed.

Lemma flush_budget ts : inv ts -> Forall respected (t_flush ts).
Proof.
  intros [Hb Hc]. unfold t_flush. destruct (t_has_content ts); [| exact Hb].
  apply Forall_app. split; [exact Hb | now constructor].
Qed.

Lemma trial_budget chunk reseed ts : inv ts -> inv_strict (t_trial chunk reseed ts).
Proof.
  intros Hinv. unfold t_trial_append.
  destruct (Z.leb_spec max_bytes
              (py_len (ptext (pieces (t_current ts) ++ chunk)%list) + py_len base_footer)).
  - split; state_simpl; [now apply flush_budget |]. intros Hne. now destruct Hne.
  - split; state_simpl; [apply Hinv |]. intros _. now rewrite pieces_commit.
Qed.

Lemma stats_header_budget ts :
  inv ts ->
  inv_strict (t_append_stats_header fmt format_type feishu_separator max_bytes
                base_header base_footer stats_header total_count new_header ts).
Proof.
  intros Hinv. unfold t_append_stats_header.
  destruct (Z.ltb_spec
              (py_len (ptext (pieces (t_current ts) ++ [PStatsHeader])%list)
               + py_len base_footer) max_bytes).
  - split; state_simpl; [apply Hinv |]. intros _. now rewrite pieces_commit.
  - split; state_simpl; [now apply flush_budget |]. intros Hne. now destruct Hne.
Qed.

Lemma separator_budget ts :
  inv_strict ts ->
  inv_strict (t_append_separator fmt format_type feishu_separator max_bytes
                base_header base_footer stats_header total_count new_header ts).
Proof.
  intros Hinv. unfold t_append_separator.
  destruct (Z.ltb_spec
              (py_len (ptext (pieces (t_current ts) ++ [PSeparator])%list)
               + py_len base_footer) max_bytes); [| exact Hinv].
  split; state_simpl; [apply Hinv |]. intros _. now rewrite pieces_commit.
Qed.

(** The line feed after a source group: one byte, no size test. *)
Lemma line_feed_budget ts :
  inv_strict ts ->
  inv (mkTState (commit [PLineFeed] (t_current ts)) (t_has_content ts) (t_batches ts)).
Proof.
  intros [Hb Hs]. split; state_simpl; [exact Hb |].
  unfold budget_respected, within_budget, unfit_seed_only.
  rewrite batch_text_len, pieces_commit, pieces_text_app, py_len_app.
  change (py_len (ptext [PLineFeed])) with 1.
  destruct (appended (t_current ts)) as [|p l] eqn:E.
  - unfold pieces, commit. rewrite E, app_nil_r. state_simpl.
    destruct (Z.le_gt_cases max_bytes
                (py_len (ptext (forced (t_current ts))) + py_len base_footer));
      [right; split; [assumption | now right] | left; lia].
  - left. unfold strictly_inside in Hs. rewrite E in Hs.
    specialize (Hs ltac:(discriminate)). lia.
Qed.

Lemma stats_rest_budget i stat rest : forall j ts,
  inv_strict ts ->
  inv_strict (t_stats_rest_loop fmt format_type feishu_separator max_bytes base_header
                base_footer stats_header total_count new_header i stat j rest ts).
Proof.
  induction rest as [|t rest IH]; intros j ts Hinv; cbn [t_stats_rest_loop];
    [exact Hinv |].
  now apply IH, trial_budget, inv_strict_inv.
Qed.

Lemma stats_groups_budget n_stats l : forall i ts,
  inv ts ->
  inv (t_stats_groups_loop fmt format_type feishu_separator max_bytes base_header
         base_footer stats_header total_count new_header n_stats i l ts).
Proof.
  induction l as [|stat l IH]; intros i ts Hinv; cbn [t_stats_groups_loop];
    [exact Hinv |].
  apply IH, inv_strict_inv. unfold t_stats_group_step. cbv zeta.
  assert (H2 : inv_strict
            (t_stats_rest_loop fmt format_type feishu_separator max_bytes base_header
               base_footer stats_header total_count new_header i stat 1
               (skipn 1 (titles stat))
               (t_trial (word_with_first_news i stat)
                  (PBaseHeader :: PStatsHeader :: word_with_first_news i stat) ts))).
  { now apply stats_rest_budget, trial_budget. }
  destruct (_ <? _); [now apply separator_budget | exact H2].
Qed.

Lemma process_stats_budget l ts :
  inv ts ->
  inv (t_process_stats_section fmt format_type feishu_separator max_bytes base_header
         base_footer stats_header total_count new_header l ts).
Proof.
  intros Hinv. unfold t_process_stats_section. destruct l; [exact Hinv |].
  now apply stats_groups_budget, inv_strict_inv, stats_header_budget.
Qed.

Lemma new_rest_budget k source_data rest : forall j ts,
  inv_strict ts ->
  inv_strict (t_new_rest_loop fmt format_type feishu_separator max_bytes base_header
                base_footer stats_header total_count new_header k source_data j rest ts).
Proof.
  induction rest as [|t rest IH]; intros j ts Hinv; cbn [t_new_rest_loop];
    [exact Hinv |].
  now apply IH, trial_budget, inv_strict_inv.
Qed.

Lemma new_groups_budget l : forall k ts,
  inv ts ->
  inv (t_new_groups_loop fmt format_type feishu_separator max_bytes base_header
         base_footer stats_header total_count new_header k l ts).
Proof.
  induction l as [|s l IH]; intros k ts Hinv; cbn [t_new_groups_loop]; [exact Hinv |].
  apply IH. unfold t_new_group_step. cbv zeta.
  now apply line_feed_budget, new_rest_budget, trial_budget.
Qed.

Lemma process_new_titles_budget l ts :
  inv ts ->
  inv (t_process_new_titles_section fmt format_type feishu_separator max_bytes
         base_header base_footer stats_header total_count new_header l ts).
Proof.
  intros Hinv. unfold t_process_new_titles_section. destruct l; [exact Hinv |].
  now apply new_groups_budget, inv_strict_inv, trial_budget.
Qed.

Lemma process_failed_budget l ts :
  inv ts ->
  inv (t_process_failed_section fmt format_type feishu_separator max_bytes base_header
         base_footer stats_header total_count new_header l ts).
Proof.
  intros Hinv. unfold t_process_failed_section. destruct l as [|id0 l]; [exact Hinv |].
  apply inv_strict_inv.
  assert (H1 : inv_strict (t_trial [PFailedHeader] [PBaseHeader; PFailedHeader] ts))
    by now apply trial_budget.
  revert H1. generalize (t_trial [PFailedHeader] [PBaseHeader; PFailedHeader] ts).
  induction (id0 :: l) as [|id l' IH]; intros ts' H1; cbn [t_failed_loop]; [exact H1 |].
  now apply IH, trial_budget, inv_strict_inv.
Qed.

End TraceBudget.

(** The batches returned are the texts of the chunk-level batches, and each
    of them either has an encoded length, footer included, of at most the
    budget, or consists of nothing but the seed a batch is restarted with
    after a failed trial (with at most the one line feed that closes a
    source group after it) while that seed with the footer fails the fit
    test, that is, reaches the budget.  So a batch that holds a chunk
    committed by a successful trial append is within the budget, the line
    feed appended without a size test included. *)
Theorem budget_bound :
  forall fmt report_data format_type update_info max_bytes mode batch_sizes
         feishu_separator reverse_content_order max_total_news_in_push
         show_stats_in_push now,
    let trd := split_preprocess report_data max_total_news_in_push show_stats_in_push in
    let budget := resolve_max_bytes format_type max_bytes batch_sizes in
    let base_header := make_base_header format_type (total_titles_of (stats trd)) now in
    let base_footer := make_base_footer format_type now update_info in
    let stats_header := make_stats_header format_type (stats trd) in
    let new_header :=
      make_new_header format_type feishu_separator max_total_news_in_push
        (actual_new_count_of (new_titles trd)) (total_new_count report_data) in
    let text_of :=
      pieces_text fmt format_type feishu_separator base_header stats_header
        (length (stats trd)) new_header in
    let tr :=
      split_trace fmt format_type feishu_separator budget report_data update_info mode
        reverse_content_order max_total_news_in_push show_stats_in_push now in
    map (fun b => text_of (pieces b) +:+ base_footer) tr
    = split_content_into_batches fmt report_data format_type update_info max_bytes mode
        batch_sizes feishu_separator reverse_content_order max_total_news_in_push
        show_stats_in_push now
    /\ Forall
         (fun b =>
            py_len (text_of (pieces b) +:+ base_footer) <= budget
            \/ (budget <= py_len (text_of (forced b)) + py_len base_footer
                /\ (appended b = [] \/ appended b = [PLineFeed])))
         tr.
Proof.
  intros fmt report_data format_type update_info max_bytes mode batch_sizes
    feishu_separator reverse_content_order max_total_news_in_push show_stats_in_push
    now trd budget base_header base_footer stats_header new_header text_of tr.
  split; [apply split_trace_text |].
  subst tr. unfold split_trace. fold trd base_header base_footer stats_header new_header.
  cbv zeta.
  destruct (negb (nonempty (stats trd)) && negb (nonempty (new_titles trd))
            && negb (nonempty (failed_ids report_data))).
  - constructor; [| constructor].
    apply (strict_respected fmt format_type feishu_separator budget base_header
             base_footer stats_header (length (stats trd)) new_header).
    intros Hne. now destruct Hne.
  - apply (flush_budget fmt format_type feishu_separator budget base_header
             base_footer stats_header (length (stats trd)) new_header).
    apply process_failed_budget.
    assert (H0 : budget_inv fmt format_type feishu_separator budget base_header
                   base_footer stats_header (length (stats trd)) new_header
                   (mkTState (mkTBatch [PBaseHeader] []) false [])).
    { apply inv_strict_inv. split; state_simpl; [constructor |].
      intros Hne. now destruct Hne. }
    destruct reverse_content_order.
    + now apply process_stats_budget, process_new_titles_budget.
    + now apply process_new_titles_budget, process_stats_budget.
Qed.

(** Which batches are over the budget: a batch is within the budget, or it
    is a restart seed that is itself over the budget with the footer (with
    at most the closing line feed after it), or it is a restart seed of
    exactly the budget with the footer followed by the closing line feed,
    one byte over. *)
Lemma over_budget_batches :
  forall fmt report_data format_type update_info max_bytes mode batch_sizes
         feishu_separator reverse_content_order max_total_news_in_push
         show_stats_in_push now,
    let trd := split_preprocess report_data max_total_news_in_push show_stats_in_push in
    let budget := resolve_max_bytes format_type max_bytes batch_sizes in
    let base_header := make_base_header format_type (total_titles_of (stats trd)) now in
    let base_footer := make_base_footer format_type now update_info in
    let stats_header := make_stats_header format_type (stats trd) in
    let new_header :=
      make_new_header format_type feishu_separator max_total_news_in_push
        (actual_new_count_of (new_titles trd)) (total_new_count report_data) in
    let text_of :=
      pieces_text fmt format_type feishu_separator base_header stats_header
        (length (stats trd)) new_header in
    let tr :=
      split_trace fmt format_type feishu_separator budget report_data update_info mode
        reverse_content_order max_total_news_in_push show_stats_in_push now in
    Forall
      (fun b =>
         py_len (text_of (pieces b) +:+ base_footer) <= budget
         \/ (budget < py_len (text_of (forced b) +:+ base_footer)
             /\ (appended b = [] \/ appended b = [PLineFeed]))
         \/ (py_len (text_of (forced b) +:+ base_footer) = budget
             /\ appended b = [PLineFeed]
             /\ py_len (text_of (pieces b) +:+ base_footer) = budget + 1))
      tr.
Proof.
  intros fmt report_data format_type update_info max_bytes mode batch_sizes
    feishu_separator reverse_content_order max_total_news_in_push show_stats_in_push
    now trd budget base_header base_footer stats_header new_header text_of tr.
  pose proof (proj2 (budget_bound fmt report_data format_type update_info max_bytes mode
                       batch_sizes feishu_separator reverse_content_order
                       max_total_news_in_push show_stats_in_push now)) as H.
  cbv zeta in H. fold trd budget base_header base_footer stats_header new_header in H.
  fold text_of tr in H.
  eapply Forall_impl; [exact H |]. cbv beta. intros b [Hle | [Hseed Happ]]; [now left |].
  rewrite !py_len_app.
  destruct (Z.eq_dec (py_len (text_of (forced b)) + py_len base_footer) budget)
    as [Heq | Hne].
  - destruct Happ as [Happ | Happ].
    + left. unfold pieces. rewrite Happ, app_nil_r. lia.
    + right. right. split; [exact Heq |]. split; [exact Happ |].
      unfold pieces. rewrite Happ. subst text_of.
      rewrite pieces_text_app, py_len_app.
      cbn [pieces_text fold_right piece_text]. rewrite str_app_nil_r.
      change (py_len nl) with 1. lia.
  - right. left. split; [lia | exact Happ].
Qed.

(** C2.  The budget is exceeded by a batch whose seed is not oversized.  For
    "ntfy" and a budget of 133 bytes the source header with its first item
    line does not fit after the section header (the test is [>=]), so the
    first batch is finished and the second is restarted with the headers
    and that unit: with the footer it has exactly 133 bytes, the budget.
    The line feed that closes the source group is then appended without a
    size test, and the batch returned has 134 bytes. *)
Lemma unfit_seed_with_line_feed :
  split_content_into_batches sample_formatter one_source_report "ntfy" None (Some 133)
    "daily" None "---" false 0 true "2026-01-01 00:00:00"
  = [("**总新闻数：** 0" +:+ nl +:+ nl +:+ nl +:+ nl
      +:+ "🆕 **本次新增热点新闻** (共 1 条)" +:+ nl +:+ nl)
     +:+ (nl +:+ nl +:+ "> 更新时间：2026-01-01 00:00:00");
     ("**总新闻数：** 0" +:+ nl +:+ nl +:+ nl +:+ nl
      +:+ "🆕 **本次新增热点新闻** (共 1 条)" +:+ nl +:+ nl
      +:+ "**s** (1 条):" +:+ nl +:+ nl +:+ "  1. t" +:+ nl)
     +:+ nl
     +:+ (nl +:+ nl +:+ "> 更新时间：2026-01-01 00:00:00")]
  /\ py_len (("**总新闻数：** 0" +:+ nl +:+ nl +:+ nl +:+ nl
              +:+ "🆕 **本次新增热点新闻** (共 1 条)" +:+ nl +:+ nl
              +:+ "**s** (1 条):" +:+ nl +:+ nl +:+ "  1. t" +:+ nl)
             +:+ (nl +:+ nl +:+ "> 更新时间：2026-01-01 00:00:00")) = 133
  /\ map py_len
       (split_content_into_batches sample_formatter one_source_report "ntfy" None
          (Some 133) "daily" None "---" false 0 true "2026-01-01 00:00:00")
     = [110; 134]
  /\ map (fun b => (length (forced b), appended b))
       (split_trace sample_formatter "ntfy" "---" 133 one_source_report None "daily"
          false 0 true "2026-01-01 00:00:00")
     = [(1%nat, [PNewHeader]); (4%nat, [PLineFeed])].
Proof. repeat split; reflexivity. Qed.

(** ** The store: what the three functions read, copy and assign *)

Lemma unchanged_in_refl s : unchanged_in s s.
Proof. split; reflexivity. Qed.

Lemma unchanged_in_trans s1 s2 s3 :
  unchanged_in s1 s2 -> unchanged_in s2 s3 -> unchanged_in s1 s3.
Proof. intros [H1 H2] [H3 H4]. split; etransitivity; eassumption. Qed.

Lemma unchanged_title s s' l d :
  unchanged_in s s' -> title_objs s !! l = Some d -> title_objs s' !! l = Some d.
Proof. intros [H _] Hl. exact (lookup_weaken _ _ _ _ Hl H). Qed.

Lemma unchanged_report s s' r rd :
  unchanged_in s s' -> report_objs s !! r = Some rd -> report_objs s' !! r = Some rd.
Proof. intros [_ H] Hr. exact (lookup_weaken _ _ _ _ Hr H). Qed.

Lemma allocated_unchanged s s' ls :
  unchanged_in s s' -> allocated s ls -> allocated s' ls.
Proof.
  intros Hu Ha. unfold allocated in *. rewrite Forall_forall in *.
  intros l Hl. destruct (Ha l Hl) as [d Hd]. exists d. eapply unchanged_title; eassumption.
Qed.

Lemma deref_unchanged s s' ls :
  unchanged_in s s' -> allocated s ls -> map (deref s') ls = map (deref s) ls.
Proof.
  intros Hu Ha. induction Ha as [|l ls [d Hd] Ha IH]; [reflexivity |].
  cbn [map]. rewrite IH. f_equal. unfold deref.
  now rewrite Hd, (unchanged_title _ _ _ _ Hu Hd).
Qed.

Lemma allocated_app s l1 l2 :
  allocated s (l1 ++ l2)%list <-> allocated s l1 /\ allocated s l2.
Proof. unfold allocated. apply Forall_app. Qed.

Lemma allocated_cons s l ls :
  allocated s (l :: ls) <-> is_Some (title_objs s !! l) /\ allocated s ls.
Proof.
  unfold allocated. split.
  - intros H. inversion H; subst. now split.
  - intros [H1 H2]. now constructor.
Qed.

Lemma allocated_skipn s n ls : allocated s ls -> allocated s (skipn n ls).
Proof.
  intros Ha. unfold allocated in *. rewrite Forall_forall in *.
  intros l Hl. apply Ha. rewrite <- (firstn_skipn n ls).
  apply list_elem_of_In, in_or_app. right. now apply list_elem_of_In.
Qed.

Lemma read_title_spec s l :
  is_Some (title_objs s !! l) -> read_title l s = Some (deref s l, s).
Proof. intros [d Hd]. unfold read_title, deref. now rewrite Hd. Qed.

(** [c = d.copy(); c["is_new"] = False] followed by a read of [c]: the
    continuation gets the cleared copy, in a store that has one object
    more and every old object as it was. *)
Lemma copy_clear_read {A} s l (k : TitleItem -> M A) :
  is_Some (title_objs s !! l) ->
  exists s',
    (let! title_data_copy := copy_title l in
     do! store_is_new title_data_copy false in
     let! d := read_title title_data_copy in
     k d) s
    = k (set_is_new (deref s l) false) s'
    /\ unchanged_in s s'.
Proof.
  intros [d Hd]. set (l' := fresh (dom (title_objs s))).
  assert (Hfresh : title_objs s !! l' = None).
  { apply not_elem_of_dom. apply is_fresh. }
  exists (mkStore (<[l' := set_is_new d false]> (title_objs s)) (report_objs s)).
  split.
  - unfold bind, copy_title, store_is_new, read_title, deref. rewrite Hd. fold l'.
    cbn [title_objs report_objs]. rewrite lookup_insert_eq.
    cbn [title_objs report_objs]. rewrite insert_insert_eq, lookup_insert_eq.
    reflexivity.
  - split; cbn [title_objs report_objs]; [| reflexivity].
    now apply insert_subseteq.
Qed.

Section SplitterOnStoreProps.

Variable fmt : string -> TitleItem -> bool -> string.
Variables format_type feishu_separator : string.
Variable max_bytes : Z.
Variables base_header base_footer stats_header : string.

Lemma h_stats_first_news_line_spec s ls :
  allocated s ls ->
  h_stats_first_news_line fmt format_type ls s
  = Some (stats_first_news_line fmt format_type (map (deref s) ls), s).
Proof.
  intros Ha. destruct ls as [|l ls]; [reflexivity |].
  apply allocated_cons in Ha as [Hl _].
  unfold h_stats_first_news_line, bind. rewrite (read_title_spec _ _ Hl).
  cbn [map stats_first_news_line]. unfold ret. now rewrite !length_cons, length_map.
Qed.

Lemma h_stats_rest_loop_spec s word_header n rest : forall j st,
  allocated s rest ->
  h_stats_rest_loop fmt format_type max_bytes base_header base_footer stats_header
    word_header n j rest st s
  = Some (stats_rest_loop fmt format_type max_bytes base_header base_footer
            stats_header word_header n j (map (deref s) rest) st, s).
Proof.
  induction rest as [|l rest IH]; intros j st Ha; [reflexivity |].
  apply allocated_cons in Ha as [Hl Ha].
  cbn [h_stats_rest_loop map stats_rest_loop]. unfold bind at 1.
  rewrite (read_title_spec _ _ Hl). now apply IH.
Qed.

Lemma h_stats_group_step_spec s total_count n_stats i stat st :
  allocated s (titles stat) ->
  h_stats_group_step fmt format_type feishu_separator max_bytes base_header
    base_footer stats_header total_count n_stats i stat st s
  = Some (stats_group_step fmt format_type feishu_separator max_bytes base_header
            base_footer stats_header total_count n_stats i
            (map_stat (deref s) stat) st, s).
Proof.
  intros Ha. unfold h_stats_group_step, stats_group_step. cbv zeta.
  unfold bind at 1. rewrite (h_stats_first_news_line_spec _ _ Ha).
  unfold bind at 1. rewrite h_stats_rest_loop_spec by now apply allocated_skipn.
  unfold ret. cbn [map_stat titles word count].
  now rewrite length_map, skipn_map.
Qed.

Lemma h_stats_groups_loop_spec s total_count n_stats l : forall i st,
  allocated s (flat_map titles l) ->
  h_stats_groups_loop fmt format_type feishu_separator max_bytes base_header
    base_footer stats_header total_count n_stats i l st s
  = Some (stats_groups_loop fmt format_type feishu_separator max_bytes base_header
            base_footer stats_header total_count n_stats i
            (map (map_stat (deref s)) l) st, s).
Proof.
  induction l as [|stat l IH]; intros i st Ha; [reflexivity |].
  cbn [flat_map] in Ha. apply allocated_app in Ha as [Hs Ha].
  cbn [h_stats_groups_loop map stats_groups_loop]. unfold bind at 1.
  rewrite (h_stats_group_step_spec _ _ _ _ _ _ Hs). now apply IH.
Qed.

Lemma h_process_stats_section_spec s l st :
  allocated s (flat_map titles l) ->
  h_process_stats_section fmt format_type feishu_separator max_bytes base_header
    base_footer stats_header l st s
  = Some (process_stats_section fmt format_type feishu_separator max_bytes
            base_header base_footer stats_header (map (map_stat (deref s)) l) st, s).
Proof.
  intros Ha. unfold h_process_stats_section, process_stats_section.
  destruct l as [|stat l]; [reflexivity |]. cbv zeta.
  rewrite h_stats_groups_loop_spec by exact Ha.
  cbn [map]. now rewrite !length_cons, length_map.
Qed.

Lemma h_new_first_news_line_spec s ls : forall {A} (k : string -> M A),
  allocated s ls ->
  exists s',
    (let! line := h_new_first_news_line fmt format_type ls in k line) s
    = k (new_first_news_line fmt format_type (map (deref s) ls)) s'
    /\ unchanged_in s s'.
Proof.
  intros A k Ha. destruct ls as [|l ls].
  - exists s. split; [reflexivity | apply unchanged_in_refl].
  - apply allocated_cons in Ha as [[d Hd] _].
    set (l' := fresh (dom (title_objs s))).
    assert (Hfresh : title_objs s !! l' = None).
    { apply not_elem_of_dom. apply is_fresh. }
    exists (mkStore (<[l' := set_is_new d false]> (title_objs s)) (report_objs s)).
    split.
    + unfold h_new_first_news_line, bind, copy_title, store_is_new, read_title, ret,
        deref.
      cbn [map new_first_news_line]. unfold deref. rewrite Hd. fold l'.
      cbn [title_objs report_objs]. rewrite lookup_insert_eq.
      cbn [title_objs report_objs]. rewrite insert_insert_eq, lookup_insert_eq.
      reflexivity.
    + split; cbn [title_objs report_objs]; [| reflexivity].
      now apply insert_subseteq.
Qed.

Lemma h_new_rest_loop_spec new_header source_header rest : forall s j st,
  allocated s rest ->
  exists s',
    h_new_rest_loop fmt format_type max_bytes base_header base_footer new_header
      source_header j rest st s
    = Some (new_rest_loop fmt format_type max_bytes base_header base_footer
              new_header source_header j (map (deref s) rest) st, s')
    /\ unchanged_in s s'.
Proof.
  induction rest as [|l rest IH]; intros s j st Ha.
  - exists s. split; [reflexivity | apply unchanged_in_refl].
  - apply allocated_cons in Ha as [Hl Ha].
    set (step := fun d =>
           trial_append max_bytes base_footer (new_line fmt format_type j d)
             (base_header +:+ new_header +:+ source_header
                +:+ new_line fmt format_type j d) st).
    destruct (copy_clear_read s l
                (fun d => h_new_rest_loop fmt format_type max_bytes base_header
                            base_footer new_header source_header (S j) rest (step d))
                Hl) as (s1 & Hrun & Hu1).
    destruct (IH s1 (S j) (step (set_is_new (deref s l) false))
                (allocated_unchanged _ _ _ Hu1 Ha)) as (s' & Hloop & Hu2).
    exists s'. split; [| eapply unchanged_in_trans; eassumption].
    etransitivity; [exact Hrun |]. cbv beta. rewrite Hloop.
    now rewrite (deref_unchanged _ _ _ Hu1 Ha).
Qed.

Lemma h_new_group_step_spec new_header s source_data st :
  allocated s (s_titles source_data) ->
  exists s',
    h_new_group_step fmt format_type max_bytes base_header base_footer new_header
      source_data st s
    = Some (new_group_step fmt format_type max_bytes base_header base_footer
              new_header (map_source (deref s) source_data) st, s')
    /\ unchanged_in s s'.
Proof.
  intros Ha. unfold h_new_group_step, new_group_step. cbv zeta.
  set (source_header :=
         make_source_header format_type (source_name source_data)
           (length (s_titles source_data))).
  set (rest_of := fun first_news_line =>
         let! st2 :=
           h_new_rest_loop fmt format_type max_bytes base_header base_footer
             new_header source_header 1 (skipn 1 (s_titles source_data))
             (trial_append max_bytes base_footer (source_header +:+ first_news_line)
                (base_header +:+ new_header +:+ source_header +:+ first_news_line)
                st) in
         ret (mkState (current_batch st2 +:+ nl) (current_batch_has_content st2)
                (batches st2))).
  destruct (h_new_first_news_line_spec s (s_titles source_data) rest_of Ha)
    as (s1 & Hrun & Hu1).
  assert (Ha1 : allocated s1 (skipn 1 (s_titles source_data))).
  { apply allocated_skipn. eapply allocated_unchanged; eassumption. }
  edestruct (h_new_rest_loop_spec new_header source_header) as (s' & Hloop & Hu2);
    [exact Ha1 |].
  exists s'. split; [| eapply unchanged_in_trans; eassumption].
  etransitivity; [exact Hrun |]. subst rest_of. cbv beta.
  unfold bind. rewrite Hloop. unfold ret.
  cbn [map_source s_titles source_name].
  rewrite (deref_unchanged _ _ _ Hu1) by now apply allocated_skipn.
  subst source_header. now rewrite length_map, skipn_map.
Qed.

Lemma h_new_groups_loop_spec new_header l : forall s st,
  allocated s (flat_map s_titles l) ->
  exists s',
    h_new_groups_loop fmt format_type max_bytes base_header base_footer new_header
      l st s
    = Some (new_groups_loop fmt format_type max_bytes base_header base_footer
              new_header (map (map_source (deref s)) l) st, s')
    /\ unchanged_in s s'.
Proof.
  induction l as [|g l IH]; intros s st Ha.
  - exists s. split; [reflexivity | apply unchanged_in_refl].
  - cbn [flat_map] in Ha. apply allocated_app in Ha as [Hg Ha].
    cbn [h_new_groups_loop map new_groups_loop].
    destruct (h_new_group_step_spec new_header s g st Hg) as (s1 & Hstep & Hu1).
    unfold bind at 1. rewrite Hstep.
    destruct (IH s1
                (new_group_step fmt format_type max_bytes base_header base_footer
                   new_header (map_source (deref s) g) st)
                (allocated_unchanged _ _ _ Hu1 Ha)) as (s' & Hloop & Hu2).
    exists s'. split; [| eapply unchanged_in_trans; eassumption].
    rewrite Hloop. do 3 f_equal.
    clear -Hu1 Ha. induction l as [|g' l IHl]; [reflexivity |].
    cbn [flat_map] in Ha. apply allocated_app in Ha as [Hg' Ha].
    cbn [map]. rewrite IHl by exact Ha. f_equal.
    unfold map_source. now rewrite (deref_unchanged _ _ _ Hu1 Hg').
Qed.

End SplitterOnStoreProps.

(** *** Pre-processing commutes with reading the titles *)

Section Naturality.

Context {A B : Type} (f : A -> B).

Lemma nonempty_map {X Y} (g : X -> Y) (l : list X) : nonempty (map g l) = nonempty l.
Proof. destruct l; reflexivity. Qed.

Lemma py_slice_to_map (r : Z) (l : list A) :
  py_slice_to r (map f l) = map f (py_slice_to r l).
Proof. unfold py_slice_to. rewrite length_map. destruct (r <? 0); apply firstn_map. Qed.

Lemma truncate_stats_map M l : forall total acc,
  truncate_stats M (map (map_stat f) l) total (map (map_stat f) acc)
  = (map (map_stat f) (fst (truncate_stats M l total acc)),
     snd (truncate_stats M l total acc)).
Proof.
  induction l as [|g l IH]; intros total acc; cbn [map truncate_stats]; [reflexivity |].
  destruct (M <=? total); [reflexivity |]. cbv zeta.
  cbn [map_stat titles word]. rewrite py_slice_to_map.
  destruct (py_slice_to (M - total) (titles g)) as [|t tl]; cbn [map]; [apply IH |].
  rewrite <- IH. rewrite map_app. cbn [map map_stat titles word count length].
  now rewrite length_map.
Qed.

Lemma truncate_new_titles_map M l : forall total acc,
  truncate_new_titles M (map (map_source f) l) total (map (map_source f) acc)
  = (map (map_source f) (fst (truncate_new_titles M l total acc)),
     snd (truncate_new_titles M l total acc)).
Proof.
  induction l as [|g l IH]; intros total acc; cbn [map truncate_new_titles];
    [reflexivity |].
  destruct (M <=? total); [reflexivity |]. cbv zeta.
  cbn [map_source s_titles source_name]. rewrite py_slice_to_map.
  destruct (py_slice_to (M - total) (s_titles g)) as [|t tl]; cbn [map]; [apply IH |].
  rewrite <- IH. rewrite map_app. cbn [map map_source s_titles source_name length].
  now rewrite length_map.
Qed.

Lemma flat_map_titles_map (l : list (StatGroup A)) :
  flat_map titles (map (map_stat f) l) = map f (flat_map titles l).
Proof.
  induction l as [|g l IH]; [reflexivity |].
  cbn [map flat_map map_stat titles]. now rewrite IH, map_app.
Qed.

Lemma total_titles_of_map (l : list (StatGroup A)) :
  total_titles_of (map (map_stat f) l) = total_titles_of l.
Proof.
  induction l as [|g l IH]; [reflexivity |].
  cbn. rewrite length_map. unfold total_titles_of in IH. now rewrite IH.
Qed.

Lemma actual_new_count_of_map (l : list (SourceGroup A)) :
  actual_new_count_of (map (map_source f) l) = actual_new_count_of l.
Proof.
  induction l as [|g l IH]; [reflexivity |].
  cbn. rewrite length_map. unfold actual_new_count_of in IH. now rewrite IH.
Qed.

Lemma make_stats_header_map format_type (l : list (StatGroup A)) :
  make_stats_header format_type (map (map_stat f) l) = make_stats_header format_type l.
Proof. unfold make_stats_header. now rewrite nonempty_map. Qed.

Lemma split_preprocess_map (rd : ReportData A) M show :
  split_preprocess (map_report f rd) M show = map_report f (split_preprocess rd M show).
Proof.
  unfold split_preprocess. cbn [map_report stats new_titles failed_ids total_new_count].
  rewrite nonempty_map.
  destruct (0 <? M).
  - assert (H1 : (if show && nonempty (stats rd)
                  then truncate_stats M (map (map_stat f) (stats rd)) 0 []
                  else ([], 0))
                 = (map (map_stat f)
                      (fst (if show && nonempty (stats rd)
                            then truncate_stats M (stats rd) 0 [] else ([], 0))),
                    snd (if show && nonempty (stats rd)
                         then truncate_stats M (stats rd) 0 [] else ([], 0)))).
    { destruct (show && nonempty (stats rd)); [| reflexivity].
      apply (truncate_stats_map M (stats rd) 0 []). }
    rewrite H1.
    destruct (if show && nonempty (stats rd)
              then truncate_stats M (stats rd) 0 [] else ([], 0)) as [ts total].
    cbn [fst snd].
    pose proof (truncate_new_titles_map M (new_titles rd) total []) as H2.
    cbn [map] in H2. rewrite H2.
    destruct (truncate_new_titles M (new_titles rd) total []) as [tn x].
    reflexivity.
  - destruct (negb show); reflexivity.
Qed.

Lemma render_preprocess_map (rd : ReportData A) M show :
  render_preprocess (map_report f rd) M show
  = map_prepared f (render_preprocess rd M show).
Proof.
  unfold render_preprocess, flatten_stats.
  cbn [map_report stats new_titles failed_ids total_new_count].
  rewrite !nonempty_map, flat_map_titles_map, length_map.
  set (all_new := if negb show && nonempty (stats rd)
                  then (if nonempty (new_titles rd)
                        then ([mkSource FLAT_SOURCE_NAME (flat_map titles (stats rd))]
                                ++ new_titles rd)%list
                        else [mkSource FLAT_SOURCE_NAME (flat_map titles (stats rd))],
                        Z.of_nat (length (flat_map titles (stats rd)))
                        + total_new_count rd)
                  else (new_titles rd, total_new_count rd)).
  assert (Hall : (if negb show && nonempty (stats rd)
                  then (if nonempty (new_titles rd)
                        then ([mkSource FLAT_SOURCE_NAME
                                 (map f (flat_map titles (stats rd)))]
                                ++ map (map_source f) (new_titles rd))%list
                        else [mkSource FLAT_SOURCE_NAME
                                (map f (flat_map titles (stats rd)))],
                        Z.of_nat (length (flat_map titles (stats rd)))
                        + total_new_count rd)
                  else (map (map_source f) (new_titles rd), total_new_count rd))
                 = (map (map_source f) (fst all_new), snd all_new)).
  { subst all_new. destruct (negb show && nonempty (stats rd)); [| reflexivity].
    destruct (nonempty (new_titles rd)); reflexivity. }
  rewrite Hall. destruct all_new as [all_new orig]. cbn [fst snd].
  destruct (0 <? M).
  - assert (H1 : (if show && nonempty (stats rd)
                  then truncate_stats M (map (map_stat f) (stats rd)) 0 []
                  else ([], 0))
                 = (map (map_stat f)
                      (fst (if show && nonempty (stats rd)
                            then truncate_stats M (stats rd) 0 [] else ([], 0))),
                    snd (if show && nonempty (stats rd)
                         then truncate_stats M (stats rd) 0 [] else ([], 0)))).
    { destruct (show && nonempty (stats rd)); [| reflexivity].
      apply (truncate_stats_map M (stats rd) 0 []). }
    rewrite H1.
    destruct (if show && nonempty (stats rd)
              then truncate_stats M (stats rd) 0 [] else ([], 0)) as [ts total].
    cbn [fst snd].
    pose proof (truncate_new_titles_map M all_new total []) as H2.
    cbn [map] in H2. rewrite H2.
    destruct (truncate_new_titles M all_new total []) as [tn x].
    reflexivity.
  - destruct show; reflexivity.
Qed.

End Naturality.

(** *** The groups kept refer to title items of the report *)

Lemma allocated_firstn s n ls : allocated s ls -> allocated s (firstn n ls).
Proof.
  intros Ha. unfold allocated in *. rewrite Forall_forall in *.
  intros l Hl. apply Ha. rewrite <- (firstn_skipn n ls).
  apply list_elem_of_In, in_or_app. left. now apply list_elem_of_In.
Qed.

Lemma truncated_to_allocated s M (in_stats : list (StatGroup loc)) in_new out_stats out_new :
  truncated_to M in_stats in_new out_stats out_new ->
  allocated s (flat_map titles in_stats ++ flat_map s_titles in_new)%list ->
  allocated s (flat_map titles out_stats) /\ allocated s (flat_map s_titles out_new).
Proof.
  intros (_ & _ & _ & _ & Hflat) Ha.
  apply allocated_app. rewrite Hflat. now apply allocated_firstn.
Qed.

Lemma split_preprocess_allocated s (rd : ReportData loc) M show :
  allocated s (report_locs rd) ->
  allocated s (flat_map titles (stats (split_preprocess rd M show)))
  /\ allocated s (flat_map s_titles (new_titles (split_preprocess rd M show))).
Proof.
  intros Ha. unfold report_locs in Ha. pose proof Ha as Ha'.
  apply allocated_app in Ha' as [Hs Hn].
  unfold split_preprocess. destruct (Z.ltb_spec 0 M) as [HM | HM].
  - pose proof (truncate_guarded M show (stats rd) (new_titles rd) HM) as Hloop.
    cbv zeta in Hloop.
    destruct (if show && nonempty (stats rd)
              then truncate_stats M (stats rd) 0 [] else ([], 0)) as [ts total].
    cbn [fst snd] in Hloop.
    destruct (truncate_new_titles M (new_titles rd) total []) as [tn x].
    cbn [fst stats new_titles] in Hloop |- *.
    eapply truncated_to_allocated; [exact Hloop |].
    apply allocated_app. split; [| exact Hn]. destruct show; [exact Hs | constructor].
  - destruct (negb show); cbn [stats new_titles flat_map]; split;
      first [exact Hs | exact Hn | constructor].
Qed.

Lemma render_preprocess_allocated s (rd : ReportData loc) M show :
  allocated s (report_locs rd) ->
  allocated s (flat_map titles (truncated_stats (render_preprocess rd M show)))
  /\ allocated s (flat_map s_titles (truncated_new_titles (render_preprocess rd M show))).
Proof.
  intros Ha. unfold report_locs in Ha. pose proof Ha as Ha'.
  apply allocated_app in Ha' as [Hs Hn].
  assert (Hall : allocated s (flat_map s_titles (fst (flatten_stats rd show)))).
  { unfold flatten_stats. destruct (negb show && nonempty (stats rd)); [| exact Hn].
    destruct (nonempty (new_titles rd)); cbn [fst flat_map app s_titles].
    - exact Ha.
    - now rewrite app_nil_r. }
  unfold render_preprocess.
  destruct (flatten_stats rd show) as [all_new orig]. cbn [fst] in Hall.
  destruct (Z.ltb_spec 0 M) as [HM | HM].
  - pose proof (truncate_guarded M show (stats rd) all_new HM) as Hloop.
    cbv zeta in Hloop.
    destruct (if show && nonempty (stats rd)
              then truncate_stats M (stats rd) 0 [] else ([], 0)) as [ts total].
    cbn [fst snd] in Hloop.
    destruct (truncate_new_titles M all_new total []) as [tn x].
    cbn [fst truncated_stats truncated_new_titles] in Hloop |- *.
    eapply truncated_to_allocated; [exact Hloop |].
    apply allocated_app. split; [| exact Hall]. destruct show; [exact Hs | constructor].
  - cbn [truncated_stats truncated_new_titles]. split; [| exact Hall].
    destruct show; [exact Hs | constructor].
Qed.

Lemma map_stat_unchanged s s' (l : list (StatGroup loc)) :
  unchanged_in s s' -> allocated s (flat_map titles l) ->
  map (map_stat (deref s')) l = map (map_stat (deref s)) l.
Proof.
  intros Hu Ha. induction l as [|g l IH]; [reflexivity |].
  cbn [flat_map] in Ha. apply allocated_app in Ha as [Hg Ha].
  cbn [map]. rewrite IH by exact Ha. f_equal.
  unfold map_stat. now rewrite (deref_unchanged _ _ _ Hu Hg).
Qed.

Lemma map_source_unchanged s s' (l : list (SourceGroup loc)) :
  unchanged_in s s' -> allocated s (flat_map s_titles l) ->
  map (map_source (deref s')) l = map (map_source (deref s)) l.
Proof.
  intros Hu Ha. induction l as [|g l IH]; [reflexivity |].
  cbn [flat_map] in Ha. apply allocated_app in Ha as [Hg Ha].
  cbn [map]. rewrite IH by exact Ha. f_equal.
  unfold map_source. now rewrite (deref_unchanged _ _ _ Hu Hg).
Qed.

Lemma report_value_unchanged s s' r :
  unchanged_in s s' -> well_formed s r ->
  report_value s' r = report_value s r /\ well_formed s' r.
Proof.
  intros Hu (rd & Hr & Ha). split.
  - unfold report_value. rewrite Hr, (unchanged_report _ _ _ _ Hu Hr).
    unfold report_locs in Ha. apply allocated_app in Ha as [Hs Hn].
    unfold map_report.
    now rewrite (map_stat_unchanged _ _ _ Hu Hs), (map_source_unchanged _ _ _ Hu Hn).
  - exists rd. split; [eapply unchanged_report; eassumption |].
    eapply allocated_unchanged; eassumption.
Qed.

(** *** The splitter on the store *)

(** The copy of the report and the assignments to its keys: the result is
    a new report object holding the pre-processed groups; every object the
    store held before is as it was. *)
Lemma h_split_preprocess_spec s r rd M show :
  report_objs s !! r = Some rd ->
  exists r' s',
    h_split_preprocess r M show s = Some (r', s')
    /\ report_objs s' !! r' = Some (split_preprocess rd M show)
    /\ title_objs s' = title_objs s
    /\ unchanged_in s s'.
Proof.
  intros Hr. set (r' := fresh (dom (report_objs s))).
  assert (Hfresh : report_objs s !! r' = None).
  { apply not_elem_of_dom. apply is_fresh. }
  assert (Hne : r' <> r) by (intros ->; congruence).
  exists r', (mkStore (title_objs s)
                (<[r' := split_preprocess rd M show]> (report_objs s))).
  split; [| split; [| split; [| split]]]; cbn [title_objs report_objs];
    try reflexivity; [| apply lookup_insert_eq | now apply insert_subseteq].
  unfold h_split_preprocess, bind, copy_report, read_report. rewrite Hr. fold r'.
  cbn [title_objs report_objs]. rewrite lookup_insert_ne by exact Hne. rewrite Hr.
  unfold split_preprocess.
  destruct (0 <? M).
  - destruct (if show && nonempty (stats rd)
              then truncate_stats M (stats rd) 0 [] else ([], 0)) as [ts total].
    destruct (truncate_new_titles M (new_titles rd) total []) as [tn x].
    unfold store_stats, store_new_titles, ret. cbn [title_objs report_objs].
    rewrite lookup_insert_eq. cbn [title_objs report_objs].
    rewrite lookup_insert_eq. cbn [title_objs report_objs stats new_titles failed_ids
                                     total_new_count].
    now rewrite !insert_insert_eq.
  - destruct (negb show).
    + unfold store_stats, ret. cbn [title_objs report_objs].
      rewrite lookup_insert_eq. cbn [title_objs report_objs].
      now rewrite insert_insert_eq.
    + unfold ret. destruct rd; reflexivity.
Qed.

Lemma h_process_new_titles_section_spec fmt format_type feishu_separator max_bytes
    base_header base_footer max_total total_new l s st :
  allocated s (flat_map s_titles l) ->
  exists s',
    h_process_new_titles_section fmt format_type feishu_separator max_bytes base_header
      base_footer max_total total_new l st s
    = Some (process_new_titles_section fmt format_type feishu_separator max_bytes
              base_header base_footer max_total total_new
              (map (map_source (deref s)) l) st, s')
    /\ unchanged_in s s'.
Proof.
  intros Ha. unfold h_process_new_titles_section, process_new_titles_section.
  destruct l as [|g l].
  - exists s. split; [reflexivity | apply unchanged_in_refl].
  - cbv zeta.
    edestruct (h_new_groups_loop_spec fmt format_type max_bytes base_header base_footer)
      as (s' & Hloop & Hu); [exact Ha |].
    exists s'. split; [| exact Hu]. rewrite Hloop.
    change (map (map_source (deref s)) (g :: l))
      with (map_source (deref s) g :: map (map_source (deref s)) l) at 2 3.
    change (map_source (deref s) g :: map (map_source (deref s)) l)
      with (map (map_source (deref s)) (g :: l)).
    now rewrite actual_new_count_of_map.
Qed.

(** The splitter run on the store returns what the splitter on values
    returns for the report as the store holds it, and leaves every object
    the store held before as it was: the report copy and the title copies
    are new objects, and only they are assigned to. *)
Lemma h_split_content_into_batches_spec fmt s r format_type update_info max_bytes mode
    batch_sizes feishu_separator reverse_content_order max_total_news_in_push
    show_stats_in_push now :
  well_formed s r ->
  exists s',
    h_split_content_into_batches fmt r format_type update_info max_bytes mode
      batch_sizes feishu_separator reverse_content_order max_total_news_in_push
      show_stats_in_push now s
    = Some (split_content_into_batches fmt (report_value s r) format_type update_info
              max_bytes mode batch_sizes feishu_separator reverse_content_order
              max_total_news_in_push show_stats_in_push now, s')
    /\ unchanged_in s s'.
Proof.
  intros (rd & Hr & Ha).
  destruct (h_split_preprocess_spec s r rd max_total_news_in_push show_stats_in_push Hr)
    as (r' & s1 & Hpre & Hr' & Htitles & Hu1).
  set (trd := split_preprocess rd max_total_news_in_push show_stats_in_push) in *.
  destruct (split_preprocess_allocated s rd max_total_news_in_push show_stats_in_push Ha)
    as [Has Han]. fold trd in Has, Han.
  assert (Has1 : allocated s1 (flat_map titles (stats trd)))
    by (eapply allocated_unchanged; eassumption).
  assert (Han1 : allocated s1 (flat_map s_titles (new_titles trd)))
    by (eapply allocated_unchanged; eassumption).
  unfold report_value. rewrite Hr.
  unfold split_content_into_batches, split_with_budget. cbv zeta.
  rewrite split_preprocess_map. fold trd.
  cbn [map_report stats new_titles failed_ids total_new_count].
  rewrite !nonempty_map, total_titles_of_map, make_stats_header_map.
  unfold h_split_content_into_batches. cbv zeta.
  unfold bind at 1. rewrite Hpre.
  unfold bind at 1. unfold read_report at 1. rewrite Hr'.
  unfold bind at 1. unfold read_report at 1.
  rewrite (unchanged_report _ _ _ _ Hu1 Hr).
  set (budget := resolve_max_bytes format_type max_bytes batch_sizes).
  set (base_header := make_base_header format_type (total_titles_of (stats trd)) now).
  set (base_footer := make_base_footer format_type now update_info).
  set (stats_header := make_stats_header format_type (stats trd)).
  set (st0 := mkState base_header false []).
  destruct (negb (nonempty (stats trd)) && negb (nonempty (new_titles trd))
            && negb (nonempty (failed_ids rd))).
  { exists s1. split; [reflexivity | exact Hu1]. }
  destruct reverse_content_order.
  - destruct (h_process_new_titles_section_spec fmt format_type feishu_separator budget
                base_header base_footer max_total_news_in_push (total_new_count rd)
                (new_titles trd) s1 st0 Han1) as (s2 & Hnew & Hu2).
    exists s2. split; [| eapply unchanged_in_trans; eassumption].
    unfold bind. rewrite Hnew.
    rewrite h_process_stats_section_spec by (eapply allocated_unchanged; eassumption).
    unfold ret.
    rewrite (map_stat_unchanged _ _ _ Hu2 Has1).
    rewrite (map_stat_unchanged _ _ _ Hu1 Has), (map_source_unchanged _ _ _ Hu1 Han).
    reflexivity.
  - destruct (h_process_new_titles_section_spec fmt format_type feishu_separator budget
                base_header base_footer max_total_news_in_push (total_new_count rd)
                (new_titles trd) s1
                (process_stats_section fmt format_type feishu_separator budget
                   base_header base_footer stats_header
                   (map (map_stat (deref s1)) (stats trd)) st0) Han1)
      as (s2 & Hnew & Hu2).
    exists s2. split; [| eapply unchanged_in_trans; eassumption].
    unfold bind. rewrite h_process_stats_section_spec by exact Has1.
    rewrite Hnew. unfold ret.
    rewrite (map_stat_unchanged _ _ _ Hu1 Has), (map_source_unchanged _ _ _ Hu1 Han).
    reflexivity.
Qed.

(** *** The renderers on the store *)

Section RendererOnStoreProps.

Variable fmt : string -> TitleItem -> bool -> string.

Lemma h_render_stat_titles_spec s platform n l : forall j c,
  allocated s l ->
  h_render_stat_titles fmt platform n j l c s
  = Some (render_stat_titles fmt platform n j (map (deref s) l) c, s).
Proof.
  induction l as [|x l IH]; intros j c Ha; [reflexivity |].
  apply allocated_cons in Ha as [Hx Ha].
  cbn [h_render_stat_titles map render_stat_titles]. unfold bind at 1.
  rewrite (read_title_spec _ _ Hx). now apply IH.
Qed.

Lemma h_feishu_stat_groups_spec s separator total_count l : forall i c,
  allocated s (flat_map titles l) ->
  h_feishu_stat_groups fmt separator total_count i l c s
  = Some (feishu_stat_groups fmt separator total_count i
            (map (map_stat (deref s)) l) c, s).
Proof.
  induction l as [|g l IH]; intros i c Ha; [reflexivity |].
  cbn [flat_map] in Ha. apply allocated_app in Ha as [Hg Ha].
  cbn [h_feishu_stat_groups map feishu_stat_groups]. cbv zeta. unfold bind at 1.
  rewrite (h_render_stat_titles_spec _ _ _ _ _ _ Hg).
  rewrite IH by exact Ha. cbn [map_stat titles]. now rewrite length_map.
Qed.

Lemma h_dingtalk_stat_groups_spec s total_count l : forall i c,
  allocated s (flat_map titles l) ->
  h_dingtalk_stat_groups fmt total_count i l c s
  = Some (dingtalk_stat_groups fmt total_count i (map (map_stat (deref s)) l) c, s).
Proof.
  induction l as [|g l IH]; intros i c Ha; [reflexivity |].
  cbn [flat_map] in Ha. apply allocated_app in Ha as [Hg Ha].
  cbn [h_dingtalk_stat_groups map dingtalk_stat_groups]. cbv zeta. unfold bind at 1.
  rewrite (h_render_stat_titles_spec _ _ _ _ _ _ Hg).
  rewrite IH by exact Ha. cbn [map_stat titles]. now rewrite length_map.
Qed.

Lemma h_render_new_items_spec platform indent l : forall s acc,
  allocated s l ->
  exists s',
    h_render_new_items fmt platform indent l acc s
    = Some (render_new_items fmt platform indent (map (deref s) l) acc, s')
    /\ unchanged_in s s'.
Proof.
  induction l as [|x l IH]; intros s acc Ha.
  - exists s. split; [reflexivity | apply unchanged_in_refl].
  - apply allocated_cons in Ha as [Hx Ha].
    destruct (copy_clear_read s x
                (fun d => h_render_new_items fmt platform indent l
                            (render_new_item fmt platform indent d acc))
                Hx) as (s1 & Hrun & Hu1).
    destruct (IH s1 (render_new_item fmt platform indent
                       (set_is_new (deref s x) false) acc)
                (allocated_unchanged _ _ _ Hu1 Ha)) as (s' & Hloop & Hu2).
    exists s'. split; [| eapply unchanged_in_trans; eassumption].
    etransitivity; [exact Hrun |]. cbv beta. rewrite Hloop.
    cbn [map render_new_items]. now rewrite (deref_unchanged _ _ _ Hu1 Ha).
Qed.

Lemma h_render_new_groups_spec platform header_end l : forall s acc,
  allocated s (flat_map s_titles l) ->
  exists s',
    h_render_new_groups fmt platform header_end l acc s
    = Some (render_new_groups fmt platform header_end
              (map (map_source (deref s)) l) acc, s')
    /\ unchanged_in s s'.
Proof.
  induction l as [|g l IH]; intros s acc Ha.
  - exists s. split; [reflexivity | apply unchanged_in_refl].
  - cbn [flat_map] in Ha. apply allocated_app in Ha as [Hg Ha].
    cbn [h_render_new_groups map render_new_groups]. cbv zeta.
    destruct (h_render_new_items_spec platform (new_group_indent g) (s_titles g) s
                (new_group_open header_end g acc) Hg) as (s1 & Hitems & Hu1).
    unfold bind at 1. rewrite Hitems.
    destruct (IH s1 (new_group_close g
                       (render_new_items fmt platform (new_group_indent g)
                          (map (deref s) (s_titles g))
                          (new_group_open header_end g acc)))
                (allocated_unchanged _ _ _ Hu1 Ha)) as (s' & Hloop & Hu2).
    exists s'. split; [| eapply unchanged_in_trans; eassumption].
    rewrite Hloop. rewrite (map_source_unchanged _ _ _ Hu1 Ha).
    unfold new_group_open, new_group_indent, new_group_close.
    cbn [map_source s_titles source_name]. now rewrite length_map.
Qed.

Lemma h_render_feishu_content_spec s r update_info mode separator
    reverse_content_order max_total_news_in_push show_stats_in_push now :
  well_formed s r ->
  exists s',
    h_render_feishu_content fmt r update_info mode separator reverse_content_order
      max_total_news_in_push show_stats_in_push now s
    = Some (render_feishu_content fmt (report_value s r) update_info mode separator
              reverse_content_order max_total_news_in_push show_stats_in_push now, s')
    /\ unchanged_in s s'.
Proof.
  intros (rd & Hr & Ha).
  destruct (render_preprocess_allocated s rd max_total_news_in_push
              show_stats_in_push Ha) as [Has Han].
  unfold report_value. rewrite Hr.
  unfold render_feishu_content, render_feishu_body. cbv zeta.
  rewrite render_preprocess_map.
  set (p := render_preprocess rd max_total_news_in_push show_stats_in_push) in *.
  cbn [map_prepared truncated_stats truncated_new_titles map_report failed_ids].
  rewrite !nonempty_map, length_map.
  unfold h_render_feishu_content. cbv zeta.
  unfold bind at 1. unfold read_report at 1. rewrite Hr. fold p.
  assert (Hstats :
            (if show_stats_in_push && nonempty (truncated_stats p)
             then h_feishu_stat_groups fmt separator (length (truncated_stats p)) 0
                    (truncated_stats p) ("" +:+ ("📊 **热点词汇统计**" +:+ nl +:+ nl))
             else ret "") s
            = Some (if show_stats_in_push && nonempty (truncated_stats p)
                    then feishu_stat_groups fmt separator (length (truncated_stats p)) 0
                           (map (map_stat (deref s)) (truncated_stats p))
                           ("" +:+ ("📊 **热点词汇统计**" +:+ nl +:+ nl))
                    else "", s)).
  { destruct (show_stats_in_push && nonempty (truncated_stats p)); [| reflexivity].
    now apply h_feishu_stat_groups_spec. }
  unfold bind at 1. rewrite Hstats.
  destruct (nonempty (truncated_new_titles p)).
  - destruct (h_render_new_groups_spec "feishu" nl (truncated_new_titles p) s
                ("", 0%nat) Han) as (s' & Hnew & Hu).
    exists s'. split; [| exact Hu]. unfold bind. rewrite Hnew. reflexivity.
  - exists s. split; [reflexivity | apply unchanged_in_refl].
Qed.

Lemma h_render_dingtalk_content_spec s r update_info mode
    reverse_content_order max_total_news_in_push show_stats_in_push now :
  well_formed s r ->
  exists s',
    h_render_dingtalk_content fmt r update_info mode reverse_content_order
      max_total_news_in_push show_stats_in_push now s
    = Some (render_dingtalk_content fmt (report_value s r) update_info mode
              reverse_content_order max_total_news_in_push show_stats_in_push now, s')
    /\ unchanged_in s s'.
Proof.
  intros (rd & Hr & Ha).
  destruct (render_preprocess_allocated s rd max_total_news_in_push
              show_stats_in_push Ha) as [Has Han].
  unfold report_value. rewrite Hr.
  unfold render_dingtalk_content, render_dingtalk_body. cbv zeta.
  rewrite render_preprocess_map.
  set (p := render_preprocess rd max_total_news_in_push show_stats_in_push) in *.
  cbn [map_prepared truncated_stats truncated_new_titles map_report failed_ids].
  rewrite !nonempty_map, length_map, total_titles_of_map.
  unfold h_render_dingtalk_content. cbv zeta.
  unfold bind at 1. unfold read_report at 1. rewrite Hr. fold p.
  assert (Hstats :
            (if show_stats_in_push && nonempty (truncated_stats p)
             then h_dingtalk_stat_groups fmt (length (truncated_stats p)) 0
                    (truncated_stats p) ("" +:+ ("📊 **热点词汇统计**" +:+ nl +:+ nl))
             else ret "") s
            = Some (if show_stats_in_push && nonempty (truncated_stats p)
                    then dingtalk_stat_groups fmt (length (truncated_stats p)) 0
                           (map (map_stat (deref s)) (truncated_stats p))
                           ("" +:+ ("📊 **热点词汇统计**" +:+ nl +:+ nl))
                    else "", s)).
  { destruct (show_stats_in_push && nonempty (truncated_stats p)); [| reflexivity].
    now apply h_dingtalk_stat_groups_spec. }
  unfold bind at 1. rewrite Hstats.
  destruct (nonempty (truncated_new_titles p)).
  - destruct (h_render_new_groups_spec "dingtalk" (nl +:+ nl) (truncated_new_titles p) s
                ("", 0%nat) Han) as (s' & Hnew & Hu).
    exists s'. split; [| exact Hu]. unfold bind. rewrite Hnew. reflexivity.
  - exists s. split; [reflexivity | apply unchanged_in_refl].
Qed.

End RendererOnStoreProps.

(** *** Running twice on the same report *)

(** A run that returns the value-level result and changes no object can be
    followed by another such run, which sees the report as the first did. *)
Lemma run_then_run {A B} (first : M A) (second : M B)
    (first_value : ReportData TitleItem -> A) (second_value : ReportData TitleItem -> B)
    (r : loc) :
  (forall s, well_formed s r ->
     exists s', first s = Some (first_value (report_value s r), s') /\ unchanged_in s s') ->
  (forall s, well_formed s r ->
     exists s', second s = Some (second_value (report_value s r), s')
                /\ unchanged_in s s') ->
  forall s, well_formed s r ->
    exists s1 s2,
      first s = Some (first_value (report_value s r), s1)
      /\ second s1 = Some (second_value (report_value s r), s2)
      /\ unchanged_in s s1 /\ unchanged_in s s2.
Proof.
  intros Hfirst Hsecond s Hwf.
  destruct (Hfirst s Hwf) as (s1 & Hrun1 & Hu1).
  destruct (report_value_unchanged s s1 r Hu1 Hwf) as [Hval Hwf1].
  destruct (Hsecond s1 Hwf1) as (s2 & Hrun2 & Hu2).
  exists s1, s2. rewrite Hval in Hrun2.
  repeat split; try assumption; try apply Hu1;
    destruct (unchanged_in_trans _ _ _ Hu1 Hu2); assumption.
Qed.

(** C9.  Run on a store that holds the report and its title items, each of
    the splitter and the two renderers returns what its value-level model
    returns for the report as the store holds it, and every object of the
    store, the report and each title item with its [is_new] flag, is
    afterwards what it was: the report copy and the per-item copies are new
    objects and only they are assigned to.  A second run, of the splitter
    for any platform or of a renderer, started in the store the first run
    left, therefore returns what it returns for the report as it was
    before the first run. *)
Theorem input_is_not_mutated :
  forall fmt s r format_type format_type' update_info max_bytes mode batch_sizes
         separator reverse_content_order max_total_news_in_push show_stats_in_push now,
    well_formed s r ->
    let split_on format_type :=
      h_split_content_into_batches fmt r format_type update_info max_bytes mode
        batch_sizes separator reverse_content_order max_total_news_in_push
        show_stats_in_push now in
    let split_of format_type report_data :=
      split_content_into_batches fmt report_data format_type update_info max_bytes mode
        batch_sizes separator reverse_content_order max_total_news_in_push
        show_stats_in_push now in
    let feishu_on :=
      h_render_feishu_content fmt r update_info mode separator reverse_content_order
        max_total_news_in_push show_stats_in_push now in
    let feishu_of report_data :=
      render_feishu_content fmt report_data update_info mode separator
        reverse_content_order max_total_news_in_push show_stats_in_push now in
    let dingtalk_on :=
      h_render_dingtalk_content fmt r update_info mode reverse_content_order
        max_total_news_in_push show_stats_in_push now in
    let dingtalk_of report_data :=
      render_dingtalk_content fmt report_data update_info mode reverse_content_order
        max_total_news_in_push show_stats_in_push now in
    (exists s1 s2,
        split_on format_type s = Some (split_of format_type (report_value s r), s1)
        /\ split_on format_type' s1 = Some (split_of format_type' (report_value s r), s2)
        /\ unchanged_in s s1 /\ unchanged_in s s2)
    /\ (exists s1 s2,
          feishu_on s = Some (feishu_of (report_value s r), s1)
          /\ dingtalk_on s1 = Some (dingtalk_of (report_value s r), s2)
          /\ unchanged_in s s1 /\ unchanged_in s s2)
    /\ (exists s1 s2,
          dingtalk_on s = Some (dingtalk_of (report_value s r), s1)
          /\ split_on format_type s1 = Some (split_of format_type (report_value s r), s2)
          /\ unchanged_in s s1 /\ unchanged_in s s2).
Proof.
  intros fmt s r format_type format_type' update_info max_bytes mode batch_sizes
    separator reverse_content_order max_total_news_in_push show_stats_in_push now Hwf
    split_on split_of feishu_on feishu_of dingtalk_on dingtalk_of.
  assert (Hsplit : forall ft s0, well_formed s0 r ->
            exists s', split_on ft s0 = Some (split_of ft (report_value s0 r), s')
                       /\ unchanged_in s0 s').
  { intros ft s0 H0. apply h_split_content_into_batches_spec, H0. }
  assert (Hfeishu : forall s0, well_formed s0 r ->
            exists s', feishu_on s0 = Some (feishu_of (report_value s0 r), s')
                       /\ unchanged_in s0 s').
  { intros s0 H0. apply h_render_feishu_content_spec, H0. }
  assert (Hdingtalk : forall s0, well_formed s0 r ->
            exists s', dingtalk_on s0 = Some (dingtalk_of (report_value s0 r), s')
                       /\ unchanged_in s0 s').
  { intros s0 H0. apply h_render_dingtalk_content_spec, H0. }
  split; [| split].
  - exact (run_then_run _ _ _ _ r (Hsplit format_type) (Hsplit format_type') s Hwf).
  - exact (run_then_run _ _ _ _ r Hfeishu Hdingtalk s Hwf).
  - exact (run_then_run _ _ _ _ r Hdingtalk (Hsplit format_type) s Hwf).
Qed.

Lemma sample_store_well_formed : well_formed sample_store 1%positive.
Proof.
  exists (mkReport [mkStat "ai" 2 [1%positive; 2%positive]]
            [mkSource "src" [1%positive]] ["f"] 1).
  split; [reflexivity |].
  repeat constructor; eexists; reflexivity.
Defined.

(** On the sample store, whose word group and source group share a title
    item that is new: a "feishu" split followed by a "bark" split. *)
Lemma input_is_not_mutated_witness :
  well_formed sample_store 1%positive
  /\ exists s1 s2,
       h_split_content_into_batches sample_formatter 1%positive "feishu" None (Some 120)
         "daily" None "---" false 0 true "2026-01-01 00:00:00" sample_store
       = Some (split_content_into_batches sample_formatter
                 (report_value sample_store 1%positive) "feishu" None (Some 120)
                 "daily" None "---" false 0 true "2026-01-01 00:00:00", s1)
       /\ h_split_content_into_batches sample_formatter 1%positive "bark" None (Some 120)
            "daily" None "---" false 0 true "2026-01-01 00:00:00" s1
          = Some (split_content_into_batches sample_formatter
                    (report_value sample_store 1%positive) "bark" None (Some 120)
                    "daily" None "---" false 0 true "2026-01-01 00:00:00", s2)
       /\ unchanged_in sample_store s1 /\ unchanged_in sample_store s2.
Proof.
  split; [exact sample_store_well_formed |].
  exact (proj1 (input_is_not_mutated sample_formatter sample_store 1%positive
                  "feishu" "bark" None (Some 120) "daily" None "---" false 0 true
                  "2026-01-01 00:00:00" sample_store_well_formed)).
Defined.

(** ** Batches with content *)

Lemma starts_with_section_app hs l more :
  starts_with_section hs l -> starts_with_section hs (l ++ more)%list.
Proof. destruct l as [|p [|q l]]; try contradiction; destruct p; cbn; tauto. Qed.

Section TraceContent.

Variable fmt : string -> TitleItem -> bool -> string.
Variables format_type feishu_separator : string.
Variable max_bytes : Z.
Variables base_header base_footer stats_header : string.
Variable total_count : nat.
Variable new_header : string.
Variable hs : bool.

Local Abbreviation t_trial :=
  (t_trial_append fmt format_type feishu_separator max_bytes base_header base_footer
     stats_header total_count new_header).

Lemma flush_content ts :
  content_inv hs ts -> Forall (fun b => starts_with_section hs (pieces b)) (t_flush ts).
Proof.
  intros [Hb Hc]. unfold t_flush. destruct (t_has_content ts); [| exact Hb].
  apply Forall_app. split; [exact Hb | now constructor].
Qed.

(** a trial append that opens a section *)
Lemma trial_opens p reseed ts :
  content_inv hs ts -> section_start hs p = true ->
  starts_with_section hs reseed ->
  open_inv hs (t_trial [p] reseed ts).
Proof.
  intros Hinv Hp Hseed. pose proof (flush_content ts Hinv) as Hf.
  destruct Hinv as [Hb Hc]. unfold t_trial_append.
  destruct (max_bytes <=? _); (split; [split |]); state_simpl; try reflexivity;
    try assumption.
  - unfold pieces; state_simpl. now rewrite app_nil_r.
  - rewrite pieces_commit. destruct (t_has_content ts).
    + now apply starts_with_section_app.
    + rewrite Hc. exact Hp.
Qed.

(** a trial append inside a section *)
Lemma trial_content chunk reseed ts :
  open_inv hs ts -> starts_with_section hs reseed -> open_inv hs (t_trial chunk reseed ts).
Proof.
  intros [Hinv Hhas] Hseed. pose proof (flush_content ts Hinv) as Hf.
  destruct Hinv as [Hb Hc]. rewrite Hhas in Hc. unfold t_trial_append.
  destruct (max_bytes <=? _); (split; [split |]); state_simpl; try reflexivity;
    try assumption.
  - unfold pieces; state_simpl. now rewrite app_nil_r.
  - rewrite pieces_commit. now apply starts_with_section_app.
Qed.

Lemma commit_content chunk ts :
  open_inv hs ts ->
  open_inv hs (mkTState (commit chunk (t_current ts)) (t_has_content ts) (t_batches ts)).
Proof.
  intros [[Hb Hc] Hhas]. rewrite Hhas in Hc.
  split; [split |]; state_simpl; [exact Hb | | exact Hhas].
  rewrite Hhas, pieces_commit. now apply starts_with_section_app.
Qed.

Lemma stats_rest_content i stat rest : forall j ts,
  hs = true -> open_inv hs ts ->
  open_inv hs (t_stats_rest_loop fmt format_type feishu_separator max_bytes base_header
              base_footer stats_header total_count new_header i stat j rest ts).
Proof.
  induction rest as [|t rest IH]; intros j ts Hhs Hinv; cbn [t_stats_rest_loop];
    [exact Hinv |].
  apply IH; [exact Hhs |]. apply trial_content; [exact Hinv | exact Hhs].
Qed.

Lemma process_stats_content l ts :
  (nonempty l = true -> hs = true) ->
  content_inv hs ts ->
  content_inv hs
    (t_process_stats_section fmt format_type feishu_separator max_bytes base_header
       base_footer stats_header total_count new_header l ts).
Proof.
  intros Hhs Hinv. unfold t_process_stats_section.
  destruct l as [|stat0 l]; [exact Hinv |]. specialize (Hhs eq_refl).
  assert (H1 : open_inv hs
                 (t_append_stats_header fmt format_type feishu_separator max_bytes
                    base_header base_footer stats_header total_count new_header ts)).
  { pose proof (flush_content ts Hinv) as Hf. destruct Hinv as [Hb Hc].
    unfold t_append_stats_header.
    destruct (_ <? max_bytes); (split; [split |]); state_simpl; try reflexivity;
      try assumption.
    all: try (rewrite pieces_commit; destruct (t_has_content ts);
              [now apply starts_with_section_app | rewrite Hc; exact Hhs]).
    all: exact Hhs. }
  revert H1.
  generalize (t_append_stats_header fmt format_type feishu_separator max_bytes
                base_header base_footer stats_header total_count new_header ts).
  generalize (length (stat0 :: l)) as n_stats. generalize 0%nat as i.
  induction (stat0 :: l) as [|stat l' IH]; intros i n_stats ts' H1;
    cbn [t_stats_groups_loop]; [apply H1 |].
  apply IH. unfold t_stats_group_step. cbv zeta.
  assert (H2 : open_inv hs
            (t_stats_rest_loop fmt format_type feishu_separator max_bytes base_header
               base_footer stats_header total_count new_header i stat 1
               (skipn 1 (titles stat))
               (t_trial (word_with_first_news i stat)
                  (PBaseHeader :: PStatsHeader :: word_with_first_news i stat) ts'))).
  { apply stats_rest_content; [exact Hhs |].
    apply trial_content; [exact H1 | exact Hhs]. }
  destruct (_ <? _); [| exact H2].
  unfold t_append_separator. destruct (_ <? max_bytes); [| exact H2].
  now apply commit_content.
Qed.

Lemma new_rest_content k source_data rest : forall j ts,
  open_inv hs ts ->
  open_inv hs (t_new_rest_loop fmt format_type feishu_separator max_bytes base_header
              base_footer stats_header total_count new_header k source_data j rest ts).
Proof.
  induction rest as [|t rest IH]; intros j ts Hinv; cbn [t_new_rest_loop];
    [exact Hinv |].
  apply IH. apply trial_content; [exact Hinv | reflexivity].
Qed.

Lemma process_new_titles_content l ts :
  content_inv hs ts ->
  content_inv hs
    (t_process_new_titles_section fmt format_type feishu_separator max_bytes base_header
       base_footer stats_header total_count new_header l ts).
Proof.
  intros Hinv. unfold t_process_new_titles_section.
  destruct l as [|g0 l]; [exact Hinv |].
  assert (H1 : open_inv hs (t_trial [PNewHeader] [PBaseHeader; PNewHeader] ts))
    by (apply trial_opens; [exact Hinv | reflexivity | reflexivity]).
  revert H1. generalize (t_trial [PNewHeader] [PBaseHeader; PNewHeader] ts).
  generalize 0%nat as k.
  induction (g0 :: l) as [|g l' IH]; intros k ts' H1; cbn [t_new_groups_loop];
    [apply H1 |].
  apply IH. unfold t_new_group_step. cbv zeta.
  apply commit_content, new_rest_content.
  apply trial_content; [exact H1 | reflexivity].
Qed.

Lemma process_failed_content l ts :
  content_inv hs ts ->
  content_inv hs
    (t_process_failed_section fmt format_type feishu_separator max_bytes base_header
       base_footer stats_header total_count new_header l ts).
Proof.
  intros Hinv. unfold t_process_failed_section.
  destruct l as [|id0 l]; [exact Hinv |].
  assert (H1 : open_inv hs (t_trial [PFailedHeader] [PBaseHeader; PFailedHeader] ts))
    by (apply trial_opens; [exact Hinv | reflexivity | reflexivity]).
  revert H1. generalize (t_trial [PFailedHeader] [PBaseHeader; PFailedHeader] ts).
  induction (id0 :: l) as [|id l' IH]; intros ts' H1; cbn [t_failed_loop]; [apply H1 |].
  apply IH. apply trial_content; [exact H1 | reflexivity].
Qed.

End TraceContent.

(** Every batch of the chunk-level run starts with the base header and a
    chunk that opens a section. *)
Lemma split_trace_starts_with_section fmt format_type feishu_separator max_bytes
    report_data update_info mode reverse_content_order max_total_news_in_push
    show_stats_in_push now :
  let trd := split_preprocess report_data max_total_news_in_push show_stats_in_push in
  Forall (fun b => starts_with_section (nonempty (stats trd)) (pieces b))
    (split_trace fmt format_type feishu_separator max_bytes report_data update_info mode
       reverse_content_order max_total_news_in_push show_stats_in_push now).
Proof.
  intros trd. unfold split_trace. fold trd. cbv zeta.
  destruct (negb (nonempty (stats trd)) && negb (nonempty (new_titles trd))
            && negb (nonempty (failed_ids report_data))).
  - constructor; [reflexivity | constructor].
  - apply flush_content, process_failed_content.
    assert (H0 : content_inv (nonempty (stats trd))
                   (mkTState (mkTBatch [PBaseHeader] []) false [])).
    { split; state_simpl; [constructor | reflexivity]. }
    destruct reverse_content_order.
    + apply process_stats_content; [tauto |]. now apply process_new_titles_content.
    + apply process_new_titles_content. now apply process_stats_content; [tauto |].
Qed.

(** a text that starts with a line feed or a literal is not empty *)
Ltac header_length :=
  cbn [orb negb]; repeat rewrite str_length_app; unfold nl; cbn [String.length]; lia.

(** X12.  For the platforms that have a text for every section header
    ("wework", "telegram", "ntfy", "feishu", "dingtalk"), no batch returned
    is the base header directly followed by the base footer: every batch
    holds some content between them. *)
Lemma no_empty_batch_with_all_headers fmt report_data format_type update_info max_bytes
    mode batch_sizes feishu_separator reverse_content_order max_total_news_in_push
    show_stats_in_push now :
  has_all_headers format_type = true ->
  let trd := split_preprocess report_data max_total_news_in_push show_stats_in_push in
  Forall
    (fun batch =>
       batch <> make_base_header format_type (total_titles_of (stats trd)) now
                  +:+ make_base_footer format_type now update_info)
    (split_content_into_batches fmt report_data format_type update_info max_bytes mode
       batch_sizes feishu_separator reverse_content_order max_total_news_in_push
       show_stats_in_push now).
Proof.
  intros Hplat trd. unfold split_content_into_batches.
  rewrite <- split_trace_text. fold trd. cbv zeta.
  pose proof (split_trace_starts_with_section fmt format_type feishu_separator
                (resolve_max_bytes format_type max_bytes batch_sizes) report_data
                update_info mode reverse_content_order max_total_news_in_push
                show_stats_in_push now) as Hshape.
  cbv zeta in Hshape. fold trd in Hshape.
  apply Forall_map. eapply Forall_impl; [exact Hshape |]. cbv beta.
  intros b Hb Heq.
  destruct (pieces b) as [|p0 [|p rest]] eqn:Ep;
    [contradiction | destruct p0; contradiction |].
  destruct p0; cbn [starts_with_section] in Hb; try contradiction.
  unfold batch_text in Heq. rewrite Ep in Heq.
  cbn [pieces_text fold_right] in Heq. fold (pieces_text fmt format_type feishu_separator
    (make_base_header format_type (total_titles_of (stats trd)) now)
    (make_stats_header format_type (stats trd)) (length (stats trd))
    (make_new_header format_type feishu_separator max_total_news_in_push
       (actual_new_count_of (new_titles trd)) (total_new_count report_data)) rest) in Heq.
  cbn [piece_text] in Heq.
  apply (f_equal String.length) in Heq. rewrite !str_length_app in Heq.
  assert (Hlen : (0 < String.length
                        (piece_text fmt format_type feishu_separator
                           (make_base_header format_type (total_titles_of (stats trd)) now)
                           (make_stats_header format_type (stats trd))
                           (length (stats trd))
                           (make_new_header format_type feishu_separator
                              max_total_news_in_push
                              (actual_new_count_of (new_titles trd))
                              (total_new_count report_data)) p))%nat).
  { unfold has_all_headers, str_in in Hplat. cbn [existsb] in Hplat.
    destruct p; try discriminate Hb; cbn [piece_text section_start] in Hb |- *.
    - unfold make_stats_header. rewrite Hb. unfold str_in. cbn [existsb].
      destruct (String.eqb format_type "wework");
        [header_length |].
      destruct (String.eqb format_type "bark");
        [header_length |]. cbn [orb].
      destruct (String.eqb format_type "telegram");
        [header_length |].
      destruct (String.eqb format_type "ntfy");
        [header_length |].
      destruct (String.eqb format_type "feishu");
        [header_length |].
      destruct (String.eqb format_type "dingtalk");
        [header_length |].
      discriminate Hplat.
    - unfold make_new_header, str_in. cbn [existsb].
      destruct (String.eqb format_type "wework");
        [header_length |].
      destruct (String.eqb format_type "bark");
        [header_length |]. cbn [orb].
      destruct (String.eqb format_type "telegram");
        [header_length |].
      destruct (String.eqb format_type "ntfy");
        [header_length |].
      destruct (String.eqb format_type "feishu");
        [header_length |].
      destruct (String.eqb format_type "dingtalk");
        [header_length |].
      discriminate Hplat.
    - unfold make_failed_header.
      destruct (String.eqb format_type "wework");
        [header_length |].
      destruct (String.eqb format_type "telegram");
        [header_length |].
      destruct (String.eqb format_type "ntfy");
        [header_length |].
      destruct (String.eqb format_type "feishu");
        [header_length |].
      destruct (String.eqb format_type "dingtalk");
        [header_length |].
      discriminate Hplat.
    - unfold simple_content. header_length. }
  lia.
Qed.

Lemma no_empty_batch_with_all_headers_witness :
  has_all_headers "telegram" = true
  /\ Forall
       (fun batch =>
          batch <> make_base_header "telegram"
                     (total_titles_of (stats (split_preprocess failed_only_report 0 true)))
                     "2026-01-01 00:00:00"
                   +:+ make_base_footer "telegram" "2026-01-01 00:00:00" None)
       (split_content_into_batches sample_formatter failed_only_report "telegram" None
          (Some 66) "daily" None "---" false 0 true "2026-01-01 00:00:00").
Proof.
  split; [reflexivity |].
  exact (no_empty_batch_with_all_headers sample_formatter failed_only_report "telegram"
           None (Some 66) "daily" None "---" false 0 true "2026-01-01 00:00:00" eq_refl).
Defined.


(** ** The run as a list of append steps *)

Section StepsOfTheRun.

Variable fmt : string -> TitleItem -> bool -> string.
Variables format_type feishu_separator : string.
Variable max_bytes : Z.
Variables base_header base_footer stats_header : string.
Variable total_count : nat.
Variable new_header : string.

Local Abbreviation run :=
  (run_ops fmt format_type feishu_separator max_bytes base_header base_footer
     stats_header total_count new_header).
Local Abbreviation step :=
  (run_op fmt format_type feishu_separator max_bytes base_header base_footer
     stats_header total_count new_header).

Lemma run_ops_app ops1 ops2 ts : run (ops1 ++ ops2)%list ts = run ops2 (run ops1 ts).
Proof. unfold run_ops. apply fold_left_app. Qed.

Lemma run_ops_cons o ops ts : run (o :: ops) ts = run ops (step o ts).
Proof. reflexivity. Qed.

(** the statistics header is appended by the same test as every chunk *)
Lemma stats_header_as_trial ts :
  t_append_stats_header fmt format_type feishu_separator max_bytes base_header
    base_footer stats_header total_count new_header ts
  = step (OTrial [PStatsHeader] [PBaseHeader; PStatsHeader]) ts.
Proof.
  unfold t_append_stats_header, run_op, t_trial_append.
  destruct (Z.ltb_spec
              (py_len (pieces_text fmt format_type feishu_separator base_header
                         stats_header total_count new_header
                         (pieces (t_current ts) ++ [PStatsHeader]))
               + py_len base_footer) max_bytes) as [Hlt | Hge];
    destruct (Z.leb_spec max_bytes
                (py_len (pieces_text fmt format_type feishu_separator base_header
                           stats_header total_count new_header
                           (pieces (t_current ts) ++ [PStatsHeader]))
                 + py_len base_footer)) as [Hle | Hgt];
    try reflexivity; lia.
Qed.

Lemma separator_as_try ts :
  t_append_separator fmt format_type feishu_separator max_bytes base_header
    base_footer stats_header total_count new_header ts
  = step (OTry [PSeparator]) ts.
Proof. reflexivity. Qed.

Lemma stats_rest_as_ops i stat rest : forall j ts,
  t_stats_rest_loop fmt format_type feishu_separator max_bytes base_header base_footer
    stats_header total_count new_header i stat j rest ts
  = run (stats_rest_ops i stat j rest) ts.
Proof.
  induction rest as [|t rest IH]; intros j ts; [reflexivity |].
  cbn [t_stats_rest_loop]. rewrite IH. reflexivity.
Qed.

Lemma stats_group_as_ops n_stats i stat ts :
  t_stats_group_step fmt format_type feishu_separator max_bytes base_header base_footer
    stats_header total_count new_header n_stats i stat ts
  = run (stats_group_ops n_stats i stat) ts.
Proof.
  unfold t_stats_group_step, stats_group_ops. cbv zeta.
  rewrite run_ops_cons, run_ops_app, stats_rest_as_ops.
  destruct (Z.of_nat i <? Z.of_nat n_stats - 1); reflexivity.
Qed.

Lemma stats_groups_as_ops n_stats l : forall i ts,
  t_stats_groups_loop fmt format_type feishu_separator max_bytes base_header base_footer
    stats_header total_count new_header n_stats i l ts
  = run (concat (enum_from (stats_group_ops n_stats) i l)) ts.
Proof.
  induction l as [|stat l IH]; intros i ts; [reflexivity |].
  cbn [t_stats_groups_loop enum_from concat].
  now rewrite run_ops_app, IH, stats_group_as_ops.
Qed.

Lemma process_stats_as_ops l ts :
  t_process_stats_section fmt format_type feishu_separator max_bytes base_header
    base_footer stats_header total_count new_header l ts
  = run (stats_ops l) ts.
Proof.
  unfold t_process_stats_section, stats_ops. destruct l as [|stat l]; [reflexivity |].
  now rewrite run_ops_cons, stats_groups_as_ops, stats_header_as_trial.
Qed.

Lemma new_rest_as_ops k source_data rest : forall j ts,
  t_new_rest_loop fmt format_type feishu_separator max_bytes base_header base_footer
    stats_header total_count new_header k source_data j rest ts
  = run (new_rest_ops k source_data j rest) ts.
Proof.
  induction rest as [|t rest IH]; intros j ts; [reflexivity |].
  cbn [t_new_rest_loop]. rewrite IH. reflexivity.
Qed.

Lemma new_group_as_ops k source_data ts :
  t_new_group_step fmt format_type feishu_separator max_bytes base_header base_footer
    stats_header total_count new_header k source_data ts
  = run (new_group_ops k source_data) ts.
Proof.
  unfold t_new_group_step, new_group_ops. cbv zeta.
  now rewrite run_ops_cons, run_ops_app, new_rest_as_ops.
Qed.

Lemma new_groups_as_ops l : forall k ts,
  t_new_groups_loop fmt format_type feishu_separator max_bytes base_header base_footer
    stats_header total_count new_header k l ts
  = run (concat (enum_from new_group_ops k l)) ts.
Proof.
  induction l as [|s l IH]; intros k ts; [reflexivity |].
  cbn [t_new_groups_loop enum_from concat].
  now rewrite run_ops_app, IH, new_group_as_ops.
Qed.

Lemma process_new_titles_as_ops l ts :
  t_process_new_titles_section fmt format_type feishu_separator max_bytes base_header
    base_footer stats_header total_count new_header l ts
  = run (new_ops l) ts.
Proof.
  unfold t_process_new_titles_section, new_ops. destruct l as [|s l]; [reflexivity |].
  now rewrite run_ops_cons, new_groups_as_ops.
Qed.

Lemma failed_loop_as_ops l : forall ts,
  t_failed_loop fmt format_type feishu_separator max_bytes base_header base_footer
    stats_header total_count new_header l ts
  = run (map (fun id_value =>
                OTrial [PFailedLine id_value]
                  [PBaseHeader; PFailedHeader; PFailedLine id_value]) l) ts.
Proof.
  induction l as [|id l IH]; intros ts; [reflexivity |].
  cbn [t_failed_loop map]. now rewrite run_ops_cons, IH.
Qed.

Lemma process_failed_as_ops l ts :
  t_process_failed_section fmt format_type feishu_separator max_bytes base_header
    base_footer stats_header total_count new_header l ts
  = run (failed_ops l) ts.
Proof.
  unfold t_process_failed_section, failed_ops. destruct l as [|s l]; [reflexivity |].
  now rewrite run_ops_cons, failed_loop_as_ops.
Qed.

End StepsOfTheRun.

(** The chunk-level run is the "no matches" batch, or the steps of the
    schedule run from the base header and the last batch flushed. *)
Lemma split_trace_as_ops fmt format_type feishu_separator max_bytes report_data
    update_info mode reverse_content_order max_total_news_in_push show_stats_in_push now :
  let trd := split_preprocess report_data max_total_news_in_push show_stats_in_push in
  split_trace fmt format_type feishu_separator max_bytes report_data update_info mode
    reverse_content_order max_total_news_in_push show_stats_in_push now
  = if nothing_to_report trd (failed_ids report_data)
    then [mkTBatch [PBaseHeader; PNoMatch mode] []]
    else
      t_flush
        (run_ops fmt format_type feishu_separator max_bytes
           (make_base_header format_type (total_titles_of (stats trd)) now)
           (make_base_footer format_type now update_info)
           (make_stats_header format_type (stats trd))
           (length (stats trd))
           (make_new_header format_type feishu_separator max_total_news_in_push
              (actual_new_count_of (new_titles trd)) (total_new_count report_data))
           (schedule trd (failed_ids report_data) reverse_content_order)
           (mkTState (mkTBatch [PBaseHeader] []) false [])).
Proof.
  intros trd. unfold split_trace, nothing_to_report, schedule. fold trd. cbv zeta.
  destruct (negb (nonempty (stats trd)) && negb (nonempty (new_titles trd))
            && negb (nonempty (failed_ids report_data))); [reflexivity |].
  rewrite process_failed_as_ops.
  destruct reverse_content_order;
    rewrite process_stats_as_ops, process_new_titles_as_ops, !run_ops_app; reflexivity.
Qed.

(** ** What the steps do to the accumulator *)

Lemma commit_nil (b : tbatch) : commit [] b = b.
Proof. destruct b as [f a]. unfold commit; cbn. now rewrite app_nil_r. Qed.

Lemma commit_commit (c1 c2 : list piece) (b : tbatch) :
  commit c2 (commit c1 b) = commit (c1 ++ c2)%list b.
Proof. unfold commit; cbn. now rewrite app_assoc. Qed.

Lemma py_len_nonneg (s : string) : 0 <= py_len s.
Proof. unfold py_len. lia. Qed.

Lemma concat_chunks_enum {A} (f : nat -> A -> piece) (g : nat -> A -> list piece) l :
  forall j,
    concat (map op_chunk (enum_from (fun j x => OTrial [f j x] (g j x)) j l))
    = enum_from f j l.
Proof.
  induction l as [|x l IH]; intros j; [reflexivity |].
  cbn [enum_from map concat op_chunk]. now rewrite IH.
Qed.

Lemma concat_map_chunks_app (l1 l2 : list op) :
  concat (map op_chunk (l1 ++ l2)%list)
  = (concat (map op_chunk l1) ++ concat (map op_chunk l2))%list.
Proof. now rewrite map_app, concat_app. Qed.

Lemma stats_group_chunks n_stats i stat :
  concat (map op_chunk (stats_group_ops n_stats i stat))
  = stats_group_pieces n_stats i stat.
Proof.
  unfold stats_group_ops, stats_group_pieces, stats_rest_ops, stats_group_items,
    word_with_first_news.
  cbn [map concat op_chunk]. rewrite concat_map_chunks_app, concat_chunks_enum.
  destruct (titles stat) as [|t tl]; cbn [skipn enum_from app];
    (destruct (Z.of_nat i <? Z.of_nat n_stats - 1); reflexivity).
Qed.

Lemma stats_groups_chunks n_stats l : forall i,
  concat (map op_chunk (concat (enum_from (stats_group_ops n_stats) i l)))
  = concat (enum_from (stats_group_pieces n_stats) i l).
Proof.
  induction l as [|stat l IH]; intros i; [reflexivity |].
  cbn [enum_from concat]. now rewrite concat_map_chunks_app, IH, stats_group_chunks.
Qed.

Lemma stats_chunks l : concat (map op_chunk (stats_ops l)) = stats_pieces l.
Proof.
  unfold stats_ops, stats_pieces. destruct l as [|stat l]; [reflexivity |].
  cbn [map concat op_chunk app]. now rewrite stats_groups_chunks.
Qed.

Lemma new_group_chunks k source_data :
  concat (map op_chunk (new_group_ops k source_data)) = new_group_pieces k source_data.
Proof.
  unfold new_group_ops, new_group_pieces, new_rest_ops, new_group_items,
    source_with_first_news.
  cbn [map concat op_chunk]. rewrite concat_map_chunks_app, concat_chunks_enum.
  destruct (s_titles source_data) as [|t tl]; reflexivity.
Qed.

Lemma new_groups_chunks l : forall k,
  concat (map op_chunk (concat (enum_from new_group_ops k l)))
  = concat (enum_from new_group_pieces k l).
Proof.
  induction l as [|s l IH]; intros k; [reflexivity |].
  cbn [enum_from concat]. now rewrite concat_map_chunks_app, IH, new_group_chunks.
Qed.

Lemma new_chunks l : concat (map op_chunk (new_ops l)) = new_pieces l.
Proof.
  unfold new_ops, new_pieces. destruct l as [|s l]; [reflexivity |].
  cbn [map concat op_chunk app]. now rewrite new_groups_chunks.
Qed.

Lemma failed_chunks l : concat (map op_chunk (failed_ops l)) = failed_pieces l.
Proof.
  unfold failed_ops, failed_pieces. destruct l as [|id0 l]; [reflexivity |].
  set (l' := id0 :: l). clearbody l'. cbn [map concat op_chunk app]. f_equal.
  induction l' as [|id l' IH]; [reflexivity |].
  cbn [map concat op_chunk app]. now rewrite IH.
Qed.

Lemma schedule_chunks trd failed reverse_content_order mode :
  nothing_to_report trd failed = false ->
  (PBaseHeader :: concat (map op_chunk (schedule trd failed reverse_content_order)))
  = whole_message trd failed reverse_content_order mode.
Proof.
  intros Hne. unfold whole_message, schedule. rewrite Hne.
  destruct reverse_content_order;
    now rewrite !concat_map_chunks_app, stats_chunks, new_chunks, failed_chunks.
Qed.

(** a run with something to report has a trial append *)
Lemma schedule_has_trial trd failed reverse_content_order :
  nothing_to_report trd failed = false ->
  existsb is_trial (schedule trd failed reverse_content_order) = true.
Proof.
  unfold nothing_to_report, schedule, stats_ops, new_ops, failed_ops.
  intros Hne. rewrite !existsb_app.
  destruct (stats trd), (new_titles trd), failed, reverse_content_order;
    try discriminate Hne; cbn [existsb is_trial orb]; rewrite ?orb_true_r; reflexivity.
Qed.

Section StepsOnTheAccumulator.

Variable fmt : string -> TitleItem -> bool -> string.
Variables format_type feishu_separator : string.
Variable max_bytes : Z.
Variables base_header base_footer stats_header : string.
Variable total_count : nat.
Variable new_header : string.

Local Abbreviation ptext :=
  (pieces_text fmt format_type feishu_separator base_header stats_header
     total_count new_header).
Local Abbreviation run :=
  (run_ops fmt format_type feishu_separator max_bytes base_header base_footer
     stats_header total_count new_header).
Local Abbreviation step :=
  (run_op fmt format_type feishu_separator max_bytes base_header base_footer
     stats_header total_count new_header).

(** the buffer has content from the first trial append on *)
Lemma run_ops_has_content ops : forall ts,
  t_has_content (run ops ts) = t_has_content ts || existsb is_trial ops.
Proof.
  induction ops as [|o ops IH]; intros ts.
  - cbn. now rewrite orb_false_r.
  - rewrite run_ops_cons, IH. cbn [existsb].
    destruct o as [chunk reseed | chunk | chunk]; cbn [run_op is_trial].
    + unfold t_trial_append. destruct (max_bytes <=? _); state_simpl;
        now rewrite orb_true_r.
    + destruct (_ <? max_bytes); reflexivity.
    + reflexivity.
Qed.

(** When the buffer with all the chunks still to come fits, every step
    commits its chunk and no batch is finished. *)
Lemma run_ops_fit ops : forall ts,
  py_len (ptext (pieces (t_current ts) ++ concat (map op_chunk ops))) + py_len base_footer
    < max_bytes ->
  run ops ts
  = mkTState (commit (concat (map op_chunk ops)) (t_current ts))
      (t_has_content ts || existsb is_trial ops) (t_batches ts).
Proof.
  induction ops as [|o ops IH]; intros ts Hfit.
  - cbn [map concat existsb]. rewrite commit_nil, orb_false_r. now destruct ts.
  - cbn [map concat] in Hfit. rewrite app_assoc in Hfit.
    rewrite (pieces_text_app fmt format_type feishu_separator base_header stats_header
               total_count new_header) in Hfit.
    rewrite py_len_app in Hfit.
    pose proof (py_len_nonneg (ptext (concat (map op_chunk ops)))) as Hpos.
    assert (Hstep : step o ts
                    = mkTState (commit (op_chunk o) (t_current ts))
                        (t_has_content ts || is_trial o) (t_batches ts)).
    { destruct o as [chunk reseed | chunk | chunk]; cbn [run_op op_chunk is_trial].
      - unfold t_trial_append.
        destruct (Z.leb_spec max_bytes
                    (py_len (ptext (pieces (t_current ts) ++ chunk)) + py_len base_footer))
          as [Hle | Hgt]; [cbn [op_chunk] in Hfit; lia |].
        now rewrite orb_true_r.
      - destruct (Z.ltb_spec
                    (py_len (ptext (pieces (t_current ts) ++ chunk)) + py_len base_footer)
                    max_bytes) as [Hlt | Hge]; [| cbn [op_chunk] in Hfit; lia].
        now rewrite orb_false_r.
      - now rewrite orb_false_r. }
    rewrite run_ops_cons, Hstep, IH; state_simpl.
    + cbn [map concat existsb]. now rewrite commit_commit, orb_assoc.
    + rewrite pieces_commit,
        (pieces_text_app fmt format_type feishu_separator base_header stats_header
           total_count new_header), py_len_app.
      lia.
Qed.

End StepsOnTheAccumulator.

(** ** A message that fits *)

Lemma split_trace_fit fmt format_type feishu_separator max_bytes report_data
    update_info mode reverse_content_order max_total_news_in_push show_stats_in_push now :
  let trd := split_preprocess report_data max_total_news_in_push show_stats_in_push in
  let whole := whole_message trd (failed_ids report_data) reverse_content_order mode in
  py_len (text_in_run fmt format_type feishu_separator report_data max_total_news_in_push
            show_stats_in_push now whole)
    + py_len (make_base_footer format_type now update_info) < max_bytes ->
  map pieces
    (split_trace fmt format_type feishu_separator max_bytes report_data update_info mode
       reverse_content_order max_total_news_in_push show_stats_in_push now)
  = [whole].
Proof.
  intros trd whole Hfit. rewrite split_trace_as_ops. fold trd. cbv zeta.
  subst whole. unfold text_in_run in Hfit. fold trd in Hfit. cbv zeta in Hfit.
  destruct (nothing_to_report trd (failed_ids report_data)) eqn:Hne.
  - unfold whole_message. rewrite Hne. reflexivity.
  - rewrite <- (schedule_chunks _ _ _ mode Hne) in Hfit |- *.
    rewrite run_ops_fit by exact Hfit.
    unfold t_flush. state_simpl. rewrite schedule_has_trial by exact Hne.
    cbn [orb map app]. now rewrite pieces_commit.
Qed.

Lemma split_with_budget_fit fmt format_type feishu_separator max_bytes report_data
    update_info mode reverse_content_order max_total_news_in_push show_stats_in_push now :
  let trd := split_preprocess report_data max_total_news_in_push show_stats_in_push in
  let message :=
    text_in_run fmt format_type feishu_separator report_data max_total_news_in_push
      show_stats_in_push now
      (whole_message trd (failed_ids report_data) reverse_content_order mode)
    +:+ make_base_footer format_type now update_info in
  py_len message < max_bytes ->
  split_with_budget fmt format_type feishu_separator max_bytes report_data update_info
    mode reverse_content_order max_total_news_in_push show_stats_in_push now
  = [message].
Proof.
  intros trd message Hfit. subst message. rewrite py_len_app in Hfit.
  rewrite <- split_trace_text. cbv zeta. fold trd.
  pose proof (split_trace_fit fmt format_type feishu_separator max_bytes report_data
                update_info mode reverse_content_order max_total_news_in_push
                show_stats_in_push now Hfit) as Hone.
  cbv zeta in Hone. fold trd in Hone.
  unfold batch_text.
  rewrite <- (map_map pieces
                (fun l => pieces_text fmt format_type feishu_separator
                            (make_base_header format_type (total_titles_of (stats trd)) now)
                            (make_stats_header format_type (stats trd))
                            (length (stats trd))
                            (make_new_header format_type feishu_separator
                               max_total_news_in_push
                               (actual_new_count_of (new_titles trd))
                               (total_new_count report_data)) l
                          +:+ make_base_footer format_type now update_info)).
  rewrite Hone. reflexivity.
Qed.

(** X1.  When the whole message -- the base header, every section with its
    headers, item lines, separators and closing line feeds, and the footer --
    is strictly shorter than the budget, [split_content_into_batches] returns
    exactly one batch, and that batch is the whole message: nothing is cut,
    dropped or repeated. *)
Theorem single_batch_when_it_fits :
  forall fmt report_data format_type update_info max_bytes mode batch_sizes
         feishu_separator reverse_content_order max_total_news_in_push
         show_stats_in_push now,
    let trd := split_preprocess report_data max_total_news_in_push show_stats_in_push in
    let budget := resolve_max_bytes format_type max_bytes batch_sizes in
    let message :=
      text_in_run fmt format_type feishu_separator report_data max_total_news_in_push
        show_stats_in_push now
        (whole_message trd (failed_ids report_data) reverse_content_order mode)
      +:+ make_base_footer format_type now update_info in
    py_len message < budget ->
    split_content_into_batches fmt report_data format_type update_info max_bytes mode
      batch_sizes feishu_separator reverse_content_order max_total_news_in_push
      show_stats_in_push now
    = [message].
Proof.
  intros fmt report_data format_type update_info max_bytes mode batch_sizes
    feishu_separator reverse_content_order max_total_news_in_push show_stats_in_push
    now trd budget message Hfit.
  unfold split_content_into_batches. now apply split_with_budget_fit.
Qed.

Lemma single_batch_when_it_fits_witness :
  py_len
    (text_in_run sample_formatter "slack" "---" two_sections_report 0 true
       "2026-01-01 00:00:00"
       (whole_message (split_preprocess two_sections_report 0 true)
          (failed_ids two_sections_report) false "daily")
     +:+ make_base_footer "slack" "2026-01-01 00:00:00" None)
  < resolve_max_bytes "slack" None None
  /\ split_content_into_batches sample_formatter two_sections_report "slack" None None
       "daily" None "---" false 0 true "2026-01-01 00:00:00"
     = [text_in_run sample_formatter "slack" "---" two_sections_report 0 true
          "2026-01-01 00:00:00"
          (whole_message (split_preprocess two_sections_report 0 true)
             (failed_ids two_sections_report) false "daily")
        +:+ make_base_footer "slack" "2026-01-01 00:00:00" None].
Proof.
  assert (Hfit : py_len
                   (text_in_run sample_formatter "slack" "---" two_sections_report 0 true
                      "2026-01-01 00:00:00"
                      (whole_message (split_preprocess two_sections_report 0 true)
                         (failed_ids two_sections_report) false "daily")
                    +:+ make_base_footer "slack" "2026-01-01 00:00:00" None)
                 < resolve_max_bytes "slack" None None) by (vm_compute; reflexivity).
  split; [exact Hfit |].
  exact (single_batch_when_it_fits sample_formatter two_sections_report "slack" None None
           "daily" None "---" false 0 true "2026-01-01 00:00:00" Hfit).
Defined.

(** ** Substrings *)

Lemma prefix_app (n a b : string) :
  String.prefix n a = true -> String.prefix n (a +:+ b) = true.
Proof.
  revert a. induction n as [|c n IH]; intros a H; [now destruct (a +:+ b) |].
  destruct a as [|d a]; [discriminate H |].
  change ((if Ascii.ascii_dec c d then String.prefix n (a +:+ b) else false) = true).
  cbn [String.prefix] in H. destruct (Ascii.ascii_dec c d); [now apply IH | discriminate H].
Qed.

Lemma str_contains_cons (n : string) (c : Ascii.ascii) (s : string) :
  str_contains n (String c s)
  = String.prefix n (String c s) || str_contains n s.
Proof.
  unfold str_contains. cbn [String.index].
  destruct (String.prefix n (String c s)); [reflexivity |].
  cbn [orb]. destruct (String.index 0 n s); reflexivity.
Qed.

(** a text that occurs in the first part occurs in the whole *)
Lemma str_contains_app_l (n a b : string) :
  str_contains n a = true -> str_contains n (a +:+ b) = true.
Proof.
  induction a as [|c a IH]; intros H.
  - destruct n as [|d n]; [| discriminate H].
    destruct b; reflexivity.
  - rewrite str_contains_cons in H.
    change (String c a +:+ b) with (String c (a +:+ b)). rewrite str_contains_cons.
    apply orb_true_iff in H as [H | H].
    + apply (prefix_app _ _ b) in H.
      change (String c a +:+ b) with (String c (a +:+ b)) in H. now rewrite H.
    + rewrite (IH H). apply orb_true_r.
Qed.

(** a text that occurs in the second part occurs in the whole *)
Lemma str_contains_app_r (n a b : string) :
  str_contains n b = true -> str_contains n (a +:+ b) = true.
Proof.
  intros H. induction a as [|c a IH]; [exact H |].
  change (String c a +:+ b) with (String c (a +:+ b)). rewrite str_contains_cons, IH.
  apply orb_true_r.
Qed.

Lemma str_not_contains_app_l (n a b : string) :
  str_contains n (a +:+ b) = false -> str_contains n a = false.
Proof.
  intros H. destruct (str_contains n a) eqn:E; [| reflexivity].
  now rewrite (str_contains_app_l n a b E) in H.
Qed.

(** ** The renderers and the splitter on the same report *)

Lemma str_nonempty_app_l (a b : string) : str_nonempty a = true -> str_nonempty (a +:+ b) = true.
Proof. destruct a; [discriminate | reflexivity]. Qed.

Section RenderedStats.

Variable fmt : string -> TitleItem -> bool -> string.
Variables ft feishu_separator : string.
Variables base_header stats_header : string.
Variable total_count : nat.
Variable new_header : string.

Hypothesis Hfmt : forall title_data, stats_formatted_title fmt ft title_data = fmt ft title_data true.

Local Abbreviation ptext :=
  (pieces_text fmt ft feishu_separator base_header stats_header total_count new_header).

Lemma ptext_cons p l :
  ptext (p :: l)
  = piece_text fmt ft feishu_separator base_header stats_header total_count new_header p
    +:+ ptext l.
Proof. reflexivity. Qed.

Lemma render_stat_title_later i stat j title_data c :
  (1 <= j)%nat ->
  render_stat_title fmt ft (length (titles stat)) (S j) title_data c
  = c +:+ piece_text fmt ft feishu_separator base_header stats_header total_count
            new_header (PStatsItem i stat j title_data).
Proof.
  intros Hj. destruct j as [|j]; [lia |].
  cbn [piece_text]. unfold render_stat_title, stats_news_line. cbv zeta.
  rewrite Hfmt. replace (S j + 1)%nat with (S (S j)) by lia.
  destruct (Nat.ltb_spec (S (S j)) (length (titles stat)));
    destruct (Z.ltb_spec (Z.of_nat (S j)) (Z.of_nat (length (titles stat)) - 1));
    try lia; rewrite ?str_app_assoc, ?str_app_nil_r; reflexivity.
Qed.

Lemma render_stat_rest i stat rest : forall j c,
  (1 <= j)%nat ->
  render_stat_titles fmt ft (length (titles stat)) (S j) rest c
  = c +:+ ptext (enum_from (PStatsItem i stat) j rest).
Proof.
  induction rest as [|t rest IH]; intros j c Hj.
  - cbn. now rewrite str_app_nil_r.
  - cbn [render_stat_titles enum_from]. rewrite IH by lia.
    rewrite (render_stat_title_later i stat) by exact Hj.
    rewrite ptext_cons. now rewrite str_app_assoc.
Qed.

Lemma render_stat_all i stat c :
  render_stat_titles fmt ft (length (titles stat)) 1 (titles stat) c
  = c +:+ ptext (stats_group_items i stat).
Proof.
  unfold stats_group_items.
  destruct (titles stat) as [|t rest] eqn:E.
  - cbn. now rewrite str_app_nil_r.
  - cbn [render_stat_titles enum_from]. rewrite <- E.
    rewrite (render_stat_rest i stat) by lia. rewrite ptext_cons, <- str_app_assoc. f_equal.
    cbn [piece_text]. rewrite E. cbn [stats_first_news_line].
    unfold render_stat_title, stats_first_line. cbv zeta. rewrite Hfmt.
    destruct (1 <? length (t :: rest))%nat;
      rewrite ?str_app_assoc, ?str_app_nil_r; reflexivity.
Qed.

End RenderedStats.

(** appends to the right, empty strings dropped *)
Ltac str_norm := rewrite ?str_app_assoc, ?str_app_nil_r.

Lemma dingtalk_word_header_text {T} total_count i (stat : StatGroup T) c :
  dingtalk_word_header total_count i stat c
  = c +:+ make_word_header "dingtalk" i total_count (word stat) (count stat).
Proof.
  unfold dingtalk_word_header, make_word_header. cbv zeta.
  change (str_in "dingtalk" ["wework"; "bark"]) with false.
  change ("dingtalk" =? "telegram")%string with false.
  change ("dingtalk" =? "ntfy")%string with false.
  change ("dingtalk" =? "feishu")%string with false.
  change ("dingtalk" =? "dingtalk")%string with true.
  cbv iota.
  destruct (10 <=? count stat); [| destruct (5 <=? count stat)];
    str_norm; reflexivity.
Qed.

Lemma feishu_word_header_text {T} total_count i (stat : StatGroup T) c :
  feishu_word_header total_count i stat c
  = c +:+ make_word_header "feishu" i total_count (word stat) (count stat).
Proof.
  unfold feishu_word_header, make_word_header. cbv zeta.
  change (str_in "feishu" ["wework"; "bark"]) with false.
  change ("feishu" =? "telegram")%string with false.
  change ("feishu" =? "ntfy")%string with false.
  change ("feishu" =? "feishu")%string with true.
  cbv iota.
  destruct (10 <=? count stat); [| destruct (5 <=? count stat)];
    str_norm; reflexivity.
Qed.

Lemma stat_group_close_text fmt ft sep base_header stats_header n new_header block i c :
  stats_separator ft sep = block ->
  stat_group_close block n i c
  = c +:+ pieces_text fmt ft sep base_header stats_header n new_header
            (if Z.of_nat i <? Z.of_nat n - 1 then [PSeparator] else []).
Proof.
  intros <-. unfold stat_group_close.
  destruct (Z.of_nat i <? Z.of_nat n - 1); cbn [pieces_text fold_right piece_text];
    now rewrite ?str_app_nil_r.
Qed.

Lemma dingtalk_groups_text fmt sep base_header stats_header n new_header l : forall i c,
  dingtalk_stat_groups fmt n i l c
  = c +:+ pieces_text fmt "dingtalk" sep base_header stats_header n new_header
            (concat (enum_from (stats_group_pieces n) i l)).
Proof.
  induction l as [|stat l IH]; intros i c.
  - cbn. now rewrite str_app_nil_r.
  - cbn [dingtalk_stat_groups enum_from concat]. rewrite IH.
    rewrite (stat_group_close_text fmt "dingtalk" sep base_header stats_header n new_header)
      by reflexivity.
    rewrite (render_stat_all fmt "dingtalk" sep base_header stats_header n new_header
               ltac:(reflexivity) i stat).
    rewrite dingtalk_word_header_text.
    unfold stats_group_pieces.
    rewrite pieces_text_app, ptext_cons, pieces_text_app. cbn [piece_text].
    now rewrite !str_app_assoc.
Qed.

Lemma feishu_groups_text fmt sep base_header stats_header n new_header l : forall i c,
  feishu_stat_groups fmt sep n i l c
  = c +:+ pieces_text fmt "feishu" sep base_header stats_header n new_header
            (concat (enum_from (stats_group_pieces n) i l)).
Proof.
  induction l as [|stat l IH]; intros i c.
  - cbn. now rewrite str_app_nil_r.
  - cbn [feishu_stat_groups enum_from concat]. rewrite IH.
    rewrite (stat_group_close_text fmt "feishu" sep base_header stats_header n new_header)
      by reflexivity.
    rewrite (render_stat_all fmt "feishu" sep base_header stats_header n new_header
               ltac:(reflexivity) i stat).
    rewrite feishu_word_header_text.
    unfold stats_group_pieces.
    rewrite pieces_text_app, ptext_cons, pieces_text_app. cbn [piece_text].
    now rewrite !str_app_assoc.
Qed.

Lemma render_failed_ids_text fmt ft sep base_header stats_header n new_header
    open_mark close_mark l :
  (forall id_value,
     make_failed_line ft id_value = "  • " +:+ open_mark +:+ id_value +:+ close_mark +:+ nl) ->
  forall c,
    render_failed_ids open_mark close_mark l c
    = c +:+ pieces_text fmt ft sep base_header stats_header n new_header
              (map PFailedLine l).
Proof.
  intros Hline. induction l as [|id l IH]; intros c.
  - cbn. now rewrite str_app_nil_r.
  - cbn [render_failed_ids map]. rewrite IH.
    cbn [pieces_text fold_right piece_text]. rewrite Hline.
    now rewrite !str_app_assoc.
Qed.

Lemma preprocess_shown {T} (r : ReportData T) (M : Z) :
  truncated_stats (render_preprocess r M true) = stats (split_preprocess r M true)
  /\ truncated_new_titles (render_preprocess r M true)
     = new_titles (split_preprocess r M true).
Proof.
  unfold render_preprocess, split_preprocess, flatten_stats. cbn [negb andb].
  destruct (0 <? M); [| split; reflexivity].
  destruct (nonempty (stats r)).
  - destruct (truncate_stats M (stats r) 0 []) as [ts cnt].
    destruct (truncate_new_titles M (new_titles r) cnt []) as [tn cnt'].
    split; reflexivity.
  - destruct (truncate_new_titles M (new_titles r) 0 []) as [tn cnt'].
    split; reflexivity.
Qed.

Lemma split_preprocess_no_new {T} (r : ReportData T) (M : Z) (show : bool) :
  new_titles r = [] -> new_titles (split_preprocess r M show) = [].
Proof.
  intros Hn. unfold split_preprocess. rewrite Hn.
  destruct (0 <? M).
  - destruct (if show && nonempty (stats r) then truncate_stats M (stats r) 0 [] else ([], 0))
      as [ts cnt].
    reflexivity.
  - destruct (negb show); [reflexivity | exact Hn].
Qed.

Lemma dingtalk_base_header total_titles now :
  make_base_header "dingtalk" total_titles now
  = ("**总新闻数：** " +:+ string_of_nat total_titles +:+ nl +:+ nl)
    +:+ ("**时间：** " +:+ now +:+ nl +:+ nl)
    +:+ ("**类型：** 热点分析报告" +:+ nl +:+ nl)
    +:+ ("---" +:+ nl +:+ nl).
Proof. reflexivity. Qed.

Lemma dingtalk_base_footer now update_info :
  make_base_footer "dingtalk" now update_info
  = (nl +:+ nl +:+ "> 更新时间：" +:+ now)
    +:+ match update_info with
        | Some u => nl +:+ "> TrendRadar 发现新版本 **" +:+ remote_version u
                      +:+ "**，当前 **" +:+ current_version u +:+ "**"
        | None => ""
        end.
Proof. reflexivity. Qed.

Lemma whole_message_stats_only fmt ft sep base_header stats_header n new_header
    (trd : ReportData TitleItem) stat l failed reverse_content_order mode :
  stats trd = stat :: l -> new_titles trd = [] ->
  pieces_text fmt ft sep base_header stats_header n new_header
    (whole_message trd failed reverse_content_order mode)
  = base_header +:+ stats_header
    +:+ pieces_text fmt ft sep base_header stats_header n new_header
          (concat (enum_from (stats_group_pieces (length (stat :: l))) 0 (stat :: l)))
    +:+ match failed with
        | [] => ""
        | _ :: _ =>
            make_failed_header ft sep
            +:+ pieces_text fmt ft sep base_header stats_header n new_header
                  (map PFailedLine failed)
        end.
Proof.
  intros Hs Hn. unfold whole_message, nothing_to_report. rewrite Hs, Hn.
  cbn [nonempty negb andb new_pieces stats_pieces].
  assert (Hsame : (if reverse_content_order
                   then ([] ++ PStatsHeader
                           :: concat (enum_from (stats_group_pieces (length (stat :: l))) 0
                                        (stat :: l)))%list
                   else ((PStatsHeader
                            :: concat (enum_from (stats_group_pieces (length (stat :: l))) 0
                                         (stat :: l))) ++ [])%list)
                  = PStatsHeader
                      :: concat (enum_from (stats_group_pieces (length (stat :: l))) 0
                                   (stat :: l))).
  { destruct reverse_content_order; [reflexivity | apply app_nil_r]. }
  rewrite Hsame. rewrite ptext_cons, pieces_text_app, ptext_cons. cbn [piece_text].
  destruct failed as [|id0 fl]; cbn [failed_pieces].
  - cbn [pieces_text fold_right]. now rewrite !str_app_assoc.
  - rewrite ptext_cons. cbn [piece_text]. now rewrite !str_app_assoc.
Qed.

Lemma dingtalk_stats_header stat (l : list (StatGroup TitleItem)) :
  make_stats_header "dingtalk" (stat :: l) = "📊 **热点词汇统计**" +:+ nl +:+ nl.
Proof. reflexivity. Qed.

Lemma dingtalk_failed_header sep :
  make_failed_header "dingtalk" sep
  = nl +:+ "---" +:+ nl +:+ nl +:+ "⚠️ **数据获取失败的平台：**" +:+ nl +:+ nl.
Proof. reflexivity. Qed.

Lemma join_sections_stats_only text_content block reverse_content_order sc :
  str_nonempty sc = true ->
  join_sections text_content block reverse_content_order sc "" = text_content +:+ sc.
Proof.
  intros Hsc. unfold join_sections.
  destruct reverse_content_order; cbv zeta; rewrite ?Hsc; reflexivity.
Qed.

Lemma join_sections_nothing text_content block reverse_content_order :
  join_sections text_content block reverse_content_order "" "" = text_content.
Proof. now destruct reverse_content_order. Qed.

Lemma dingtalk_assemble_stats_only total sc failed update_info mode
    reverse_content_order now :
  str_nonempty sc = true ->
  dingtalk_assemble total sc "" failed update_info mode reverse_content_order now
  = (if nonempty failed
     then
       render_failed_ids "**" "**" failed
         ((if negb (str_contains "暂无匹配" (make_base_header "dingtalk" total now +:+ sc))
           then (make_base_header "dingtalk" total now +:+ sc)
                  +:+ (nl +:+ "---" +:+ nl +:+ nl)
           else make_base_header "dingtalk" total now +:+ sc)
          +:+ ("⚠️ **数据获取失败的平台：**" +:+ nl +:+ nl))
     else make_base_header "dingtalk" total now +:+ sc)
    +:+ make_base_footer "dingtalk" now update_info.
Proof.
  intros Hsc. unfold dingtalk_assemble. cbv zeta.
  rewrite !join_sections_stats_only by exact Hsc. rewrite Hsc. cbn [negb andb].
  rewrite dingtalk_base_footer, dingtalk_base_header.
  destruct update_info; rewrite ?str_app_assoc, ?str_app_nil_r; reflexivity.
Qed.

Lemma dingtalk_body_as_whole_message fmt ts failed update_info mode feishu_separator
    reverse_content_order new_header total now :
  let rendered :=
    render_dingtalk_body fmt (mkPrepared ts [] total) failed update_info mode
      reverse_content_order true now in
  (failed = [] \/ (ts <> [] /\ str_contains "暂无匹配" rendered = false)) ->
  rendered
  = pieces_text fmt "dingtalk" feishu_separator
      (make_base_header "dingtalk" (total_titles_of ts) now)
      (make_stats_header "dingtalk" ts) (length ts) new_header
      (whole_message (mkReport ts [] failed 0) failed reverse_content_order mode)
    +:+ make_base_footer "dingtalk" now update_info.
Proof.
  intros rendered Hfailed. subst rendered.
  unfold render_dingtalk_body in *.
  cbn [truncated_stats truncated_new_titles nonempty andb] in *. cbv zeta in *.
  destruct ts as [|stat l].
  - unfold whole_message, nothing_to_report. cbn [stats new_titles nonempty negb andb].
    destruct Hfailed as [Hf | [Hcontra _]]; [| now destruct Hcontra].
    rewrite Hf. cbn [nonempty negb andb].
    unfold dingtalk_assemble. cbv zeta. rewrite !join_sections_nothing.
    cbn [str_nonempty negb andb nonempty pieces_text fold_right piece_text].
    rewrite dingtalk_base_header, dingtalk_base_footer.
    destruct update_info; rewrite ?str_app_assoc, ?str_app_nil_r; reflexivity.
  - rewrite (whole_message_stats_only _ _ _ _ _ _ _ _ stat l) by reflexivity.
    cbn [nonempty] in *.
    rewrite (dingtalk_groups_text fmt feishu_separator
               (make_base_header "dingtalk" (total_titles_of (stat :: l)) now)
               (make_stats_header "dingtalk" (stat :: l)) (length (stat :: l))
               new_header) in *.
    rewrite dingtalk_stats_header.
    set (G := pieces_text fmt "dingtalk" feishu_separator _ _ _ _
                (concat (enum_from (stats_group_pieces (length (stat :: l))) 0
                           (stat :: l)))) in *.
    set (sc := ("" +:+ ("📊 **热点词汇统计**" +:+ nl +:+ nl)) +:+ G) in *.
    assert (Hsc : str_nonempty sc = true) by reflexivity.
    rewrite (dingtalk_assemble_stats_only _ sc) in * by exact Hsc.
    set (t2 := make_base_header "dingtalk" (total_titles_of (stat :: l)) now +:+ sc) in *.
    destruct failed as [|id0 fl].
    + cbn [nonempty]. subst t2 sc. now rewrite ?str_app_assoc, ?str_app_nil_r.
    + destruct Hfailed as [Hf | [_ Hfree]]; [discriminate Hf |].
      cbn [nonempty] in *.
      rewrite (render_failed_ids_text fmt "dingtalk" feishu_separator
                 (make_base_header "dingtalk" (total_titles_of (stat :: l)) now)
                 ("📊 **热点词汇统计**" +:+ nl +:+ nl) (length (stat :: l)) new_header)
        in * by reflexivity.
      destruct (str_contains "暂无匹配" t2) eqn:Ec; cbn [negb] in *.
      * rewrite !str_app_assoc in Hfree.
        now rewrite (str_contains_app_l _ t2 _ Ec) in Hfree.
      * rewrite dingtalk_failed_header. subst t2 sc.
        now rewrite ?str_app_assoc, ?str_app_nil_r.
Qed.

Lemma whole_message_fields (trd : ReportData TitleItem) failed reverse_content_order mode :
  whole_message (mkReport (stats trd) (new_titles trd) failed 0) failed
    reverse_content_order mode
  = whole_message trd failed reverse_content_order mode.
Proof. reflexivity. Qed.

Lemma render_dingtalk_as_whole_message fmt r update_info mode feishu_separator
    reverse_content_order M now :
  let trd := split_preprocess r M true in
  let rendered :=
    render_dingtalk_content fmt r update_info mode reverse_content_order M true now in
  new_titles r = [] ->
  (failed_ids r = []
   \/ (stats trd <> [] /\ str_contains "暂无匹配" rendered = false)) ->
  rendered
  = text_in_run fmt "dingtalk" feishu_separator r M true now
      (whole_message trd (failed_ids r) reverse_content_order mode)
    +:+ make_base_footer "dingtalk" now update_info.
Proof.
  intros trd rendered Hnew Hfailed. subst rendered.
  unfold render_dingtalk_content, text_in_run in *. fold trd. cbv zeta.
  pose proof (preprocess_shown r M) as [Hs Hn]. fold trd in Hs, Hn.
  rewrite (split_preprocess_no_new r M true Hnew : new_titles trd = []) in Hn.
  destruct (render_preprocess r M true) as [ts tn total].
  cbn [truncated_stats truncated_new_titles] in Hs, Hn. subst ts tn.
  rewrite <- whole_message_fields.
  rewrite (split_preprocess_no_new r M true Hnew : new_titles trd = []).
  now apply dingtalk_body_as_whole_message.
Qed.

Lemma feishu_base_footer now update_info :
  make_base_footer "feishu" now update_info
  = (nl +:+ nl +:+ "<font color='grey'>更新时间：" +:+ now +:+ "</font>")
    +:+ match update_info with
        | Some u => nl +:+ "<font color='grey'>TrendRadar 发现新版本 " +:+ remote_version u
                      +:+ "，当前 " +:+ current_version u +:+ "</font>"
        | None => ""
        end.
Proof. reflexivity. Qed.

Lemma feishu_stats_header stat (l : list (StatGroup TitleItem)) :
  make_stats_header "feishu" (stat :: l) = "📊 **热点词汇统计**" +:+ nl +:+ nl.
Proof. reflexivity. Qed.

Lemma feishu_failed_header sep :
  make_failed_header "feishu" sep
  = nl +:+ sep +:+ nl +:+ nl +:+ "⚠️ **数据获取失败的平台：**" +:+ nl +:+ nl.
Proof. reflexivity. Qed.

Lemma feishu_assemble_stats_only sc failed update_info mode separator
    reverse_content_order now :
  str_nonempty sc = true ->
  feishu_assemble sc "" failed update_info mode separator reverse_content_order now
  = (if nonempty failed
     then
       render_failed_ids "<font color='red'>" "</font>" failed
         ((if negb (str_contains "暂无匹配" sc)
           then sc +:+ (nl +:+ separator +:+ nl +:+ nl)
           else sc)
          +:+ ("⚠️ **数据获取失败的平台：**" +:+ nl +:+ nl))
     else sc)
    +:+ make_base_footer "feishu" now update_info.
Proof.
  intros Hsc. unfold feishu_assemble. cbv zeta.
  rewrite !join_sections_stats_only by exact Hsc.
  change ("" +:+ sc) with sc. rewrite Hsc. cbn [negb andb]. rewrite Hsc. cbn [andb].
  rewrite feishu_base_footer.
  destruct update_info; rewrite ?str_app_assoc, ?str_app_nil_r; reflexivity.
Qed.

Lemma feishu_body_as_whole_message fmt ts failed update_info mode separator
    reverse_content_order new_header total now :
  let rendered :=
    render_feishu_body fmt (mkPrepared ts [] total) failed update_info mode separator
      reverse_content_order true now in
  (failed = [] \/ (ts <> [] /\ str_contains "暂无匹配" rendered = false)) ->
  rendered
  = pieces_text fmt "feishu" separator
      (make_base_header "feishu" (total_titles_of ts) now)
      (make_stats_header "feishu" ts) (length ts) new_header
      (whole_message (mkReport ts [] failed 0) failed reverse_content_order mode)
    +:+ make_base_footer "feishu" now update_info.
Proof.
  intros rendered Hfailed. subst rendered.
  unfold render_feishu_body in *.
  cbn [truncated_stats truncated_new_titles nonempty andb] in *. cbv zeta in *.
  destruct ts as [|stat l].
  - unfold whole_message, nothing_to_report. cbn [stats new_titles nonempty negb andb].
    destruct Hfailed as [Hf | [Hcontra _]]; [| now destruct Hcontra].
    rewrite Hf. cbn [nonempty negb andb].
    unfold feishu_assemble. cbv zeta. rewrite !join_sections_nothing.
    cbn [str_nonempty negb andb nonempty pieces_text fold_right piece_text].
    rewrite feishu_base_footer.
    destruct update_info; rewrite ?str_app_assoc, ?str_app_nil_r; reflexivity.
  - rewrite (whole_message_stats_only _ _ _ _ _ _ _ _ stat l) by reflexivity.
    cbn [nonempty] in *.
    rewrite (feishu_groups_text fmt separator
               (make_base_header "feishu" (total_titles_of (stat :: l)) now)
               (make_stats_header "feishu" (stat :: l)) (length (stat :: l))
               new_header) in *.
    rewrite feishu_stats_header.
    set (G := pieces_text fmt "feishu" separator _ _ _ _
                (concat (enum_from (stats_group_pieces (length (stat :: l))) 0
                           (stat :: l)))) in *.
    set (sc := ("" +:+ ("📊 **热点词汇统计**" +:+ nl +:+ nl)) +:+ G) in *.
    assert (Hsc : str_nonempty sc = true) by reflexivity.
    rewrite (feishu_assemble_stats_only sc) in * by exact Hsc.
    destruct failed as [|id0 fl].
    + cbn [nonempty]. subst sc. now rewrite ?str_app_assoc, ?str_app_nil_r.
    + destruct Hfailed as [Hf | [_ Hfree]]; [discriminate Hf |].
      cbn [nonempty] in *.
      rewrite (render_failed_ids_text fmt "feishu" separator
                 (make_base_header "feishu" (total_titles_of (stat :: l)) now)
                 ("📊 **热点词汇统计**" +:+ nl +:+ nl) (length (stat :: l)) new_header)
        in * by reflexivity.
      destruct (str_contains "暂无匹配" sc) eqn:Ec; cbn [negb] in *.
      * rewrite !str_app_assoc in Hfree.
        now rewrite (str_contains_app_l _ sc _ Ec) in Hfree.
      * rewrite feishu_failed_header. subst sc.
        change (make_base_header "feishu" (total_titles_of (stat :: l)) now) with "".
        now rewrite ?str_app_assoc, ?str_app_nil_r.
Qed.

Lemma render_feishu_as_whole_message fmt r update_info mode separator
    reverse_content_order M now :
  let trd := split_preprocess r M true in
  let rendered :=
    render_feishu_content fmt r update_info mode separator reverse_content_order M true
      now in
  new_titles r = [] ->
  (failed_ids r = []
   \/ (stats trd <> [] /\ str_contains "暂无匹配" rendered = false)) ->
  rendered
  = text_in_run fmt "feishu" separator r M true now
      (whole_message trd (failed_ids r) reverse_content_order mode)
    +:+ make_base_footer "feishu" now update_info.
Proof.
  intros trd rendered Hnew Hfailed. subst rendered.
  unfold render_feishu_content, text_in_run in *. fold trd. cbv zeta.
  pose proof (preprocess_shown r M) as [Hs Hn]. fold trd in Hs, Hn.
  rewrite (split_preprocess_no_new r M true Hnew : new_titles trd = []) in Hn.
  destruct (render_preprocess r M true) as [ts tn total].
  cbn [truncated_stats truncated_new_titles] in Hs, Hn. subst ts tn.
  rewrite <- whole_message_fields.
  rewrite (split_preprocess_no_new r M true Hnew : new_titles trd = []).
  now apply feishu_body_as_whole_message.
Qed.

(** X2.  The splitter and the renderer for "dingtalk" agree on a report
    that is shown with its statistics and has no new titles: when the
    message [render_dingtalk_content] builds is strictly shorter than the
    budget, [split_content_into_batches] returns that very message as its
    only batch.  This needs that there are no failed sources, or that there
    are statistics and the message does not contain the text "暂无匹配":
    the renderer leaves out the separator before the failed sources when it
    finds that text anywhere in the message so far, the splitter never
    does. *)
Theorem dingtalk_batch_is_the_rendering :
  forall fmt report_data update_info max_bytes mode batch_sizes feishu_separator
         reverse_content_order max_total_news_in_push now,
    let rendered :=
      render_dingtalk_content fmt report_data update_info mode reverse_content_order
        max_total_news_in_push true now in
    new_titles report_data = [] ->
    (failed_ids report_data = []
     \/ (stats (split_preprocess report_data max_total_news_in_push true) <> []
         /\ str_contains "暂无匹配" rendered = false)) ->
    py_len rendered < resolve_max_bytes "dingtalk" max_bytes batch_sizes ->
    split_content_into_batches fmt report_data "dingtalk" update_info max_bytes mode
      batch_sizes feishu_separator reverse_content_order max_total_news_in_push true now
    = [rendered].
Proof.
  intros fmt report_data update_info max_bytes mode batch_sizes feishu_separator
    reverse_content_order max_total_news_in_push now rendered Hnew Hfailed Hfit.
  pose proof (render_dingtalk_as_whole_message fmt report_data update_info mode
                feishu_separator reverse_content_order max_total_news_in_push now
                Hnew Hfailed) as Heq.
  cbv zeta in Heq. fold rendered in Heq. rewrite Heq in Hfit |- *.
  unfold split_content_into_batches. now apply split_with_budget_fit.
Qed.

Lemma dingtalk_batch_is_the_rendering_witness :
  new_titles statistics_report = []
  /\ stats (split_preprocess statistics_report 0 true) <> []
  /\ str_contains "暂无匹配"
       (render_dingtalk_content sample_formatter statistics_report None "daily" false 0
          true "2026-01-01 00:00:00") = false
  /\ py_len (render_dingtalk_content sample_formatter statistics_report None "daily"
               false 0 true "2026-01-01 00:00:00")
     < resolve_max_bytes "dingtalk" None None
  /\ split_content_into_batches sample_formatter statistics_report "dingtalk" None None
       "daily" None "---" false 0 true "2026-01-01 00:00:00"
     = [render_dingtalk_content sample_formatter statistics_report None "daily" false 0
          true "2026-01-01 00:00:00"].
Proof.
  assert (H1 : new_titles statistics_report = []) by reflexivity.
  assert (H2 : stats (split_preprocess statistics_report 0 true) <> [])
    by (vm_compute; discriminate).
  assert (H3 : str_contains "暂无匹配"
                 (render_dingtalk_content sample_formatter statistics_report None "daily"
                    false 0 true "2026-01-01 00:00:00") = false)
    by (vm_compute; reflexivity).
  assert (H4 : py_len (render_dingtalk_content sample_formatter statistics_report None
                         "daily" false 0 true "2026-01-01 00:00:00")
               < resolve_max_bytes "dingtalk" None None)
    by (vm_compute; reflexivity).
  split; [exact H1 |]. split; [exact H2 |]. split; [exact H3 |]. split; [exact H4 |].
  exact (dingtalk_batch_is_the_rendering sample_formatter statistics_report None None
           "daily" None "---" false 0 "2026-01-01 00:00:00" H1
           (or_intror (conj H2 H3)) H4).
Defined.

(** X3.  The same for "feishu", with the separator of the renderer given
    to the splitter as [feishu_separator]: a report shown with its
    statistics and without new titles, whose rendered message is strictly
    shorter than the budget, is split into that message alone -- when there
    are no failed sources, or there are statistics and the message does not
    contain the text "暂无匹配". *)
Theorem feishu_batch_is_the_rendering :
  forall fmt report_data update_info max_bytes mode batch_sizes separator
         reverse_content_order max_total_news_in_push now,
    let rendered :=
      render_feishu_content fmt report_data update_info mode separator
        reverse_content_order max_total_news_in_push true now in
    new_titles report_data = [] ->
    (failed_ids report_data = []
     \/ (stats (split_preprocess report_data max_total_news_in_push true) <> []
         /\ str_contains "暂无匹配" rendered = false)) ->
    py_len rendered < resolve_max_bytes "feishu" max_bytes batch_sizes ->
    split_content_into_batches fmt report_data "feishu" update_info max_bytes mode
      batch_sizes separator reverse_content_order max_total_news_in_push true now
    = [rendered].
Proof.
  intros fmt report_data update_info max_bytes mode batch_sizes separator
    reverse_content_order max_total_news_in_push now rendered Hnew Hfailed Hfit.
  pose proof (render_feishu_as_whole_message fmt report_data update_info mode
                separator reverse_content_order max_total_news_in_push now
                Hnew Hfailed) as Heq.
  cbv zeta in Heq. fold rendered in Heq. rewrite Heq in Hfit |- *.
  unfold split_content_into_batches. now apply split_with_budget_fit.
Qed.

Lemma feishu_batch_is_the_rendering_witness :
  new_titles statistics_report = []
  /\ stats (split_preprocess statistics_report 2 true) <> []
  /\ str_contains "暂无匹配"
       (render_feishu_content sample_formatter statistics_report None "daily" "---" true
          2 true "2026-01-01 00:00:00") = false
  /\ py_len (render_feishu_content sample_formatter statistics_report None "daily" "---"
               true 2 true "2026-01-01 00:00:00")
     < resolve_max_bytes "feishu" None None
  /\ split_content_into_batches sample_formatter statistics_report "feishu" None None
       "daily" None "---" true 2 true "2026-01-01 00:00:00"
     = [render_feishu_content sample_formatter statistics_report None "daily" "---" true
          2 true "2026-01-01 00:00:00"].
Proof.
  assert (H1 : new_titles statistics_report = []) by reflexivity.
  assert (H2 : stats (split_preprocess statistics_report 2 true) <> [])
    by (vm_compute; discriminate).
  assert (H3 : str_contains "暂无匹配"
                 (render_feishu_content sample_formatter statistics_report None "daily"
                    "---" true 2 true "2026-01-01 00:00:00") = false)
    by (vm_compute; reflexivity).
  assert (H4 : py_len (render_feishu_content sample_formatter statistics_report None
                         "daily" "---" true 2 true "2026-01-01 00:00:00")
               < resolve_max_bytes "feishu" None None)
    by (vm_compute; reflexivity).
  split; [exact H1 |]. split; [exact H2 |]. split; [exact H3 |]. split; [exact H4 |].
  exact (feishu_batch_is_the_rendering sample_formatter statistics_report None None
           "daily" None "---" true 2 "2026-01-01 00:00:00" H1
           (or_intror (conj H2 H3)) H4).
Defined.

(** ** What the steps keep *)

Lemma filter_concat_snoc (f : piece -> bool) (tr : list tbatch) (b : tbatch) :
  List.filter f (concat (map pieces (tr ++ [b])))
  = (List.filter f (concat (map pieces tr)) ++ List.filter f (pieces b))%list.
Proof.
  rewrite map_app, concat_app, List.filter_app. cbn [map concat].
  now rewrite app_nil_r.
Qed.

Section StepsKeep.

Variable fmt : string -> TitleItem -> bool -> string.
Variables format_type feishu_separator : string.
Variable max_bytes : Z.
Variables base_header base_footer stats_header : string.
Variable total_count : nat.
Variable new_header : string.
Variable f : piece -> bool.

Local Abbreviation run :=
  (run_ops fmt format_type feishu_separator max_bytes base_header base_footer
     stats_header total_count new_header).
Local Abbreviation step :=
  (run_op fmt format_type feishu_separator max_bytes base_header base_footer
     stats_header total_count new_header).

(** before anything is committed the buffer holds no selected chunk *)
Local Abbreviation nothing_yet ts :=
  (t_has_content ts = false -> List.filter f (pieces (t_current ts)) = []).

Lemma run_op_filter o ts :
  op_keeps f o -> nothing_yet ts ->
  state_filter f (step o ts)
  = (state_filter f ts ++ List.filter f (op_chunk o))%list
  /\ nothing_yet (step o ts).
Proof.
  intros Hkeep Hinv. unfold state_filter.
  destruct o as [chunk reseed | chunk | chunk]; cbn [run_op op_chunk op_keeps] in *.
  - unfold t_trial_append. destruct (max_bytes <=? _); state_simpl;
      (split; [| discriminate]).
    + change (pieces (mkTBatch reseed [])) with (reseed ++ [])%list.
      rewrite app_nil_r, Hkeep. unfold t_flush.
      destruct (t_has_content ts) eqn:Hhas.
      * now rewrite filter_concat_snoc.
      * now rewrite (Hinv eq_refl), app_nil_r.
    + now rewrite pieces_commit, List.filter_app, app_assoc.
  - destruct (_ <? max_bytes); state_simpl.
    + rewrite pieces_commit, List.filter_app, Hkeep, !app_nil_r.
      split; [reflexivity | exact Hinv].
    + rewrite Hkeep, app_nil_r. split; [reflexivity | exact Hinv].
  - state_simpl. rewrite pieces_commit, List.filter_app, Hkeep, !app_nil_r.
    split; [reflexivity | exact Hinv].
Qed.

Lemma run_ops_filter ops : forall ts,
  Forall (op_keeps f) ops -> nothing_yet ts ->
  state_filter f (run ops ts)
  = (state_filter f ts ++ List.filter f (concat (map op_chunk ops)))%list
  /\ nothing_yet (run ops ts).
Proof.
  induction ops as [|o ops IH]; intros ts Hkeep Hinv.
  - cbn. rewrite app_nil_r. split; [reflexivity | exact Hinv].
  - apply Forall_cons_iff in Hkeep as [Ho Hops].
    destruct (run_op_filter o ts Ho Hinv) as [E1 I1].
    destruct (IH (step o ts) Hops I1) as [E2 I2].
    rewrite run_ops_cons. split; [| exact I2].
    rewrite E2, E1. cbn [map concat]. now rewrite List.filter_app, app_assoc.
Qed.

Lemma flush_filter ts :
  nothing_yet ts ->
  List.filter f (concat (map pieces (t_flush ts))) = state_filter f ts.
Proof.
  intros Hinv. unfold t_flush, state_filter.
  destruct (t_has_content ts) eqn:Hhas.
  - apply filter_concat_snoc.
  - now rewrite (Hinv eq_refl), app_nil_r.
Qed.

End StepsKeep.

Lemma Forall_enum_from {A B} (P : B -> Prop) (g : nat -> A -> B) (l : list A) :
  (forall j x, P (g j x)) -> forall j, Forall P (enum_from g j l).
Proof.
  intros Hg. induction l as [|x l IH]; intros j; cbn [enum_from]; constructor;
    [apply Hg | apply IH].
Qed.

Lemma Forall_concat_enum_from {A B} (P : B -> Prop) (g : nat -> A -> list B)
    (l : list A) :
  (forall j x, Forall P (g j x)) -> forall j, Forall P (concat (enum_from g j l)).
Proof.
  intros Hg. induction l as [|x l IH]; intros j; cbn [enum_from concat];
    [constructor |].
  apply Forall_app. split; [apply Hg | apply IH].
Qed.

Section ScheduleKeeps.

Variable f : piece -> bool.
Hypothesis Hctx : forall p, is_context p = true -> f p = false.
Hypothesis Hfeed : f PLineFeed = false.

Lemma filter_context p l : is_context p = true -> List.filter f (p :: l) = List.filter f l.
Proof. intros Hp. cbn [List.filter]. now rewrite (Hctx p Hp). Qed.

Lemma stats_ops_keep l : Forall (op_keeps f) (stats_ops l).
Proof.
  unfold stats_ops. destruct l as [|stat0 l0]; [constructor |].
  set (l := stat0 :: l0). clearbody l.
  constructor; [cbn [op_keeps]; now rewrite !filter_context by reflexivity |].
  apply Forall_concat_enum_from. intros i stat. unfold stats_group_ops.
  constructor; [cbn [op_keeps]; now rewrite !filter_context by reflexivity |].
  apply Forall_app. split.
  - apply Forall_enum_from. intros j t. cbn [op_keeps].
    now rewrite !filter_context by reflexivity.
  - destruct (Z.of_nat i <? Z.of_nat (length l) - 1); constructor; [| constructor].
    cbn [op_keeps]. now rewrite !filter_context by reflexivity.
Qed.

Lemma new_ops_keep l : Forall (op_keeps f) (new_ops l).
Proof.
  unfold new_ops. destruct l as [|s0 l0]; [constructor |].
  set (l := s0 :: l0). clearbody l.
  constructor; [cbn [op_keeps]; now rewrite !filter_context by reflexivity |].
  apply Forall_concat_enum_from. intros k s. unfold new_group_ops.
  constructor; [cbn [op_keeps]; now rewrite !filter_context by reflexivity |].
  apply Forall_app. split.
  - apply Forall_enum_from. intros j t. cbn [op_keeps].
    now rewrite !filter_context by reflexivity.
  - constructor; [| constructor]. cbn [op_keeps List.filter]. now rewrite Hfeed.
Qed.

Lemma failed_ops_keep l : Forall (op_keeps f) (failed_ops l).
Proof.
  unfold failed_ops. destruct l as [|id0 l0]; [constructor |].
  set (l := id0 :: l0). clearbody l.
  constructor; [cbn [op_keeps]; now rewrite !filter_context by reflexivity |].
  apply Forall_map. apply Forall_forall. intros id _. cbn [op_keeps].
  now rewrite !filter_context by reflexivity.
Qed.

Lemma schedule_keeps trd failed reverse_content_order :
  Forall (op_keeps f) (schedule trd failed reverse_content_order).
Proof.
  unfold schedule. apply Forall_app. split; [| apply failed_ops_keep].
  destruct reverse_content_order; apply Forall_app; split;
    auto using stats_ops_keep, new_ops_keep.
Qed.

End ScheduleKeeps.

(** The chunks selected by [f], when [f] selects no repeated chunk, no
    separator and no line feed, are in the batches what they are in the
    whole message, in the same order. *)
Lemma split_trace_filter (f : piece -> bool) fmt format_type feishu_separator max_bytes
    report_data update_info mode reverse_content_order max_total_news_in_push
    show_stats_in_push now :
  (forall p, is_context p = true -> f p = false) -> f PLineFeed = false ->
  let trd := split_preprocess report_data max_total_news_in_push show_stats_in_push in
  List.filter f
    (concat (map pieces
               (split_trace fmt format_type feishu_separator max_bytes report_data
                  update_info mode reverse_content_order max_total_news_in_push
                  show_stats_in_push now)))
  = List.filter f (whole_message trd (failed_ids report_data) reverse_content_order mode).
Proof.
  intros Hctx Hfeed trd. rewrite split_trace_as_ops. fold trd. cbv zeta.
  destruct (nothing_to_report trd (failed_ids report_data)) eqn:Hne.
  - unfold whole_message. rewrite Hne. cbn [map concat pieces forced appended].
    now rewrite !app_nil_r.
  - rewrite <- (schedule_chunks _ _ _ mode Hne).
    rewrite flush_filter.
    + edestruct run_ops_filter as [E _]; [apply (schedule_keeps f Hctx Hfeed) | | rewrite E].
      * intros _. cbn. now rewrite (Hctx PBaseHeader eq_refl).
      * unfold state_filter. state_simpl. cbn [map concat app].
        change (pieces (mkTBatch [PBaseHeader] [])) with [PBaseHeader].
        cbn [List.filter]. now rewrite (Hctx PBaseHeader eq_refl).
    + edestruct run_ops_filter as [_ I]; [apply (schedule_keeps f Hctx Hfeed) | | exact I].
      intros _. cbn. now rewrite (Hctx PBaseHeader eq_refl).
Qed.

Lemma batch_strings_split_trace fmt report_data format_type update_info max_bytes mode
    batch_sizes feishu_separator reverse_content_order max_total_news_in_push
    show_stats_in_push now :
  batch_strings fmt format_type feishu_separator report_data update_info
    max_total_news_in_push show_stats_in_push now
    (split_trace fmt format_type feishu_separator
       (resolve_max_bytes format_type max_bytes batch_sizes) report_data update_info mode
       reverse_content_order max_total_news_in_push show_stats_in_push now)
  = split_content_into_batches fmt report_data format_type update_info max_bytes mode
      batch_sizes feishu_separator reverse_content_order max_total_news_in_push
      show_stats_in_push now.
Proof. apply split_trace_text. Qed.

(** ** Every line once, the failed sources last *)

Lemma filter_lines_enum_stats i stat l : forall j,
  List.filter is_line (enum_from (PStatsItem i stat) j l) = enum_from (PStatsItem i stat) j l.
Proof. induction l as [|t l IH]; intros j; cbn; [reflexivity | now rewrite IH]. Qed.

Lemma filter_lines_enum_new k source_data l : forall j,
  List.filter is_line (enum_from (PNewItem k source_data) j l)
  = enum_from (PNewItem k source_data) j l.
Proof. induction l as [|t l IH]; intros j; cbn; [reflexivity | now rewrite IH]. Qed.

Lemma filter_lines_stats_groups n l : forall i,
  List.filter is_line (concat (enum_from (stats_group_pieces n) i l))
  = stats_items_from i l.
Proof.
  unfold stats_items_from.
  induction l as [|stat l IH]; intros i; [reflexivity |].
  cbn [enum_from concat]. rewrite List.filter_app, IH. f_equal.
  unfold stats_group_pieces, stats_group_items. cbn [List.filter is_line is_item orb].
  rewrite List.filter_app, filter_lines_enum_stats.
  destruct (Z.of_nat i <? Z.of_nat n - 1); cbn; now rewrite app_nil_r.
Qed.

Lemma filter_lines_new_groups l : forall k,
  List.filter is_line (concat (enum_from new_group_pieces k l)) = new_items_from k l.
Proof.
  unfold new_items_from.
  induction l as [|s l IH]; intros k; [reflexivity |].
  cbn [enum_from concat]. rewrite List.filter_app, IH. f_equal.
  unfold new_group_pieces, new_group_items. cbn [List.filter is_line is_item orb].
  rewrite List.filter_app, filter_lines_enum_new. cbn. now rewrite app_nil_r.
Qed.

Lemma filter_lines_failed l : List.filter is_line (failed_pieces l) = map PFailedLine l.
Proof.
  unfold failed_pieces. destruct l as [|id0 l0]; [reflexivity |].
  set (l := id0 :: l0). clearbody l. cbn [List.filter is_line is_item orb is_failed_line].
  induction l as [|id l IH]; cbn; [reflexivity | now rewrite IH].
Qed.

Lemma filter_lines_whole_message trd failed reverse_content_order mode :
  List.filter is_line (whole_message trd failed reverse_content_order mode)
  = ((if reverse_content_order
      then new_items_from 0 (new_titles trd) ++ stats_items_from 0 (stats trd)
      else stats_items_from 0 (stats trd) ++ new_items_from 0 (new_titles trd))
     ++ map PFailedLine failed)%list.
Proof.
  assert (Hs : List.filter is_line (stats_pieces (stats trd))
               = stats_items_from 0 (stats trd)).
  { unfold stats_pieces. destruct (stats trd) as [|s0 l0]; [reflexivity |].
    cbn [List.filter is_line is_item orb is_failed_line].
    apply filter_lines_stats_groups. }
  assert (Hn : List.filter is_line (new_pieces (new_titles trd))
               = new_items_from 0 (new_titles trd)).
  { unfold new_pieces. destruct (new_titles trd) as [|s0 l0]; [reflexivity |].
    cbn [List.filter is_line is_item orb is_failed_line].
    apply filter_lines_new_groups. }
  unfold whole_message. destruct (nothing_to_report trd failed) eqn:Hne.
  - unfold nothing_to_report in Hne.
    destruct (stats trd), (new_titles trd), failed; try discriminate Hne.
    now destruct reverse_content_order.
  - cbn [List.filter is_line is_item orb is_failed_line].
    rewrite List.filter_app, filter_lines_failed.
    destruct reverse_content_order; now rewrite List.filter_app, Hs, Hn.
Qed.

(** ** Properties of every step of the schedule *)

Lemma Forall_enum_from_nth {A B} (P : B -> Prop) (g : nat -> A -> B) (l : list A) :
  forall j0,
    (forall j x, nth_error l j = Some x -> P (g (j0 + j)%nat x)) ->
    Forall P (enum_from g j0 l).
Proof.
  induction l as [|x l IH]; intros j0 Hg; cbn [enum_from]; constructor.
  - rewrite <- (Nat.add_0_r j0). now apply Hg.
  - apply IH. intros j y Hy. replace (S j0 + j)%nat with (j0 + S j)%nat by lia.
    now apply Hg.
Qed.

Lemma Forall_concat_enum_from_nth {A B} (P : B -> Prop) (g : nat -> A -> list B)
    (l : list A) :
  forall j0,
    (forall j x, nth_error l j = Some x -> Forall P (g (j0 + j)%nat x)) ->
    Forall P (concat (enum_from g j0 l)).
Proof.
  induction l as [|x l IH]; intros j0 Hg; cbn [enum_from concat]; [constructor |].
  apply Forall_app. split.
  - rewrite <- (Nat.add_0_r j0). now apply Hg.
  - apply IH. intros j y Hy. replace (S j0 + j)%nat with (j0 + S j)%nat by lia.
    now apply Hg.
Qed.

(** A property of every step of the schedule follows from the property of
    the steps of each kind, for the groups, titles and ids of the report
    at their positions. *)
Lemma schedule_forall (P : op -> Prop) trd failed reverse_content_order :
  (stats trd <> [] -> P (OTrial [PStatsHeader] [PBaseHeader; PStatsHeader])) ->
  (forall i stat,
     stats trd <> [] -> nth_error (stats trd) i = Some stat ->
     P (OTrial (word_with_first_news i stat)
          (PBaseHeader :: PStatsHeader :: word_with_first_news i stat))) ->
  (forall i stat j title_data,
     stats trd <> [] -> nth_error (stats trd) i = Some stat ->
     (1 <= j)%nat -> nth_error (titles stat) j = Some title_data ->
     P (OTrial [PStatsItem i stat j title_data]
          [PBaseHeader; PStatsHeader; PWordHeader i stat; PStatsItem i stat j title_data])) ->
  (stats trd <> [] -> P (OTry [PSeparator])) ->
  (new_titles trd <> [] -> P (OTrial [PNewHeader] [PBaseHeader; PNewHeader])) ->
  (forall k source_data,
     new_titles trd <> [] -> nth_error (new_titles trd) k = Some source_data ->
     P (OTrial (source_with_first_news k source_data)
          (PBaseHeader :: PNewHeader :: source_with_first_news k source_data))) ->
  (forall k source_data j title_data,
     new_titles trd <> [] -> nth_error (new_titles trd) k = Some source_data ->
     (1 <= j)%nat -> nth_error (s_titles source_data) j = Some title_data ->
     P (OTrial [PNewItem k source_data j title_data]
          [PBaseHeader; PNewHeader; PSourceHeader k source_data;
           PNewItem k source_data j title_data])) ->
  (new_titles trd <> [] -> P (OForce [PLineFeed])) ->
  (failed <> [] -> P (OTrial [PFailedHeader] [PBaseHeader; PFailedHeader])) ->
  (forall id_value,
     failed <> [] -> In id_value failed ->
     P (OTrial [PFailedLine id_value] [PBaseHeader; PFailedHeader; PFailedLine id_value])) ->
  Forall P (schedule trd failed reverse_content_order).
Proof.
  intros Hsh Hw Hsi Hsep Hnh Hs Hni Hlf Hfh Hfl.
  assert (Hstats : Forall P (stats_ops (stats trd))).
  { unfold stats_ops. destruct (stats trd) as [|stat0 l0]; [constructor |].
    assert (Hne : stat0 :: l0 <> []) by discriminate.
    set (l := stat0 :: l0) in *. clearbody l. constructor; [exact (Hsh Hne) |].
    apply Forall_concat_enum_from_nth. intros i stat Hi. cbn [Nat.add].
    unfold stats_group_ops.
    constructor; [exact (Hw i stat Hne Hi) |]. apply Forall_app. split.
    - apply Forall_enum_from_nth. intros j t Ht.
      rewrite nth_error_skipn in Ht. apply (Hsi i stat _ t Hne Hi); [lia | exact Ht].
    - destruct (Z.of_nat i <? Z.of_nat (length l) - 1); repeat constructor.
      exact (Hsep Hne). }
  assert (Hnew : Forall P (new_ops (new_titles trd))).
  { unfold new_ops. destruct (new_titles trd) as [|s0 l0]; [constructor |].
    assert (Hne : s0 :: l0 <> []) by discriminate.
    set (l := s0 :: l0) in *. clearbody l. constructor; [exact (Hnh Hne) |].
    apply Forall_concat_enum_from_nth. intros k s Hk. cbn [Nat.add].
    unfold new_group_ops.
    constructor; [exact (Hs k s Hne Hk) |]. apply Forall_app. split.
    - apply Forall_enum_from_nth. intros j t Ht.
      rewrite nth_error_skipn in Ht. apply (Hni k s _ t Hne Hk); [lia | exact Ht].
    - repeat constructor. exact (Hlf Hne). }
  assert (Hfailed : Forall P (failed_ops failed)).
  { unfold failed_ops. destruct failed as [|id0 l0]; [constructor |].
    assert (Hne : id0 :: l0 <> []) by discriminate.
    set (l := id0 :: l0) in *. clearbody l. constructor; [exact (Hfh Hne) |].
    apply Forall_map. apply List.Forall_forall. intros id Hin. exact (Hfl id Hne Hin). }
  unfold schedule. apply Forall_app. split; [| exact Hfailed].
  destruct reverse_content_order; apply Forall_app; split; assumption.
Qed.

(** ** How many batches *)

Section StepsAndBatches.

Variable fmt : string -> TitleItem -> bool -> string.
Variables format_type feishu_separator : string.
Variable max_bytes : Z.
Variables base_header base_footer stats_header : string.
Variable total_count : nat.
Variable new_header : string.

Local Abbreviation run :=
  (run_ops fmt format_type feishu_separator max_bytes base_header base_footer
     stats_header total_count new_header).
Local Abbreviation step :=
  (run_op fmt format_type feishu_separator max_bytes base_header base_footer
     stats_header total_count new_header).

(** a step finishes at most one batch, and only a trial append does *)
Lemma run_ops_batches ops : forall ts,
  (length (t_flush (run ops ts))
   <= length (t_flush ts) + length (List.filter is_trial ops))%nat.
Proof.
  induction ops as [|o ops IH]; intros ts; [cbn; lia |].
  rewrite run_ops_cons. etransitivity; [apply IH |].
  assert (Hstep : (length (t_flush (step o ts))
                   <= length (t_flush ts) + (if is_trial o then 1 else 0))%nat).
  { destruct o as [chunk reseed | chunk | chunk]; cbn [run_op is_trial].
    - unfold t_trial_append. destruct (max_bytes <=? _); unfold t_flush; state_simpl.
      + rewrite length_app. cbn [length]. lia.
      + destruct (t_has_content ts); rewrite ?length_app; cbn [length]; lia.
    - destruct (_ <? max_bytes); unfold t_flush; state_simpl;
        destruct (t_has_content ts); rewrite ?length_app; cbn [length]; lia.
    - unfold t_flush; state_simpl.
      destruct (t_has_content ts); rewrite ?length_app; cbn [length]; lia. }
  cbn [List.filter]. destruct (is_trial o); cbn [length]; lia.
Qed.

End StepsAndBatches.

Lemma trials_le_chunks (ops : list op) :
  Forall (fun o => op_chunk o <> []) ops ->
  (length (List.filter is_trial ops) <= length (concat (map op_chunk ops)))%nat.
Proof.
  induction 1 as [|o ops Ho _ IH]; [reflexivity |].
  cbn [List.filter map concat]. rewrite length_app.
  assert (1 <= length (op_chunk o))%nat by (destruct (op_chunk o); [easy | cbn; lia]).
  destruct (is_trial o); cbn [length]; lia.
Qed.

(** X5.  [split_content_into_batches] always returns at least one batch,
    and never more batches than the whole message has chunks after the base
    header (section headers, group headers with their first item line,
    further item lines, separators, line feeds, lines of failed sources):
    only a chunk that does not fit can finish a batch, and each does so at
    most once. *)
Theorem batch_count_bounds :
  forall fmt report_data format_type update_info max_bytes mode batch_sizes
         feishu_separator reverse_content_order max_total_news_in_push
         show_stats_in_push now,
    let trd := split_preprocess report_data max_total_news_in_push show_stats_in_push in
    let n :=
      length (split_content_into_batches fmt report_data format_type update_info
                max_bytes mode batch_sizes feishu_separator reverse_content_order
                max_total_news_in_push show_stats_in_push now) in
    (1 <= n
     /\ n <= length (whole_message trd (failed_ids report_data) reverse_content_order
                       mode) - 1)%nat.
Proof.
  intros fmt report_data format_type update_info max_bytes mode batch_sizes
    feishu_separator reverse_content_order max_total_news_in_push show_stats_in_push
    now trd n.
  subst n. rewrite <- batch_strings_split_trace. unfold batch_strings.
  rewrite length_map, split_trace_as_ops. fold trd. cbv zeta.
  destruct (nothing_to_report trd (failed_ids report_data)) eqn:Hne.
  - unfold whole_message. rewrite Hne. cbn. lia.
  - rewrite <- (schedule_chunks _ _ _ mode Hne). cbn [length].
    split.
    + unfold t_flush. rewrite run_ops_has_content, schedule_has_trial by exact Hne.
      cbn [t_has_content orb]. rewrite length_app. cbn [length]. lia.
    + etransitivity; [apply run_ops_batches |]. cbn [t_flush t_has_content t_batches length].
      etransitivity; [apply trials_le_chunks |]; [| lia].
      apply schedule_forall; intros; cbn [op_chunk]; discriminate.
Qed.

(** ** How every batch starts and ends *)

Section StepsAll.

Variable fmt : string -> TitleItem -> bool -> string.
Variables format_type feishu_separator : string.
Variable max_bytes : Z.
Variables base_header base_footer stats_header : string.
Variable total_count : nat.
Variable new_header : string.
Variable Q : piece -> Prop.

Local Abbreviation run :=
  (run_ops fmt format_type feishu_separator max_bytes base_header base_footer
     stats_header total_count new_header).
Local Abbreviation step :=
  (run_op fmt format_type feishu_separator max_bytes base_header base_footer
     stats_header total_count new_header).
Local Abbreviation all_in ts :=
  (Forall (fun b => Forall Q (pieces b)) (t_batches ts) /\ Forall Q (pieces (t_current ts))).

Lemma run_ops_all ops : forall ts,
  Forall (op_all Q) ops -> all_in ts ->
  Forall (fun b => Forall Q (pieces b)) (t_flush (run ops ts)).
Proof.
  assert (Hflush : forall ts, all_in ts ->
            Forall (fun b => Forall Q (pieces b)) (t_flush ts)).
  { intros ts [Hb Hc]. unfold t_flush. destruct (t_has_content ts); [| exact Hb].
    apply Forall_app. split; [exact Hb | now constructor]. }
  induction ops as [|o ops IH]; intros ts Hops Hinv; [now apply Hflush |].
  apply Forall_cons_iff in Hops as [[Hchunk Hseed] Hops].
  rewrite run_ops_cons. apply IH; [exact Hops |].
  pose proof (Hflush ts Hinv) as Hf. destruct Hinv as [Hb Hc].
  destruct o as [chunk reseed | chunk | chunk]; cbn [run_op op_chunk] in *.
  - unfold t_trial_append. destruct (max_bytes <=? _); state_simpl; split;
      try assumption.
    + change (pieces (mkTBatch reseed [])) with (reseed ++ [])%list.
      now rewrite app_nil_r.
    + rewrite pieces_commit. apply Forall_app. now split.
  - destruct (_ <? max_bytes); state_simpl; split; try assumption.
    rewrite pieces_commit. apply Forall_app. now split.
  - state_simpl. split; [assumption |].
    rewrite pieces_commit. apply Forall_app. now split.
Qed.

End StepsAll.

(** ** Every chunk in its place *)

Lemma ctx_end_app c l1 l2 : ctx_end c (l1 ++ l2)%list = ctx_end (ctx_end c l1) l2.
Proof. unfold ctx_end. apply fold_left_app. Qed.

Lemma well_placed_app c l1 l2 :
  well_placed c (l1 ++ l2)%list <-> well_placed c l1 /\ well_placed (ctx_end c l1) l2.
Proof.
  revert c. induction l1 as [|p l1 IH]; intros c; cbn [app well_placed].
  - unfold ctx_end; cbn. tauto.
  - rewrite IH. unfold ctx_end; cbn [fold_left]. tauto.
Qed.

Lemma ops_end_app c ops1 ops2 :
  ops_end c (ops1 ++ ops2)%list = ops_end (ops_end c ops1) ops2.
Proof. unfold ops_end. now rewrite concat_map_chunks_app, ctx_end_app. Qed.

Lemma ops_end_cons c o ops : ops_end c (o :: ops) = ops_end (ctx_end c (op_chunk o)) ops.
Proof. unfold ops_end. cbn [map concat]. apply ctx_end_app. Qed.

Lemma ops_ok_app c ops1 ops2 :
  ops_ok c (ops1 ++ ops2)%list <-> ops_ok c ops1 /\ ops_ok (ops_end c ops1) ops2.
Proof.
  revert c. induction ops1 as [|o ops1 IH]; intros c; cbn [app ops_ok].
  - unfold ops_end, ctx_end; cbn. tauto.
  - rewrite IH, ops_end_cons. tauto.
Qed.

Section StepsInPlace.

Variable fmt : string -> TitleItem -> bool -> string.
Variables format_type feishu_separator : string.
Variable max_bytes : Z.
Variables base_header base_footer stats_header : string.
Variable total_count : nat.
Variable new_header : string.

Local Abbreviation run :=
  (run_ops fmt format_type feishu_separator max_bytes base_header base_footer
     stats_header total_count new_header).
Local Abbreviation step :=
  (run_op fmt format_type feishu_separator max_bytes base_header base_footer
     stats_header total_count new_header).
Local Abbreviation in_place ts :=
  (Forall (fun b => well_placed CStart (pieces b)) (t_batches ts)
   /\ well_placed CStart (pieces (t_current ts))).

Lemma flush_in_place ts :
  in_place ts -> Forall (fun b => well_placed CStart (pieces b)) (t_flush ts).
Proof.
  intros [Hb Hc]. unfold t_flush. destruct (t_has_content ts); [| exact Hb].
  apply Forall_app. split; [exact Hb | now constructor].
Qed.

Lemma run_op_in_place o ts c :
  op_ok c o -> in_place ts -> ctx_end CStart (pieces (t_current ts)) = c ->
  in_place (step o ts)
  /\ ctx_end CStart (pieces (t_current (step o ts))) = ctx_end c (op_chunk o).
Proof.
  intros Hok Hinv Hc. pose proof (flush_in_place ts Hinv) as Hf.
  destruct Hinv as [Hb Hcur].
  destruct o as [chunk reseed | chunk | chunk]; cbn [run_op op_chunk op_ok] in *.
  - destruct Hok as (Hchunk & Hseed & Hend).
    unfold t_trial_append. destruct (max_bytes <=? _); state_simpl.
    + change (pieces (mkTBatch reseed [])) with (reseed ++ [])%list.
      rewrite app_nil_r. repeat split; assumption.
    + rewrite pieces_commit, ctx_end_app, Hc. repeat split; try assumption.
      apply well_placed_app. rewrite Hc. now split.
  - destruct Hok as [Hchunk Hend]. destruct (_ <? max_bytes); state_simpl.
    + rewrite pieces_commit, ctx_end_app, Hc. repeat split; try assumption.
      apply well_placed_app. rewrite Hc. now split.
    + rewrite Hend. repeat split; assumption.
  - state_simpl. rewrite pieces_commit, ctx_end_app, Hc. repeat split; try assumption.
    apply well_placed_app. rewrite Hc. now split.
Qed.

Lemma run_ops_in_place ops : forall ts c,
  ops_ok c ops -> in_place ts -> ctx_end CStart (pieces (t_current ts)) = c ->
  in_place (run ops ts).
Proof.
  induction ops as [|o ops IH]; intros ts c Hok Hinv Hc; [exact Hinv |].
  destruct Hok as [Ho Hops]. rewrite run_ops_cons.
  destruct (run_op_in_place o ts c Ho Hinv Hc) as [Hinv' Hc'].
  exact (IH _ _ Hops Hinv' Hc').
Qed.

End StepsInPlace.

(** the side conditions of [placed] *)
Ltac in_its_place :=
  repeat split; try discriminate;
  try (eexists; split; [reflexivity | first [exact I | assumption | reflexivity]]);
  eauto.

Ltac ctx_compute :=
  cbn [ops_ok op_ok op_chunk well_placed placed ctx_end fold_left ctx_after].

Lemma stats_rest_ok i stat rest : forall j last,
  follows last j ->
  ops_ok (CStats (Some (i, stat, last))) (stats_rest_ops i stat j rest)
  /\ exists last', ops_end (CStats (Some (i, stat, last))) (stats_rest_ops i stat j rest)
                   = CStats (Some (i, stat, last')).
Proof.
  unfold stats_rest_ops.
  induction rest as [|t rest IH]; intros j last Hj; cbn [enum_from].
  - split; [exact I | now exists last].
  - destruct (IH (S j) (Some j) eq_refl) as [Hok [last' Hend]].
    rewrite ops_end_cons. ctx_compute. rewrite Hend.
    split; [| now exists last']. split; [| exact Hok]. in_its_place.
Qed.

Lemma stats_group_ok n_stats i stat g :
  ops_ok (CStats g) (stats_group_ops n_stats i stat)
  /\ exists g', ops_end (CStats g) (stats_group_ops n_stats i stat) = CStats g'.
Proof.
  unfold stats_group_ops.
  set (sep := if Z.of_nat i <? Z.of_nat n_stats - 1 then [OTry [PSeparator]] else []).
  assert (Hsep : forall g0, ops_ok (CStats (Some g0)) sep
                            /\ ops_end (CStats (Some g0)) sep = CStats (Some g0)).
  { intros g0. subst sep.
    destruct (Z.of_nat i <? Z.of_nat n_stats - 1); unfold ops_end; cbn [map concat app];
      ctx_compute; in_its_place. }
  clearbody sep.
  assert (Hfirst : op_ok (CStats g)
                     (OTrial (word_with_first_news i stat)
                        (PBaseHeader :: PStatsHeader :: word_with_first_news i stat))
                   /\ exists last,
                        ctx_end (CStats g) (word_with_first_news i stat)
                        = CStats (Some (i, stat, last))
                        /\ follows last 1).
  { unfold word_with_first_news. destruct (titles stat); ctx_compute; in_its_place. }
  destruct Hfirst as [Hf (last & Hlast & Hfol)].
  destruct (stats_rest_ok i stat (skipn 1 (titles stat)) 1 last Hfol) as [Hok [last' Hend]].
  destruct (Hsep (i, stat, last')) as [Hs1 Hs2].
  rewrite ops_end_cons. cbn [ops_ok op_chunk]. rewrite Hlast, ops_end_app, Hend, Hs2.
  split; [| eauto]. split; [exact Hf |].
  apply ops_ok_app. rewrite Hend. now split.
Qed.

Lemma stats_groups_ok n_stats l : forall i g,
  ops_ok (CStats g) (concat (enum_from (stats_group_ops n_stats) i l))
  /\ exists g', ops_end (CStats g) (concat (enum_from (stats_group_ops n_stats) i l))
                = CStats g'.
Proof.
  induction l as [|stat l IH]; intros i g; cbn [enum_from concat].
  - split; [exact I | now exists g].
  - destruct (stats_group_ok n_stats i stat g) as [Hok [g1 Hend]].
    destruct (IH (S i) g1) as [Hok' [g2 Hend']].
    rewrite ops_end_app, Hend, Hend'. split; [| now exists g2].
    apply ops_ok_app. rewrite Hend. now split.
Qed.

Lemma stats_ops_ok l c :
  section_can_start c ->
  ops_ok c (stats_ops l) /\ section_can_start (ops_end c (stats_ops l)).
Proof.
  intros Hc. unfold stats_ops. destruct l as [|stat0 l0]; [now split |].
  set (l := stat0 :: l0). clearbody l.
  destruct (stats_groups_ok (length l) l 0 None) as [Hok [g Hend]].
  rewrite ops_end_cons. ctx_compute. rewrite Hend.
  split; [| split; discriminate].
  split; [| exact Hok]. destruct Hc. in_its_place.
Qed.

Lemma new_rest_ok k source_data rest : forall j last,
  follows last j ->
  ops_ok (CNew (Some (k, source_data, last))) (new_rest_ops k source_data j rest)
  /\ exists last', ops_end (CNew (Some (k, source_data, last)))
                     (new_rest_ops k source_data j rest)
                   = CNew (Some (k, source_data, last')).
Proof.
  unfold new_rest_ops.
  induction rest as [|t rest IH]; intros j last Hj; cbn [enum_from].
  - split; [exact I | now exists last].
  - destruct (IH (S j) (Some j) eq_refl) as [Hok [last' Hend]].
    rewrite ops_end_cons. ctx_compute. rewrite Hend.
    split; [| now exists last']. split; [| exact Hok]. in_its_place.
Qed.

Lemma new_group_ok k source_data g :
  ops_ok (CNew g) (new_group_ops k source_data)
  /\ exists g', ops_end (CNew g) (new_group_ops k source_data) = CNew g'.
Proof.
  unfold new_group_ops.
  assert (Hfeed : forall g0, ops_ok (CNew (Some g0)) [OForce [PLineFeed]]
                             /\ ops_end (CNew (Some g0)) [OForce [PLineFeed]]
                                = CNew (Some g0)).
  { intros g0. unfold ops_end; cbn [map concat app]; ctx_compute; in_its_place. }
  assert (Hfirst : op_ok (CNew g)
                     (OTrial (source_with_first_news k source_data)
                        (PBaseHeader :: PNewHeader :: source_with_first_news k source_data))
                   /\ exists last,
                        ctx_end (CNew g) (source_with_first_news k source_data)
                        = CNew (Some (k, source_data, last))
                        /\ follows last 1).
  { unfold source_with_first_news. destruct (s_titles source_data); ctx_compute;
      in_its_place. }
  destruct Hfirst as [Hf (last & Hlast & Hfol)].
  destruct (new_rest_ok k source_data (skipn 1 (s_titles source_data)) 1 last Hfol)
    as [Hok [last' Hend]].
  destruct (Hfeed (k, source_data, last')) as [Hs1 Hs2].
  rewrite ops_end_cons. cbn [ops_ok op_chunk]. rewrite Hlast, ops_end_app, Hend, Hs2.
  split; [| eauto]. split; [exact Hf |].
  apply ops_ok_app. rewrite Hend. now split.
Qed.

Lemma new_groups_ok l : forall k g,
  ops_ok (CNew g) (concat (enum_from new_group_ops k l))
  /\ exists g', ops_end (CNew g) (concat (enum_from new_group_ops k l)) = CNew g'.
Proof.
  induction l as [|s l IH]; intros k g; cbn [enum_from concat].
  - split; [exact I | now exists g].
  - destruct (new_group_ok k s g) as [Hok [g1 Hend]].
    destruct (IH (S k) g1) as [Hok' [g2 Hend']].
    rewrite ops_end_app, Hend, Hend'. split; [| now exists g2].
    apply ops_ok_app. rewrite Hend. now split.
Qed.

Lemma new_ops_ok l c :
  section_can_start c ->
  ops_ok c (new_ops l) /\ section_can_start (ops_end c (new_ops l)).
Proof.
  intros Hc. unfold new_ops. destruct l as [|s0 l0]; [now split |].
  set (l := s0 :: l0). clearbody l.
  destruct (new_groups_ok l 0 None) as [Hok [g Hend]].
  rewrite ops_end_cons. ctx_compute. rewrite Hend.
  split; [| split; discriminate].
  split; [| exact Hok]. destruct Hc. in_its_place.
Qed.

Lemma failed_lines_ok l :
  ops_ok CFailed
    (map (fun id_value =>
            OTrial [PFailedLine id_value] [PBaseHeader; PFailedHeader; PFailedLine id_value])
       l).
Proof.
  induction l as [|id l IH]; cbn [map]; [exact I |].
  ctx_compute. split; [| exact IH]. in_its_place.
Qed.

Lemma failed_ops_ok l c : section_can_start c -> ops_ok c (failed_ops l).
Proof.
  intros Hc. unfold failed_ops. destruct l as [|id0 l0]; [exact I |].
  set (l := id0 :: l0). clearbody l.
  ctx_compute. split; [| apply failed_lines_ok]. destruct Hc. in_its_place.
Qed.

Lemma schedule_ok trd failed reverse_content_order :
  ops_ok CBase (schedule trd failed reverse_content_order).
Proof.
  assert (H0 : section_can_start CBase) by (split; discriminate).
  unfold schedule. apply ops_ok_app.
  destruct reverse_content_order.
  - destruct (new_ops_ok (new_titles trd) CBase H0) as [Hok1 Hc1].
    destruct (stats_ops_ok (stats trd) _ Hc1) as [Hok2 Hc2].
    rewrite ops_end_app. split; [apply ops_ok_app; now split |].
    now apply failed_ops_ok.
  - destruct (stats_ops_ok (stats trd) CBase H0) as [Hok1 Hc1].
    destruct (new_ops_ok (new_titles trd) _ Hc1) as [Hok2 Hc2].
    rewrite ops_end_app. split; [apply ops_ok_app; now split |].
    now apply failed_ops_ok.
Qed.

(** X7.  The batches returned are the texts of the chunk-level batches, and
    in each of them every chunk stands in its place: the base header comes
    first; every group header stands in its own section, after the section
    header; every item line stands under the header of its own group, with
    nothing but item lines of that group in consecutive positions between
    the header and the line; separators, line feeds and the lines of failed
    sources stand in their sections.  So the headers are repeated whenever
    a batch is restarted, and no line is read under the wrong header. *)
Theorem items_under_their_headers :
  forall fmt report_data format_type update_info max_bytes mode batch_sizes
         feishu_separator reverse_content_order max_total_news_in_push
         show_stats_in_push now,
    let tr :=
      split_trace fmt format_type feishu_separator
        (resolve_max_bytes format_type max_bytes batch_sizes) report_data update_info
        mode reverse_content_order max_total_news_in_push show_stats_in_push now in
    batch_strings fmt format_type feishu_separator report_data update_info
      max_total_news_in_push show_stats_in_push now tr
    = split_content_into_batches fmt report_data format_type update_info max_bytes mode
        batch_sizes feishu_separator reverse_content_order max_total_news_in_push
        show_stats_in_push now
    /\ Forall (fun b => well_placed CStart (pieces b)) tr.
Proof.
  intros fmt report_data format_type update_info max_bytes mode batch_sizes
    feishu_separator reverse_content_order max_total_news_in_push show_stats_in_push
    now tr.
  split; [apply batch_strings_split_trace |].
  subst tr. rewrite split_trace_as_ops. cbv zeta.
  destruct (nothing_to_report _ _).
  - repeat constructor.
  - apply flush_in_place. eapply run_ops_in_place; [apply schedule_ok | | reflexivity].
    split; [constructor |]. repeat constructor.
Qed.

(** ** Nothing but the report *)

Lemma schedule_from_report trd failed mode reverse_content_order :
  Forall (op_all (from_report trd failed mode)) (schedule trd failed reverse_content_order).
Proof.
  apply schedule_forall; intros; unfold op_all, word_with_first_news,
    source_with_first_news; cbn [op_chunk];
    try (split; repeat constructor; assumption).
  - destruct (titles stat) eqn:E; split; repeat constructor; try assumption;
      now rewrite E.
  - destruct (s_titles source_data) eqn:E; split; repeat constructor; try assumption;
      now rewrite E.
Qed.

Lemma split_trace_from_report fmt format_type feishu_separator max_bytes report_data
    update_info mode reverse_content_order max_total_news_in_push show_stats_in_push now :
  let trd := split_preprocess report_data max_total_news_in_push show_stats_in_push in
  Forall (fun b => Forall (from_report trd (failed_ids report_data) mode) (pieces b))
    (split_trace fmt format_type feishu_separator max_bytes report_data update_info mode
       reverse_content_order max_total_news_in_push show_stats_in_push now).
Proof.
  intros trd. rewrite split_trace_as_ops. fold trd. cbv zeta.
  destruct (nothing_to_report trd (failed_ids report_data)) eqn:Hne.
  - repeat constructor. exact Hne.
  - apply run_ops_all; [apply schedule_from_report |].
    split; [constructor |]. repeat constructor.
Qed.

(** X8.  The batches returned are the texts of the chunk-level batches, and
    every chunk in them is taken from the pre-processed report: each group
    header is the header of the group at its position in its section, each
    item line is the line of the title at its position in that group, each
    line of a failed source is that of one of the failed ids, and section
    headers, separators and line feeds only occur for sections that are
    not empty.  A restarted batch repeats headers of the report; it never
    shows a header or a line of anything else. *)
Theorem chunks_come_from_the_report :
  forall fmt report_data format_type update_info max_bytes mode batch_sizes
         feishu_separator reverse_content_order max_total_news_in_push
         show_stats_in_push now,
    let trd := split_preprocess report_data max_total_news_in_push show_stats_in_push in
    let tr :=
      split_trace fmt format_type feishu_separator
        (resolve_max_bytes format_type max_bytes batch_sizes) report_data update_info
        mode reverse_content_order max_total_news_in_push show_stats_in_push now in
    batch_strings fmt format_type feishu_separator report_data update_info
      max_total_news_in_push show_stats_in_push now tr
    = split_content_into_batches fmt report_data format_type update_info max_bytes mode
        batch_sizes feishu_separator reverse_content_order max_total_news_in_push
        show_stats_in_push now
    /\ Forall (fun b => Forall (from_report trd (failed_ids report_data) mode) (pieces b))
         tr.
Proof.
  intros fmt report_data format_type update_info max_bytes mode batch_sizes
    feishu_separator reverse_content_order max_total_news_in_push show_stats_in_push
    now trd tr.
  split; [apply batch_strings_split_trace | apply split_trace_from_report].
Qed.

(** ** Two runs with the same texts *)

Lemma op_all_impl (Q1 Q2 : piece -> Prop) (o : op) :
  (forall p, Q1 p -> Q2 p) -> op_all Q1 o -> op_all Q2 o.
Proof.
  intros Himp [Hc Hr]. split; [eapply Forall_impl; eauto |].
  destruct o; [eapply Forall_impl; eauto | exact I | exact I].
Qed.

Section SameTexts.

Variables fmt1 fmt2 : string -> TitleItem -> bool -> string.
Variables ft1 ft2 sep1 sep2 : string.
Variable max_bytes : Z.
Variables bh1 bh2 base_footer sh1 sh2 : string.
Variables n1 n2 : nat.
Variables nh1 nh2 : string.

Local Abbreviation text1 := (piece_text fmt1 ft1 sep1 bh1 sh1 n1 nh1).
Local Abbreviation text2 := (piece_text fmt2 ft2 sep2 bh2 sh2 n2 nh2).
Local Abbreviation ptext1 := (pieces_text fmt1 ft1 sep1 bh1 sh1 n1 nh1).
Local Abbreviation ptext2 := (pieces_text fmt2 ft2 sep2 bh2 sh2 n2 nh2).
Local Abbreviation same := (fun p => text1 p = text2 p).
Local Abbreviation run1 := (run_ops fmt1 ft1 sep1 max_bytes bh1 base_footer sh1 n1 nh1).
Local Abbreviation run2 := (run_ops fmt2 ft2 sep2 max_bytes bh2 base_footer sh2 n2 nh2).
Local Abbreviation step1 := (run_op fmt1 ft1 sep1 max_bytes bh1 base_footer sh1 n1 nh1).
Local Abbreviation step2 := (run_op fmt2 ft2 sep2 max_bytes bh2 base_footer sh2 n2 nh2).

Lemma pieces_text_same l : Forall same l -> ptext1 l = ptext2 l.
Proof.
  induction 1 as [|p l Hp _ IH]; [reflexivity |].
  cbn [pieces_text fold_right]. fold (ptext1 l) (ptext2 l). now rewrite Hp, IH.
Qed.

Lemma run_op_same o ts :
  op_all same o -> Forall same (pieces (t_current ts)) ->
  step1 o ts = step2 o ts /\ Forall same (pieces (t_current (step1 o ts))).
Proof.
  intros [Hchunk Hseed] Hcur.
  assert (Htest : ptext1 (pieces (t_current ts) ++ op_chunk o)
                  = ptext2 (pieces (t_current ts) ++ op_chunk o)).
  { apply pieces_text_same, Forall_app. now split. }
  destruct o as [chunk reseed | chunk | chunk]; cbn [run_op op_chunk] in *.
  - unfold t_trial_append. rewrite Htest. split; [reflexivity |].
    destruct (max_bytes <=? _); state_simpl.
    + change (pieces (mkTBatch reseed [])) with (reseed ++ [])%list.
      now rewrite app_nil_r.
    + rewrite pieces_commit. apply Forall_app. now split.
  - rewrite Htest. split; [reflexivity |].
    destruct (_ <? max_bytes); state_simpl; [| exact Hcur].
    rewrite pieces_commit. apply Forall_app. now split.
  - split; [reflexivity |]. state_simpl.
    rewrite pieces_commit. apply Forall_app. now split.
Qed.

Lemma run_ops_same ops : forall ts,
  Forall (op_all same) ops -> Forall same (pieces (t_current ts)) ->
  run1 ops ts = run2 ops ts.
Proof.
  induction ops as [|o ops IH]; intros ts Hops Hcur; [reflexivity |].
  apply Forall_cons_iff in Hops as [Ho Hops].
  destruct (run_op_same o ts Ho Hcur) as [Heq Hcur'].
  rewrite !run_ops_cons, <- Heq. now apply IH.
Qed.

Lemma batch_texts_same tr :
  Forall (fun b => Forall same (pieces b)) tr ->
  map (batch_text fmt1 ft1 sep1 bh1 base_footer sh1 n1 nh1) tr
  = map (batch_text fmt2 ft2 sep2 bh2 base_footer sh2 n2 nh2) tr.
Proof.
  induction 1 as [|b tr Hb _ IH]; [reflexivity |].
  cbn [map]. rewrite IH. unfold batch_text. now rewrite (pieces_text_same _ Hb).
Qed.

End SameTexts.

(** Two calls on the same report under the same budget return the same
    batches when they have the same footer and give every chunk of the
    report the same text. *)
Lemma split_with_budget_same fmt1 ft1 sep1 ui1 now1 fmt2 ft2 sep2 ui2 now2 max_bytes
    report_data mode reverse_content_order max_total_news_in_push show_stats_in_push :
  let trd := split_preprocess report_data max_total_news_in_push show_stats_in_push in
  make_base_footer ft1 now1 ui1 = make_base_footer ft2 now2 ui2 ->
  (forall p,
     from_report trd (failed_ids report_data) mode p ->
     piece_text fmt1 ft1 sep1
       (make_base_header ft1 (total_titles_of (stats trd)) now1)
       (make_stats_header ft1 (stats trd)) (length (stats trd))
       (make_new_header ft1 sep1 max_total_news_in_push
          (actual_new_count_of (new_titles trd)) (total_new_count report_data)) p
     = piece_text fmt2 ft2 sep2
         (make_base_header ft2 (total_titles_of (stats trd)) now2)
         (make_stats_header ft2 (stats trd)) (length (stats trd))
         (make_new_header ft2 sep2 max_total_news_in_push
            (actual_new_count_of (new_titles trd)) (total_new_count report_data)) p) ->
  split_with_budget fmt1 ft1 sep1 max_bytes report_data ui1 mode reverse_content_order
    max_total_news_in_push show_stats_in_push now1
  = split_with_budget fmt2 ft2 sep2 max_bytes report_data ui2 mode reverse_content_order
      max_total_news_in_push show_stats_in_push now2.
Proof.
  intros trd Hfooter Hsame.
  rewrite <- !split_trace_text. cbv zeta. fold trd.
  pose proof (split_trace_from_report fmt1 ft1 sep1 max_bytes report_data ui1 mode
                reverse_content_order max_total_news_in_push show_stats_in_push now1)
    as Hfrom.
  cbv zeta in Hfrom. fold trd in Hfrom.
  assert (Htrace :
            split_trace fmt2 ft2 sep2 max_bytes report_data ui2 mode reverse_content_order
              max_total_news_in_push show_stats_in_push now2
            = split_trace fmt1 ft1 sep1 max_bytes report_data ui1 mode
                reverse_content_order max_total_news_in_push show_stats_in_push now1).
  { rewrite !split_trace_as_ops. fold trd. cbv zeta.
    destruct (nothing_to_report trd (failed_ids report_data)); [reflexivity |].
    f_equal. rewrite <- Hfooter. symmetry. apply run_ops_same.
    - eapply Forall_impl; [apply (schedule_from_report trd (failed_ids report_data) mode) |].
      intros o Ho. eapply op_all_impl; [| exact Ho]. exact Hsame.
    - repeat constructor. now apply Hsame. }
  rewrite Htrace, <- Hfooter. apply batch_texts_same.
  eapply Forall_impl; [exact Hfrom |]. cbv beta. intros b Hb.
  eapply Forall_impl; [exact Hb |]. exact Hsame.
Qed.

(** ** "bark" beside "wework" *)

Lemma truncate_new_titles_short {T} (n : nat) (l : list (SourceGroup T)) : forall M total,
  Forall (fun g => (length (s_titles g) <= n)%nat) l ->
  Forall (fun g => (length (s_titles g) <= n)%nat) (fst (truncate_new_titles M l total [])).
Proof.
  induction l as [|g l IH]; intros M total Hl; [constructor |].
  apply Forall_cons_iff in Hl as [Hg Hl].
  destruct (Z.le_gt_cases M total) as [Hle | Hlt].
  - rewrite truncate_new_titles_spent by lia. constructor.
  - destruct (truncate_new_titles_step g l M total ltac:(lia)) as [-> _].
    destruct (firstn (Z.to_nat (M - total)) (s_titles g)) as [|t tl] eqn:E;
      [now apply IH |].
    constructor; [| now apply IH]. cbn [s_titles]. rewrite <- E.
    rewrite List.length_firstn. lia.
Qed.

Lemma split_preprocess_short {T} (n : nat) (r : ReportData T) (M : Z) (show : bool) :
  Forall (fun g => (length (s_titles g) <= n)%nat) (new_titles r) ->
  Forall (fun g => (length (s_titles g) <= n)%nat) (new_titles (split_preprocess r M show)).
Proof.
  intros Hl. unfold split_preprocess. destruct (0 <? M).
  - destruct (if show && nonempty (stats r) then truncate_stats M (stats r) 0 [] else ([], 0))
      as [ts cnt].
    pose proof (truncate_new_titles_short n (new_titles r) M cnt Hl) as H.
    destruct (truncate_new_titles M (new_titles r) cnt []) as [tn cnt']. exact H.
  - destruct (negb show); exact Hl.
Qed.

(** X9.  "bark" is handled as "wework" everywhere but in two places: the
    header of the failed sources, which "bark" does not have, and the item
    lines after the first of a source group, which for "bark" hold the raw
    title.  So for a report without failed ids in which no source group of
    new titles has more than one title, the batches for "bark" are the
    batches for "wework". *)
Theorem bark_is_wework_but_in_two_places :
  forall fmt report_data update_info max_bytes mode batch_sizes feishu_separator
         reverse_content_order max_total_news_in_push show_stats_in_push now,
    failed_ids report_data = [] ->
    Forall (fun g => (length (s_titles g) <= 1)%nat) (new_titles report_data) ->
    split_content_into_batches fmt report_data "bark" update_info max_bytes mode
      batch_sizes feishu_separator reverse_content_order max_total_news_in_push
      show_stats_in_push now
    = split_content_into_batches fmt report_data "wework" update_info max_bytes mode
        batch_sizes feishu_separator reverse_content_order max_total_news_in_push
        show_stats_in_push now.
Proof.
  intros fmt report_data update_info max_bytes mode batch_sizes feishu_separator
    reverse_content_order max_total_news_in_push show_stats_in_push now Hfailed Hshort.
  unfold split_content_into_batches.
  change (resolve_max_bytes "bark" max_bytes batch_sizes)
    with (resolve_max_bytes "wework" max_bytes batch_sizes).
  apply split_with_budget_same; [reflexivity |].
  intros p Hp.
  pose proof (split_preprocess_short 1 report_data max_total_news_in_push
                show_stats_in_push Hshort) as Hshort'.
  destruct p as [| | i stat | i stat j t | | | k s | k s j t | | | id | m];
    cbn [from_report] in Hp; try reflexivity.
  - destruct j as [|j]; [reflexivity |]. destruct Hp as [Hk Hj].
    apply nth_error_In in Hk.
    pose proof (proj1 (List.Forall_forall _ _) Hshort' s Hk) as Hlen. cbv beta in Hlen.
    assert (S j < length (s_titles s))%nat by (apply nth_error_Some; congruence).
    lia.
  - now rewrite Hfailed in Hp.
Qed.

Lemma bark_is_wework_but_in_two_places_witness :
  failed_ids three_titles_report = []
  /\ Forall (fun g : SourceGroup TitleItem => (length (s_titles g) <= 1)%nat)
       (new_titles three_titles_report)
  /\ split_content_into_batches sample_formatter three_titles_report "bark" None
       (Some 120) "daily" None "---" false 0 true "2026-01-01 00:00:00"
     = split_content_into_batches sample_formatter three_titles_report "wework" None
         (Some 120) "daily" None "---" false 0 true "2026-01-01 00:00:00".
Proof.
  assert (H1 : failed_ids three_titles_report = []) by reflexivity.
  assert (H2 : Forall (fun g : SourceGroup TitleItem => (length (s_titles g) <= 1)%nat)
                 (new_titles three_titles_report)) by constructor.
  split; [exact H1 |]. split; [exact H2 |].
  exact (bark_is_wework_but_in_two_places sample_formatter three_titles_report None
           (Some 120) "daily" None "---" false 0 true "2026-01-01 00:00:00" H1 H2).
Defined.

(** ** A format type the splitter does not know *)

Section UnknownPlatform.

Variable ft : string.
Hypothesis Hunknown : known_platform ft = false.

Lemma unknown_tests :
  String.eqb ft "wework" = false /\ String.eqb ft "bark" = false
  /\ String.eqb ft "telegram" = false /\ String.eqb ft "ntfy" = false
  /\ String.eqb ft "feishu" = false /\ String.eqb ft "dingtalk" = false
  /\ String.eqb ft "slack" = false.
Proof.
  pose proof Hunknown as H. unfold known_platform, str_in in H. cbn [existsb] in H.
  repeat (apply orb_false_elim in H as [? H]). repeat split; assumption.
Qed.

Ltac unknown :=
  destruct unknown_tests as (E1 & E2 & E3 & E4 & E5 & E6 & E7);
  unfold str_in; cbn [existsb]; rewrite ?E1, ?E2, ?E3, ?E4, ?E5, ?E6, ?E7;
  reflexivity.

Lemma unknown_base_header n now : make_base_header ft n now = "".
Proof. unfold make_base_header. unknown. Qed.

Lemma unknown_base_footer now update_info : make_base_footer ft now update_info = "".
Proof. unfold make_base_footer. unknown. Qed.

Lemma unknown_stats_header {T} (l : list (StatGroup T)) : make_stats_header ft l = "".
Proof. unfold make_stats_header. destruct (nonempty l); [unknown | reflexivity]. Qed.

Lemma unknown_word_header i n w c : make_word_header ft i n w c = "".
Proof. unfold make_word_header. cbv zeta. unknown. Qed.

Lemma unknown_stats_title fmt t : stats_formatted_title fmt ft t = title t.
Proof. unfold stats_formatted_title. unknown. Qed.

Lemma unknown_separator sep : stats_separator ft sep = "".
Proof. unfold stats_separator. unknown. Qed.

Lemma unknown_new_header sep M n total : make_new_header ft sep M n total = "".
Proof. unfold make_new_header. cbv zeta. unknown. Qed.

Lemma unknown_source_header name n : make_source_header ft name n = "".
Proof. unfold make_source_header. cbv zeta. unknown. Qed.

Lemma unknown_new_first_title fmt t : new_first_formatted_title fmt ft t = title t.
Proof. unfold new_first_formatted_title. unknown. Qed.

Lemma unknown_new_title fmt t : new_formatted_title fmt ft t = title t.
Proof. unfold new_formatted_title. unknown. Qed.

Lemma unknown_failed_header sep : make_failed_header ft sep = "".
Proof. unfold make_failed_header. unknown. Qed.

Lemma unknown_failed_line id_value : make_failed_line ft id_value = "  • " +:+ id_value +:+ nl.
Proof. unfold make_failed_line. unknown. Qed.

(** the text of a chunk: nothing for a header or a separator, the bare
    numbered title for an item *)
Lemma unknown_piece_text fmt1 fmt2 sep1 sep2 bh1 bh2 sh1 sh2 n1 n2 nh1 nh2 p :
  bh1 = bh2 -> sh1 = sh2 -> nh1 = nh2 ->
  piece_text fmt1 ft sep1 bh1 sh1 n1 nh1 p = piece_text fmt2 ft sep2 bh2 sh2 n2 nh2 p.
Proof.
  intros -> -> ->.
  destruct p as [| | i stat | i stat j t | | | k s | k s j t | | | id | m];
    cbn [piece_text]; try reflexivity.
  - now rewrite !unknown_word_header.
  - destruct j.
    + unfold stats_first_news_line, stats_first_line. cbv zeta.
      destruct (titles stat); [reflexivity |]. now rewrite !unknown_stats_title.
    + unfold stats_news_line. cbv zeta. now rewrite !unknown_stats_title.
  - now rewrite !unknown_separator.
  - destruct j.
    + unfold new_first_news_line, new_first_line. cbv zeta.
      destruct (s_titles s); [reflexivity |]. now rewrite !unknown_new_first_title.
    + unfold new_news_line, new_line. cbv zeta. now rewrite !unknown_new_title.
  - now rewrite !unknown_failed_header.
Qed.

End UnknownPlatform.

(** X10.  For a format type that is none of the seven the splitter has
    texts for, no header, footer or separator has a text, the formatter is
    never called and neither the time nor the version notice is written:
    the base header and the base footer are empty, and the batches are the
    same whatever the formatter, the time stamp, the update notice and the
    separator are. *)
Theorem unknown_platform_bare_lines :
  forall format_type report_data max_bytes mode batch_sizes reverse_content_order
         max_total_news_in_push show_stats_in_push,
    known_platform format_type = false ->
    (forall n now update_info,
       make_base_header format_type n now = ""
       /\ make_base_footer format_type now update_info = "")
    /\ (forall fmt1 fmt2 update_info1 update_info2 feishu_separator1 feishu_separator2
               now1 now2,
          split_content_into_batches fmt1 report_data format_type update_info1 max_bytes
            mode batch_sizes feishu_separator1 reverse_content_order
            max_total_news_in_push show_stats_in_push now1
          = split_content_into_batches fmt2 report_data format_type update_info2
              max_bytes mode batch_sizes feishu_separator2 reverse_content_order
              max_total_news_in_push show_stats_in_push now2).
Proof.
  intros format_type report_data max_bytes mode batch_sizes reverse_content_order
    max_total_news_in_push show_stats_in_push Hunknown.
  split.
  - intros n now update_info.
    split; [now apply unknown_base_header | now apply unknown_base_footer].
  - intros fmt1 fmt2 update_info1 update_info2 feishu_separator1 feishu_separator2
      now1 now2.
    unfold split_content_into_batches. apply split_with_budget_same.
    + now rewrite !unknown_base_footer.
    + intros p _. apply unknown_piece_text; [exact Hunknown | | |].
      * now rewrite !unknown_base_header.
      * reflexivity.
      * now rewrite !unknown_new_header.
Qed.

Lemma unknown_platform_bare_lines_witness :
  known_platform "email" = false
  /\ split_content_into_batches sample_formatter two_sections_report "email" None
       (Some 60) "daily" None "---" false 0 true "2026-01-01 00:00:00"
     = split_content_into_batches plain_formatter two_sections_report "email"
         (Some (mkUpdateInfo "2.0" "1.0")) (Some 60) "daily" None "***" false 0 true
         "2027-12-31 23:59:59".
Proof.
  split; [reflexivity |].
  exact (proj2 (unknown_platform_bare_lines "email" two_sections_report (Some 60)
                  "daily" None false 0 true eq_refl)
           sample_formatter plain_formatter None (Some (mkUpdateInfo "2.0" "1.0"))
           "---" "***" "2026-01-01 00:00:00" "2027-12-31 23:59:59").
Defined.

(** ** No item of the new-items section is shown as new *)

Section NeverShownAsNew.

Variables f g : string -> TitleItem -> bool -> string.
Hypothesis Hagree :
  forall platform d show_source, is_new d = false ->
    f platform d show_source = g platform d show_source.

Lemma new_first_line_agree ft t :
  new_first_line f ft (set_is_new t false) = new_first_line g ft (set_is_new t false).
Proof.
  unfold new_first_line, new_first_formatted_title. cbv zeta.
  repeat match goal with |- context [if ?b then _ else _] => destruct b end;
    try reflexivity; now rewrite Hagree.
Qed.

Lemma new_news_line_agree ft j t : new_news_line f ft j t = new_news_line g ft j t.
Proof.
  unfold new_news_line, new_line, new_formatted_title. cbv zeta.
  repeat match goal with |- context [if ?b then _ else _] => destruct b end;
    try reflexivity; now rewrite Hagree.
Qed.

Lemma new_first_news_line_agree ft l :
  new_first_news_line f ft l = new_first_news_line g ft l.
Proof. destruct l; [reflexivity | apply new_first_line_agree]. Qed.

Lemma new_rest_loop_agree ft max_bytes bh bf nh sh rest : forall j st,
  new_rest_loop f ft max_bytes bh bf nh sh j rest st
  = new_rest_loop g ft max_bytes bh bf nh sh j rest st.
Proof.
  induction rest as [|t rest IH]; intros j st; [reflexivity |].
  cbn [new_rest_loop]. cbv zeta. now rewrite new_news_line_agree, IH.
Qed.

Lemma new_groups_loop_agree ft max_bytes bh bf nh l : forall st,
  new_groups_loop f ft max_bytes bh bf nh l st
  = new_groups_loop g ft max_bytes bh bf nh l st.
Proof.
  induction l as [|s l IH]; intros st; [reflexivity |].
  cbn [new_groups_loop]. rewrite IH. f_equal.
  unfold new_group_step. cbv zeta.
  now rewrite new_first_news_line_agree, new_rest_loop_agree.
Qed.

Lemma process_new_titles_section_agree ft sep max_bytes bh bf M total l st :
  process_new_titles_section f ft sep max_bytes bh bf M total l st
  = process_new_titles_section g ft sep max_bytes bh bf M total l st.
Proof.
  unfold process_new_titles_section. destruct l; [reflexivity |].
  cbv zeta. apply new_groups_loop_agree.
Qed.

Lemma render_new_items_agree platform indent l : forall acc,
  render_new_items f platform indent l acc = render_new_items g platform indent l acc.
Proof.
  induction l as [|t l IH]; intros acc; [reflexivity |].
  cbn [render_new_items]. cbv zeta. rewrite IH. f_equal.
  unfold render_new_item. cbv zeta. now rewrite Hagree.
Qed.

Lemma render_new_groups_agree platform header_end l : forall acc,
  render_new_groups f platform header_end l acc
  = render_new_groups g platform header_end l acc.
Proof.
  induction l as [|s l IH]; intros acc; [reflexivity |].
  cbn [render_new_groups]. cbv zeta. now rewrite IH, render_new_items_agree.
Qed.

End NeverShownAsNew.

(** X11.  In the new-items section the formatter is only ever given a copy
    of the item whose [is_new] flag is cleared.  So for two formatters that
    agree on every item whose flag is false, the new-items section of the
    splitter and that of the renderers give the same text; and with the
    statistics hidden ([show_stats_in_push] false), where every item shown
    goes through the new-items section, the three functions return the same
    for both formatters: no item is then shown as new. *)
Theorem new_items_never_shown_as_new :
  forall f g : string -> TitleItem -> bool -> string,
    (forall platform d show_source, is_new d = false ->
       f platform d show_source = g platform d show_source) ->
    (forall format_type feishu_separator max_bytes base_header base_footer
            max_total_news_in_push total_new_count truncated_new_titles st,
       process_new_titles_section f format_type feishu_separator max_bytes base_header
         base_footer max_total_news_in_push total_new_count truncated_new_titles st
       = process_new_titles_section g format_type feishu_separator max_bytes
           base_header base_footer max_total_news_in_push total_new_count
           truncated_new_titles st)
    /\ (forall platform header_end truncated_new_titles acc,
          render_new_groups f platform header_end truncated_new_titles acc
          = render_new_groups g platform header_end truncated_new_titles acc)
    /\ (forall report_data format_type update_info max_bytes mode batch_sizes
               feishu_separator reverse_content_order max_total_news_in_push now,
          split_content_into_batches f report_data format_type update_info max_bytes
            mode batch_sizes feishu_separator reverse_content_order
            max_total_news_in_push false now
          = split_content_into_batches g report_data format_type update_info max_bytes
              mode batch_sizes feishu_separator reverse_content_order
              max_total_news_in_push false now)
    /\ (forall report_data update_info mode separator reverse_content_order
               max_total_news_in_push now,
          render_feishu_content f report_data update_info mode separator
            reverse_content_order max_total_news_in_push false now
          = render_feishu_content g report_data update_info mode separator
              reverse_content_order max_total_news_in_push false now)
    /\ (forall report_data update_info mode reverse_content_order
               max_total_news_in_push now,
          render_dingtalk_content f report_data update_info mode reverse_content_order
            max_total_news_in_push false now
          = render_dingtalk_content g report_data update_info mode reverse_content_order
              max_total_news_in_push false now).
Proof.
  intros f g Hagree.
  split; [intros; now apply process_new_titles_section_agree |].
  split; [intros; now apply render_new_groups_agree |].
  split; [| split].
  - intros report_data format_type update_info max_bytes mode batch_sizes
      feishu_separator reverse_content_order max_total_news_in_push now.
    unfold split_content_into_batches, split_with_budget. cbv zeta.
    destruct (split_preprocess_hidden_stats report_data max_total_news_in_push)
      as [Hs _].
    rewrite Hs. cbn [process_stats_section].
    destruct (_ && _ && _); [reflexivity |].
    now rewrite !(process_new_titles_section_agree f g Hagree).
  - intros report_data update_info mode separator reverse_content_order
      max_total_news_in_push now.
    unfold render_feishu_content, render_feishu_body. cbv zeta. cbn [andb].
    now rewrite (render_new_groups_agree f g Hagree).
  - intros report_data update_info mode reverse_content_order max_total_news_in_push now.
    unfold render_dingtalk_content, render_dingtalk_body. cbv zeta. cbn [andb].
    now rewrite (render_new_groups_agree f g Hagree).
Qed.

Lemma sample_and_plain_formatter_agree platform d show_source :
  is_new d = false ->
  sample_formatter platform d show_source = plain_formatter platform d show_source.
Proof. intros H. unfold sample_formatter, plain_formatter. now rewrite H. Defined.

Lemma new_items_never_shown_as_new_witness :
  (forall platform d show_source, is_new d = false ->
     sample_formatter platform d show_source = plain_formatter platform d show_source)
  /\ split_content_into_batches sample_formatter two_sections_report "telegram" None
       (Some 150) "daily" None "---" false 0 false "2026-01-01 00:00:00"
     = split_content_into_batches plain_formatter two_sections_report "telegram" None
         (Some 150) "daily" None "---" false 0 false "2026-01-01 00:00:00"
  /\ render_dingtalk_content sample_formatter two_sections_report None "daily" false 0
       false "2026-01-01 00:00:00"
     = render_dingtalk_content plain_formatter two_sections_report None "daily" false 0
         false "2026-01-01 00:00:00".
Proof.
  split; [exact sample_and_plain_formatter_agree |].
  pose proof (new_items_never_shown_as_new sample_formatter plain_formatter
                sample_and_plain_formatter_agree) as (_ & _ & Hsplit & _ & Hding).
  split.
  - exact (Hsplit two_sections_report "telegram" None (Some 150) "daily" None "---"
             false 0 "2026-01-01 00:00:00").
  - exact (Hding two_sections_report None "daily" false 0 "2026-01-01 00:00:00").
Defined.

(** ** The total in the header *)

Lemma str_starts_with_refl (h : string) : str_starts_with h h.
Proof. exists "". now rewrite str_app_nil_r. Qed.

Lemma str_starts_with_app (h s more : string) :
  str_starts_with h s -> str_starts_with h (s +:+ more).
Proof. intros [rest ->]. exists (rest +:+ more). now rewrite str_app_assoc. Qed.

Lemma join_sections_starts text_content block reverse_content_order a b :
  str_starts_with text_content (join_sections text_content block reverse_content_order a b).
Proof.
  unfold join_sections. cbv zeta.
  destruct (str_nonempty (if reverse_content_order then b else a)),
    (str_nonempty (if reverse_content_order then a else b));
    repeat apply str_starts_with_app; apply str_starts_with_refl.
Qed.

Lemma render_failed_ids_starts open_mark close_mark l : forall h text_content,
  str_starts_with h text_content ->
  str_starts_with h (render_failed_ids open_mark close_mark l text_content).
Proof.
  induction l as [|id l IH]; intros h t Ht; [exact Ht |].
  cbn [render_failed_ids]. apply IH. now apply str_starts_with_app.
Qed.

Lemma dingtalk_assemble_starts total sc nc failed update_info mode reverse_content_order
    now :
  str_starts_with (make_base_header "dingtalk" total now)
    (dingtalk_assemble total sc nc failed update_info mode reverse_content_order now).
Proof.
  unfold dingtalk_assemble. cbv zeta.
  change (("**总新闻数：** " +:+ string_of_nat total +:+ nl +:+ nl)
          +:+ ("**时间：** " +:+ now +:+ nl +:+ nl)
          +:+ ("**类型：** 热点分析报告" +:+ nl +:+ nl)
          +:+ ("---" +:+ nl +:+ nl))
    with (make_base_header "dingtalk" total now).
  set (h := make_base_header "dingtalk" total now).
  pose proof (join_sections_starts h (nl +:+ "---" +:+ nl +:+ nl) reverse_content_order
                sc nc) as Hj.
  set (t1 := join_sections h _ reverse_content_order sc nc) in *.
  assert (H2 : str_starts_with h
                 (if negb (str_nonempty sc) && negb (str_nonempty nc)
                  then t1 +:+ no_match_text mode else t1)).
  { destruct (negb (str_nonempty sc) && negb (str_nonempty nc));
      [now apply str_starts_with_app | exact Hj]. }
  set (t2 := if negb (str_nonempty sc) && negb (str_nonempty nc)
             then t1 +:+ no_match_text mode else t1) in *.
  clearbody t2.
  assert (H3 : str_starts_with h
                 (if nonempty failed
                  then render_failed_ids "**" "**" failed
                         ((if negb (str_contains "暂无匹配" t2)
                           then t2 +:+ (nl +:+ "---" +:+ nl +:+ nl) else t2)
                          +:+ ("⚠️ **数据获取失败的平台：**" +:+ nl +:+ nl))
                  else t2)).
  { destruct (nonempty failed); [| exact H2].
    apply render_failed_ids_starts, str_starts_with_app.
    destruct (str_contains "暂无匹配" t2); cbn [negb];
      [exact H2 | now apply str_starts_with_app]. }
  destruct update_info; repeat apply str_starts_with_app; exact H3.
Qed.

Lemma render_preprocess_hidden {T} (r : ReportData T) (M : Z) :
  truncated_stats (render_preprocess r M false) = [].
Proof.
  unfold render_preprocess. destruct (flatten_stats r false) as [all_new total].
  cbn [andb]. destruct (0 <? M); [| reflexivity].
  destruct (truncate_new_titles M all_new 0 []). reflexivity.
Qed.

Lemma split_preprocess_counted {T} (r : ReportData T) (M : Z) (show : bool) :
  0 < M ->
  Forall (fun g => count g = Z.of_nat (length (titles g)))
    (stats (split_preprocess r M show)).
Proof.
  intros HM. unfold split_preprocess.
  destruct (Z.ltb_spec 0 M) as [_ | Hle]; [| lia].
  destruct (show && nonempty (stats r)).
  - pose proof (truncate_stats_count (stats r) M 0 [] ltac:(constructor)) as H.
    destruct (truncate_stats M (stats r) 0 []) as [ts cnt].
    destruct (truncate_new_titles M (new_titles r) cnt []). exact H.
  - destruct (truncate_new_titles M (new_titles r) 0 []). constructor.
Qed.

Lemma total_titles_of_counted {T} (l : list (StatGroup T)) :
  Forall (fun g => count g = Z.of_nat (length (titles g))) l ->
  total_titles_of l = length (flat_map titles l).
Proof.
  induction 1 as [|g l Hg _ IH]; [reflexivity |].
  cbn [total_titles_of fold_right flat_map]. fold (total_titles_of l).
  rewrite length_app, IH, Hg.
  destruct (Z.ltb_spec 0 (Z.of_nat (length (titles g)))); lia.
Qed.

(** every batch starts with the base header of the call *)
Lemma batches_start_with_base_header fmt report_data format_type update_info max_bytes
    mode batch_sizes feishu_separator reverse_content_order max_total_news_in_push
    show_stats_in_push now :
  let trd := split_preprocess report_data max_total_news_in_push show_stats_in_push in
  Forall (str_starts_with (make_base_header format_type (total_titles_of (stats trd)) now))
    (split_content_into_batches fmt report_data format_type update_info max_bytes mode
       batch_sizes feishu_separator reverse_content_order max_total_news_in_push
       show_stats_in_push now).
Proof.
  intros trd. rewrite <- batch_strings_split_trace. unfold batch_strings, text_in_run.
  fold trd. cbv zeta.
  pose proof (split_trace_starts_with_section fmt format_type feishu_separator
                (resolve_max_bytes format_type max_bytes batch_sizes) report_data
                update_info mode reverse_content_order max_total_news_in_push
                show_stats_in_push now) as Hshape.
  cbv zeta in Hshape. fold trd in Hshape.
  apply Forall_map. eapply Forall_impl; [exact Hshape |]. cbv beta. intros b Hb.
  destruct (pieces b) as [|p0 l]; [contradiction |].
  destruct p0; try contradiction.
  cbn [pieces_text fold_right piece_text]. rewrite str_app_assoc. eexists. reflexivity.
Qed.

(** X13.  The total announced in the base header counts the titles of the
    statistics groups only, never those of the new-items section.  With the
    statistics hidden it is therefore 0, whatever is shown: every batch of
    the splitter starts with the base header for 0 titles, and so does the
    message of the "dingtalk" renderer, also when it shows the flattened
    statistics items.  With a maximum set, the total is the number of
    statistics titles kept by the truncation. *)
Theorem header_total_counts_statistics_only :
  forall fmt report_data update_info mode reverse_content_order max_total_news_in_push
         now,
    (forall format_type max_bytes batch_sizes feishu_separator,
       Forall (str_starts_with (make_base_header format_type 0 now))
         (split_content_into_batches fmt report_data format_type update_info max_bytes
            mode batch_sizes feishu_separator reverse_content_order
            max_total_news_in_push false now))
    /\ str_starts_with (make_base_header "dingtalk" 0 now)
         (render_dingtalk_content fmt report_data update_info mode reverse_content_order
            max_total_news_in_push false now)
    /\ (forall format_type max_bytes batch_sizes feishu_separator show_stats_in_push,
          0 < max_total_news_in_push ->
          let trd :=
            split_preprocess report_data max_total_news_in_push show_stats_in_push in
          Forall
            (str_starts_with
               (make_base_header format_type (length (flat_map titles (stats trd))) now))
            (split_content_into_batches fmt report_data format_type update_info max_bytes
               mode batch_sizes feishu_separator reverse_content_order
               max_total_news_in_push show_stats_in_push now)).
Proof.
  intros fmt report_data update_info mode reverse_content_order max_total_news_in_push
    now.
  split; [| split].
  - intros format_type max_bytes batch_sizes feishu_separator.
    pose proof (batches_start_with_base_header fmt report_data format_type update_info
                  max_bytes mode batch_sizes feishu_separator reverse_content_order
                  max_total_news_in_push false now) as H.
    cbv zeta in H.
    destruct (split_preprocess_hidden_stats report_data max_total_news_in_push)
      as [Hs _].
    rewrite Hs in H. exact H.
  - unfold render_dingtalk_content, render_dingtalk_body. cbv zeta.
    rewrite render_preprocess_hidden. apply dingtalk_assemble_starts.
  - intros format_type max_bytes batch_sizes feishu_separator show_stats_in_push HM trd.
    pose proof (batches_start_with_base_header fmt report_data format_type update_info
                  max_bytes mode batch_sizes feishu_separator reverse_content_order
                  max_total_news_in_push show_stats_in_push now) as H.
    cbv zeta in H. fold trd in H.
    rewrite total_titles_of_counted in H; [exact H |].
    now apply split_preprocess_counted.
Qed.

Lemma header_total_counts_statistics_only_witness :
  0 < 1
  /\ Forall
       (str_starts_with
          (make_base_header "telegram"
             (length (flat_map titles (stats (split_preprocess two_sections_report 1 true))))
             "2026-01-01 00:00:00"))
       (split_content_into_batches sample_formatter two_sections_report "telegram" None
          (Some 150) "daily" None "---" false 1 true "2026-01-01 00:00:00").
Proof.
  split; [lia |].
  exact (proj2 (proj2 (header_total_counts_statistics_only sample_formatter
                         two_sections_report None "daily" false 1 "2026-01-01 00:00:00"))
           "telegram" (Some 150) None "---" true ltac:(lia)).
Defined.

(** ** Failed sources and nothing else *)

Lemma render_failed_ids_lines open_mark close_mark l : forall c,
  render_failed_ids open_mark close_mark l c
  = c +:+ concat_lines
            (map (fun id_value => "  • " +:+ open_mark +:+ id_value +:+ close_mark +:+ nl) l).
Proof.
  induction l as [|id l IH]; intros c.
  - cbn. now rewrite str_app_nil_r.
  - cbn [render_failed_ids map concat_lines]. rewrite IH. now rewrite !str_app_assoc.
Qed.

Lemma render_preprocess_nothing {T} (r : ReportData T) M show :
  stats r = [] -> new_titles r = [] ->
  truncated_stats (render_preprocess r M show) = []
  /\ truncated_new_titles (render_preprocess r M show) = [].
Proof.
  intros Hs Hn. unfold render_preprocess, flatten_stats. rewrite Hs, Hn.
  cbn [nonempty andb]. rewrite !andb_false_r.
  destruct (0 <? M); [cbn; split; reflexivity |].
  destruct show; split; reflexivity.
Qed.

Lemma split_preprocess_nothing {T} (r : ReportData T) M show :
  stats r = [] -> new_titles r = [] ->
  stats (split_preprocess r M show) = [] /\ new_titles (split_preprocess r M show) = [].
Proof.
  intros Hs Hn. unfold split_preprocess. rewrite Hs, Hn.
  cbn [nonempty]. rewrite !andb_false_r.
  destruct (0 <? M); [cbn; split; reflexivity |].
  destruct show; cbn [negb]; [now split | split; reflexivity].
Qed.

Lemma no_match_text_marked mode :
  str_nonempty (no_match_text mode) = true
  /\ str_contains "暂无匹配" (no_match_text mode) = negb (String.eqb mode "incremental").
Proof.
  unfold no_match_text. cbv zeta.
  destruct (String.eqb mode "incremental"); [split; vm_compute; reflexivity |].
  destruct (String.eqb mode "current"); split; vm_compute; reflexivity.
Qed.

Lemma feishu_assemble_only_failed failed update_info mode separator rev now :
  failed <> [] ->
  feishu_assemble "" "" failed update_info mode separator rev now
  = no_match_text mode
    +:+ (if String.eqb mode "incremental" then nl +:+ separator +:+ nl +:+ nl else "")
    +:+ ("⚠️ **数据获取失败的平台：**" +:+ nl +:+ nl)
    +:+ concat_lines
          (map (fun id_value => "  • <font color='red'>" +:+ id_value +:+ "</font>" +:+ nl)
             failed)
    +:+ make_base_footer "feishu" now update_info.
Proof.
  intros Hf. unfold feishu_assemble. cbv zeta.
  replace (join_sections "" (nl +:+ separator +:+ nl +:+ nl) rev "" "") with ""
    by (now destruct rev).
  cbn [str_nonempty negb].
  destruct (no_match_text_marked mode) as [-> ->].
  destruct failed as [|id0 l]; [contradiction |]. cbn [nonempty andb].
  rewrite negb_involutive, render_failed_ids_lines, feishu_base_footer.
  destruct (String.eqb mode "incremental"), update_info;
    rewrite ?str_app_assoc, ?str_app_nil_r; reflexivity.
Qed.

Lemma only_failed_batches_start fmt report_data format_type update_info max_bytes
    mode batch_sizes feishu_separator reverse_content_order max_total_news_in_push
    show_stats_in_push now :
  only_failed_sources report_data ->
  Forall (str_starts_with (make_base_header format_type 0 now
                           +:+ make_failed_header format_type feishu_separator))
    (split_content_into_batches fmt report_data format_type update_info max_bytes mode
       batch_sizes feishu_separator reverse_content_order max_total_news_in_push
       show_stats_in_push now).
Proof.
  intros (Hs & Hn & Hf).
  destruct (split_preprocess_nothing report_data max_total_news_in_push
              show_stats_in_push Hs Hn) as [Hs' Hn'].
  rewrite <- batch_strings_split_trace. unfold batch_strings, text_in_run. cbv zeta.
  pose proof (split_trace_starts_with_section fmt format_type feishu_separator
                (resolve_max_bytes format_type max_bytes batch_sizes) report_data
                update_info mode reverse_content_order max_total_news_in_push
                show_stats_in_push now) as Hshape.
  pose proof (split_trace_from_report fmt format_type feishu_separator
                (resolve_max_bytes format_type max_bytes batch_sizes) report_data
                update_info mode reverse_content_order max_total_news_in_push
                show_stats_in_push now) as Hfrom.
  cbv zeta in Hshape, Hfrom. rewrite Hs' in *. 
  apply Forall_map. 
  apply List.Forall_forall. intros b Hb.
  pose proof (proj1 (List.Forall_forall _ _) Hshape b Hb) as H1.
  pose proof (proj1 (List.Forall_forall _ _) Hfrom b Hb) as H2.
  cbv beta in H1, H2.
  destruct (pieces b) as [|p0 [|p1 l]]; try contradiction.
  - destruct p0; contradiction.
  - destruct p0; try contradiction. cbn in H1.
    apply List.Forall_cons_iff in H2 as [_ H2].
    apply List.Forall_cons_iff in H2 as [H2 _].
    destruct p1; try discriminate; cbn [from_report] in H2.
    + now rewrite Hn' in H2.
    + cbn [pieces_text fold_right piece_text total_titles_of].
      rewrite !str_app_assoc. eexists. rewrite !str_app_assoc. reflexivity.
    + destruct H2 as [H2 _]. unfold nothing_to_report in H2.
      destruct (failed_ids report_data); [contradiction |].
      cbn [nonempty negb] in H2. now rewrite andb_false_r in H2.
Qed.

(** the splitter returns at least one batch *)
Lemma split_content_into_batches_not_empty fmt report_data format_type update_info
    max_bytes mode batch_sizes feishu_separator reverse_content_order
    max_total_news_in_push show_stats_in_push now :
  split_content_into_batches fmt report_data format_type update_info max_bytes mode
    batch_sizes feishu_separator reverse_content_order max_total_news_in_push
    show_stats_in_push now <> [].
Proof.
  rewrite <- batch_strings_split_trace. unfold batch_strings.
  rewrite split_trace_as_ops. cbv zeta.
  destruct (nothing_to_report _ (failed_ids report_data)) eqn:Hne; [discriminate |].
  unfold t_flush. rewrite run_ops_has_content, schedule_has_trial by exact Hne.
  cbn [t_has_content orb]. rewrite map_app. cbn [map].
  intros H. now apply app_eq_nil in H as [_ H].
Qed.



(** ** The order of the sections *)

Lemma split_preprocess_one_section {T} (r : ReportData T) M show :
  one_section_at_most r show ->
  stats (split_preprocess r M show) = [] \/ new_titles (split_preprocess r M show) = [].
Proof.
  intros [-> | [Hs | Hn]].
  - left. apply split_preprocess_hidden_stats.
  - left. unfold split_preprocess. rewrite Hs. cbn [nonempty]. rewrite andb_false_r.
    destruct (0 <? M).
    + destruct (truncate_new_titles M (new_titles r) 0 []). reflexivity.
    + destruct show; cbn [negb]; [exact Hs | reflexivity].
  - destruct show; [| left; apply split_preprocess_hidden_stats].
    right. unfold split_preprocess. rewrite Hn. cbn [andb negb].
    destruct (0 <? M); [| exact Hn].
    destruct (if nonempty (stats r) then truncate_stats M (stats r) 0 [] else ([], 0))
      as [ts cnt].
    reflexivity.
Qed.

Lemma render_preprocess_one_section {T} (r : ReportData T) M show :
  one_section_at_most r show ->
  truncated_stats (render_preprocess r M show) = []
  \/ truncated_new_titles (render_preprocess r M show) = [].
Proof.
  intros [-> | [Hs | Hn]].
  - left. apply render_preprocess_hidden.
  - left. unfold render_preprocess, flatten_stats. rewrite Hs. cbn [nonempty].
    rewrite !andb_false_r.
    destruct (0 <? M).
    + destruct (truncate_new_titles M (new_titles r) 0 []). reflexivity.
    + now destruct show.
  - destruct show; [| left; apply render_preprocess_hidden].
    right. unfold render_preprocess, flatten_stats. rewrite Hn. cbn [andb negb].
    destruct (0 <? M); [| reflexivity].
    destruct (if nonempty (stats r) then truncate_stats M (stats r) 0 [] else ([], 0))
      as [ts cnt].
    reflexivity.
Qed.

Lemma schedule_one_section trd failed :
  stats trd = [] \/ new_titles trd = [] ->
  schedule trd failed true = schedule trd failed false.
Proof.
  unfold schedule. intros [-> | ->]; cbn [stats_ops new_ops]; now rewrite ?app_nil_r.
Qed.

Lemma join_sections_one_section text_content block a b :
  a = "" \/ b = "" ->
  join_sections text_content block true a b = join_sections text_content block false a b.
Proof.
  unfold join_sections. intros [-> | ->]; cbn [str_nonempty]; now destruct (str_nonempty _).
Qed.

Lemma split_trace_order_one_section fmt format_type feishu_separator max_bytes report_data
    update_info mode max_total_news_in_push show_stats_in_push now :
  one_section_at_most report_data show_stats_in_push ->
  split_trace fmt format_type feishu_separator max_bytes report_data update_info mode
    true max_total_news_in_push show_stats_in_push now
  = split_trace fmt format_type feishu_separator max_bytes report_data update_info mode
      false max_total_news_in_push show_stats_in_push now.
Proof.
  intros H. rewrite !split_trace_as_ops. cbv zeta.
  now rewrite (schedule_one_section _ _
                 (split_preprocess_one_section report_data max_total_news_in_push
                    show_stats_in_push H)).
Qed.

(** X15.  The order flag needs two sections to act on.  When the statistics
    are hidden, or the report has no statistics group, or it has no new
    titles, [reverse_content_order] changes nothing: the splitter returns
    the same batches for every platform and budget, and each of the two
    renderers returns the same message. *)
Theorem order_flag_needs_two_sections :
  forall fmt (report_data : ReportData TitleItem) update_info mode feishu_separator
         max_total_news_in_push show_stats_in_push now,
    one_section_at_most report_data show_stats_in_push ->
    (forall format_type max_bytes batch_sizes,
       split_content_into_batches fmt report_data format_type update_info max_bytes mode
         batch_sizes feishu_separator true max_total_news_in_push show_stats_in_push now
       = split_content_into_batches fmt report_data format_type update_info max_bytes mode
           batch_sizes feishu_separator false max_total_news_in_push show_stats_in_push
           now)
    /\ render_feishu_content fmt report_data update_info mode feishu_separator true
         max_total_news_in_push show_stats_in_push now
       = render_feishu_content fmt report_data update_info mode feishu_separator false
           max_total_news_in_push show_stats_in_push now
    /\ render_dingtalk_content fmt report_data update_info mode true
         max_total_news_in_push show_stats_in_push now
       = render_dingtalk_content fmt report_data update_info mode false
           max_total_news_in_push show_stats_in_push now.
Proof.
  intros fmt report_data update_info mode feishu_separator max_total_news_in_push
    show_stats_in_push now H.
  pose proof (render_preprocess_one_section report_data max_total_news_in_push
                show_stats_in_push H) as Hr.
  split; [| split].
  - intros format_type max_bytes batch_sizes.
    rewrite <- !batch_strings_split_trace.
    now rewrite split_trace_order_one_section.
  - unfold render_feishu_content, render_feishu_body, feishu_assemble. cbv zeta.
    rewrite join_sections_one_section; [reflexivity |].
    destruct Hr as [-> | ->]; cbn [nonempty]; rewrite ?andb_false_r; auto.
  - unfold render_dingtalk_content, render_dingtalk_body, dingtalk_assemble. cbv zeta.
    rewrite join_sections_one_section; [reflexivity |].
    destruct Hr as [-> | ->]; cbn [nonempty]; rewrite ?andb_false_r; auto.
Qed.

Lemma order_flag_needs_two_sections_witness :
  one_section_at_most statistics_report true
  /\ split_content_into_batches sample_formatter statistics_report "telegram" None
       (Some 150) "daily" None "---" true 0 true "2026-01-01 00:00:00"
     = split_content_into_batches sample_formatter statistics_report "telegram" None
         (Some 150) "daily" None "---" false 0 true "2026-01-01 00:00:00".
Proof.
  assert (H : one_section_at_most statistics_report true)
    by (right; right; reflexivity).
  split; [exact H |].
  exact (proj1 (order_flag_needs_two_sections sample_formatter statistics_report None
                  "daily" "---" 0 true "2026-01-01 00:00:00" H)
           "telegram" (Some 150) None).
Defined.

(** ** Pre-processing twice *)

Lemma py_slice_to_all {A} (r : Z) (l : list A) :
  Z.of_nat (length l) <= r -> py_slice_to r l = l.
Proof.
  intros Hr. unfold py_slice_to. destruct (Z.ltb_spec r 0); [lia |].
  apply firstn_all2. lia.
Qed.

Lemma py_slice_to_length {A} (r : Z) (l : list A) :
  0 < r -> Z.of_nat (length (py_slice_to r l)) <= r.
Proof.
  intros Hr. rewrite py_slice_to_pos by exact Hr. rewrite List.length_firstn. lia.
Qed.

Section TruncateTwice.

Context {T : Type}.

Lemma truncate_stats_fixed (M : Z) (l : list (StatGroup T)) : forall total acc,
  Forall stat_as_truncated l ->
  total + Z.of_nat (length (flat_map titles l)) <= M ->
  truncate_stats M l total acc
  = ((acc ++ l)%list, total + Z.of_nat (length (flat_map titles l))).
Proof.
  induction l as [|g l IH]; intros total acc Hl Hle.
  - cbn. now rewrite app_nil_r, Z.add_0_r.
  - apply Forall_cons_iff in Hl as [[Hne Hcount] Hl].
    cbn [flat_map] in Hle |- *. rewrite length_app in Hle |- *.
    cbn [truncate_stats].
    assert (0 < length (titles g))%nat by (destruct (titles g); [easy | cbn; lia]).
    destruct (Z.leb_spec M total) as [? | _]; [lia |]. cbv zeta.
    rewrite py_slice_to_all by lia.
    destruct (titles g) as [|t tl] eqn:E; [easy |].
    cbv beta iota. rewrite <- E in Hcount, Hle |- *. rewrite <- Hcount.
    replace (mkStat (word g) (count g) (titles g)) with g by now destruct g.
    rewrite IH by (try exact Hl; lia).
    rewrite <- app_assoc. cbn [app]. f_equal. lia.
Qed.

Lemma truncate_new_titles_fixed (M : Z) (l : list (SourceGroup T)) : forall total acc,
  Forall source_as_truncated l ->
  total + Z.of_nat (length (flat_map s_titles l)) <= M ->
  truncate_new_titles M l total acc
  = ((acc ++ l)%list, total + Z.of_nat (length (flat_map s_titles l))).
Proof.
  induction l as [|g l IH]; intros total acc Hl Hle.
  - cbn. now rewrite app_nil_r, Z.add_0_r.
  - apply Forall_cons_iff in Hl as [Hne Hl]. unfold source_as_truncated in Hne.
    cbn [flat_map] in Hle |- *. rewrite length_app in Hle |- *.
    cbn [truncate_new_titles].
    assert (0 < length (s_titles g))%nat by (destruct (s_titles g); [easy | cbn; lia]).
    destruct (Z.leb_spec M total) as [? | _]; [lia |]. cbv zeta.
    rewrite py_slice_to_all by lia.
    destruct (s_titles g) as [|t tl] eqn:E; [easy |].
    cbv beta iota. rewrite <- E in Hle |- *.
    replace (mkSource (source_name g) (s_titles g)) with g by now destruct g.
    rewrite IH by (try exact Hl; lia).
    rewrite <- app_assoc. cbn [app]. f_equal. lia.
Qed.

Lemma truncate_stats_shape (M : Z) (l : list (StatGroup T)) : forall total acc,
  exists kept,
    truncate_stats M l total acc
    = ((acc ++ kept)%list, total + Z.of_nat (length (flat_map titles kept)))
    /\ Forall stat_as_truncated kept
    /\ (total <= M -> total + Z.of_nat (length (flat_map titles kept)) <= M).
Proof.
  induction l as [|g l IH]; intros total acc.
  - exists []. cbn. rewrite app_nil_r, Z.add_0_r. repeat split; [constructor | lia].
  - cbn [truncate_stats].
    destruct (Z.leb_spec M total) as [Hle | Hlt].
    + exists []. cbn. rewrite app_nil_r, Z.add_0_r. repeat split; [constructor | lia].
    + cbv zeta.
      pose proof (py_slice_to_length (M - total) (titles g) ltac:(lia)) as Hlen.
      destruct (py_slice_to (M - total) (titles g)) as [|t tl]; [apply IH |].
      set (kept_titles := t :: tl) in *.
      destruct (IH (total + Z.of_nat (length kept_titles))
                  (acc ++ [mkStat (word g) (Z.of_nat (length kept_titles)) kept_titles])%list)
        as (kept & -> & Hkept & Hbound).
      exists (mkStat (word g) (Z.of_nat (length kept_titles)) kept_titles :: kept).
      cbn [flat_map titles]. rewrite length_app, <- app_assoc. cbn [app].
      repeat split.
      * f_equal. lia.
      * constructor; [| exact Hkept]. split; [discriminate | reflexivity].
      * intros _. specialize (Hbound ltac:(lia)). lia.
Qed.

Lemma truncate_new_titles_shape (M : Z) (l : list (SourceGroup T)) : forall total acc,
  exists kept,
    truncate_new_titles M l total acc
    = ((acc ++ kept)%list, total + Z.of_nat (length (flat_map s_titles kept)))
    /\ Forall source_as_truncated kept
    /\ (total <= M -> total + Z.of_nat (length (flat_map s_titles kept)) <= M).
Proof.
  induction l as [|g l IH]; intros total acc.
  - exists []. cbn. rewrite app_nil_r, Z.add_0_r. repeat split; [constructor | lia].
  - cbn [truncate_new_titles].
    destruct (Z.leb_spec M total) as [Hle | Hlt].
    + exists []. cbn. rewrite app_nil_r, Z.add_0_r. repeat split; [constructor | lia].
    + cbv zeta.
      pose proof (py_slice_to_length (M - total) (s_titles g) ltac:(lia)) as Hlen.
      destruct (py_slice_to (M - total) (s_titles g)) as [|t tl]; [apply IH |].
      set (kept_titles := t :: tl) in *.
      destruct (IH (total + Z.of_nat (length kept_titles))
                  (acc ++ [mkSource (source_name g) kept_titles])%list)
        as (kept & -> & Hkept & Hbound).
      exists (mkSource (source_name g) kept_titles :: kept).
      cbn [flat_map s_titles]. rewrite length_app, <- app_assoc. cbn [app].
      repeat split.
      * f_equal. lia.
      * constructor; [| exact Hkept]. discriminate.
      * intros _. specialize (Hbound ltac:(lia)). lia.
Qed.

(** pre-processing a pre-processed report changes nothing *)
Lemma split_preprocess_twice (r : ReportData T) (M : Z) (show : bool) :
  split_preprocess (split_preprocess r M show) M show = split_preprocess r M show.
Proof.
  unfold split_preprocess at 2 3.
  destruct (Z.ltb_spec 0 M) as [HM | HM].
  - assert (Hfirst : exists ts,
               (if show && nonempty (stats r)
                then truncate_stats M (stats r) 0 [] else ([], 0))
               = (ts, Z.of_nat (length (flat_map titles ts)))
               /\ Forall stat_as_truncated ts
               /\ Z.of_nat (length (flat_map titles ts)) <= M
               /\ (show = false -> ts = [])).
    { destruct (show && nonempty (stats r)) eqn:Hshow.
      - destruct (truncate_stats_shape M (stats r) 0 []) as (kept & -> & Hk & Hb).
        exists kept. cbn [app]. repeat split; [exact Hk | lia |].
        intros ->. discriminate Hshow.
      - exists []. cbn. repeat split; [constructor | lia]. }
    destruct Hfirst as (ts & -> & Hts & Hcnt & Hhidden).
    destruct (truncate_new_titles_shape M (new_titles r)
                (Z.of_nat (length (flat_map titles ts))) [])
      as (tn & -> & Htn & Hb).
    cbn [app]. specialize (Hb Hcnt).
    unfold split_preprocess. destruct (Z.ltb_spec 0 M) as [_ | ?]; [| lia].
    cbn [stats new_titles failed_ids total_new_count].
    assert (Hsecond : (if show && nonempty ts
                       then truncate_stats M ts 0 [] else ([], 0))
                      = (ts, Z.of_nat (length (flat_map titles ts)))).
    { destruct show; cbn [andb].
      - destruct ts as [|g ts']; [reflexivity |]. cbn [nonempty].
        rewrite truncate_stats_fixed by (try exact Hts; lia). reflexivity.
      - now rewrite Hhidden. }
    rewrite Hsecond.
    rewrite truncate_new_titles_fixed by (try exact Htn; lia).
    reflexivity.
  - destruct show; cbn [negb].
    + unfold split_preprocess. destruct (Z.ltb_spec 0 M); [lia | reflexivity].
    + unfold split_preprocess. destruct (Z.ltb_spec 0 M); [lia | reflexivity].
Qed.

End TruncateTwice.

Lemma split_preprocess_keeps {T} (r : ReportData T) (M : Z) (show : bool) :
  failed_ids (split_preprocess r M show) = failed_ids r
  /\ total_new_count (split_preprocess r M show) = total_new_count r.
Proof.
  unfold split_preprocess. destruct (0 <? M).
  - destruct (if show && nonempty (stats r) then truncate_stats M (stats r) 0 [] else ([], 0))
      as [ts cnt].
    destruct (truncate_new_titles M (new_titles r) cnt []). split; reflexivity.
  - destruct (negb show); split; reflexivity.
Qed.

(** X16.  The pre-processing of the splitter is idempotent: applied to a
    report it has pre-processed, with the same maximum and the same display
    flag, it changes nothing.  So a caller may pre-process first: the
    splitter returns for the pre-processed report the batches it returns
    for the report itself and, when the statistics are shown, so do the two
    renderers. *)
Theorem preprocessing_twice_changes_nothing :
  forall fmt (report_data : ReportData TitleItem) format_type update_info max_bytes mode
         batch_sizes feishu_separator reverse_content_order max_total_news_in_push
         show_stats_in_push now,
    let once := split_preprocess report_data max_total_news_in_push show_stats_in_push in
    split_preprocess once max_total_news_in_push show_stats_in_push = once
    /\ split_content_into_batches fmt once format_type update_info max_bytes mode
         batch_sizes feishu_separator reverse_content_order max_total_news_in_push
         show_stats_in_push now
       = split_content_into_batches fmt report_data format_type update_info max_bytes
           mode batch_sizes feishu_separator reverse_content_order
           max_total_news_in_push show_stats_in_push now
    /\ (show_stats_in_push = true ->
        render_feishu_content fmt once update_info mode feishu_separator
          reverse_content_order max_total_news_in_push show_stats_in_push now
        = render_feishu_content fmt report_data update_info mode feishu_separator
            reverse_content_order max_total_news_in_push show_stats_in_push now
        /\ render_dingtalk_content fmt once update_info mode reverse_content_order
             max_total_news_in_push show_stats_in_push now
           = render_dingtalk_content fmt report_data update_info mode
               reverse_content_order max_total_news_in_push show_stats_in_push now).
Proof.
  intros fmt report_data format_type update_info max_bytes mode batch_sizes
    feishu_separator reverse_content_order max_total_news_in_push show_stats_in_push now
    once.
  pose proof (split_preprocess_twice report_data max_total_news_in_push
                show_stats_in_push) as Htwice.
  destruct (split_preprocess_keeps report_data max_total_news_in_push show_stats_in_push)
    as [Hf Ht].
  fold once in Htwice, Hf, Ht.
  split; [exact Htwice | split].
  - unfold split_content_into_batches, split_with_budget. cbv zeta.
    fold once. rewrite Htwice, Hf, Ht. reflexivity.
  - intros Hshow. subst once. rewrite Hshow in *.
    unfold render_feishu_content, render_dingtalk_content, render_feishu_body,
      render_dingtalk_body.
    cbv zeta.
    destruct (preprocess_shown (split_preprocess report_data max_total_news_in_push true)
                max_total_news_in_push) as [-> ->].
    destruct (preprocess_shown report_data max_total_news_in_push) as [-> ->].
    rewrite Htwice, Hf. split; reflexivity.
Qed.

Lemma preprocessing_twice_changes_nothing_witness :
  true = true
  /\ render_feishu_content sample_formatter (split_preprocess two_sections_report 1 true)
       None "daily" "---" false 1 true "2026-01-01 00:00:00"
     = render_feishu_content sample_formatter two_sections_report
         None "daily" "---" false 1 true "2026-01-01 00:00:00".
Proof.
  split; [reflexivity |].
  exact (proj1 (proj2 (proj2 (preprocessing_twice_changes_nothing sample_formatter
                                two_sections_report "feishu" None None "daily" None "---"
                                false 1 true "2026-01-01 00:00:00"))
                  eq_refl)).
Defined.

(** ** The separator argument *)

(** X17.  [feishu_separator] is used for "feishu" only: for every other
    format type the splitter returns the same batches whatever separator it
    is given ("dingtalk" always draws its own rule, the others draw none). *)
Theorem separator_for_feishu_only :
  forall fmt report_data format_type update_info max_bytes mode batch_sizes
         feishu_separator1 feishu_separator2 reverse_content_order
         max_total_news_in_push show_stats_in_push now,
    format_type <> "feishu" ->
    split_content_into_batches fmt report_data format_type update_info max_bytes mode
      batch_sizes feishu_separator1 reverse_content_order max_total_news_in_push
      show_stats_in_push now
    = split_content_into_batches fmt report_data format_type update_info max_bytes mode
        batch_sizes feishu_separator2 reverse_content_order max_total_news_in_push
        show_stats_in_push now.
Proof.
  intros fmt report_data format_type update_info max_bytes mode batch_sizes
    feishu_separator1 feishu_separator2 reverse_content_order max_total_news_in_push
    show_stats_in_push now Hne.
  assert (Heqb : String.eqb format_type "feishu" = false)
    by now apply String.eqb_neq.
  assert (Hnew : forall n a t,
             make_new_header format_type feishu_separator1 n a t
             = make_new_header format_type feishu_separator2 n a t).
  { intros n a t. unfold make_new_header. now rewrite Heqb. }
  unfold split_content_into_batches. apply split_with_budget_same; [reflexivity |].
  intros p _. rewrite Hnew.
  destruct p; cbn [piece_text]; try reflexivity.
  - unfold stats_separator. now rewrite Heqb.
  - unfold make_failed_header. now rewrite Heqb.
Qed.

Lemma separator_for_feishu_only_witness :
  "dingtalk" <> "feishu"
  /\ split_content_into_batches sample_formatter two_sections_report "dingtalk" None
       (Some 200) "daily" None "---" false 0 true "2026-01-01 00:00:00"
     = split_content_into_batches sample_formatter two_sections_report "dingtalk" None
         (Some 200) "daily" None "***" false 0 true "2026-01-01 00:00:00".
Proof.
  assert (H : "dingtalk" <> "feishu") by discriminate.
  split; [exact H |].
  exact (separator_for_feishu_only sample_formatter two_sections_report "dingtalk" None
           (Some 200) "daily" None "---" "***" false 0 true "2026-01-01 00:00:00" H).
Defined.

(** ** The lines written out *)

Section LinesAsRead.

Variable fmt : string -> TitleItem -> bool -> string.
Variable ft : string.

Ltac platform_cases :=
  unfold known_platform, formatter_name, str_in; cbn [existsb];
  repeat match goal with
         | |- context [String.eqb ft ?s] =>
             destruct (String.eqb_spec ft s) as [-> | ?]; cbn [orb andb negb];
             try reflexivity
         end.

Lemma stats_formatted_title_shown t :
  stats_formatted_title fmt ft t = shown_stats_title fmt ft t.
Proof. unfold stats_formatted_title, shown_stats_title. platform_cases. Qed.

Lemma new_first_formatted_title_shown t :
  new_first_formatted_title fmt ft (set_is_new t false) = shown_new_title fmt ft 0 t.
Proof. unfold new_first_formatted_title, shown_new_title. platform_cases. Qed.

Lemma new_formatted_title_shown j t :
  new_formatted_title fmt ft (set_is_new t false) = shown_new_title fmt ft (S j) t.
Proof. unfold new_formatted_title, shown_new_title. platform_cases. Qed.

Lemma make_failed_line_shown id_value :
  make_failed_line ft id_value = "  • " +:+ shown_failed_id ft id_value +:+ nl.
Proof.
  unfold make_failed_line, shown_failed_id.
  destruct (String.eqb ft "feishu"); [now rewrite !str_app_assoc |].
  destruct (String.eqb ft "dingtalk"); [now rewrite !str_app_assoc | reflexivity].
Qed.

End LinesAsRead.

Lemma gap_test (j n : nat) :
  (Z.of_nat j <? Z.of_nat n - 1) = (j + 1 <? n)%nat.
Proof.
  destruct (Z.ltb_spec (Z.of_nat j) (Z.of_nat n - 1)), (Nat.ltb_spec (j + 1) n);
    try reflexivity; lia.
Qed.

(** a line of the report has in the run the text written out in [line_of] *)
Lemma chunk_in_run_text fmt format_type feishu_separator report_data
    max_total_news_in_push show_stats_in_push now mode p :
  from_report (split_preprocess report_data max_total_news_in_push show_stats_in_push)
    (failed_ids report_data) mode p ->
  chunk_in_run fmt format_type feishu_separator report_data max_total_news_in_push
    show_stats_in_push now p
  = text_in_run fmt format_type feishu_separator report_data max_total_news_in_push
      show_stats_in_push now [p].
Proof.
  intros Hp. unfold chunk_in_run, text_in_run. cbv zeta.
  destruct p; cbn [line_of]; try reflexivity;
    cbn [pieces_text fold_right piece_text from_report] in Hp |- *;
    rewrite str_app_nil_r.
  - destruct Hp as [_ Ht]. destruct j as [|j].
    + destruct (titles stat) as [|t0 l] eqn:E; [discriminate |].
      injection Ht as ->. unfold stats_first_news_line, stats_first_line. cbv zeta.
      rewrite stats_formatted_title_shown, <- E.
      change (0 + 1)%nat with 1%nat.
      replace (1 <? length (titles stat))%nat with (0 + 1 <? length (titles stat))%nat
        by reflexivity.
      rewrite ?str_app_assoc; reflexivity.
    + unfold stats_news_line. cbv zeta.
      rewrite stats_formatted_title_shown, gap_test.
      rewrite ?str_app_assoc; reflexivity.
  - destruct Hp as [_ Ht]. destruct j as [|j].
    + destruct (s_titles source_data) as [|t0 l] eqn:E; [discriminate |].
      injection Ht as ->. unfold new_first_news_line, new_first_line. cbv zeta.
      rewrite new_first_formatted_title_shown. rewrite ?str_app_assoc; reflexivity.
    + unfold new_news_line, new_line. cbv zeta.
      rewrite (new_formatted_title_shown fmt format_type j).
      rewrite ?str_app_assoc; reflexivity.
  - apply eq_sym, make_failed_line_shown.
Qed.

Lemma batches_as_read_text fmt format_type feishu_separator report_data update_info
    max_total_news_in_push show_stats_in_push now mode (tr : list tbatch) :
  Forall (fun b =>
            Forall (from_report
                      (split_preprocess report_data max_total_news_in_push
                         show_stats_in_push)
                      (failed_ids report_data) mode) (pieces b)) tr ->
  batches_as_read fmt format_type feishu_separator report_data update_info
    max_total_news_in_push show_stats_in_push now tr
  = batch_strings fmt format_type feishu_separator report_data update_info
      max_total_news_in_push show_stats_in_push now tr.
Proof.
  intros Htr. unfold batches_as_read, batch_strings.
  apply map_ext_in. intros b Hb. f_equal.
  pose proof (proj1 (List.Forall_forall _ _) Htr b Hb) as Hpieces. cbv beta in Hpieces.
  induction (pieces b) as [|p l IH]; [reflexivity |].
  apply Forall_cons_iff in Hpieces as [Hp Hl].
  cbn [fold_right]. rewrite (chunk_in_run_text _ _ _ _ _ _ _ mode p Hp), (IH Hl).
  unfold text_in_run. cbv zeta. cbn [pieces_text fold_right].
  now rewrite str_app_nil_r.
Qed.

(** The batches returned are the batches of the chunk-level run with every
    line written out. *)
Lemma split_trace_as_read fmt report_data format_type update_info max_bytes mode
    batch_sizes feishu_separator reverse_content_order max_total_news_in_push
    show_stats_in_push now :
  batches_as_read fmt format_type feishu_separator report_data update_info
    max_total_news_in_push show_stats_in_push now
    (split_trace fmt format_type feishu_separator
       (resolve_max_bytes format_type max_bytes batch_sizes) report_data update_info mode
       reverse_content_order max_total_news_in_push show_stats_in_push now)
  = split_content_into_batches fmt report_data format_type update_info max_bytes mode
      batch_sizes feishu_separator reverse_content_order max_total_news_in_push
      show_stats_in_push now.
Proof.
  rewrite (batches_as_read_text _ _ _ _ _ _ _ _ mode).
  - apply batch_strings_split_trace.
  - apply split_trace_from_report.
Qed.

(** C1.  The batches returned are the batches of the chunk-level run with
    every line written out: an item line is two spaces, the number of the
    item in its group, the title as the formatter of the platform gives it
    (the bare title where the splitter does not call the formatter) and a
    line feed.  The item lines of those batches, read in output order with
    headers, separators and line feeds stripped, are exactly the item lines
    of the pre-processed report: one per (group, title) pair, groups in
    input order and titles in input order within each group, the statistics
    section first unless [reverse_content_order] puts the new-items section
    first.  So every title of the pre-processed report is written once, in
    its place. *)
Theorem split_complete_in_order :
  forall fmt report_data format_type update_info max_bytes mode batch_sizes
         feishu_separator reverse_content_order max_total_news_in_push
         show_stats_in_push now,
    let trd := split_preprocess report_data max_total_news_in_push show_stats_in_push in
    let budget := resolve_max_bytes format_type max_bytes batch_sizes in
    let tr :=
      split_trace fmt format_type feishu_separator budget report_data update_info mode
        reverse_content_order max_total_news_in_push show_stats_in_push now in
    batches_as_read fmt format_type feishu_separator report_data update_info
      max_total_news_in_push show_stats_in_push now tr
    = split_content_into_batches fmt report_data format_type update_info max_bytes mode
        batch_sizes feishu_separator reverse_content_order max_total_news_in_push
        show_stats_in_push now
    /\ trace_items tr
       = if reverse_content_order
         then (new_items_from 0 (new_titles trd) ++ stats_items_from 0 (stats trd))%list
         else (stats_items_from 0 (stats trd) ++ new_items_from 0 (new_titles trd))%list.
Proof.
  intros fmt report_data format_type update_info max_bytes mode batch_sizes
    feishu_separator reverse_content_order max_total_news_in_push show_stats_in_push
    now trd budget tr.
  split; [apply split_trace_as_read |].
  subst tr. unfold split_trace. fold trd. cbv zeta.
  destruct (negb (nonempty (stats trd)) && negb (nonempty (new_titles trd))
            && negb (nonempty (failed_ids report_data))) eqn:Hempty.
  - apply andb_prop in Hempty as [Hempty _]. apply andb_prop in Hempty as [Hs Hn].
    destruct (stats trd), (new_titles trd); try discriminate.
    destruct reverse_content_order; reflexivity.
  - set (ts0 := mkTState (mkTBatch [PBaseHeader] []) false []).
    assert (H0 : no_items_yet ts0) by (intros _; reflexivity).
    destruct reverse_content_order.
    + edestruct process_new_titles_items as [E1 I1]; [exact H0 |].
      edestruct process_stats_items as [E2 I2]; [exact I1 |].
      edestruct process_failed_items as [E3 I3]; [exact I2 |].
      rewrite flush_items by exact I3. rewrite E3, E2, E1. reflexivity.
    + edestruct process_stats_items as [E1 I1]; [exact H0 |].
      edestruct process_new_titles_items as [E2 I2]; [exact I1 |].
      edestruct process_failed_items as [E3 I3]; [exact I2 |].
      rewrite flush_items by exact I3. rewrite E3, E2, E1. reflexivity.
Qed.

(** X4.  The batches returned are the batches of the chunk-level run with
    every line written out -- an item line as two spaces, the number of the
    item in its group and the title shown, the line of a failed source as
    two spaces, a bullet and the id with the mark-up of the platform -- and
    their lines, read in output order with every header, separator and line
    feed stripped, are the item lines of the pre-processed report in the
    order of the sections followed by one line for each failed source id,
    in input order: the failed sources come after every item, and no line
    is lost or repeated when a batch is restarted. *)
Theorem lines_once_failed_sources_last :
  forall fmt report_data format_type update_info max_bytes mode batch_sizes
         feishu_separator reverse_content_order max_total_news_in_push
         show_stats_in_push now,
    let trd := split_preprocess report_data max_total_news_in_push show_stats_in_push in
    let tr :=
      split_trace fmt format_type feishu_separator
        (resolve_max_bytes format_type max_bytes batch_sizes) report_data update_info
        mode reverse_content_order max_total_news_in_push show_stats_in_push now in
    batches_as_read fmt format_type feishu_separator report_data update_info
      max_total_news_in_push show_stats_in_push now tr
    = split_content_into_batches fmt report_data format_type update_info max_bytes mode
        batch_sizes feishu_separator reverse_content_order max_total_news_in_push
        show_stats_in_push now
    /\ trace_lines tr
       = ((if reverse_content_order
           then new_items_from 0 (new_titles trd) ++ stats_items_from 0 (stats trd)
           else stats_items_from 0 (stats trd) ++ new_items_from 0 (new_titles trd))
          ++ map PFailedLine (failed_ids report_data))%list.
Proof.
  intros fmt report_data format_type update_info max_bytes mode batch_sizes
    feishu_separator reverse_content_order max_total_news_in_push show_stats_in_push
    now trd tr.
  split; [apply split_trace_as_read |].
  subst tr. unfold trace_lines.
  rewrite split_trace_filter; [apply filter_lines_whole_message | | reflexivity].
  intros p Hp. now destruct p.
Qed.

(** ** How every batch starts and ends, at the text *)

Lemma str_app_inv_l (a x y : string) : a +:+ x = a +:+ y -> x = y.
Proof.
  induction a as [|c a IH]; intros H; [exact H |].
  apply IH. now injection H.
Qed.

Lemma str_clash (a b x y : string) :
  String.length a = String.length b -> a <> b -> a +:+ x <> b +:+ y.
Proof.
  revert b. induction a as [|c a IH]; intros [|d b] Hlen Hne H; try discriminate Hlen.
  - now apply Hne.
  - injection H as -> H. injection Hlen as Hlen.
    apply (IH b Hlen); [| exact H]. intros ->. now apply Hne.
Qed.

(** the "no matches" text starts with its sign *)
Lemma simple_content_sign mode : exists s, simple_content mode = "📭" +:+ s.
Proof. unfold simple_content. cbv zeta. eexists. reflexivity. Qed.

Section Openers.

Variable ft : string.
Hypothesis Hall : has_all_headers ft = true.

Ltac all_headers :=
  pose proof Hall as Hplat; unfold has_all_headers, str_in in Hplat |- *;
  cbn [existsb] in Hplat |- *;
  repeat match goal with
         | |- context [String.eqb ft ?s] =>
             destruct (String.eqb ft s); cbn [orb] in Hplat |- *;
             try (eexists; reflexivity)
         end;
  try discriminate Hplat.

Lemma stats_header_sign {T} (g : StatGroup T) (l : list (StatGroup T)) :
  exists s, make_stats_header ft (g :: l) = "📊" +:+ s.
Proof. unfold make_stats_header. cbn [nonempty]. all_headers. Qed.

Lemma new_header_feed sep M a t : exists s, make_new_header ft sep M a t = nl +:+ s.
Proof. unfold make_new_header. cbv zeta. all_headers. Qed.

Lemma failed_header_feed sep : exists s, make_failed_header ft sep = nl +:+ s.
Proof. unfold make_failed_header. all_headers. Qed.

End Openers.

(** X6.  With nothing to report -- no statistics and no new titles left
    by the pre-processing and no failed source -- the result is the single
    batch of the base header, the "no matches" text of the mode and the base
    footer, whatever the budget.  Otherwise, for the platforms that have a
    text for every section header ("wework", "telegram", "ntfy", "feishu",
    "dingtalk"), every batch returned is the base header, then the header
    of a section that is not empty (statistics, new titles or failed
    sources), which is not the empty text, then the rest and the base
    footer; and no batch goes on after the base header with the "no
    matches" text of any mode. *)
Theorem every_batch_is_framed :
  forall fmt report_data format_type update_info max_bytes mode batch_sizes
         feishu_separator reverse_content_order max_total_news_in_push
         show_stats_in_push now,
    let trd := split_preprocess report_data max_total_news_in_push show_stats_in_push in
    let base_header := make_base_header format_type (total_titles_of (stats trd)) now in
    let base_footer := make_base_footer format_type now update_info in
    let stats_header := make_stats_header format_type (stats trd) in
    let new_header :=
      make_new_header format_type feishu_separator max_total_news_in_push
        (actual_new_count_of (new_titles trd)) (total_new_count report_data) in
    let failed_header := make_failed_header format_type feishu_separator in
    let result :=
      split_content_into_batches fmt report_data format_type update_info max_bytes mode
        batch_sizes feishu_separator reverse_content_order max_total_news_in_push
        show_stats_in_push now in
    if nothing_to_report trd (failed_ids report_data)
    then result = [base_header +:+ simple_content mode +:+ base_footer]
    else
      has_all_headers format_type = true ->
      Forall
        (fun batch =>
           (exists opener rest,
              batch = base_header +:+ opener +:+ rest +:+ base_footer
              /\ opener <> ""
              /\ ((opener = stats_header /\ stats trd <> [])
                  \/ (opener = new_header /\ new_titles trd <> [])
                  \/ (opener = failed_header /\ failed_ids report_data <> [])))
           /\ (forall any_mode rest,
                 batch <> base_header +:+ simple_content any_mode +:+ rest))
        result.
Proof.
  intros fmt report_data format_type update_info max_bytes mode batch_sizes
    feishu_separator reverse_content_order max_total_news_in_push show_stats_in_push
    now trd base_header base_footer stats_header new_header failed_header result.
  subst result. rewrite <- batch_strings_split_trace. unfold batch_strings, text_in_run.
  fold trd base_header base_footer stats_header new_header. cbv zeta.
  pose proof (split_trace_starts_with_section fmt format_type feishu_separator
                (resolve_max_bytes format_type max_bytes batch_sizes) report_data
                update_info mode reverse_content_order max_total_news_in_push
                show_stats_in_push now) as Hshape.
  pose proof (split_trace_from_report fmt format_type feishu_separator
                (resolve_max_bytes format_type max_bytes batch_sizes) report_data
                update_info mode reverse_content_order max_total_news_in_push
                show_stats_in_push now) as Hfrom.
  cbv zeta in Hshape, Hfrom. fold trd in Hshape, Hfrom.
  destruct (nothing_to_report trd (failed_ids report_data)) eqn:Hne.
  - rewrite split_trace_as_ops. fold trd. cbv zeta. rewrite Hne.
    cbn [map pieces forced appended app pieces_text fold_right piece_text].
    now rewrite !str_app_nil_r, str_app_assoc.
  - intros Hall. apply Forall_map. apply List.Forall_forall. intros b Hin.
    pose proof (proj1 (List.Forall_forall _ _) Hshape b Hin) as Hb.
    pose proof (proj1 (List.Forall_forall _ _) Hfrom b Hin) as Hq.
    cbv beta in Hb, Hq. clear Hin Hshape Hfrom.
    destruct (pieces b) as [|p0 [|p rest]]; [contradiction | destruct p0; contradiction |].
    destruct p0; cbn [starts_with_section] in Hb; try contradiction.
    apply Forall_cons_iff in Hq as [_ Hq]. apply Forall_cons_iff in Hq as [Hp _].
    set (rest_text := pieces_text fmt format_type feishu_separator base_header
                        stats_header (length (stats trd)) new_header rest).
    assert (Htext : pieces_text fmt format_type feishu_separator base_header
                      stats_header (length (stats trd)) new_header
                      (PBaseHeader :: p :: rest) +:+ base_footer
                    = base_header
                      +:+ piece_text fmt format_type feishu_separator base_header
                            stats_header (length (stats trd)) new_header p
                      +:+ rest_text +:+ base_footer).
    { cbn [pieces_text fold_right piece_text]. now rewrite !str_app_assoc. }
    rewrite Htext. clear Htext.
    assert (Hopener :
              (exists s, piece_text fmt format_type feishu_separator base_header
                           stats_header (length (stats trd)) new_header p
                         = "📊" +:+ s
               \/ piece_text fmt format_type feishu_separator base_header
                    stats_header (length (stats trd)) new_header p
                  = nl +:+ s)
              /\ ((piece_text fmt format_type feishu_separator base_header
                     stats_header (length (stats trd)) new_header p = stats_header
                   /\ stats trd <> [])
                  \/ (piece_text fmt format_type feishu_separator base_header
                        stats_header (length (stats trd)) new_header p = new_header
                      /\ new_titles trd <> [])
                  \/ (piece_text fmt format_type feishu_separator base_header
                        stats_header (length (stats trd)) new_header p = failed_header
                      /\ failed_ids report_data <> []))).
    { destruct p; cbn [from_report section_start] in Hp, Hb; try discriminate Hb;
        cbn [piece_text].
      - split; [| left; now split].
        subst stats_header. destruct (stats trd) as [|g l]; [contradiction |].
        destruct (stats_header_sign format_type Hall g l) as [s Hs].
        exists s. now left.
      - split; [| right; left; now split].
        destruct (new_header_feed format_type Hall feishu_separator
                    max_total_news_in_push (actual_new_count_of (new_titles trd))
                    (total_new_count report_data)) as [s Hs].
        exists s. now right.
      - split; [| right; right; now split].
        destruct (failed_header_feed format_type Hall feishu_separator) as [s Hs].
        exists s. now right.
      - destruct Hp as [Hp _]. rewrite Hne in Hp. discriminate Hp. }
    destruct Hopener as [[s Hs] Hwhich].
    set (opener := piece_text fmt format_type feishu_separator base_header stats_header
                     (length (stats trd)) new_header p) in *.
    clearbody opener rest_text.
    split.
    + exists opener, rest_text. split; [reflexivity |]. split; [| exact Hwhich].
      intros ->. destruct Hs as [Hs | Hs]; discriminate Hs.
    + intros any_mode x Heq. apply str_app_inv_l in Heq.
      destruct (simple_content_sign any_mode) as [s' Hs']. rewrite Hs' in Heq.
      rewrite !str_app_assoc in Heq.
      destruct Hs as [-> | ->]; rewrite !str_app_assoc in Heq.
      * revert Heq. now apply str_clash.
      * discriminate Heq.
Qed.

Lemma every_batch_is_framed_witness :
  has_all_headers "telegram" = true
  /\ Forall
       (fun batch =>
          (exists opener rest,
             batch = make_base_header "telegram" 3 "2026-01-01 00:00:00"
                     +:+ opener +:+ rest
                     +:+ make_base_footer "telegram" "2026-01-01 00:00:00" None
             /\ opener <> ""
             /\ ((opener = make_stats_header "telegram" (stats statistics_report)
                  /\ stats statistics_report <> [])
                 \/ (opener = make_new_header "telegram" "---" 0 0 0
                     /\ new_titles statistics_report <> [])
                 \/ (opener = make_failed_header "telegram" "---"
                     /\ failed_ids statistics_report <> [])))
          /\ (forall any_mode rest,
                batch <> make_base_header "telegram" 3 "2026-01-01 00:00:00"
                         +:+ simple_content any_mode +:+ rest))
       (split_content_into_batches sample_formatter statistics_report "telegram" None
          (Some 150) "daily" None "---" false 0 true "2026-01-01 00:00:00").
Proof.
  split; [reflexivity |].
  exact (every_batch_is_framed sample_formatter statistics_report "telegram" None
           (Some 150) "daily" None "---" false 0 true "2026-01-01 00:00:00" eq_refl).
Defined.
